(** * Hastin: metric store, replay recorder/player and command gating

    A shallow embedding of the parts of [hastin/Modules/MetricManager.py],
    [hastin/Modules/ReplayManager.py], [hastin/Modules/WorkerManager.py],
    [hastin/Modules/KeyEventManager.py] and [hastin/Modules/PostgreSQL.py]
    that the specification talks about, followed by the theorems that
    settle each claim of the specification against that embedding.

    Modelling conventions.
    - The first part takes the annotations of the source at their word
      ([dict[str, int]], [deque[int]], [last_value: int | None]): samples
      and readings are Python [int]s, modelled as [Z], and the polling
      latency is an exact rational [Q]. It carries the statements about
      which objects a cycle touches, the session clock, the recorder and
      the player of well-formed frames, the replay worker and the key
      guard.
    - The part "The arithmetic of ingestion on Python values" embeds the
      ingestion path again on the values that the program handles:
      [None], [int] and IEEE 754 binary64 [float], with Python's
      operators and builtins on them. It carries the statements about
      the derived values (rates, ratios, CPU smoothing) and about the
      lockstep of the series and the clock.
    - The part "Playback over the records that the loader stores" embeds
      the player on arbitrary JSON values.
    - A [deque] is a [list] whose head is the left end.
    - [MetricData] objects are shared by reference between the metric
      instances and the two lookup tables of the manager; they live in a
      heap (a list) and are referred to by their index.
    - A function that can raise returns [option] (or a dedicated outcome
      type); [None] stands for the raised exception. *)

From Stdlib Require Import ZArith QArith Qround String Ascii List Lia Bool SpecFloat.
From stdpp Require Import gmap strings list fin_maps.

Local Open Scope string_scope.
Local Open Scope list_scope.

(** ** Python arithmetic *)

(** [round(x)] with one argument: nearest integer, ties to even. *)
Definition py_round (q : Q) : Z :=
  let f := Qfloor q in
  match Qcompare (q - inject_Z f) (1 # 2) with
  | Lt => f
  | Gt => (f + 1)%Z
  | Eq => if Z.even f then f else (f + 1)%Z
  end.

(** [round(x, 1)]: nearest multiple of one tenth, ties to even. *)
Definition py_round1 (q : Q) : Q := inject_Z (py_round (q * 10)) / 10.

(** [int(x)] on a number: truncation toward zero. *)
Definition py_int (q : Q) : Z := Z.quot (Qnum q) (Z.pos (Qden q)).

(** [a / b]: true division, [None] is [ZeroDivisionError]. *)
Definition py_truediv (a b : Q) : option Q :=
  if Qeq_bool b 0 then None else Some (a / b)%Q.

#[global] Arguments py_truediv : simpl never.
#[global] Arguments py_round : simpl never.
#[global] Arguments py_int : simpl never.

(** [sum(l)] on a list of ints. *)
Definition py_sum (l : list Z) : Z := fold_right Z.add 0%Z l.

(** [l[-k:]]: the last [k] elements (all of them when there are fewer). *)
Definition last_n {A} (k : nat) (l : list A) : list A :=
  drop (length l - k) l.

(** [d.get(key, default)] on a dictionary of ints. *)
Definition dict_get (d : gmap string Z) (k : string) (dflt : Z) : Z :=
  default dflt (d !! k).

(** [d.update(other)]: the entries of [other] win. *)
Definition dict_update (d other : gmap string Z) : gmap string Z := other ∪ d.

(** ** Data types of [DataTypes.py] and [MetricManager.py] *)

Inductive ConnectionSource :=
  | postgresql | pgbouncer | rds | aurora | cloud_sql | alloydb | azure
  | cosmos_citus | supabase | neon | aiven | crunchy_bridge | digitalocean
  | heroku | timescale | railway | render | fly.

#[global] Instance ConnectionSource_eq_dec : EqDecision ConnectionSource.
Proof. solve_decision. Defined.

Definition _all_pg_sources : list ConnectionSource :=
  [postgresql; rds; aurora; cloud_sql; alloydb; azure; cosmos_citus; supabase;
   neon; aiven; crunchy_bridge; digitalocean; heroku; timescale; railway;
   render; fly].

Definition system_sources : list ConnectionSource := [postgresql; rds; pgbouncer].

Inductive MetricSource :=
  | SYSTEM_UTILIZATION | DISK_IO_METRICS | DATABASE_STATS | BGWRITER_STATS
  | CONNECTION_STATS | PGBOUNCER_POOLS | PGBOUNCER_STATS | NONE.

#[global] Instance MetricSource_eq_dec : EqDecision MetricSource.
Proof. solve_decision. Defined.

Definition color := (Z * Z * Z)%type.

Module MetricColor.
Definition gray : color := (100, 140, 120)%Z.
Definition blue : color := (64, 224, 208)%Z.
Definition green : color := (50, 205, 50)%Z.
Definition red : color := (255, 99, 71)%Z.
Definition yellow : color := (218, 165, 32)%Z.
Definition purple : color := (147, 112, 219)%Z.
Definition orange : color := (255, 165, 0)%Z.
End MetricColor.

Record MetricData := mkMetricData {
  label : string;
  md_color : color;
  visible : bool;
  save_history : bool;
  per_second_calculation : bool;
  last_value : option Z;
  graphable : bool;
  create_switch : bool;
  values : list Z;
}.

(** The defaults of the dataclass: [MetricData(label=..., color=...)]. *)
Definition MetricData_new (l : string) (c : color) : MetricData :=
  mkMetricData l c true true true None true true [].

Definition with_values (md : MetricData) (vs : list Z) : MetricData :=
  mkMetricData (label md) (md_color md) (visible md) (save_history md)
    (per_second_calculation md) (last_value md) (graphable md)
    (create_switch md) vs.

Definition with_last_value (md : MetricData) (lv : option Z) : MetricData :=
  mkMetricData (label md) (md_color md) (visible md) (save_history md)
    (per_second_calculation md) lv (graphable md) (create_switch md)
    (values md).

Definition gauge (md : MetricData) : MetricData :=
  mkMetricData (label md) (md_color md) (visible md) (save_history md)
    false (last_value md) (graphable md) (create_switch md) (values md).

Definition no_switch (md : MetricData) : MetricData :=
  mkMetricData (label md) (md_color md) (visible md) (save_history md)
    (per_second_calculation md) (last_value md) (graphable md) false
    (values md).

Definition hidden_latest_only (md : MetricData) : MetricData :=
  mkMetricData (label md) (md_color md) false false
    (per_second_calculation md) (last_value md) (graphable md)
    (create_switch md) (values md).

(** A reference to a [MetricData] object: its index in the heap. *)
Definition ref := nat.

(** One of the metric dataclasses ([SystemCPUMetrics], ...). [md_fields] is
    the part of the instance's [__dict__] that holds [MetricData] objects,
    in declaration order. *)
Record MetricInstance := mkMetricInstance {
  md_fields : list (string * ref);
  graphs : list string;
  tab_name : string;
  metric_source : MetricSource;
  inst_connection_source : list ConnectionSource;
  use_with_replay : bool;
}.

(** ** The metric catalogue built by [MetricManager.reset] *)

(** What [reset] passes to one metric dataclass: the attribute name of the
    instance in [MetricInstances], its [MetricData] fields in declaration
    order, and the remaining dataclass fields. *)
Record InstanceDecl := mkInstanceDecl {
  decl_name : string;
  decl_fields : list (string * MetricData);
  decl_graphs : list string;
  decl_tab_name : string;
  decl_source : MetricSource;
  decl_connection_source : list ConnectionSource;
}.

Import MetricColor.

Definition metric_instances_decl : list InstanceDecl :=
  [ mkInstanceDecl "system_cpu"
      [("CPU_Percent", no_switch (gauge (MetricData_new "CPU %" blue)))]
      ["graph_system_cpu"] "system" SYSTEM_UTILIZATION system_sources;
    mkInstanceDecl "system_memory"
      [("Memory_Total",
        no_switch (hidden_latest_only (gauge (MetricData_new "Total" blue))));
       ("Memory_Used", no_switch (gauge (MetricData_new "Memory Used" green)))]
      ["graph_system_memory"] "system" SYSTEM_UTILIZATION system_sources;
    mkInstanceDecl "system_disk_io"
      [("Disk_Read", MetricData_new "IOPS Read" blue);
       ("Disk_Write", MetricData_new "IOPS Write" yellow)]
      ["graph_system_disk_io"] "system" SYSTEM_UTILIZATION system_sources;
    mkInstanceDecl "system_network"
      [("Network_Down", MetricData_new "Net Dn" blue);
       ("Network_Up", MetricData_new "Net Up" gray)]
      ["graph_system_network"] "system" SYSTEM_UTILIZATION system_sources;
    mkInstanceDecl "pg_transactions"
      [("xact_commit", MetricData_new "Commits" green);
       ("xact_rollback", MetricData_new "Rollbacks" red)]
      ["graph_pg_transactions"] "pg_transactions" DATABASE_STATS _all_pg_sources;
    mkInstanceDecl "pg_tuples"
      [("tup_fetched", MetricData_new "Fetched" blue);
       ("tup_inserted", MetricData_new "Inserted" green);
       ("tup_updated", MetricData_new "Updated" yellow);
       ("tup_deleted", MetricData_new "Deleted" red)]
      ["graph_pg_tuples"] "pg_tuples" DATABASE_STATS _all_pg_sources;
    mkInstanceDecl "pg_block_io"
      [("blks_hit", MetricData_new "Buffer Hits" green);
       ("blks_read", MetricData_new "Disk Reads" red)]
      ["graph_pg_block_io"] "pg_block_io" DATABASE_STATS _all_pg_sources;
    mkInstanceDecl "pg_cache_hit_ratio"
      [("cache_hit_ratio", no_switch (gauge (MetricData_new "Hit Ratio %" green)))]
      ["graph_pg_cache"] "pg_cache" NONE _all_pg_sources;
    mkInstanceDecl "pg_connections"
      [("active", gauge (MetricData_new "Active" green));
       ("idle", gauge (MetricData_new "Idle" blue));
       ("idle_in_transaction", gauge (MetricData_new "Idle in Txn" yellow))]
      ["graph_pg_connections"] "pg_connections" CONNECTION_STATS _all_pg_sources;
    mkInstanceDecl "pg_checkpoints"
      [("checkpoints_timed", MetricData_new "Timed" green);
       ("checkpoints_req", MetricData_new "Requested" yellow);
       ("buffers_checkpoint", MetricData_new "Buffers" blue)]
      ["graph_pg_checkpoints"] "pg_checkpoints" BGWRITER_STATS _all_pg_sources;
    mkInstanceDecl "pg_temp_files"
      [("temp_files", MetricData_new "Temp Files" yellow);
       ("temp_bytes", MetricData_new "Temp Bytes" red)]
      ["graph_pg_temp_files"] "pg_temp_files" DATABASE_STATS _all_pg_sources;
    mkInstanceDecl "replication_lag"
      [("lag", no_switch (gauge (MetricData_new "Lag" blue)))]
      ["graph_replication_lag"] "replication_lag" NONE [postgresql];
    mkInstanceDecl "pgbouncer_connections"
      [("cl_active", gauge (MetricData_new "Clients Active" green));
       ("cl_waiting", gauge (MetricData_new "Clients Waiting" yellow));
       ("sv_active", gauge (MetricData_new "Servers Active" blue));
       ("sv_idle", gauge (MetricData_new "Servers Idle" gray))]
      ["graph_pgbouncer_connections"] "pgbouncer_connections" PGBOUNCER_POOLS
      [pgbouncer];
    mkInstanceDecl "pgbouncer_traffic"
      [("xact_count", MetricData_new "Transactions" green);
       ("query_count", MetricData_new "Queries" blue);
       ("bytes_received", MetricData_new "Received" yellow);
       ("bytes_sent", MetricData_new "Sent" purple)]
      ["graph_pgbouncer_traffic"] "pgbouncer_traffic" PGBOUNCER_STATS
      [pgbouncer] ].

(** Allocation of the [MetricData] objects of one instance on the heap. *)
Fixpoint alloc_fields (h : list MetricData) (fs : list (string * MetricData))
  : list MetricData * list (string * ref) :=
  match fs with
  | [] => (h, [])
  | (n, md) :: fs' =>
      let '(h', rs) := alloc_fields (h ++ [md]) fs' in
      (h', (n, length h) :: rs)
  end.

Fixpoint alloc_instances (h : list MetricData) (ds : list InstanceDecl)
  : list MetricData * list (string * MetricInstance) :=
  match ds with
  | [] => (h, [])
  | d :: ds' =>
      let '(h1, rs) := alloc_fields h (decl_fields d) in
      let inst := mkMetricInstance rs (decl_graphs d) (decl_tab_name d)
                    (decl_source d) (decl_connection_source d) true in
      let '(h2, insts) := alloc_instances h1 ds' in
      (h2, (decl_name d, inst) :: insts)
  end.

(** An entry of [_source_to_metrics_processing[source]]:
    [(attr_name, metric_data, conn_source)]. *)
Definition metric_tuple := (string * ref * list ConnectionSource)%type.

(** [defaultdict(list)]: [table[source].append(t)], keys kept in insertion
    order. *)
Fixpoint table_append (tbl : list (MetricSource * list metric_tuple))
    (s : MetricSource) (t : metric_tuple)
  : list (MetricSource * list metric_tuple) :=
  match tbl with
  | [] => [(s, [t])]
  | (s', ts) :: tbl' =>
      if decide (s' = s) then (s', ts ++ [t]) :: tbl'
      else (s', ts) :: table_append tbl' s t
  end.

(** ** The manager *)

Record MetricManager := mkMetricManager {
  connection_source : ConnectionSource;
  replay_file : option string;
  daemon_mode : bool;
  worker_start_time : option Z;
  system_utilization : gmap string Z;
  disk_io_metrics : gmap string Z;
  replication_status : gmap string Z;
  database_stats : gmap string Z;
  bgwriter_stats : gmap string Z;
  connection_stats : gmap string Z;
  pgbouncer_pools : gmap string Z;
  pgbouncer_stats : gmap string Z;
  initialized : bool;
  polling_latency : Q;
  datetimes : list string;
  heap : list MetricData;
  metrics : list (string * MetricInstance);
  _source_to_metrics_processing : list (MetricSource * list metric_tuple);
  _all_metrics_data_history : list ref;
}.

(** Truthiness of [self.replay_file] ([None] and the empty string are
    falsy). *)
Definition replaying (self : MetricManager) : bool :=
  match replay_file self with
  | Some s => negb (String.eqb s "")
  | None => false
  end.

Definition set_heap (self : MetricManager) (h : list MetricData) : MetricManager :=
  mkMetricManager (connection_source self) (replay_file self) (daemon_mode self)
    (worker_start_time self) (system_utilization self) (disk_io_metrics self)
    (replication_status self) (database_stats self) (bgwriter_stats self)
    (connection_stats self) (pgbouncer_pools self) (pgbouncer_stats self)
    (initialized self) (polling_latency self) (datetimes self) h
    (metrics self) (_source_to_metrics_processing self)
    (_all_metrics_data_history self).

Definition set_datetimes (self : MetricManager) (d : list string) : MetricManager :=
  mkMetricManager (connection_source self) (replay_file self) (daemon_mode self)
    (worker_start_time self) (system_utilization self) (disk_io_metrics self)
    (replication_status self) (database_stats self) (bgwriter_stats self)
    (connection_stats self) (pgbouncer_pools self) (pgbouncer_stats self)
    (initialized self) (polling_latency self) d (heap self)
    (metrics self) (_source_to_metrics_processing self)
    (_all_metrics_data_history self).

Definition set_initialized (self : MetricManager) (b : bool) : MetricManager :=
  mkMetricManager (connection_source self) (replay_file self) (daemon_mode self)
    (worker_start_time self) (system_utilization self) (disk_io_metrics self)
    (replication_status self) (database_stats self) (bgwriter_stats self)
    (connection_stats self) (pgbouncer_pools self) (pgbouncer_stats self)
    b (polling_latency self) (datetimes self) (heap self)
    (metrics self) (_source_to_metrics_processing self)
    (_all_metrics_data_history self).

Definition set_connection_source (self : MetricManager) (c : ConnectionSource)
  : MetricManager :=
  mkMetricManager c (replay_file self) (daemon_mode self)
    (worker_start_time self) (system_utilization self) (disk_io_metrics self)
    (replication_status self) (database_stats self) (bgwriter_stats self)
    (connection_stats self) (pgbouncer_pools self) (pgbouncer_stats self)
    (initialized self) (polling_latency self) (datetimes self) (heap self)
    (metrics self) (_source_to_metrics_processing self)
    (_all_metrics_data_history self).

(** The lookup-table loop at the end of [reset]. *)
Fixpoint build_tables_fields (h : list MetricData) (source : MetricSource)
    (conn : list ConnectionSource) (fs : list (string * ref))
    (acc : list (MetricSource * list metric_tuple) * list ref)
  : list (MetricSource * list metric_tuple) * list ref :=
  match fs with
  | [] => acc
  | (attr_name, r) :: fs' =>
      let '(tbl, hist) := acc in
      let hist' :=
        match h !! r with
        | Some md => if save_history md then hist ++ [r] else hist
        | None => hist
        end in
      let tbl' :=
        if decide (source = NONE) then tbl
        else table_append tbl source (attr_name, r, conn) in
      build_tables_fields h source conn fs' (tbl', hist')
  end.

Fixpoint build_tables (h : list MetricData)
    (insts : list (string * MetricInstance))
    (acc : list (MetricSource * list metric_tuple) * list ref)
  : list (MetricSource * list metric_tuple) * list ref :=
  match insts with
  | [] => acc
  | (_, inst) :: insts' =>
      build_tables h insts'
        (build_tables_fields h (metric_source inst)
           (inst_connection_source inst) (md_fields inst) acc)
  end.

(** [MetricManager.reset]. *)
Definition reset (self : MetricManager) : MetricManager :=
  let '(h, insts) := alloc_instances [] metric_instances_decl in
  let '(tbl, hist) := build_tables h insts ([], []) in
  mkMetricManager (connection_source self) (replay_file self) (daemon_mode self)
    (worker_start_time self) ∅ ∅ ∅ ∅ ∅ ∅ ∅ ∅
    false 0 [] h insts tbl hist.

(** [MetricManager.__init__]. *)
Definition MetricManager_new (replay_file : option string) (daemon_mode : bool)
  : MetricManager :=
  reset (mkMetricManager postgresql replay_file daemon_mode None
           ∅ ∅ ∅ ∅ ∅ ∅ ∅ ∅ false 0 [] [] [] [] []).

(** [get_metric_source_data]: [_metric_source_map] holds the dictionaries
    themselves, so a lookup sees their current contents. *)
Definition get_metric_source_data (self : MetricManager) (s : MetricSource)
  : option (gmap string Z) :=
  match s with
  | SYSTEM_UTILIZATION => Some (system_utilization self)
  | DISK_IO_METRICS => Some (disk_io_metrics self)
  | DATABASE_STATS => Some (database_stats self)
  | BGWRITER_STATS => Some (bgwriter_stats self)
  | CONNECTION_STATS => Some (connection_stats self)
  | PGBOUNCER_POOLS => Some (pgbouncer_pools self)
  | PGBOUNCER_STATS => Some (pgbouncer_stats self)
  | NONE => None
  end.

(** A loop whose body can raise. *)
Fixpoint foldM {S A} (f : S -> A -> option S) (s : S) (l : list A) : option S :=
  match l with
  | [] => Some s
  | a :: l' => match f s a with
               | Some s' => foldM f s' l'
               | None => None
               end
  end.

(** [self.metrics.<instance>.<attr>]. *)
Definition metric_ref (self : MetricManager) (inst attr : string) : option ref :=
  match list_find (fun p => bool_decide (p.1 = inst)) (metrics self) with
  | Some (_, (_, i)) =>
      match list_find (fun p => bool_decide (p.1 = attr)) (md_fields i) with
      | Some (_, (_, r)) => Some r
      | None => None
      end
  | None => None
  end.

(** ** Ingestion *)

(** The body of [add_metric] once [self.initialized] holds. *)
Definition md_add (metric_data : MetricData) (value : Z) : MetricData :=
  if save_history metric_data then
    with_values metric_data (values metric_data ++ [value])
  else
    match values metric_data with
    | _ :: rest => with_values metric_data (value :: rest)
    | [] => with_values metric_data (values metric_data ++ [value])
    end.

(** [MetricManager.add_metric]. *)
Definition add_metric (self : MetricManager) (r : ref) (value : Z) : MetricManager :=
  if initialized self then
    match heap self !! r with
    | Some metric_data => set_heap self (<[r := md_add metric_data value]> (heap self))
    | None => self
    end
  else self.

(** The per-second branch of [update_metrics_per_second_values]:
    [round(metric_diff / self.polling_latency) if self.polling_latency > 0
    else 0]. *)
Definition per_second_value (metric_diff : Z) (polling_latency : Q) : option Z :=
  if Qlt_le_dec 0 polling_latency then
    match py_truediv (inject_Z metric_diff) polling_latency with
    | Some q => Some (py_round q)
    | None => None
    end
  else Some 0%Z.

(** The special case for [CPU_Percent]: returns the possibly rewritten
    series and the possibly smoothed value. *)
Definition cpu_percent_smoothing (metric_data : MetricData)
    (metric_status_per_sec : Z) : option (MetricData * Q) :=
  let vs := values metric_data in
  let first_is_lone_zero :=
    if (length vs =? 1)%nat then
      match vs !! 0%nat with
      | Some v0 => Some (v0 =? 0)%Z
      | None => None
      end
    else Some false in
  match first_is_lone_zero with
  | None => None
  | Some true =>
      Some (with_values metric_data (<[0%nat := metric_status_per_sec]> vs),
            inject_Z metric_status_per_sec)
  | Some false =>
      if ((metric_status_per_sec =? 0)%Z || (metric_status_per_sec =? 100)%Z)
         && (10 <? Z.abs (metric_status_per_sec - default 0%Z (last vs)))%Z
      then
        let recent_values := last_n 3 vs in
        match recent_values with
        | [] => Some (metric_data, inject_Z metric_status_per_sec)
        | _ :: _ =>
            match py_truediv (inject_Z (py_sum recent_values))
                    (inject_Z (Z.of_nat (length recent_values))) with
            | Some q => Some (metric_data, q)
            | None => None
            end
        end
      else Some (metric_data, inject_Z metric_status_per_sec)
  end.

(** The body of the inner loop of [update_metrics_per_second_values]. *)
Definition process_metric (metric_source_data : gmap string Z)
    (self : MetricManager) (t : metric_tuple) : option MetricManager :=
  let '(metric_name, r, conn_source) := t in
  if negb (bool_decide (connection_source self ∈ conn_source)) then Some self
  else
    match heap self !! r with
    | None => Some self
    | Some metric_data =>
        let current_metric_source_value := dict_get metric_source_data metric_name 0 in
        match last_value metric_data with
        | None =>
            Some (set_heap self
                    (<[r := with_last_value metric_data
                              (Some current_metric_source_value)]> (heap self)))
        | Some lv =>
            let status :=
              if per_second_calculation metric_data then
                per_second_value (current_metric_source_value - lv)
                  (polling_latency self)
              else Some current_metric_source_value in
            match status with
            | None => None
            | Some metric_status_per_sec =>
                let smoothed :=
                  if String.eqb metric_name "CPU_Percent" then
                    cpu_percent_smoothing metric_data metric_status_per_sec
                  else Some (metric_data, inject_Z metric_status_per_sec) in
                match smoothed with
                | None => None
                | Some (metric_data', v) =>
                    Some (add_metric
                            (set_heap self (<[r := metric_data']> (heap self)))
                            r (py_int v))
                end
            end
        end
    end.

(** The outer loop body: one source with its list of tuples. *)
Definition process_source (self : MetricManager)
    (entry : MetricSource * list metric_tuple) : option MetricManager :=
  match get_metric_source_data self entry.1 with
  | None => Some self
  | Some metric_source_data => foldM (process_metric metric_source_data) self entry.2
  end.

(** [MetricManager.update_metrics_per_second_values]. *)
Definition update_metrics_per_second_values (self : MetricManager)
  : option MetricManager :=
  foldM process_source self (_source_to_metrics_processing self).

Definition set_last_value (metric_source_data : gmap string Z)
    (self : MetricManager) (t : metric_tuple) : MetricManager :=
  let '(metric_name, r, _) := t in
  match heap self !! r with
  | Some metric_data =>
      set_heap self
        (<[r := with_last_value metric_data
                  (Some (dict_get metric_source_data metric_name 0))]> (heap self))
  | None => self
  end.

(** [MetricManager.update_metrics_last_value]. *)
Definition update_metrics_last_value (self : MetricManager) : MetricManager :=
  fold_left
    (fun s entry =>
       match get_metric_source_data s entry.1 with
       | None => s
       | Some metric_source_data =>
           fold_left (set_last_value metric_source_data) entry.2 s
       end)
    (_source_to_metrics_processing self) self.

(** [MetricManager.update_metrics_replication_lag]. *)
Definition update_metrics_replication_lag (self : MetricManager)
  : option MetricManager :=
  match metric_ref self "replication_lag" "lag" with
  | Some r => Some (add_metric self r (dict_get (replication_status self) "Seconds_Behind" 0))
  | None => None
  end.

(** The value computed by [update_pg_cache_hit_ratio] before [int(...)]:
    [round((blks_hit / total_blocks) * 100, 1) if total_blocks > 0 else
    100.0]. *)
Definition hit_ratio (blks_hit blks_read : Z) : option Q :=
  let total_blocks := (blks_hit + blks_read)%Z in
  if (0 <? total_blocks)%Z then
    match py_truediv (inject_Z blks_hit) (inject_Z total_blocks) with
    | Some q => Some (py_round1 (q * 100))
    | None => None
    end
  else Some (inject_Z 100).

(** [MetricManager.update_pg_cache_hit_ratio]. *)
Definition update_pg_cache_hit_ratio (self : MetricManager) : option MetricManager :=
  let blks_hit := dict_get (database_stats self) "blks_hit" 0 in
  let blks_read := dict_get (database_stats self) "blks_read" 0 in
  match hit_ratio blks_hit blks_read with
  | None => None
  | Some ratio =>
      match metric_ref self "pg_cache_hit_ratio" "cache_hit_ratio" with
      | Some r => Some (add_metric self r (py_int ratio))
      | None => None
      end
  end.

(** The inner [for] of [daemon_cleanup_data]: pop the oldest value of every
    history-bearing series that has one. *)
Definition popleft_history (self : MetricManager) : MetricManager :=
  fold_left
    (fun s r =>
       match heap s !! r with
       | Some metric_data =>
           match values metric_data with
           | _ :: vs => set_heap s (<[r := with_values metric_data vs]> (heap s))
           | [] => s
           end
       | None => s
       end)
    (_all_metrics_data_history self) self.

Section Clock.

(** [worker_start_time.strftime("%d/%m/%y %H:%M:%S")] and
    [datetime.strptime(s, "%d/%m/%y %H:%M:%S").astimezone()] (with [None]
    for [ValueError]); a [datetime] is a number of seconds. *)
Variable strftime : Z -> string.
Variable strptime : string -> option Z.

(** [MetricManager.add_metric_datetime]. *)
Definition add_metric_datetime (self : MetricManager) : MetricManager :=
  if initialized self && negb (replaying self) then
    match worker_start_time self with
    | Some t => set_datetimes self (datetimes self ++ [strftime t])
    | None => self
    end
  else self.

(** The [while self.datetimes] loop of [daemon_cleanup_data]; [dts] is
    the current content of [self.datetimes]. Both the too-old branch and
    the bad-data branch pop one timestamp and one value per series. *)
Fixpoint cleanup_loop (time_threshold : Z) (dts : list string)
    (self : MetricManager) : MetricManager :=
  match dts with
  | [] => set_datetimes self []
  | d :: rest =>
      match strptime d with
      | Some first_dt =>
          if (first_dt <? time_threshold)%Z then
            cleanup_loop time_threshold rest
              (popleft_history (set_datetimes self rest))
          else set_datetimes self dts
      | None =>
          cleanup_loop time_threshold rest
            (popleft_history (set_datetimes self rest))
      end
  end.

(** [MetricManager.daemon_cleanup_data]; [now] is the reading of
    [datetime.now()], ten minutes are 600 seconds. *)
Definition daemon_cleanup_data (now : Z) (self : MetricManager) : MetricManager :=
  if negb (daemon_mode self) || bool_decide (datetimes self = []) then self
  else cleanup_loop (now - 600) (datetimes self) self.

(** The keyword arguments of [refresh_data]; [None] is an omitted
    argument. *)
Record RefreshArgs := mkRefreshArgs {
  arg_worker_start_time : Z;
  arg_polling_latency : Q;
  arg_system_utilization : option (gmap string Z);
  arg_disk_io_metrics : option (gmap string Z);
  arg_replication_status : option (gmap string Z);
  arg_database_stats : option (gmap string Z);
  arg_bgwriter_stats : option (gmap string Z);
  arg_connection_stats : option (gmap string Z);
  arg_pgbouncer_pools : option (gmap string Z);
  arg_pgbouncer_stats : option (gmap string Z);
}.

(** The first part of [refresh_data]: store the arguments. *)
Definition store_arguments (self : MetricManager) (a : RefreshArgs) : MetricManager :=
  let dflt (o : option (gmap string Z)) := default ∅ o in
  mkMetricManager (connection_source self) (replay_file self) (daemon_mode self)
    (Some (arg_worker_start_time a))
    (dict_update (system_utilization self) (dflt (arg_system_utilization a)))
    (dict_update (disk_io_metrics self) (dflt (arg_disk_io_metrics a)))
    (dflt (arg_replication_status a))
    (dict_update (database_stats self) (dflt (arg_database_stats a)))
    (dict_update (bgwriter_stats self) (dflt (arg_bgwriter_stats a)))
    (dict_update (connection_stats self) (dflt (arg_connection_stats a)))
    (dict_update (pgbouncer_pools self) (dflt (arg_pgbouncer_pools a)))
    (dict_update (pgbouncer_stats self) (dflt (arg_pgbouncer_stats a)))
    (initialized self) (arg_polling_latency a) (datetimes self) (heap self)
    (metrics self) (_source_to_metrics_processing self)
    (_all_metrics_data_history self).

(** The block under [if not self.replay_file]. *)
Definition update_all (self : MetricManager) : option MetricManager :=
  match update_metrics_per_second_values self with
  | None => None
  | Some s1 =>
      match update_metrics_replication_lag s1 with
      | None => None
      | Some s2 =>
          match update_pg_cache_hit_ratio s2 with
          | None => None
          | Some s3 => Some (update_metrics_last_value s3)
          end
      end
  end.

(** [MetricManager.refresh_data]. *)
Definition refresh_data (now : Z) (self : MetricManager) (a : RefreshArgs)
  : option MetricManager :=
  let s0 := store_arguments self a in
  match (if negb (replaying s0) then update_all s0 else Some s0) with
  | None => None
  | Some s1 =>
      Some (set_initialized (daemon_cleanup_data now (add_metric_datetime s1)) true)
  end.

End Clock.

(** ** Strings *)

(** [str.lower] on ASCII letters; the other characters of a name are
    left as they are. *)
Definition ascii_lower (c : ascii) : ascii :=
  let n := nat_of_ascii c in
  if (65 <=? n)%nat && (n <=? 90)%nat then ascii_of_nat (n + 32) else c.

Fixpoint lower (s : string) : string :=
  match s with
  | EmptyString => EmptyString
  | String c s' => String (ascii_lower c) (lower s')
  end.

(** [s.startswith(p)]. *)
Fixpoint str_startswith (p s : string) : bool :=
  match p with
  | EmptyString => true
  | String a p' =>
      match s with
      | EmptyString => false
      | String b s' => Ascii.eqb a b && str_startswith p' s'
      end
  end.

(** [p in s] on strings. *)
Fixpoint str_in (p s : string) : bool :=
  str_startswith p s ||
  match s with
  | EmptyString => false
  | String _ s' => str_in p s'
  end.

(** ASCII white space, as removed by [str.strip]. *)
Definition is_py_space (c : ascii) : bool :=
  let n := nat_of_ascii c in
  ((9 <=? n)%nat && (n <=? 13)%nat) || ((28 <=? n)%nat && (n <=? 32)%nat).

Fixpoint lstrip (s : string) : string :=
  match s with
  | EmptyString => EmptyString
  | String c s' => if is_py_space c then lstrip s' else s
  end.

Fixpoint rstrip (s : string) : string :=
  match s with
  | EmptyString => EmptyString
  | String c s' =>
      match rstrip s' with
      | EmptyString => if is_py_space c then EmptyString else String c EmptyString
      | r => String c r
      end
  end.

Definition strip (s : string) : string := rstrip (lstrip s).

(** [s.split("\n")]. *)
Fixpoint split_newline (s : string) : list string :=
  match s with
  | EmptyString => [EmptyString]
  | String c s' =>
      if Ascii.eqb c "010"%char then EmptyString :: split_newline s'
      else match split_newline s' with
           | l :: ls => String c l :: ls
           | [] => [String c EmptyString]
           end
  end.

(** ** Replay frames ([ReplayManager.py]) *)

(** [ProcesslistThread]: the display attributes computed by the
    constructor are functions of [thread_data] and are left out. *)
Record ProcesslistThread := mkProcesslistThread {
  thread_data : list (string * string);
}.

(** The dictionary built by [_serialize_metrics]: the clock under
    ["datetimes"], then one entry per metric instance. *)
Record SerializedMetrics := mkSerializedMetrics {
  sm_datetimes : list string;
  sm_metrics : list (string * list (string * list Z));
}.

(** The dictionary written by [capture_state], one per line of the file. *)
Record ReplayFrame := mkReplayFrame {
  f_timestamp : string;
  f_system_utilization : gmap string Z;
  f_global_variables : list (string * string);
  f_processlist : list (string * list (string * string));
  f_replication_status : gmap string Z;
  f_connection_stats : gmap string Z;
  f_database_stats : gmap string Z;
  f_metric_manager : SerializedMetrics;
  f_replay_polling_latency : Q;
}.

(** The dataclass [PostgreSQLReplayData]. *)
Record PostgreSQLReplayData := mkPostgreSQLReplayData {
  rd_timestamp : string;
  rd_system_utilization : gmap string Z;
  rd_global_variables : list (string * string);
  rd_processlist : list (string * ProcesslistThread);
  rd_replication_status : gmap string Z;
  rd_connection_stats : gmap string Z;
  rd_database_stats : gmap string Z;
  rd_metric_manager : SerializedMetrics;
}.

(** The part of [Hastin] that recording and replay read and write. *)
Record Hastin := mkHastin {
  record_for_replay : bool;
  h_connection_source : ConnectionSource;
  pause_refresh : bool;
  h_system_utilization : gmap string Z;
  h_global_variables : list (string * string);
  processlist_threads : list (string * ProcesslistThread);
  h_replication_status : gmap string Z;
  h_connection_stats : gmap string Z;
  h_database_stats : gmap string Z;
  metric_manager : MetricManager;
  worker_processing_time : Q;
}.

Definition set_metric_manager (h : Hastin) (m : MetricManager) : Hastin :=
  mkHastin (record_for_replay h) (h_connection_source h) (pause_refresh h)
    (h_system_utilization h) (h_global_variables h) (processlist_threads h)
    (h_replication_status h) (h_connection_stats h) (h_database_stats h) m
    (worker_processing_time h).

Inductive LogEntry :=
  | LogRecordingTo
  | LogLoaded (n : nat)
  | LogFailedToLoad
  | LogFailedToWrite.

(** [ReplayManager]. [compressed_writer] holds the lines handed to the
    stream writer so far; it is [None] when [_setup_recording] did not run
    (the attribute does not exist then). *)
Record ReplayManager := mkReplayManager {
  rm_replay_file : option string;
  current_replay_id : nat;
  replay_data : list ReplayFrame;
  compressed_writer : option (list string);
  rm_log : list LogEntry;
}.

(** [ReplayManager._filter_variables]. *)
Definition exclude_patterns : list string := ["ssl"; "password"; "key"].

Definition _filter_variables (variables : list (string * string))
  : list (string * string) :=
  List.filter
    (fun kv => negb (existsb (fun p => str_in p (lower kv.1)) exclude_patterns))
    variables.

(** [ReplayManager._serialize_processlist]. *)
Definition _serialize_processlist (h : Hastin) : list (string * list (string * string)) :=
  List.map (fun p => (p.1, thread_data p.2)) (processlist_threads h).

(** [ReplayManager._serialize_metrics]. *)
Definition _serialize_metrics (h : Hastin) : SerializedMetrics :=
  let mm := metric_manager h in
  mkSerializedMetrics (datetimes mm)
    (omap
       (fun entry : string * MetricInstance =>
          let metric_dict :=
            omap (fun f : string * ref =>
                    match heap mm !! f.2 with
                    | Some attr => Some (f.1, values attr)
                    | None => None
                    end)
                 (md_fields entry.2) in
          match metric_dict with
          | [] => None
          | _ :: _ => Some (entry.1, metric_dict)
          end)
       (metrics mm)).

Section Replay.

Variable strftime : Z -> string.
Variable strptime : string -> option Z.

(** The libraries: [orjson.dumps]/[orjson.loads] on one frame, the
    stream writer (does it accept this chunk after those lines?), and
    reading plus decompressing and decoding a replay file. [None] and
    [false] stand for a raised exception. *)
Variable orjson_dumps : ReplayFrame -> option string.
Variable orjson_loads : string -> option ReplayFrame.
Variable writer_accepts : list string -> string -> bool.
Variable read_decompressed : string -> option string.
Variable decode_utf8 : string -> option string.

(** The dictionary [data] of [capture_state]; [now_iso] is
    [datetime.now(tz=UTC).isoformat()]. *)
Definition capture_data (now_iso : string) (h : Hastin) : ReplayFrame :=
  mkReplayFrame now_iso (h_system_utilization h)
    (_filter_variables (h_global_variables h))
    (_serialize_processlist h) (h_replication_status h)
    (h_connection_stats h) (h_database_stats h) (_serialize_metrics h)
    (worker_processing_time h).

Definition add_log (self : ReplayManager) (e : LogEntry) : ReplayManager :=
  mkReplayManager (rm_replay_file self) (current_replay_id self)
    (replay_data self) (compressed_writer self) (rm_log self ++ [e]).

(** [ReplayManager.capture_state]. *)
Definition capture_state (now_iso : string) (h : Hastin) (self : ReplayManager)
  : ReplayManager :=
  if negb (record_for_replay h) then self
  else
    let data := capture_data now_iso h in
    let attempt :=
      match orjson_dumps data with
      | None => None
      | Some dumped =>
          let line := String.append dumped (String "010"%char EmptyString) in
          match compressed_writer self with
          | None => None
          | Some written =>
              if writer_accepts written line then
                Some (mkReplayManager (rm_replay_file self)
                        (current_replay_id self) (replay_data self)
                        (Some (written ++ [line])) (rm_log self))
              else None
          end
      end in
    match attempt with
    | Some self' => self'
    | None => add_log self LogFailedToWrite
    end.

(** The [for line in ...] loop of [_load_replay_file]. *)
Fixpoint load_lines (lines : list string) (acc : list ReplayFrame)
  : option (list ReplayFrame) :=
  match lines with
  | [] => Some acc
  | line :: rest =>
      if String.eqb line EmptyString then load_lines rest acc
      else match orjson_loads line with
           | Some frame => load_lines rest (acc ++ [frame])
           | None => None
           end
  end.

(** The [try] block of [_load_replay_file]. *)
Definition load_attempt (self : ReplayManager) : option (list ReplayFrame) :=
  match rm_replay_file self with
  | None => None
  | Some path =>
      match read_decompressed path with
      | None => None
      | Some decompressed_data =>
          match decode_utf8 decompressed_data with
          | None => None
          | Some text => load_lines (split_newline (strip text)) (replay_data self)
          end
      end
  end.

(** [ReplayManager._load_replay_file]. *)
Definition _load_replay_file (self : ReplayManager) : ReplayManager :=
  match load_attempt self with
  | Some frames =>
      mkReplayManager (rm_replay_file self) (current_replay_id self) frames
        (compressed_writer self) (rm_log self ++ [LogLoaded (length frames)])
  | None =>
      mkReplayManager (rm_replay_file self) (current_replay_id self) []
        (compressed_writer self) (rm_log self ++ [LogFailedToLoad])
  end.

(** [ReplayManager.__init__]: [recording] tells whether
    [hastin.record_for_replay and self.replay_dir] holds. *)
Definition ReplayManager_new (replay_file : option string) (recording : bool)
  : ReplayManager :=
  let self := mkReplayManager replay_file 0 [] None [] in
  let self1 :=
    match replay_file with
    | Some s => if String.eqb s EmptyString then self else _load_replay_file self
    | None => self
    end in
  if recording then
    mkReplayManager (rm_replay_file self1) (current_replay_id self1)
      (replay_data self1) (Some []) (rm_log self1 ++ [LogRecordingTo])
  else self1.

(** [ReplayManager.get_next_refresh_interval]. *)
Definition get_next_refresh_interval (self : ReplayManager)
  : ReplayManager * option PostgreSQLReplayData :=
  if (length (replay_data self) <=? current_replay_id self)%nat then (self, None)
  else
    match replay_data self !! current_replay_id self with
    | None => (self, None)
    | Some data =>
        (mkReplayManager (rm_replay_file self) (S (current_replay_id self))
           (replay_data self) (compressed_writer self) (rm_log self),
         Some (mkPostgreSQLReplayData (f_timestamp data)
                 (f_system_utilization data) (f_global_variables data)
                 (List.map (fun p => (p.1, mkProcesslistThread p.2))
                    (f_processlist data))
                 (f_replication_status data) (f_connection_stats data)
                 (f_database_stats data) (f_metric_manager data)))
    end.

(** ** Replay worker ([WorkerManager.run_worker_replay]) *)

(** A computation inside a [try] block: a final state, or a raised
    exception with its [str(e)] and the state reached when it was
    raised. *)
Inductive result (A : Type) :=
  | Ok (a : A)
  | Raise (msg : string) (a : A).
Arguments Ok {A} a.
Arguments Raise {A} msg a.

Record Tab := mkTab {
  hastin : Hastin;
  replay_manager : ReplayManager;
  worker_cancelled : bool;
  replay_manual_control : bool;
}.

Definition set_hastin (tab : Tab) (h : Hastin) : Tab :=
  mkTab h (replay_manager tab) (worker_cancelled tab) (replay_manual_control tab).

(** The attributes of a [PostgreSQLReplayData] instance that hold data:
    the dataclass fields. The class defines no method named [get]. *)
Definition PostgreSQLReplayData_fields : list string :=
  ["timestamp"; "system_utilization"; "global_variables"; "processlist";
   "replication_status"; "connection_stats"; "database_stats";
   "metric_manager"].

(** [replay_event_data.<name>(...)]: looking up [name] on the instance
    and calling the result; [inl] is the raised exception. An unknown
    name is an [AttributeError]; a dataclass field holds a [str] or a
    [dict], which cannot be called. *)
Definition call_replay_event_data (name : string) : string + Q :=
  if bool_decide (name ∈ PostgreSQLReplayData_fields) then
    inl "object is not callable"
  else
    inl (String.append "'PostgreSQLReplayData' object has no attribute '"
           (String.append name "'")).

(** The loop that installs the recorded series (the last lines of the
    [try] block): [metric.values = metric_values] and
    [metric.last_value = metric_values[-1]], an [IndexError] on an empty
    series. The ["datetimes"] key of the dictionary names no metric
    instance and is skipped by the source as well. *)
Definition install_values (mm : MetricManager) (inst : MetricInstance)
    (kv : string * list Z) : result MetricManager :=
  match list_find (fun p : string * ref => bool_decide (p.1 = kv.1)) (md_fields inst) with
  | None => Ok mm
  | Some (_, (_, r)) =>
      match heap mm !! r with
      | None => Ok mm
      | Some metric =>
          let mm' := set_heap mm (<[r := with_values metric kv.2]> (heap mm)) in
          match last kv.2 with
          | None => Raise "list index out of range" mm'
          | Some lv =>
              Ok (set_heap mm
                    (<[r := with_last_value (with_values metric kv.2) (Some lv)]>
                       (heap mm)))
          end
      end
  end.

Fixpoint install_instance (mm : MetricManager) (inst : MetricInstance)
    (metric_data : list (string * list Z)) : result MetricManager :=
  match metric_data with
  | [] => Ok mm
  | kv :: rest =>
      match install_values mm inst kv with
      | Ok mm' => install_instance mm' inst rest
      | Raise m mm' => Raise m mm'
      end
  end.

Fixpoint install_metrics (mm : MetricManager)
    (entries : list (string * list (string * list Z))) : result MetricManager :=
  match entries with
  | [] => Ok mm
  | (metric_name, metric_data) :: rest =>
      match list_find (fun p : string * MetricInstance => bool_decide (p.1 = metric_name))
              (metrics mm) with
      | None => install_metrics mm rest
      | Some (_, (_, metric_instance)) =>
          match install_instance mm metric_instance metric_data with
          | Ok mm' => install_metrics mm' rest
          | Raise m mm' => Raise m mm'
          end
      end
  end.

(** The [try] block after the call [replay_event_data.get(...)], given
    the value that call would have returned. The assignment of
    [host_version] is left out. *)
Definition replay_after_get (now : Z) (tab : Tab)
    (replay_event_data : PostgreSQLReplayData) (latency : Q) : result Tab :=
  let h := hastin tab in
  let h0 :=
    mkHastin (record_for_replay h) (h_connection_source h) (pause_refresh h)
      (h_system_utilization h) (h_global_variables h) (processlist_threads h)
      (h_replication_status h) (h_connection_stats h) (h_database_stats h)
      (metric_manager h) latency in
  if bool_decide (h_connection_source h0 ∈ [postgresql; rds; aurora]) then
    let h1 :=
      mkHastin (record_for_replay h0) (h_connection_source h0) (pause_refresh h0)
        (h_system_utilization h0) (h_global_variables h0)
        (rd_processlist replay_event_data)
        (rd_replication_status replay_event_data)
        (rd_connection_stats replay_event_data)
        (rd_database_stats replay_event_data)
        (metric_manager h0) (worker_processing_time h0) in
    match refresh_data strftime strptime now (metric_manager h1)
            (mkRefreshArgs now 0 (Some (h_system_utilization h1)) None
               (Some (h_replication_status h1)) (Some (h_database_stats h1))
               None None None None) with
    | None => Raise "error in refresh_data" (set_hastin tab h1)
    | Some mm =>
        let mm1 := set_datetimes mm (sm_datetimes (rd_metric_manager replay_event_data)) in
        match install_metrics mm1 (sm_metrics (rd_metric_manager replay_event_data)) with
        | Ok mm2 => Ok (set_hastin tab (set_metric_manager h1 mm2))
        | Raise m mm2 => Raise m (set_hastin tab (set_metric_manager h1 mm2))
        end
    end
  else Raise "name 'connection_source_metrics' is not defined" (set_hastin tab h0).

(** The [try] block of [run_worker_replay]. [screen_stack] is
    [len(self.app.screen_stack)], [is_active] tells whether the tab is
    the active one. *)
Definition replay_try (now : Z) (screen_stack : nat) (is_active : bool)
    (manual_control : bool) (tab : Tab) : result Tab :=
  let tab0 := mkTab (hastin tab) (replay_manager tab) (worker_cancelled tab)
                manual_control in
  if (1 <? screen_stack)%nat
     || (pause_refresh (hastin tab0) && negb manual_control)
     || negb is_active
  then Ok tab0
  else
    let '(rm, replay_event_data) := get_next_refresh_interval (replay_manager tab0) in
    let tab1 := mkTab (hastin tab0) rm (worker_cancelled tab0)
                  (replay_manual_control tab0) in
    match replay_event_data with
    | None => Ok (mkTab (hastin tab1) rm true (replay_manual_control tab1))
    | Some event =>
        let h := hastin tab1 in
        let tab2 :=
          set_hastin tab1
            (mkHastin (record_for_replay h) (h_connection_source h)
               (pause_refresh h) (rd_system_utilization event)
               (rd_global_variables event) (processlist_threads h)
               (h_replication_status h) (h_connection_stats h)
               (h_database_stats h) (metric_manager h)
               (worker_processing_time h)) in
        match call_replay_event_data "get" with
        | inl msg => Raise msg tab2
        | inr latency => replay_after_get now tab2 event latency
        end
    end.

(** [WorkerManager.run_worker_replay] for an existing tab: the resulting
    tab and the notifications raised. The handler notifies the error and
    cancels the worker; what the [try] block did before the exception
    stays done. *)
Definition run_worker_replay (now : Z) (screen_stack : nat) (is_active : bool)
    (manual_control : bool) (tab : Tab) : Tab * list string :=
  match replay_try now screen_stack is_active manual_control tab with
  | Ok tab' => (tab', [])
  | Raise msg tab' =>
      (mkTab (hastin tab') (replay_manager tab') true (replay_manual_control tab'),
       [String.append "Error during replay: " msg])
  end.

(** The end of [run_worker_main]: the metric store ingests the polled
    data, then the recorder captures the state. *)
Definition record_cycle (now : Z) (now_iso : string) (a : RefreshArgs)
    (tab : Tab) : option Tab :=
  match refresh_data strftime strptime now (metric_manager (hastin tab)) a with
  | None => None
  | Some mm =>
      let h := set_metric_manager (hastin tab) mm in
      Some (mkTab h (capture_state now_iso h (replay_manager tab))
              (worker_cancelled tab) (replay_manual_control tab))
  end.

End Replay.

Arguments Ok {A} a.
Arguments Raise {A} msg a.

(** ** Ad-hoc commands ([PostgreSQL.py], [KeyEventManager.py]) *)

(** The part of [Database] that [execute] reads and writes before it talks
    to the server. [cursor] is the result held by the last cursor. *)
Record Database := mkDatabase {
  db_connected : bool;
  is_running_query : bool;
  last_execute_successful : bool;
  privilege_errors_notified : list string;
  db_cursor : option (list string);
}.

Definition already_running_title : string :=
  "Unable to run multiple queries at the same time".

Section Execute.

(** The rest of [Database.execute] (the retry loop around
    [cursor.execute]): the connection afterwards, the returned row count
    or [None], and its notifications. *)
Variable run_query : Database -> string -> Database * option Z * list string.



(** [Database.fetchall]. *)
Definition fetchall (self : Database) : list string :=
  if negb (db_connected self) || negb (last_execute_successful self) then []
  else default [] (db_cursor self).

End Execute.

(** What [process_key_event] does with a key before it dispatches on it. *)
Inductive KeyOutcome :=
  | NoActiveTab
  | Debounced
  | InvalidCommand
  | CommandTableMissing
  | CommandAlreadyRunning
  | NotConnected
  | LoadingHostgroups
  | Dispatched.

Definition command_already_running_message : string :=
  "There's already a command running - please wait for it to finish".
Definition not_connected_message : string :=
  "You must be connected to a host to use commands".
Definition loading_hostgroups_message : string :=
  "You can't run commands while hosts are connecting as a hostgroup".
Definition invalid_command_message (key : string) : string :=
  String.append "Key [$highlight]"
    (String.append key "[/$highlight] is not a valid command").

(** [CommandManager.exclude_keys]. *)
Definition exclude_keys : list string :=
  ["up"; "down"; "left"; "right"; "pageup"; "pagedown"; "home"; "end"; "tab";
   "enter"; "grave_accent"; "q"; "question_mark"; "plus"; "minus";
   "equals_sign"; "ctrl+a"; "ctrl+d"].

(** Times are in milliseconds. *)
Definition default_debounce_interval : Z := 50.

Definition key_debounce_intervals : gmap string Z :=
  {[ "left_square_bracket" := 100%Z; "right_square_bracket" := 100%Z;
     "space" := 300%Z; "minus" := 300%Z ]}.

(** [datetime.min] in milliseconds before the epoch. *)
Definition datetime_min : Z := (-62135596800000)%Z.

(** What [process_key_event] reads of the active tab. *)
Record KeyTab := mkKeyTab {
  kt_replay_file : bool;
  kt_connection_source : ConnectionSource;
  secondary_db_connection : option Database;
  main_db_connected : bool;
}.

Section KeyEvents.

(** [CommandManager.get_commands(replay_file, connection_source)]: the
    keys of the command table, [None] when there is no table. *)
Variable get_commands : bool -> ConnectionSource -> option (list string).

(** The guard of [KeyEventManager.process_key_event]: the outcome, the
    updated [last_key_time] and the notifications. The tab, and with it
    the secondary connection, is only read. *)
Definition process_key_event (last_key_time : gmap string Z)
    (loading_hostgroups : bool) (active_tab : option KeyTab) (now : Z)
    (key : string) : KeyOutcome * gmap string Z * list string :=
  match active_tab with
  | None => (NoActiveTab, last_key_time, [])
  | Some tab =>
      let debounce_interval :=
        default default_debounce_interval (key_debounce_intervals !! key) in
      let last_time := default datetime_min (last_key_time !! key) in
      if (now - last_time <? debounce_interval)%Z then
        (Debounced, last_key_time, [])
      else
        let lkt := <[key := now]> last_key_time in
        let checked :=
          if bool_decide (key ∈ exclude_keys) then None
          else
            match get_commands (kt_replay_file tab) (kt_connection_source tab) with
            | None => Some (CommandTableMissing, [])
            | Some commands =>
                if negb (bool_decide (key ∈ commands)) then
                  Some (InvalidCommand, [invalid_command_message key])
                else if match secondary_db_connection tab with
                        | Some db => is_running_query db
                        | None => false
                        end
                then Some (CommandAlreadyRunning, [command_already_running_message])
                else if negb (main_db_connected tab) && negb (kt_replay_file tab)
                then Some (NotConnected, [not_connected_message])
                else None
            end in
        match checked with
        | Some (o, msgs) => (o, lkt, msgs)
        | None =>
            if loading_hostgroups then
              (LoadingHostgroups, lkt, [loading_hostgroups_message])
            else (Dispatched, lkt, [])
        end
  end.

End KeyEvents.

(** ** Scenarios used by the examples *)

(** The stored values of [self.metrics.<inst>.<attr>]. *)
Definition series_values (self : MetricManager) (inst attr : string)
  : option (list Z) :=
  match metric_ref self inst attr with
  | Some r => values <$> heap self !! r
  | None => None
  end.

(** A clock for the examples: the timestamp [t] is written as a string of
    [t] marks, which [strptime] counts again. *)
Fixpoint marks (n : nat) : string :=
  match n with
  | O => EmptyString
  | S n' => String "|"%char (marks n')
  end.

Definition toy_strftime (t : Z) : string := marks (Z.to_nat t).
Definition toy_strptime (s : string) : option Z := Some (Z.of_nat (String.length s)).

(** One poll that delivers [database_stats] and [system_utilization]. *)
Definition poll (t : Z) (latency : Q) (database : list (string * Z))
    (system : list (string * Z)) : RefreshArgs :=
  mkRefreshArgs t latency (Some (list_to_map system)) None None
    (Some (list_to_map database)) None None None None.

(** ** Basic facts *)

Lemma set_heap_same (self : MetricManager) : set_heap self (heap self) = self.
Proof. by destruct self. Qed.

Lemma set_heap_set_heap (self : MetricManager) (h1 h2 : list MetricData) :
  set_heap (set_heap self h1) h2 = set_heap self h2.
Proof. reflexivity. Qed.

Lemma set_heap_id (self : MetricManager) (r : ref) (md : MetricData) :
  heap self !! r = Some md -> set_heap self (<[r := md]> (heap self)) = self.
Proof. intros H. rewrite list_insert_id; [apply set_heap_same | done]. Qed.

Lemma py_truediv_nonzero (a b : Q) :
  ~ (b == 0)%Q -> py_truediv a b = Some (a / b)%Q.
Proof.
  intros Hb. unfold py_truediv.
  destruct (Qeq_bool b 0) eqn:E; [| done].
  apply Qeq_bool_iff in E. contradiction.
Qed.

Lemma per_second_value_pos (d : Z) (lat : Q) :
  (0 < lat)%Q -> per_second_value d lat = Some (py_round (inject_Z d / lat)).
Proof.
  intros Hlat. unfold per_second_value.
  destruct (Qlt_le_dec 0 lat) as [_ | Hle].
  - rewrite py_truediv_nonzero; [done |].
    intros E. rewrite E in Hlat. by apply Qlt_irrefl in Hlat.
  - exfalso. eapply Qlt_not_le; eauto.
Qed.

Lemma per_second_value_nonpos (d : Z) (lat : Q) :
  (lat <= 0)%Q -> per_second_value d lat = Some 0%Z.
Proof.
  intros Hlat. unfold per_second_value.
  destruct (Qlt_le_dec 0 lat) as [Hlt | _]; [| done].
  exfalso. eapply Qlt_not_le; eauto.
Qed.

Lemma per_second_value_total (d : Z) (lat : Q) :
  is_Some (per_second_value d lat).
Proof.
  destruct (Qlt_le_dec 0 lat) as [H | H].
  - rewrite per_second_value_pos; eauto.
  - rewrite per_second_value_nonpos; eauto.
Qed.

Lemma py_int_inject_Z (z : Z) : py_int (inject_Z z) = z.
Proof. unfold py_int. simpl. apply Z.quot_1_r. Qed.

(** ** Rate derivation *)

Lemma add_metric_lookup (self : MetricManager) (r : ref) (md : MetricData) (v : Z) :
  heap self !! r = Some md ->
  initialized self = true ->
  heap (add_metric self r v) !! r = Some (md_add md v).
Proof.
  intros Hr Hi. unfold add_metric. rewrite Hi, Hr. simpl.
  apply list_lookup_insert_eq. by eapply lookup_lt_Some.
Qed.



(** ** Frame reasoning for the ingestion steps *)

(** [s'] differs from [s] in the heap only. *)
Definition same_frame (s s' : MetricManager) : Prop := s' = set_heap s (heap s').

Lemma same_frame_refl (s : MetricManager) : same_frame s s.
Proof. unfold same_frame. by rewrite set_heap_same. Qed.

Lemma same_frame_set_heap (s : MetricManager) (h : list MetricData) :
  same_frame s (set_heap s h).
Proof. reflexivity. Qed.

Lemma same_frame_trans (s1 s2 s3 : MetricManager) :
  same_frame s1 s2 -> same_frame s2 s3 -> same_frame s1 s3.
Proof. unfold same_frame. intros H12 H23. rewrite H23. by rewrite H12 at 1. Qed.

Lemma same_frame_fields (s s' : MetricManager) :
  same_frame s s' ->
  initialized s' = initialized s /\
  connection_source s' = connection_source s /\
  polling_latency s' = polling_latency s /\
  datetimes s' = datetimes s /\
  metrics s' = metrics s /\
  _source_to_metrics_processing s' = _source_to_metrics_processing s /\
  _all_metrics_data_history s' = _all_metrics_data_history s /\
  replaying s' = replaying s /\
  daemon_mode s' = daemon_mode s /\
  worker_start_time s' = worker_start_time s /\
  replication_status s' = replication_status s /\
  database_stats s' = database_stats s /\
  (forall src, get_metric_source_data s' src = get_metric_source_data s src).
Proof.
  unfold same_frame. intros H. rewrite H.
  repeat split; try (intros src; by destruct src).
Qed.

(** The heap [h'] has the shape of [h], and every object is related to its
    former self by [P]. *)
Definition heap_rel (P : ref -> MetricData -> MetricData -> Prop)
    (h h' : list MetricData) : Prop :=
  length h' = length h /\
  forall i md, h !! i = Some md -> exists md', h' !! i = Some md' /\ P i md md'.

Lemma heap_rel_weaken (P Q : ref -> MetricData -> MetricData -> Prop)
    (h h' : list MetricData) :
  (forall i md md', h !! i = Some md -> P i md md' -> Q i md md') ->
  heap_rel P h h' -> heap_rel Q h h'.
Proof.
  intros HPQ [Hlen H]. split; [done |].
  intros i md Hi. destruct (H i md Hi) as (md' & Hi' & HP). eauto.
Qed.

Lemma heap_rel_refl (P : ref -> MetricData -> MetricData -> Prop)
    (h : list MetricData) :
  (forall i md, h !! i = Some md -> P i md md) -> heap_rel P h h.
Proof. intros HP. split; [done |]. eauto. Qed.

Lemma heap_rel_trans (P Q R : ref -> MetricData -> MetricData -> Prop)
    (h1 h2 h3 : list MetricData) :
  (forall i a b c, P i a b -> Q i b c -> R i a c) ->
  heap_rel P h1 h2 -> heap_rel Q h2 h3 -> heap_rel R h1 h3.
Proof.
  intros HR [L12 H12] [L23 H23]. split; [congruence |].
  intros i md Hi. destruct (H12 i md Hi) as (md2 & Hi2 & HP).
  destruct (H23 i md2 Hi2) as (md3 & Hi3 & HQ). eauto.
Qed.

(** Replacing one object. *)
Lemma heap_rel_insert (P : ref -> MetricData -> MetricData -> Prop)
    (h : list MetricData) (r : ref) (md md' : MetricData) :
  h !! r = Some md ->
  P r md md' ->
  (forall i x, i <> r -> P i x x) ->
  heap_rel P h (<[r := md']> h).
Proof.
  intros Hr HP Hother. split; [apply length_insert |].
  intros i x Hi. destruct (decide (i = r)) as [-> | Hne].
  - exists md'. split.
    + apply list_lookup_insert_eq. by eapply lookup_lt_Some.
    + congruence.
  - exists x. split; [by rewrite list_lookup_insert_ne | by apply Hother].
Qed.

(** A loop whose body never raises and keeps an invariant. *)
Lemma foldM_invariant {S A} (f : S -> A -> option S) (I : S -> Prop) (l : list A) :
  (forall s a, I s -> exists s', f s a = Some s' /\ I s') ->
  forall s, I s -> exists s', foldM f s l = Some s' /\ I s'.
Proof.
  intros Hstep. induction l as [| a l IH]; intros s Hs; simpl.
  - eauto.
  - destruct (Hstep s a Hs) as (s1 & -> & Hs1). by apply IH.
Qed.

Lemma foldM_Some {S A} (g : S -> A -> S) (l : list A) (s : S) :
  foldM (fun s a => Some (g s a)) s l = Some (fold_left g l s).
Proof. revert s. induction l as [| a l IH]; intros s; simpl; [done | apply IH]. Qed.

(** ** What one observation does to its series *)

Lemma with_values_same (md : MetricData) : with_values md (values md) = md.
Proof. by destruct md. Qed.

Lemma cpu_percent_smoothing_total (md : MetricData) (v : Z) :
  exists vs q,
    cpu_percent_smoothing md v = Some (with_values md vs, q) /\
    length vs = length (values md) /\
    (values md = [] -> vs = []).
Proof.
  unfold cpu_percent_smoothing.
  pose proof (with_values_same md) as Hmd.
  destruct (values md) as [| v0 [| v1 vs]].
  - simpl. exists [], (inject_Z v). rewrite Hmd. by destruct (_ && _).
  - simpl. destruct (v0 =? 0)%Z.
    + by exists [v], (inject_Z v).
    + exists [v0]. destruct (_ && _).
      * eexists. rewrite Hmd. split; [| done].
        unfold last_n. simpl. reflexivity.
      * exists (inject_Z v). by rewrite Hmd.
  - cbn [length Nat.eqb]. exists (v0 :: v1 :: vs). rewrite Hmd.
    destruct (_ && _); [| by eexists].
    destruct (last_n 3 (v0 :: v1 :: vs)) as [| x xs] eqn:Hl; [by eexists |].
    rewrite py_truediv_nonzero; [by eexists |].
    intros E. unfold Qeq in E. simpl in E. lia.
Qed.

Lemma md_add_length (md : MetricData) (v : Z) :
  length (values (md_add md v))
  = if save_history md then S (length (values md))
    else Nat.max 1 (length (values md)).
Proof.
  unfold md_add. destruct (save_history md); simpl.
  - rewrite length_app. simpl. lia.
  - destruct (values md); simpl; [done | lia].
Qed.

Lemma md_add_static (md : MetricData) (v : Z) :
  save_history (md_add md v) = save_history md /\
  per_second_calculation (md_add md v) = per_second_calculation md /\
  last_value (md_add md v) = last_value md.
Proof. unfold md_add. destruct (save_history md) eqn:E, (values md); by rewrite ?E. Qed.

(** How the object of an observed metric changes: [init] and [applies]
    are [self.initialized] and [self.connection_source in conn_source]. *)
Definition observed (init applies : bool) (md md' : MetricData) : Prop :=
  save_history md' = save_history md /\
  per_second_calculation md' = per_second_calculation md /\
  (applies = false -> md' = md) /\
  (applies = true -> last_value md = None ->
     values md' = values md /\ last_value md' <> None) /\
  (applies = true -> last_value md <> None ->
     last_value md' = last_value md /\
     (values md = [] -> init = false -> values md' = []) /\
     length (values md')
     = if init then
         if save_history md then S (length (values md))
         else Nat.max 1 (length (values md))
       else length (values md)).

Lemma process_metric_post (data : gmap string Z) (self : MetricManager)
    (name : string) (r : ref) (conn : list ConnectionSource) :
  exists self',
    process_metric data self (name, r, conn) = Some self' /\
    same_frame self self' /\
    heap_rel (fun i md md' =>
                if decide (i = r) then
                  observed (initialized self)
                    (bool_decide (connection_source self ∈ conn)) md md'
                else md' = md)
      (heap self) (heap self').
Proof.
  unfold process_metric.
  destruct (bool_decide (connection_source self ∈ conn)) eqn:Happ; simpl.
  2: { exists self. split; [done |]. split; [apply same_frame_refl |].
       apply heap_rel_refl. intros i md _. destruct (decide (i = r)); [| done].
       repeat split; intros; congruence. }
  destruct (heap self !! r) as [md |] eqn:Hr.
  2: { exists self. split; [done |]. split; [apply same_frame_refl |].
       apply heap_rel_refl. intros i md Hi.
       destruct (decide (i = r)); [congruence | done]. }
  assert (Hother : forall b (i : ref) (x : MetricData), i <> r ->
            if decide (i = r) then observed (initialized self) b x x else x = x).
  { intros b i x Hne. by rewrite decide_False. }
  destruct (last_value md) as [lv |] eqn:Hlv.
  2: { eexists. split; [done |]. split; [apply same_frame_set_heap |]. simpl.
       eapply heap_rel_insert; [exact Hr | | apply Hother].
       rewrite decide_True by done.
       repeat split; simpl; intros; try done; congruence. }
  assert (exists v,
    (if per_second_calculation md
     then per_second_value (dict_get data name 0 - lv) (polling_latency self)
     else Some (dict_get data name 0)) = Some v) as [v ->].
  { destruct (per_second_calculation md); [| eauto].
    destruct (per_second_value_total (dict_get data name 0 - lv)
                (polling_latency self)); eauto. }
  assert (exists vs q,
    (if String.eqb name "CPU_Percent" then cpu_percent_smoothing md v
     else Some (md, inject_Z v)) = Some (with_values md vs, q) /\
    length vs = length (values md) /\ (values md = [] -> vs = []))
    as (vs & q & -> & Hlen & Hnil).
  { destruct (String.eqb name "CPU_Percent").
    - apply cpu_percent_smoothing_total.
    - exists (values md), (inject_Z v). by rewrite with_values_same. }
  assert (Hlt : (r < length (heap self))%nat) by by eapply lookup_lt_Some.
  eexists. split; [done |].
  unfold add_metric. simpl.
  destruct (initialized self) eqn:Hinit.
  - rewrite list_lookup_insert_eq by done. simpl.
    rewrite list_insert_insert_eq, set_heap_set_heap.
    split; [apply same_frame_set_heap |]. simpl.
    eapply heap_rel_insert; [exact Hr | | apply Hother].
    rewrite decide_True by done.
    destruct (md_add_static (with_values md vs) (py_int q)) as (E1 & E2 & E3).
    pose proof (md_add_length (with_values md vs) (py_int q)) as E4.
    simpl in E1, E2, E3, E4. rewrite Hlen in E4.
    repeat split; simpl; intros; try done; congruence.
  - split; [apply same_frame_set_heap |]. simpl.
    eapply heap_rel_insert; [exact Hr | | apply Hother].
    rewrite decide_True by done.
    repeat split; simpl; intros; try done; try congruence. by apply Hnil.
Qed.

(** A loop over the manager whose body [f s a] may only touch the objects
    [refs_of a], relating each to its former self by [P a], and that visits
    every object at most once. *)
Lemma foldM_pointwise {A} (f : MetricManager -> A -> option MetricManager)
    (refs_of : A -> list ref)
    (P : A -> ref -> MetricData -> MetricData -> Prop) (s0 : MetricManager)
    (l : list A) :
  (forall s a, a ∈ l -> same_frame s0 s ->
     exists s', f s a = Some s' /\ same_frame s s' /\
       heap_rel (fun i md md' =>
                   (i ∉ refs_of a -> md' = md) /\
                   (i ∈ refs_of a -> P a i md md'))
         (heap s) (heap s')) ->
  forall s, same_frame s0 s -> NoDup (l ≫= refs_of) ->
    exists s', foldM f s l = Some s' /\ same_frame s s' /\
      heap_rel (fun i md md' =>
                  (i ∉ l ≫= refs_of -> md' = md) /\
                  (forall a, a ∈ l -> i ∈ refs_of a -> P a i md md'))
        (heap s) (heap s').
Proof.
  induction l as [| a l IH]; intros Hstep s Hs Hnd; simpl.
  - exists s. split; [done |]. split; [apply same_frame_refl |].
    apply heap_rel_refl. intros i md _. split; [done |].
    intros a Ha. by apply elem_of_nil in Ha.
  - destruct (Hstep s a (list_elem_of_here _ _) Hs) as (s1 & -> & Hf1 & Hr1).
    rewrite bind_cons in Hnd.
    apply NoDup_app in Hnd as (Hnda & Hdisj & Hndl).
    destruct (IH (fun s a Ha => Hstep s a (list_elem_of_further _ _ _ Ha))
                s1 (same_frame_trans _ _ _ Hs Hf1) Hndl)
      as (s' & -> & Hf' & Hr').
    exists s'. split; [done |]. split; [by eapply same_frame_trans |].
    eapply heap_rel_trans; [| exact Hr1 | exact Hr'].
    simpl. intros i x y z [Hxy1 Hxy2] [Hyz1 Hyz2]. split.
    + intros Hni. rewrite elem_of_app in Hni.
      rewrite Hyz1, Hxy1; tauto.
    + intros b Hb Hib. apply elem_of_cons in Hb as [-> | Hb].
      * rewrite Hyz1; [by apply Hxy2 |]. by apply Hdisj.
      * rewrite <- Hxy1; [by apply Hyz2 |].
        intros Hia. apply (Hdisj i Hia). apply list_elem_of_bind. eauto.
Qed.

(** The objects a list of tuples refers to. *)
Definition tuple_refs (ts : list metric_tuple) : list ref :=
  List.map (fun t : metric_tuple => t.1.2) ts.

Definition table_refs (tbl : list (MetricSource * list metric_tuple)) : list ref :=
  tbl ≫= (fun entry => tuple_refs entry.2).

Lemma bind_singleton_map {A B} (f : A -> B) (l : list A) :
  l ≫= (fun a => [f a]) = List.map f l.
Proof. induction l as [| a l IH]; [done |]. by rewrite bind_cons, IH. Qed.

Lemma foldM_process_metric_post (data : gmap string Z) (s0 : MetricManager)
    (ts : list metric_tuple) (s : MetricManager) :
  same_frame s0 s -> NoDup (tuple_refs ts) ->
  exists s', foldM (process_metric data) s ts = Some s' /\ same_frame s s' /\
    heap_rel (fun i md md' =>
                (i ∉ tuple_refs ts -> md' = md) /\
                (forall name conn, (name, i, conn) ∈ ts ->
                   observed (initialized s0)
                     (bool_decide (connection_source s0 ∈ conn)) md md'))
      (heap s) (heap s').
Proof.
  intros Hs Hnd.
  destruct (foldM_pointwise (process_metric data)
              (fun t : metric_tuple => [t.1.2])
              (fun t _ md md' =>
                 observed (initialized s0)
                   (bool_decide (connection_source s0 ∈ t.2)) md md') s0 ts)
    with (s := s) as (s' & Hrun & Hf & Hr).
  - intros s1 [[name r] conn] _ Hs1.
    destruct (process_metric_post data s1 name r conn) as (s2 & E & Hf2 & Hr2).
    exists s2. split; [done |]. split; [done |].
    destruct (same_frame_fields _ _ Hs1) as (Ei & Ec & _).
    eapply heap_rel_weaken; [| exact Hr2]. simpl.
    intros i md md' _ HP. rewrite Ei, Ec in HP.
    destruct (decide (i = r)) as [-> | Hne].
    + split; [| done]. intros Hni. exfalso. apply Hni. by apply list_elem_of_singleton.
    + split; [done |]. intros Hi. by apply list_elem_of_singleton in Hi.
  - done.
  - by rewrite bind_singleton_map.
  - exists s'. split; [done |]. split; [done |].
    rewrite bind_singleton_map in Hr.
    eapply heap_rel_weaken; [| exact Hr]. simpl.
    intros i md md' _ [H1 H2]. split; [done |].
    intros name conn Hin.
    apply (H2 (name, i, conn) Hin). by apply list_elem_of_singleton.
Qed.

Lemma fold_left_pointwise {A} (g : MetricManager -> A -> MetricManager)
    (refs_of : A -> list ref)
    (P : A -> ref -> MetricData -> MetricData -> Prop) (s0 : MetricManager)
    (l : list A) :
  (forall s a, a ∈ l -> same_frame s0 s ->
     same_frame s (g s a) /\
     heap_rel (fun i md md' =>
                 (i ∉ refs_of a -> md' = md) /\
                 (i ∈ refs_of a -> P a i md md'))
       (heap s) (heap (g s a))) ->
  forall s, same_frame s0 s -> NoDup (l ≫= refs_of) ->
    same_frame s (fold_left g l s) /\
    heap_rel (fun i md md' =>
                (i ∉ l ≫= refs_of -> md' = md) /\
                (forall a, a ∈ l -> i ∈ refs_of a -> P a i md md'))
      (heap s) (heap (fold_left g l s)).
Proof.
  intros Hstep s Hs Hnd.
  destruct (foldM_pointwise (fun s a => Some (g s a)) refs_of P s0 l)
    with (s := s) as (s' & Hrun & Hf & Hr); try done.
  - intros s1 a Ha Hs1. destruct (Hstep s1 a Ha Hs1). eauto.
  - rewrite foldM_Some in Hrun. by injection Hrun as ->.
Qed.

(** [update_metrics_per_second_values] object by object. *)
Definition per_second_rel (s0 : MetricManager) (i : ref) (md md' : MetricData)
  : Prop :=
  (i ∉ table_refs (_source_to_metrics_processing s0) -> md' = md) /\
  (forall src ts name conn,
     (src, ts) ∈ _source_to_metrics_processing s0 ->
     (name, i, conn) ∈ ts ->
     (src = NONE -> md' = md) /\
     (src <> NONE ->
      observed (initialized s0) (bool_decide (connection_source s0 ∈ conn))
        md md')).

Lemma NoDup_bind_part {A} (refs_of : A -> list ref) (l : list A) (a : A) :
  NoDup (l ≫= refs_of) -> a ∈ l -> NoDup (refs_of a).
Proof.
  induction l as [| b l IH]; intros Hnd Ha; [by apply elem_of_nil in Ha |].
  rewrite bind_cons in Hnd. apply NoDup_app in Hnd as (Hb & _ & Hl).
  apply elem_of_cons in Ha as [-> | Ha]; [done | by apply IH].
Qed.

Lemma tuple_refs_elem (name : string) (i : ref) (conn : list ConnectionSource)
    (ts : list metric_tuple) :
  (name, i, conn) ∈ ts -> i ∈ tuple_refs ts.
Proof.
  intros H. apply list_elem_of_In.
  apply (in_map (fun t : metric_tuple => t.1.2) ts (name, i, conn)).
  by apply list_elem_of_In.
Qed.

Lemma update_metrics_per_second_values_post (s : MetricManager) :
  NoDup (table_refs (_source_to_metrics_processing s)) ->
  exists s', update_metrics_per_second_values s = Some s' /\ same_frame s s' /\
    heap_rel (per_second_rel s) (heap s) (heap s').
Proof.
  intros Hnd. unfold update_metrics_per_second_values.
  destruct (foldM_pointwise process_source
              (fun entry : MetricSource * list metric_tuple => tuple_refs entry.2)
              (fun entry i md md' =>
                 (entry.1 = NONE -> md' = md) /\
                 (entry.1 <> NONE -> forall name conn,
                    (name, i, conn) ∈ entry.2 ->
                    observed (initialized s)
                      (bool_decide (connection_source s ∈ conn)) md md'))
              s (_source_to_metrics_processing s))
    with (s := s) as (s' & Hrun & Hf & Hr).
  - intros s1 [src ts] Hin Hs1. unfold process_source. simpl.
    destruct (same_frame_fields _ _ Hs1) as (_ & _ & _ & _ & _ & _ & _ & _ & _ & _ & _ & _ & Hd).
    rewrite Hd.
    destruct (get_metric_source_data s src) as [d |] eqn:Hsrc.
    + destruct (foldM_process_metric_post d s ts s1 Hs1) as (s2 & E & Hf2 & Hr2).
      { by apply (NoDup_bind_part _ _ (src, ts) Hnd). }
      exists s2. split; [done |]. split; [done |].
      eapply heap_rel_weaken; [| exact Hr2]. simpl.
      intros i md md' _ [H1 H2]. split; [done |]. intros Hi. split.
      * intros ->. discriminate.
      * intros _ name conn Hn. by apply (H2 name conn).
    + exists s1. split; [done |]. split; [apply same_frame_refl |].
      apply heap_rel_refl. intros i md _. split; [done |]. intros _. split; [done |].
      intros Hne. by destruct src.
  - apply same_frame_refl.
  - done.
  - exists s'. split; [done |]. split; [done |].
    eapply heap_rel_weaken; [| exact Hr]. unfold per_second_rel. simpl.
    intros i md md' _ [H1 H2]. split; [done |].
    intros src ts name conn Hin Ht.
    assert (Hi : i ∈ tuple_refs ts).
    { by eapply tuple_refs_elem. }
    destruct (H2 (src, ts) Hin Hi) as [Ha Hb]. split; [done |].
    intros Hne. by apply (Hb Hne name conn).
Qed.

Lemma add_metric_post (s : MetricManager) (r : ref) (v : Z) :
  same_frame s (add_metric s r v) /\
  heap_rel (fun i md md' =>
              (i <> r -> md' = md) /\
              (i = r -> md' = if initialized s then md_add md v else md))
    (heap s) (heap (add_metric s r v)).
Proof.
  unfold add_metric. destruct (initialized s) eqn:Hi.
  - destruct (heap s !! r) as [md |] eqn:Hr.
    + split; [apply same_frame_set_heap |]. simpl.
      eapply heap_rel_insert; [exact Hr | split; congruence |].
      intros i x Hne. split; [done | congruence].
    + split; [apply same_frame_refl |]. apply heap_rel_refl.
      intros i md Hmd. split; [done |]. intros ->. congruence.
  - split; [apply same_frame_refl |]. apply heap_rel_refl. by intros i md _.
Qed.

(** [update_metrics_last_value] object by object. *)
Definition last_value_rel (s0 : MetricManager) (i : ref) (md md' : MetricData)
  : Prop :=
  values md' = values md /\
  save_history md' = save_history md /\
  per_second_calculation md' = per_second_calculation md /\
  (last_value md <> None -> last_value md' <> None) /\
  (forall src ts name conn,
     (src, ts) ∈ _source_to_metrics_processing s0 ->
     (name, i, conn) ∈ ts -> src <> NONE -> last_value md' <> None).

Lemma update_metrics_last_value_post (s : MetricManager) :
  NoDup (table_refs (_source_to_metrics_processing s)) ->
  same_frame s (update_metrics_last_value s) /\
  heap_rel (last_value_rel s) (heap s) (heap (update_metrics_last_value s)).
Proof.
  intros Hnd. unfold update_metrics_last_value.
  destruct (fold_left_pointwise
              (fun s1 (entry : MetricSource * list metric_tuple) =>
                 match get_metric_source_data s1 entry.1 with
                 | None => s1
                 | Some d => fold_left (set_last_value d) entry.2 s1
                 end)
              (fun entry : MetricSource * list metric_tuple => tuple_refs entry.2)
              (fun entry i md md' =>
                 values md' = values md /\
                 save_history md' = save_history md /\
                 per_second_calculation md' = per_second_calculation md /\
                 (last_value md <> None -> last_value md' <> None) /\
                 (entry.1 <> NONE -> last_value md' <> None))
              s (_source_to_metrics_processing s))
    with (s := s) as (Hf & Hr).
  - intros s1 [src ts] Hin Hs1. simpl.
    destruct (same_frame_fields _ _ Hs1) as (_ & _ & _ & _ & _ & _ & _ & _ & _ & _ & _ & _ & Hd).
    rewrite Hd.
    destruct (get_metric_source_data s src) as [d |] eqn:Hsrc.
    + destruct (fold_left_pointwise (set_last_value d)
                  (fun t : metric_tuple => [t.1.2])
                  (fun t _ md md' => exists x, md' = with_last_value md (Some x))
                  s ts) with (s := s1) as (Hf2 & Hr2).
      * intros s2 [[name r] conn] _ Hs2. unfold set_last_value. simpl.
        destruct (heap s2 !! r) as [md |] eqn:Hr.
        -- split; [apply same_frame_set_heap |]. simpl.
           eapply heap_rel_insert; [exact Hr | |].
           ++ split; [intros Hni; exfalso; apply Hni; by apply list_elem_of_singleton |].
              eauto.
           ++ intros i x Hne. split; [done |]. intros Hi.
              by apply list_elem_of_singleton in Hi.
        -- split; [apply same_frame_refl |]. apply heap_rel_refl.
           intros i md Hmd. split; [done |]. intros Hi.
           apply list_elem_of_singleton in Hi. congruence.
      * done.
      * rewrite bind_singleton_map.
        by apply (NoDup_bind_part _ _ (src, ts) Hnd).
      * split; [done |]. rewrite bind_singleton_map in Hr2.
        eapply heap_rel_weaken; [| exact Hr2]. simpl.
        intros i md md' _ [H1 H2]. split; [done |]. intros Hi.
        assert (exists t, t ∈ ts /\ i ∈ [t.1.2]) as (t & Ht & Hit).
        { apply list_elem_of_In in Hi. apply in_map_iff in Hi as (t & <- & Ht).
          exists t. split; [by apply list_elem_of_In | by apply list_elem_of_singleton]. }
        destruct (H2 t Ht Hit) as [x ->]. by repeat split.
    + split; [apply same_frame_refl |]. apply heap_rel_refl.
      intros i md _. split; [done |]. intros _. repeat split; try done.
      intros Hne. by destruct src.
  - apply same_frame_refl.
  - done.
  - split; [done |].
    eapply heap_rel_weaken; [| exact Hr]. unfold last_value_rel. simpl.
    intros i md md' _ [H1 H2].
    destruct (decide (i ∈ _source_to_metrics_processing s ≫=
                            (fun entry => tuple_refs entry.2))) as [Hi | Hni].
    + apply list_elem_of_bind in Hi as (entry & Hie & He).
      destruct (H2 entry He Hie) as (E1 & E2 & E3 & E4 & E5).
      repeat split; try done.
      intros src ts name conn Hin Ht Hne.
      assert (Hi : i ∈ tuple_refs ts).
      { by eapply tuple_refs_elem. }
      destruct (H2 (src, ts) Hin Hi) as (_ & _ & _ & _ & E6). by apply E6.
    + rewrite (H1 Hni). repeat split; try done.
      intros src ts name conn Hin Ht Hne. exfalso. apply Hni.
      apply list_elem_of_bind. exists (src, ts). split; [| done].
      by eapply tuple_refs_elem.
Qed.

Lemma popleft_history_post (s : MetricManager) :
  NoDup (_all_metrics_data_history s) ->
  same_frame s (popleft_history s) /\
  heap_rel (fun i md md' =>
              (i ∉ _all_metrics_data_history s -> md' = md) /\
              (i ∈ _all_metrics_data_history s ->
               md' = with_values md (tail (values md))))
    (heap s) (heap (popleft_history s)).
Proof.
  intros Hnd. unfold popleft_history.
  set (g := fun (s1 : MetricManager) (r : ref) =>
              match heap s1 !! r with
              | Some metric_data =>
                  match values metric_data with
                  | [] => s1
                  | _ :: vs => set_heap s1 (<[r := with_values metric_data vs]> (heap s1))
                  end
              | None => s1
              end).
  destruct (fold_left_pointwise g (fun r : ref => [r])
              (fun _ _ md md' => md' = with_values md (tail (values md)))
              s (_all_metrics_data_history s))
    with (s := s) as (Hf & Hr).
  - intros s1 r _ Hs1. unfold g.
    destruct (heap s1 !! r) as [md |] eqn:Hmd.
    + destruct (values md) as [| v vs] eqn:Hvs.
      * split; [apply same_frame_refl |]. apply heap_rel_refl.
        intros i x Hx. split; [done |]. intros Hi.
        apply list_elem_of_singleton in Hi. subst i.
        assert (x = md) as -> by congruence.
        rewrite Hvs. simpl. by rewrite <- Hvs, with_values_same.
      * split; [apply same_frame_set_heap |]. simpl.
        eapply heap_rel_insert; [exact Hmd | |].
        -- split; [intros Hni; exfalso; apply Hni; by apply list_elem_of_singleton |].
           intros _. by rewrite Hvs.
        -- intros i x Hne. split; [done |]. intros Hi.
           by apply list_elem_of_singleton in Hi.
    + split; [apply same_frame_refl |]. apply heap_rel_refl.
      intros i x Hx. split; [done |]. intros Hi.
      apply list_elem_of_singleton in Hi. congruence.
  - apply same_frame_refl.
  - by rewrite bind_singleton_map, map_id.
  - split; [done |]. rewrite bind_singleton_map, map_id in Hr.
    eapply heap_rel_weaken; [| exact Hr]. simpl.
    intros i md md' _ [H1 H2]. split; [done |]. intros Hi.
    apply (H2 i Hi). by apply list_elem_of_singleton.
Qed.

(** ** The catalogue *)

Definition catalogue : MetricManager := MetricManager_new None false.

Lemma reset_catalogue (s : MetricManager) :
  metrics (reset s) = metrics catalogue /\
  _source_to_metrics_processing (reset s) = _source_to_metrics_processing catalogue /\
  _all_metrics_data_history (reset s) = _all_metrics_data_history catalogue /\
  heap (reset s) = heap catalogue /\
  initialized (reset s) = false /\
  datetimes (reset s) = [] /\
  connection_source (reset s) = connection_source s /\
  replay_file (reset s) = replay_file s /\
  daemon_mode (reset s) = daemon_mode s.
Proof. repeat (split; [vm_compute; reflexivity |]). vm_compute. reflexivity. Qed.

Lemma catalogue_table_NoDup :
  NoDup (table_refs (_source_to_metrics_processing catalogue)).
Proof. apply (bool_decide_unpack _). by vm_compute. Qed.

Lemma catalogue_history_NoDup : NoDup (_all_metrics_data_history catalogue).
Proof. apply (bool_decide_unpack _). by vm_compute. Qed.

Lemma catalogue_heap_fresh :
  Forall (fun md => values md = [] /\ last_value md = None) (heap catalogue).
Proof.
  unfold catalogue. vm_compute. repeat (constructor; [by split |]). constructor.
Qed.

Lemma catalogue_no_NONE (src : MetricSource) (ts : list metric_tuple) :
  (src, ts) ∈ _source_to_metrics_processing catalogue -> src <> NONE.
Proof.
  intros H Hs. subst src. vm_compute in H.
  repeat (apply elem_of_cons in H as [H | H]; [discriminate H |]).
  by apply elem_of_nil in H.
Qed.

(** The computed metrics are not in the processing table. *)
Definition lag_ref : ref := 24.
Definition ratio_ref : ref := 15.

Lemma catalogue_computed_refs (s : MetricManager) :
  metrics s = metrics catalogue ->
  metric_ref s "replication_lag" "lag" = Some lag_ref /\
  metric_ref s "pg_cache_hit_ratio" "cache_hit_ratio" = Some ratio_ref.
Proof. unfold metric_ref. intros ->. by vm_compute. Qed.

Lemma catalogue_computed_not_in_table :
  (lag_ref ∉ table_refs (_source_to_metrics_processing catalogue)) /\
  (ratio_ref ∉ table_refs (_source_to_metrics_processing catalogue)).
Proof. split; apply (bool_decide_unpack _); by vm_compute. Qed.

(** Every series is either one of the two computed ones or in the table,
    and the history list holds exactly the references whose declared
    object keeps history. *)
Lemma catalogue_history_spec (r : ref) :
  r ∈ _all_metrics_data_history catalogue ->
  (exists md0, heap catalogue !! r = Some md0 /\ save_history md0 = true) /\
  (r = lag_ref \/ r = ratio_ref \/
   r ∈ table_refs (_source_to_metrics_processing catalogue)).
Proof.
  intros H. vm_compute in H.
  repeat (apply elem_of_cons in H as [-> | H];
          [split; [by eexists |];
           first [by left | by (right; left)
                 | right; right; apply (bool_decide_unpack _); by vm_compute] |]).
  by apply elem_of_nil in H.
Qed.

#[global] Opaque catalogue reset.

(** A manager as [reset] leaves it laid out: same catalogue, same lookup
    tables, and objects that still carry their declared flags. *)
Definition well_formed (s : MetricManager) : Prop :=
  metrics s = metrics catalogue /\
  _source_to_metrics_processing s = _source_to_metrics_processing catalogue /\
  _all_metrics_data_history s = _all_metrics_data_history catalogue /\
  heap_rel (fun _ md0 md =>
              save_history md = save_history md0 /\
              per_second_calculation md = per_second_calculation md0)
    (heap catalogue) (heap s).

(** The series that a live cycle feeds: the two computed ones, and those
    whose metric lists the connection source of the session. *)
Definition feeds (s : MetricManager) (r : ref) : Prop :=
  metric_ref s "replication_lag" "lag" = Some r \/
  metric_ref s "pg_cache_hit_ratio" "cache_hit_ratio" = Some r \/
  exists src ts name conn,
    (src, ts) ∈ _source_to_metrics_processing s /\
    (name, r, conn) ∈ ts /\
    connection_source s ∈ conn.

Lemma table_refs_elem (tbl : list (MetricSource * list metric_tuple)) (i : ref) :
  i ∈ table_refs tbl <->
  exists src ts name conn, (src, ts) ∈ tbl /\ (name, i, conn) ∈ ts.
Proof.
  unfold table_refs. rewrite list_elem_of_bind. split.
  - intros ([src ts] & Hi & Hin). simpl in Hi.
    apply list_elem_of_In in Hi. apply in_map_iff in Hi as ([[name r] conn] & E & Ht).
    simpl in E. subst r. exists src, ts, name, conn.
    split; [done | by apply list_elem_of_In].
  - intros (src & ts & name & conn & Hin & Ht).
    exists (src, ts). split; [by eapply tuple_refs_elem | done].
Qed.

Lemma hit_ratio_total (blks_hit blks_read : Z) :
  is_Some (hit_ratio blks_hit blks_read).
Proof.
  unfold hit_ratio. destruct (0 <? blks_hit + blks_read)%Z eqn:E; [| eauto].
  rewrite py_truediv_nonzero; [eauto |].
  apply Z.ltb_lt in E. unfold Qeq. simpl. lia.
Qed.

(** What the block under [if not self.replay_file] does to each object. *)
Definition cycle_rel (s : MetricManager) (i : ref) (md md' : MetricData) : Prop :=
  save_history md' = save_history md /\
  per_second_calculation md' = per_second_calculation md /\
  (i ∈ table_refs (_source_to_metrics_processing s) -> last_value md' <> None) /\
  (initialized s = false -> values md = [] -> values md' = []) /\
  (initialized s = true -> save_history md = true ->
   (i ∈ table_refs (_source_to_metrics_processing s) -> last_value md <> None) ->
   (feeds s i -> length (values md') = S (length (values md))) /\
   (~ feeds s i -> values md' = values md)).

Lemma update_all_post (s : MetricManager) :
  well_formed s ->
  exists s', update_all s = Some s' /\ same_frame s s' /\
    heap_rel (cycle_rel s) (heap s) (heap s').
Proof.
  intros (Hm & Ht & Hh & Hwf). unfold update_all.
  pose proof catalogue_table_NoDup as Hnd. rewrite <- Ht in Hnd.
  destruct (update_metrics_per_second_values_post s Hnd) as (s1 & -> & Hf1 & Hr1).
  destruct (same_frame_fields _ _ Hf1)
    as (Hi1 & _ & _ & _ & Hm1 & Ht1 & _ & _ & _ & _ & Hrs1 & Hdb1 & _).
  destruct (catalogue_computed_refs s) as [Hlag Hratio]; [done |].
  unfold update_metrics_replication_lag, update_pg_cache_hit_ratio.
  destruct (catalogue_computed_refs s1) as [-> _]; [congruence |].
  set (s2 := add_metric s1 lag_ref _).
  destruct (add_metric_post s1 lag_ref
              (dict_get (replication_status s1) "Seconds_Behind" 0)) as [Hf2 Hr2].
  fold s2 in Hf2, Hr2.
  destruct (same_frame_fields _ _ Hf2)
    as (Hi2 & _ & _ & _ & Hm2 & Ht2 & _ & _ & _ & _ & _ & Hdb2 & _).
  destruct (hit_ratio_total (dict_get (database_stats s2) "blks_hit" 0)
              (dict_get (database_stats s2) "blks_read" 0)) as [ratio ->].
  destruct (catalogue_computed_refs s2) as [_ ->]; [congruence |].
  set (s3 := add_metric s2 ratio_ref _).
  destruct (add_metric_post s2 ratio_ref (py_int ratio)) as [Hf3 Hr3].
  fold s3 in Hf3, Hr3.
  destruct (same_frame_fields _ _ Hf3)
    as (Hi3 & _ & _ & _ & Hm3 & Ht3 & _ & _ & _ & _ & _ & _ & _).
  assert (Ht3' : _source_to_metrics_processing s3 = _source_to_metrics_processing s)
    by congruence.
  destruct (update_metrics_last_value_post s3) as [Hf4 Hr4]; [by rewrite Ht3' |].
  eexists. split; [done |].
  split. { repeat (eapply same_frame_trans; [eassumption |]). apply same_frame_refl. }
  destruct catalogue_computed_not_in_table as [Hlagn Hration].
  rewrite <- Ht in Hlagn, Hration.
  destruct Hr1 as [L1 Hr1], Hr2 as [L2 Hr2], Hr3 as [L3 Hr3], Hr4 as [L4 Hr4].
  split; [congruence |].
  intros i md Hmd.
  destruct (Hr1 i md Hmd) as (md1 & Hmd1 & Hps1 & Hps2).
  destruct (Hr2 i md1 Hmd1) as (md2 & Hmd2 & Hl1 & Hl2).
  destruct (Hr3 i md2 Hmd2) as (md3 & Hmd3 & Hc1 & Hc2).
  destruct (Hr4 i md3 Hmd3) as (md4 & Hmd4 & Hv & Hsh & Hpsc & Hlvm & Hlv).
  exists md4. split; [done |].
  rewrite Hi1 in Hl2. rewrite Hi2, Hi1 in Hc2. rewrite Ht3' in Hlv.
  destruct (decide (i ∈ table_refs (_source_to_metrics_processing s))) as [Hin | Hnin].
  - (* a series of the processing table *)
    assert (i <> lag_ref) as Hnl by (intros ->; contradiction).
    assert (i <> ratio_ref) as Hnr by (intros ->; contradiction).
    rewrite (Hc1 Hnr), (Hl1 Hnl) in *.
    pose proof Hin as Hin'.
    apply table_refs_elem in Hin' as (src & ts & name & conn & Hsrc & Hts).
    assert (Hne : src <> NONE) by (rewrite Ht in Hsrc; by eapply catalogue_no_NONE).
    destruct (Hps2 src ts name conn Hsrc Hts) as [_ Hobs].
    destruct (Hobs Hne) as (O1 & O2 & O3 & O4 & O5).
    unfold cycle_rel. split; [congruence |]. split; [congruence |].
    split; [intros _; by eapply Hlv |].
    split.
    + intros Hinit Hnil. rewrite Hv.
      destruct (bool_decide (connection_source s ∈ conn)) eqn:Happ.
      * destruct (last_value md) as [lv |] eqn:Hlast.
        -- destruct O5 as (_ & O5 & _); [done | done |]. by apply O5.
        -- destruct O4 as [O4 _]; [done | done |]. congruence.
      * rewrite O3; done.
    + intros Hinit Hsave Hobserved. rewrite Hv. split.
      * intros [Hf | [Hf | (src' & ts' & name' & conn' & Hsrc' & Hts' & Hcs)]].
        -- exfalso. apply Hnl. congruence.
        -- exfalso. apply Hnr. congruence.
        -- assert (Hne' : src' <> NONE)
             by (rewrite Ht in Hsrc'; by eapply catalogue_no_NONE).
           destruct (Hps2 src' ts' name' conn' Hsrc' Hts') as [_ Hobs'].
           destruct (Hobs' Hne') as (_ & _ & _ & _ & O5').
           rewrite bool_decide_true in O5' by done.
           destruct O5' as (_ & _ & O5'); [done | by apply Hobserved |].
           by rewrite O5', Hinit, Hsave.
      * intros Hnf. rewrite O3; [done |].
        apply bool_decide_eq_false. intros Hcs. apply Hnf.
        right. right. exists src, ts, name, conn. repeat split; assumption.
  - (* a computed series, or one the table does not know *)
    rewrite (Hps1 Hnin) in *.
    unfold cycle_rel.
    assert (Hstatic : save_history md3 = save_history md /\
                      per_second_calculation md3 = per_second_calculation md /\
                      (initialized s = false -> md3 = md) /\
                      (initialized s = true -> save_history md = true ->
                       (feeds s i -> length (values md3) = S (length (values md))) /\
                       (~ feeds s i -> md3 = md))).
    { destruct (decide (i = lag_ref)) as [-> | Hnl].
      - assert (lag_ref <> ratio_ref) as Hnr by discriminate.
        rewrite (Hc1 Hnr), (Hl2 eq_refl).
        destruct (initialized s) eqn:Hinit.
        + destruct (md_add_static md (dict_get (replication_status s1) "Seconds_Behind" 0))
            as (E1 & E2 & _).
          split; [exact E1 |]. split; [exact E2 |]. split; [discriminate |].
          intros _ Hsave. split.
          * intros _. rewrite md_add_length. by rewrite Hsave.
          * intros Hnf. exfalso. apply Hnf. left. exact Hlag.
        + split; [reflexivity |]. split; [reflexivity |]. split; [reflexivity |].
          discriminate.
      - rewrite (Hl1 Hnl) in *.
        destruct (decide (i = ratio_ref)) as [-> | Hnr].
        + rewrite (Hc2 eq_refl).
          destruct (initialized s) eqn:Hinit.
          * destruct (md_add_static md (py_int ratio)) as (E1 & E2 & _).
            split; [exact E1 |]. split; [exact E2 |]. split; [discriminate |].
            intros _ Hsave. split.
            -- intros _. rewrite md_add_length. by rewrite Hsave.
            -- intros Hnf. exfalso. apply Hnf. right. left. exact Hratio.
          * split; [reflexivity |]. split; [reflexivity |]. split; [reflexivity |].
            discriminate.
        + rewrite (Hc1 Hnr).
          split; [reflexivity |]. split; [reflexivity |]. split; [reflexivity |].
          intros _ _. split; [| reflexivity].
          intros [Hf | [Hf | (src' & ts' & name' & conn' & Hsrc' & Hts' & Hcs)]].
          * exfalso. apply Hnl. congruence.
          * exfalso. apply Hnr. congruence.
          * exfalso. apply Hnin. apply table_refs_elem.
            exists src', ts', name', conn'. split; assumption. }
    destruct Hstatic as (S1 & S2 & S3 & S4).
    split; [congruence |]. split; [congruence |].
    split; [intros Hin; contradiction |].
    split.
    + intros Hinit Hnil. rewrite Hv, (S3 Hinit). exact Hnil.
    + intros Hinit Hsave _. destruct (S4 Hinit Hsave) as [S5 S6].
      rewrite Hv. split; [exact S5 |]. intros Hnf. rewrite (S6 Hnf). reflexivity.
Qed.

(** ** Eviction *)

(** [s'] differs from [s] in the heap and the clock only. *)
Definition same_but_clock (s s' : MetricManager) : Prop :=
  s' = set_datetimes (set_heap s (heap s')) (datetimes s').

Lemma same_but_clock_fields (s s' : MetricManager) :
  same_but_clock s s' ->
  initialized s' = initialized s /\
  connection_source s' = connection_source s /\
  metrics s' = metrics s /\
  _source_to_metrics_processing s' = _source_to_metrics_processing s /\
  _all_metrics_data_history s' = _all_metrics_data_history s /\
  replay_file s' = replay_file s /\
  daemon_mode s' = daemon_mode s.
Proof. unfold same_but_clock. intros H. rewrite H. by repeat split. Qed.

Lemma drop_S_tail {A} (k : nat) (l : list A) : drop (S k) l = drop k (tail l).
Proof. destruct l; simpl; [by rewrite drop_nil | done]. Qed.

(** What a sweep that removes [k] timestamps does to each object. *)
Definition evicted (s : MetricManager) (k : nat) (i : ref) (md md' : MetricData)
  : Prop :=
  (i ∈ _all_metrics_data_history s -> md' = with_values md (drop k (values md))) /\
  (i ∉ _all_metrics_data_history s -> md' = md).

Section Eviction.

Variable strptime : string -> option Z.

Lemma cleanup_loop_post (time_threshold : Z) (dts : list string) :
  forall s, NoDup (_all_metrics_data_history s) ->
    exists k,
      (k <= length dts)%nat /\
      datetimes (cleanup_loop strptime time_threshold dts s) = drop k dts /\
      same_but_clock s (cleanup_loop strptime time_threshold dts s) /\
      heap_rel (evicted s k) (heap s)
        (heap (cleanup_loop strptime time_threshold dts s)).
Proof.
  induction dts as [| d rest IH]; intros s Hnd.
  - exists 0%nat. simpl. repeat split; try done.
    intros i md Hmd. exists md. split; [done |].
    split; [| done]. intros _. by rewrite drop_0, with_values_same.
  - assert (Hpop :
      exists k, (k <= length (d :: rest))%nat /\
        datetimes (cleanup_loop strptime time_threshold rest
                     (popleft_history (set_datetimes s rest))) = drop k (d :: rest) /\
        same_but_clock s (cleanup_loop strptime time_threshold rest
                            (popleft_history (set_datetimes s rest))) /\
        heap_rel (evicted s k) (heap s)
          (heap (cleanup_loop strptime time_threshold rest
                   (popleft_history (set_datetimes s rest))))).
    { destruct (popleft_history_post (set_datetimes s rest)) as [Hf Hr]; [done |].
      set (s1 := popleft_history (set_datetimes s rest)) in *.
      destruct (same_frame_fields _ _ Hf) as (_ & _ & _ & _ & _ & _ & Hh1 & _).
      simpl in Hh1.
      destruct (IH s1) as (k & Hk & Hd & Hf' & Hr'); [by rewrite Hh1 |].
      exists (S k). split; [simpl; lia |]. split; [done |].
      split.
      { unfold same_but_clock in *. unfold same_frame in Hf.
        rewrite Hf'. rewrite Hf at 1. reflexivity. }
      eapply heap_rel_trans; [| exact Hr | exact Hr'].
      simpl. unfold evicted. rewrite Hh1.
      intros i x y z [P1 P2] [Q1 Q2]. split.
      - intros Hi. rewrite (Q1 Hi), (P2 Hi). simpl. by rewrite drop_S_tail.
      - intros Hi. by rewrite (Q2 Hi), (P1 Hi). }
    simpl. destruct (strptime d) as [first_dt |]; [| exact Hpop].
    destruct (first_dt <? time_threshold)%Z; [exact Hpop |].
    exists 0%nat. simpl. split; [lia |]. repeat split; try done.
    intros i md Hmd. exists md. split; [done |].
    split; [| done]. intros _. by rewrite drop_0, with_values_same.
Qed.

Lemma daemon_cleanup_data_post (now : Z) (s : MetricManager) :
  NoDup (_all_metrics_data_history s) ->
  exists k,
    (k <= length (datetimes s))%nat /\
    datetimes (daemon_cleanup_data strptime now s) = drop k (datetimes s) /\
    same_but_clock s (daemon_cleanup_data strptime now s) /\
    heap_rel (evicted s k) (heap s) (heap (daemon_cleanup_data strptime now s)).
Proof.
  intros Hnd. unfold daemon_cleanup_data.
  destruct (negb (daemon_mode s) || bool_decide (datetimes s = [])).
  - exists 0%nat. split; [lia |]. split; [done |].
    split; [unfold same_but_clock; by destruct s |].
    apply heap_rel_refl. intros i md _. split; [| done].
    intros _. by rewrite drop_0, with_values_same.
  - by apply cleanup_loop_post.
Qed.

End Eviction.

(** ** The live-session invariant *)

(** Every series of the processing table has been observed. *)
Definition all_observed (s : MetricManager) : Prop :=
  forall r md,
    r ∈ table_refs (_source_to_metrics_processing s) ->
    heap s !! r = Some md -> last_value md <> None.

(** Nothing is stored. *)
Definition blank (s : MetricManager) : Prop :=
  datetimes s = [] /\ Forall (fun md => values md = []) (heap s).

(** Every history-bearing series that the session feeds is as long as the
    clock; the other history-bearing series are empty. *)
Definition lockstep (s : MetricManager) : Prop :=
  forall r md,
    r ∈ _all_metrics_data_history s ->
    heap s !! r = Some md ->
    (feeds s r -> length (values md) = length (datetimes s)) /\
    (~ feeds s r -> values md = []).

Definition live_invariant (s : MetricManager) : Prop :=
  well_formed s /\
  replaying s = false /\
  (initialized s = false -> blank s) /\
  (initialized s = true -> all_observed s) /\
  lockstep s.

Definition static_rel (_ : ref) (md md' : MetricData) : Prop :=
  save_history md' = save_history md /\
  per_second_calculation md' = per_second_calculation md.

Lemma heap_rel_inv (P : ref -> MetricData -> MetricData -> Prop)
    (h h' : list MetricData) (i : ref) (md' : MetricData) :
  heap_rel P h h' -> h' !! i = Some md' ->
  exists md, h !! i = Some md /\ P i md md'.
Proof.
  intros [Hlen H] Hi.
  assert (Hlt : (i < length h)%nat) by (rewrite <- Hlen; by eapply lookup_lt_Some).
  apply lookup_lt_is_Some in Hlt as [md Hmd].
  destruct (H i md Hmd) as (md'' & Hi'' & HP).
  exists md. split; [done |]. congruence.
Qed.

Lemma well_formed_step (s s' : MetricManager) :
  well_formed s ->
  metrics s' = metrics s ->
  _source_to_metrics_processing s' = _source_to_metrics_processing s ->
  _all_metrics_data_history s' = _all_metrics_data_history s ->
  heap_rel static_rel (heap s) (heap s') ->
  well_formed s'.
Proof.
  intros (Hm & Ht & Hh & Hwf) Em Et Eh Hr.
  split; [congruence |]. split; [congruence |]. split; [congruence |].
  eapply heap_rel_trans; [| exact Hwf | exact Hr].
  unfold static_rel. simpl. intros i a b c [A1 A2] [B1 B2]. split; congruence.
Qed.

Lemma feeds_ext (s s' : MetricManager) (r : ref) :
  metrics s' = metrics s ->
  _source_to_metrics_processing s' = _source_to_metrics_processing s ->
  connection_source s' = connection_source s ->
  feeds s' r <-> feeds s r.
Proof. unfold feeds, metric_ref. by intros -> -> ->. Qed.

Lemma cycle_rel_static (s : MetricManager) (h h' : list MetricData) :
  heap_rel (cycle_rel s) h h' -> heap_rel static_rel h h'.
Proof.
  apply heap_rel_weaken. intros i md md' _ (A & B & _). by split.
Qed.

Lemma evicted_static (s : MetricManager) (k : nat) (h h' : list MetricData) :
  heap_rel (evicted s k) h h' -> heap_rel static_rel h h'.
Proof.
  apply heap_rel_weaken. intros i md md' _ [A B].
  destruct (decide (i ∈ _all_metrics_data_history s)) as [Hi | Hi].
  - rewrite (A Hi). by split.
  - rewrite (B Hi). by split.
Qed.

Section LiveSession.

Variable strftime : Z -> string.
Variable strptime : string -> option Z.

Lemma store_arguments_fields (s : MetricManager) (a : RefreshArgs) :
  heap (store_arguments s a) = heap s /\
  metrics (store_arguments s a) = metrics s /\
  _source_to_metrics_processing (store_arguments s a)
  = _source_to_metrics_processing s /\
  _all_metrics_data_history (store_arguments s a) = _all_metrics_data_history s /\
  initialized (store_arguments s a) = initialized s /\
  datetimes (store_arguments s a) = datetimes s /\
  connection_source (store_arguments s a) = connection_source s /\
  replaying (store_arguments s a) = replaying s /\
  daemon_mode (store_arguments s a) = daemon_mode s /\
  worker_start_time (store_arguments s a) = Some (arg_worker_start_time a).
Proof. by repeat split. Qed.

(** The first cycle after a reset: nothing is stored, whatever the mode. *)
Lemma refresh_data_first (now : Z) (s : MetricManager) (a : RefreshArgs) :
  well_formed s -> initialized s = false -> blank s ->
  exists s',
    refresh_data strftime strptime now s a = Some s' /\
    well_formed s' /\ blank s' /\ initialized s' = true /\
    connection_source s' = connection_source s /\
    replaying s' = replaying s /\
    (replaying s = false -> all_observed s').
Proof.
  intros Hwf Hinit [Hdt Hvals]. unfold refresh_data.
  destruct (store_arguments_fields s a)
    as (Eh & Em & Et & Ehi & Ei & Ed & Ec & Er & Edm & Ew).
  set (s0 := store_arguments s a) in *.
  assert (Hwf0 : well_formed s0).
  { eapply well_formed_step; eauto. rewrite Eh. by apply heap_rel_refl. }
  assert (Hquiet : forall s1, initialized s1 = false -> datetimes s1 = [] ->
            daemon_cleanup_data strptime now (add_metric_datetime strftime s1) = s1).
  { intros s1 Hi1 Hd1. unfold add_metric_datetime. rewrite Hi1. simpl.
    unfold daemon_cleanup_data. rewrite Hd1.
    rewrite bool_decide_true by done. by rewrite orb_true_r. }
  destruct (replaying s0) eqn:Hrep; simpl.
  - rewrite Hquiet by congruence. eexists. split; [done |]. simpl.
    split; [eapply well_formed_step; eauto; rewrite Eh; by apply heap_rel_refl |].
    split; [split; simpl; congruence |].
    repeat split; try done; try congruence.
  - destruct (update_all_post s0 Hwf0) as (s4 & -> & Hf & Hr).
    destruct (same_frame_fields _ _ Hf)
      as (Hi4 & Hc4 & _ & Hd4 & Hm4 & Ht4 & Hh4 & Hr4 & _).
    rewrite Hquiet by congruence. eexists. split; [done |]. simpl.
    split.
    { eapply well_formed_step; [exact Hwf0 | done | done | done |].
      by eapply cycle_rel_static. }
    split.
    { split; simpl; [congruence |].
      apply Forall_lookup. intros i md' Hmd'.
      destruct (heap_rel_inv _ _ _ _ _ Hr Hmd') as (md & Hmd & _ & _ & _ & Hb & _).
      apply Hb; [congruence |]. rewrite Eh in Hmd.
      by eapply (proj1 (Forall_lookup _ _) Hvals). }
    repeat split; try done; try congruence.
    intros _ r md' Hin Hmd'. simpl in *.
    destruct (heap_rel_inv _ _ _ _ _ Hr Hmd') as (md & Hmd & _ & _ & Hl & _).
    apply Hl. rewrite Ht4 in Hin. exact Hin.
Qed.

(** A later cycle of a live session keeps the invariant. *)
Lemma refresh_data_later (now : Z) (s : MetricManager) (a : RefreshArgs) :
  live_invariant s -> initialized s = true ->
  exists s',
    refresh_data strftime strptime now s a = Some s' /\
    live_invariant s' /\ initialized s' = true /\
    connection_source s' = connection_source s.
Proof.
  intros (Hwf & Hlive & _ & Hobs & Hlock) Hinit. specialize (Hobs Hinit).
  unfold refresh_data.
  destruct (store_arguments_fields s a)
    as (Eh & Em & Et & Ehi & Ei & Ed & Ec & Er & Edm & Ew).
  set (s0 := store_arguments s a) in *.
  assert (Hwf0 : well_formed s0).
  { eapply well_formed_step; eauto. rewrite Eh. by apply heap_rel_refl. }
  rewrite Er, Hlive. simpl.
  destruct (update_all_post s0 Hwf0) as (s4 & -> & Hf & Hr).
  destruct (same_frame_fields _ _ Hf)
    as (Hi4 & Hc4 & _ & Hd4 & Hm4 & Ht4 & Hh4 & Hr4 & Hdm4 & Hw4 & _).
  unfold add_metric_datetime.
  rewrite Hi4, Ei, Hinit, Hr4, Er, Hlive, Hw4, Ew. simpl.
  set (s5 := set_datetimes s4 _).
  assert (Hnd5 : NoDup (_all_metrics_data_history s5)).
  { simpl. rewrite Hh4, Ehi. destruct Hwf as (_ & _ & -> & _).
    apply catalogue_history_NoDup. }
  destruct (daemon_cleanup_data_post strptime now s5 Hnd5)
    as (k & Hk & Hdk & Hf6 & Hr6).
  set (s6 := daemon_cleanup_data strptime now s5) in *.
  destruct (same_but_clock_fields _ _ Hf6) as (Hi6 & Hc6 & Hm6 & Ht6 & Hh6 & Hrf6 & _).
  simpl in Hi6, Hc6, Hm6, Ht6, Hh6, Hrf6, Hr6, Hdk, Hk.
  eexists. split; [reflexivity |].
  clearbody s6.
  assert (Hwf6 : well_formed s6).
  { eapply well_formed_step; [exact Hwf0 | congruence | congruence | congruence |].
    eapply heap_rel_trans; [| eapply cycle_rel_static; exact Hr
                            | eapply evicted_static; exact Hr6].
    unfold static_rel. simpl. intros i x y z [A1 A2] [B1 B2]. split; congruence. }
  split; [| split; [reflexivity | simpl; congruence]].
  split; [exact Hwf6 |].
  split.
  { transitivity (replaying s4); [| congruence].
    unfold replaying. simpl. rewrite Hrf6. reflexivity. }
  split; [discriminate |].
  split.
  { intros _ r md6 Hin Hmd6.
    change (r ∈ table_refs (_source_to_metrics_processing s6)) in Hin.
    change (heap s6 !! r = Some md6) in Hmd6.
    destruct (heap_rel_inv _ _ _ _ _ Hr6 Hmd6) as (md4 & Hmd4 & Hev).
    destruct (heap_rel_inv _ _ _ _ _ Hr Hmd4) as (md & Hmd & _ & _ & Hl & _).
    assert (last_value md4 <> None) as Hl4.
    { apply Hl. rewrite Ht6, Ht4 in Hin. exact Hin. }
    destruct Hev as [A B].
    destruct (decide (r ∈ _all_metrics_data_history s5)) as [Hi | Hi].
    - rewrite (A Hi). exact Hl4.
    - rewrite (B Hi). exact Hl4. }
  intros r md6 Hin Hmd6.
  change (r ∈ _all_metrics_data_history s6) in Hin.
  change (heap s6 !! r = Some md6) in Hmd6.
  change (datetimes (set_initialized s6 true)) with (datetimes s6).
  destruct (heap_rel_inv _ _ _ _ _ Hr6 Hmd6) as (md4 & Hmd4 & Hev).
  destruct (heap_rel_inv _ _ _ _ _ Hr Hmd4) as (md & Hmd & Hc).
  rewrite Hh6 in Hin. destruct Hev as [Hev _].
  rewrite (Hev Hin). cbn [values with_values].
  rewrite Hdk, !length_drop, length_app. cbn [length].
  rewrite Hh4, Ehi in Hin. rewrite Eh in Hmd.
  destruct (Hlock r md Hin Hmd) as [Lf Ln].
  destruct Hc as (_ & _ & _ & _ & Hc).
  destruct Hwf as (Wm & Wt & Wh & [_ Wr]).
  assert (Hsave : save_history md = true).
  { rewrite Wh in Hin.
    destruct (catalogue_history_spec r Hin) as [(md0 & Hmd0 & Hs0) _].
    destruct (Wr r md0 Hmd0) as (md' & Hmd' & E & _).
    assert (md' = md) by congruence. subst md'. congruence. }
  destruct Hc as [Cf Cn]; [congruence | exact Hsave | |].
  { intros Hr0. apply (Hobs r md); [rewrite <- Et; exact Hr0 | exact Hmd]. }
  assert (Hf0s : feeds s0 r <-> feeds s r) by (by apply feeds_ext).
  assert (Hf6s : feeds (set_initialized s6 true) r <-> feeds s r).
  { apply feeds_ext; simpl; congruence. }
  split.
  - intros Hfeed.
    assert (Hfs : feeds s r) by (apply Hf6s; exact Hfeed).
    rewrite (Cf (proj2 Hf0s Hfs)), Hd4, Ed, <- (Lf Hfs). lia.
  - intros Hnf.
    assert (Hnfs : ~ feeds s r) by (intros Hx; apply Hnf, Hf6s; exact Hx).
    assert (Hnf0 : ~ feeds s0 r) by (intros Hx; apply Hnfs, Hf0s; exact Hx).
    rewrite (Cn Hnf0), (Ln Hnfs). rewrite drop_nil. reflexivity.
Qed.

End LiveSession.

(** ** Sessions *)

Section Sessions.

Variable strftime : Z -> string.
Variable strptime : string -> option Z.

(** A sequence of ingest cycles, each with the clock reading for the
    eviction sweep and the polled data. *)
Definition cycles (s : MetricManager) (l : list (Z * RefreshArgs))
  : option MetricManager :=
  foldM (fun s1 c => refresh_data strftime strptime c.1 s1 c.2) s l.

Lemma reset_well_formed (s0 : MetricManager) : well_formed (reset s0).
Proof.
  destruct (reset_catalogue s0) as (Em & Et & Eh & Ehp & _).
  split; [exact Em |]. split; [exact Et |]. split; [exact Eh |].
  rewrite Ehp. apply heap_rel_refl. intros i md _. by split.
Qed.

Lemma reset_blank (s0 : MetricManager) : blank (reset s0).
Proof.
  destruct (reset_catalogue s0) as (_ & _ & _ & Ehp & _ & Ed & _).
  split; [exact Ed |]. rewrite Ehp.
  eapply Forall_impl; [apply catalogue_heap_fresh |]. by intros md [? _].
Qed.

Lemma blank_lockstep (s : MetricManager) : blank s -> lockstep s.
Proof.
  intros [Hd Hv] r md _ Hmd.
  assert (values md = []) as E by (by eapply (proj1 (Forall_lookup _ _) Hv)).
  rewrite E, Hd. by split.
Qed.

Lemma reset_live_invariant (s0 : MetricManager) :
  replaying s0 = false -> live_invariant (reset s0).
Proof.
  intros Hlive. destruct (reset_catalogue s0) as (_ & _ & _ & _ & Ei & _ & _ & Er & _).
  split; [apply reset_well_formed |].
  split; [unfold replaying in *; by rewrite Er |].
  split; [intros _; apply reset_blank |].
  split; [intros H; rewrite Ei in H; discriminate H |].
  apply blank_lockstep, reset_blank.
Qed.

Lemma refresh_data_live_invariant (now : Z) (s : MetricManager) (a : RefreshArgs) :
  live_invariant s ->
  exists s',
    refresh_data strftime strptime now s a = Some s' /\
    live_invariant s' /\ initialized s' = true /\
    connection_source s' = connection_source s.
Proof.
  intros Hinv. destruct (initialized s) eqn:Hinit.
  - by apply refresh_data_later.
  - destruct Hinv as (Hwf & Hlive & Hblank & _ & _).
    destruct (refresh_data_first strftime strptime now s a Hwf Hinit (Hblank Hinit))
      as (s' & E & Hwf' & Hb' & Hi' & Hc' & Hr' & Ho').
    exists s'. split; [exact E |]. split; [| by split].
    split; [exact Hwf' |]. split; [congruence |].
    split; [intros H; rewrite Hi' in H; discriminate H |].
    split; [intros _; apply Ho'; exact Hlive |].
    by apply blank_lockstep.
Qed.

Lemma cycles_live_invariant (l : list (Z * RefreshArgs)) (s : MetricManager) :
  live_invariant s ->
  exists s', cycles s l = Some s' /\ live_invariant s' /\
             connection_source s' = connection_source s.
Proof.
  unfold cycles. revert s. induction l as [| [now a] l IH]; intros s Hinv.
  - by exists s.
  - simpl. destruct (refresh_data_live_invariant now s a Hinv)
      as (s1 & -> & Hinv1 & _ & Hc1).
    destruct (IH s1 Hinv1) as (s' & E & Hinv' & Hc').
    exists s'. split; [exact E |]. split; [exact Hinv' | congruence].
Qed.

End Sessions.

(** ** Initialisation gating *)

(** C10. For a freshly reset (and so also a freshly constructed) manager,
    the first complete ingest cycle returns, stores no value in any
    series (gauges, the derived ratio and the replication lag included)
    and appends no timestamp to the clock; [initialized] is false until
    the end of that cycle, and while it is false [add_metric] and
    [add_metric_datetime] do nothing. *)
Theorem C10_first_cycle_stores_nothing (strftime : Z -> string)
    (strptime : string -> option Z) (now : Z) (s0 : MetricManager)
    (a : RefreshArgs) :
  initialized (reset s0) = false /\
  (exists s',
     refresh_data strftime strptime now (reset s0) a = Some s' /\
     datetimes s' = [] /\
     Forall (fun md => values md = []) (heap s') /\
     (forall inst attr vs, series_values s' inst attr = Some vs -> vs = []) /\
     initialized s' = true) /\
  (forall replay_file daemon, exists s',
     refresh_data strftime strptime now (MetricManager_new replay_file daemon) a
     = Some s' /\ blank s') /\
  (forall self r v, initialized self = false -> add_metric self r v = self) /\
  (forall self, initialized self = false ->
     add_metric_datetime strftime self = self).
Proof.
  assert (Hfirst : forall s1, exists s',
            refresh_data strftime strptime now (reset s1) a = Some s' /\
            blank s' /\ initialized s' = true).
  { intros s1. destruct (reset_catalogue s1) as (_ & _ & _ & _ & Ei & _).
    destruct (refresh_data_first strftime strptime now (reset s1) a
                (reset_well_formed s1) Ei (reset_blank s1))
      as (s' & E & _ & Hb & Hi & _).
    exists s'. split; [exact E |]. split; [exact Hb | exact Hi]. }
  split; [destruct (reset_catalogue s0) as (_ & _ & _ & _ & Ei & _); exact Ei |].
  split.
  { destruct (Hfirst s0) as (s' & E & [Hd Hv] & Hi).
    exists s'. repeat split; try assumption.
    intros inst attr vs. unfold series_values.
    destruct (metric_ref s' inst attr) as [r |]; [| discriminate].
    destruct (heap s' !! r) as [md |] eqn:Hmd; [| discriminate].
    simpl. intros [= <-]. exact (proj1 (Forall_lookup _ _) Hv r md Hmd). }
  split.
  { intros rf dm. unfold MetricManager_new.
    destruct (Hfirst (mkMetricManager postgresql rf dm None ∅ ∅ ∅ ∅ ∅ ∅ ∅ ∅
                        false 0 [] [] [] [] [])) as (s' & E & Hb & _).
    exists s'. split; [exact E | exact Hb]. }
  split.
  { intros self r v Hi. unfold add_metric. rewrite Hi. reflexivity. }
  intros self Hi. unfold add_metric_datetime. rewrite Hi. reflexivity.
Qed.


(** ** Redaction *)

#[local] Arguments String.append !_ _ : simpl nomatch.

(** [k] contains [p] up to the case of ASCII letters: some substring of
    [k] lower-cases to [p]. *)
Definition ci_contains (p k : string) : Prop :=
  exists pre mid post, k = pre +:+ mid +:+ post /\ lower mid = p.

Lemma lower_app (a b : string) : lower (a +:+ b) = lower a +:+ lower b.
Proof. induction a as [| c a IH]; simpl; [done | by rewrite IH]. Qed.

Lemma lower_app_inv (k a b : string) :
  lower k = a +:+ b -> exists a' b', k = a' +:+ b' /\ lower a' = a /\ lower b' = b.
Proof.
  revert k. induction a as [| c a IH]; intros k Hk; simpl in Hk.
  - by exists EmptyString, k.
  - destruct k as [| c' k]; simpl in Hk; [discriminate |].
    injection Hk as Hc Hk. destruct (IH k Hk) as (a' & b' & -> & Ha & Hb).
    exists (String c' a'), b'. simpl. by rewrite Hc, Ha.
Qed.

Lemma str_startswith_spec (p s : string) :
  str_startswith p s = true <-> exists post, s = p +:+ post.
Proof.
  revert s. induction p as [| a p IH]; intros s; simpl.
  - split; [by exists s | done].
  - destruct s as [| b s].
    + split; [done | by intros [post H]].
    + rewrite andb_true_iff, IH. split.
      * intros [Hab [post ->]]. apply Ascii.eqb_eq in Hab as ->. by exists post.
      * intros [post H]. injection H as -> ->. split; [apply Ascii.eqb_refl | by exists post].
Qed.

Lemma str_in_spec (p s : string) :
  str_in p s = true <-> exists pre post, s = pre +:+ p +:+ post.
Proof.
  induction s as [| c s IH]; simpl.
  - rewrite orb_false_r, str_startswith_spec. split.
    + intros [post H]. by exists EmptyString, post.
    + intros (pre & post & H). destruct pre; [by exists post | discriminate].
  - rewrite orb_true_iff, str_startswith_spec, IH. split.
    + intros [[post H] | (pre & post & ->)].
      * by exists EmptyString, post.
      * by exists (String c pre), post.
    + intros (pre & post & H). destruct pre as [| c' pre].
      * left. by exists post.
      * right. injection H as -> ->. by exists pre, post.
Qed.

(** The test of [_filter_variables] is containment up to case. *)
Lemma str_in_lower_spec (p k : string) :
  str_in p (lower k) = true <-> ci_contains p k.
Proof.
  rewrite str_in_spec. unfold ci_contains. split.
  - intros (pre & post & H).
    apply lower_app_inv in H as (pre' & rest & -> & Hpre & Hrest).
    apply lower_app_inv in Hrest as (mid & post' & -> & Hmid & Hpost).
    by exists pre', mid, post'.
  - intros (pre & mid & post & -> & <-).
    exists (lower pre), (lower post). by rewrite !lower_app.
Qed.

Lemma _filter_variables_spec (variables : list (string * string)) (k v : string) :
  In (k, v) (_filter_variables variables) <->
  In (k, v) variables /\ forall p, In p exclude_patterns -> ~ ci_contains p k.
Proof.
  unfold _filter_variables. rewrite filter_In. simpl.
  rewrite negb_true_iff, !orb_false_iff.
  split.
  - intros [Hin (H1 & H2 & H3 & _)]. split; [done |].
    intros p [<- | [<- | [<- | []]]] Hc; apply str_in_lower_spec in Hc; congruence.
  - intros [Hin Hno]. split; [done |].
    assert (forall p, In p exclude_patterns -> str_in p (lower k) = false) as Hf.
    { intros p Hp. apply not_true_is_false. intros Ht.
      apply (Hno p Hp). by apply str_in_lower_spec. }
    repeat split; try apply Hf; simpl; tauto.
Qed.

(** ** The replay file: what the recorder writes is what the player loads *)

(** A serialised record that the line format can carry: not empty, free
    of line breaks, and without white space at either end (a JSON object
    starts with an opening and ends with a closing brace). *)
Definition clean_record (d : string) : Prop :=
  d <> EmptyString /\ str_in (String "010"%char EmptyString) d = false /\
  lstrip d = d /\ rstrip d = d.

Definition newline : string := String "010"%char EmptyString.
#[local] Arguments newline : simpl never.

(** The decompressed content of a file that received the given records,
    each followed by a line break. *)
Fixpoint file_content (records : list string) : string :=
  match records with
  | [] => EmptyString
  | d :: rest => d +:+ newline +:+ file_content rest
  end.

Lemma str_in_newline_cons (c : ascii) (d : string) :
  str_in newline (String c d) = false ->
  Ascii.eqb c "010"%char = false /\ str_in newline d = false.
Proof.
  simpl. intros H. apply orb_false_iff in H as [H1 H2].
  split; [| done]. destruct (Ascii.eqb c "010"%char) eqn:E; [| done].
  apply Ascii.eqb_eq in E as ->. simpl in H1. destruct d; discriminate.
Qed.

Lemma split_newline_nonempty (s : string) : split_newline s <> [].
Proof.
  induction s as [| c s IH]; simpl; [done |].
  destruct (Ascii.eqb c "010"%char); [done |].
  by destruct (split_newline s).
Qed.

Lemma split_newline_record (d rest : string) :
  str_in newline d = false ->
  split_newline (d +:+ newline +:+ rest) = d :: split_newline rest.
Proof.
  induction d as [| c d IH]; intros Hd; simpl.
  - done.
  - apply str_in_newline_cons in Hd as [Hc Hd]. rewrite Hc.
    change (d +:+ String "010"%char rest) with (d +:+ newline +:+ rest).
    by rewrite IH.
Qed.

Lemma split_newline_last (d : string) :
  str_in newline d = false -> split_newline d = [d].
Proof.
  induction d as [| c d IH]; intros Hd; simpl; [done |].
  apply str_in_newline_cons in Hd as [Hc Hd].
  by rewrite Hc, IH.
Qed.

Lemma rstrip_app_kept (a b : string) :
  b <> EmptyString -> rstrip b = b -> rstrip (a +:+ b) = a +:+ b.
Proof.
  intros Hne Hb. induction a as [| c a IH]; simpl; [done |].
  rewrite IH. change (String c a +:+ b) with (String c (a +:+ b)).
  destruct (a +:+ b) eqn:E; [| done].
  destruct a; simpl in E; [by subst | discriminate].
Qed.

Lemma rstrip_newline (s : string) : rstrip (s +:+ newline) = rstrip s.
Proof.
  induction s as [| c s IH]; simpl; [done |]. by rewrite IH.
Qed.

Lemma lstrip_app_kept (a b : string) :
  a <> EmptyString -> lstrip a = a -> lstrip (a +:+ b) = a +:+ b.
Proof.
  intros Hne Ha. destruct a as [| c a]; [done |]. simpl in *.
  destruct (is_py_space c); [| done].
  exfalso. clear -Ha.
  assert (forall s, String.length (lstrip s) <= String.length s)%nat as Hlen.
  { induction s as [| c' s IH]; simpl; [lia |].
    destruct (is_py_space c'); simpl; lia. }
  apply (f_equal String.length) in Ha. simpl in Ha. specialize (Hlen a). lia.
Qed.

Lemma app_assoc_string (a b c : string) : (a +:+ b) +:+ c = a +:+ b +:+ c.
Proof. induction a as [| x a IH]; simpl; [done | by f_equal]. Qed.

(** The content without its final line break. *)
Fixpoint joined (records : list string) : string :=
  match records with
  | [] => EmptyString
  | [d] => d
  | d :: rest => d +:+ newline +:+ joined rest
  end.

Lemma file_content_joined (d : string) (rest : list string) :
  file_content (d :: rest) = joined (d :: rest) +:+ newline.
Proof.
  revert d. induction rest as [| d' rest IH]; intros d.
  - reflexivity.
  - change (file_content (d :: d' :: rest))
      with (d +:+ newline +:+ file_content (d' :: rest)).
    rewrite IH.
    change (joined (d :: d' :: rest)) with (d +:+ newline +:+ joined (d' :: rest)).
    by rewrite !app_assoc_string.
Qed.

Lemma joined_clean (d : string) (rest : list string) :
  Forall clean_record (d :: rest) ->
  joined (d :: rest) <> EmptyString /\
  lstrip (joined (d :: rest)) = joined (d :: rest) /\
  rstrip (joined (d :: rest)) = joined (d :: rest).
Proof.
  revert d. induction rest as [| d' rest IH]; intros d Hall.
  - apply Forall_cons in Hall as [(Hne & _ & Hl & Hr) _]. by simpl.
  - apply Forall_cons in Hall as [(Hne & _ & Hl & Hr) Hrest].
    destruct (IH d' Hrest) as (Hne' & Hl' & Hr').
    change (joined (d :: d' :: rest)) with (d +:+ newline +:+ joined (d' :: rest)).
    split; [by destruct d |]. split.
    + by apply lstrip_app_kept.
    + rewrite <- !app_assoc_string. by apply rstrip_app_kept.
Qed.

Lemma strip_file_content (d : string) (rest : list string) :
  Forall clean_record (d :: rest) ->
  strip (file_content (d :: rest)) = joined (d :: rest).
Proof.
  intros Hall. destruct (joined_clean d rest Hall) as (Hne & Hl & Hr).
  rewrite file_content_joined. unfold strip.
  rewrite lstrip_app_kept by done. by rewrite rstrip_newline.
Qed.

Lemma split_joined (d : string) (rest : list string) :
  Forall clean_record (d :: rest) ->
  split_newline (joined (d :: rest)) = d :: rest.
Proof.
  revert d. induction rest as [| d' rest IH]; intros d Hall.
  - apply Forall_cons in Hall as [(_ & Hnl & _) _]. by apply split_newline_last.
  - apply Forall_cons in Hall as [(_ & Hnl & _) Hrest].
    change (joined (d :: d' :: rest)) with (d +:+ newline +:+ joined (d' :: rest)).
    rewrite split_newline_record by done. by rewrite IH.
Qed.

Lemma Forall2_map_inv {A B C} (g : A -> B) (P : B -> C -> Prop)
    (l : list A) (k : list C) :
  Forall2 P (List.map g l) k -> Forall2 (fun a c => P (g a) c) l k.
Proof.
  revert k. induction l as [| a l IH]; intros k H; inversion H; subst;
    constructor; auto.
Qed.

Section RecordAndLoad.

Variable orjson_dumps : ReplayFrame -> option string.
Variable orjson_loads : string -> option ReplayFrame.
Variable writer_accepts : list string -> string -> bool.
Variable read_decompressed : string -> option string.
Variable decode_utf8 : string -> option string.

(** A recording session: one [capture_state] per cycle, each with its
    time stamp and the state of [Hastin] at that time. *)
Definition record_session (captures : list (string * Hastin)) (rm : ReplayManager)
  : ReplayManager :=
  fold_left (fun rm1 c => capture_state orjson_dumps writer_accepts c.1 c.2 rm1)
    captures rm.

(** What the stream writer received, as one byte string. *)
Definition stream_content (chunks : list string) : string :=
  fold_right String.append EmptyString chunks.

(** The behaviour of the libraries that a recording relies on, for the
    frames of one session: serialisation succeeds with a clean record,
    and parsing that record gives the frame back. *)
Definition faithful_codec (frames : list ReplayFrame) : Prop :=
  Forall (fun f => exists d, orjson_dumps f = Some d /\
                             orjson_loads d = Some f /\ clean_record d) frames.

Lemma load_lines_fails (lines : list string) (acc : list ReplayFrame) :
  (exists line, In line lines /\ line <> EmptyString /\ orjson_loads line = None) ->
  load_lines orjson_loads lines acc = None.
Proof.
  revert acc. induction lines as [| l lines IH]; intros acc (line & Hin & Hne & Hfail).
  - destruct Hin.
  - simpl. destruct (String.eqb_spec l EmptyString) as [-> | Hl].
    + apply IH. destruct Hin as [<- | Hin]; [done |]. by exists line.
    + destruct Hin as [-> | Hin]; [by rewrite Hfail |].
      destruct (orjson_loads l); [| done]. apply IH. by exists line.
Qed.

Lemma load_lines_records (frames : list ReplayFrame) (records : list string)
    (acc : list ReplayFrame) :
  Forall2 (fun f d => orjson_loads d = Some f /\ d <> EmptyString) frames records ->
  load_lines orjson_loads records acc = Some (acc ++ frames).
Proof.
  intros H. revert acc. induction H as [| f d frames records [Hl Hne] _ IH]; intros acc.
  - simpl. by rewrite app_nil_r.
  - simpl. destruct (String.eqb_spec d EmptyString) as [-> | _]; [done |].
    rewrite Hl, IH. by rewrite <- app_assoc.
Qed.

(** The records of a session, as the recorder serialises them. *)
Lemma faithful_codec_records (frames : list ReplayFrame) :
  faithful_codec frames ->
  exists records,
    Forall2 (fun f d => orjson_dumps f = Some d) frames records /\
    Forall2 (fun f d => orjson_loads d = Some f /\ d <> EmptyString) frames records /\
    Forall clean_record records.
Proof.
  induction 1 as [| f frames (d & Hd & Hl & Hc) _ (records & H1 & H2 & H3)].
  - by exists [].
  - exists (d :: records). repeat split; constructor; try done.
    split; [done |]. by destruct Hc.
Qed.

Lemma capture_state_writes (now_iso : string) (h : Hastin) (rm : ReplayManager)
    (written : list string) (d : string) :
  record_for_replay h = true ->
  orjson_dumps (capture_data now_iso h) = Some d ->
  compressed_writer rm = Some written ->
  writer_accepts written (d +:+ newline) = true ->
  capture_state orjson_dumps writer_accepts now_iso h rm
  = mkReplayManager (rm_replay_file rm) (current_replay_id rm) (replay_data rm)
      (Some (written ++ [d +:+ newline])) (rm_log rm).
Proof.
  intros Hr Hd Hw Ha. unfold capture_state. rewrite Hr, Hd, Hw. simpl.
  change (d +:+ String "010"%char EmptyString) with (d +:+ newline).
  by rewrite Ha.
Qed.

Lemma record_session_writes (captures : list (string * Hastin))
    (records : list string) (rm : ReplayManager) (written : list string) :
  Forall (fun c => record_for_replay c.2 = true) captures ->
  Forall2 (fun c d => orjson_dumps (capture_data c.1 c.2) = Some d) captures records ->
  (forall w chunk, writer_accepts w chunk = true) ->
  compressed_writer rm = Some written ->
  compressed_writer (record_session captures rm)
  = Some (written ++ List.map (fun d => d +:+ newline) records) /\
  rm_log (record_session captures rm) = rm_log rm.
Proof.
  intros Hrec Hd Hw. revert rm written Hrec.
  induction Hd as [| c d captures records Hc _ IH]; intros rm written Hrec Hwr.
  - simpl. by rewrite app_nil_r.
  - apply Forall_cons in Hrec as [Hr Hrec].
    unfold record_session. cbn [fold_left].
    rewrite (capture_state_writes c.1 c.2 rm written d Hr Hc Hwr (Hw _ _)).
    destruct (IH (mkReplayManager (rm_replay_file rm) (current_replay_id rm)
                    (replay_data rm) (Some (written ++ [d +:+ newline])) (rm_log rm))
                 (written ++ [d +:+ newline]) Hrec eq_refl)
      as [E1 E2].
    unfold record_session in E1, E2. rewrite E1, E2.
    split; [| done]. cbn [List.map]. by rewrite <- app_assoc.
Qed.

Lemma stream_content_records (records : list string) :
  stream_content (List.map (fun d => d +:+ newline) records) = file_content records.
Proof.
  induction records as [| d records IH]; simpl; [done |].
  rewrite IH. by rewrite app_assoc_string.
Qed.

(** Recording a session and loading the resulting file gives back the
    frames that were captured, in order. *)
Lemma record_then_load (captures : list (string * Hastin)) (path raw : string)
    (chunks : list string) :
  Forall (fun c => record_for_replay c.2 = true) captures ->
  faithful_codec (List.map (fun c => capture_data c.1 c.2) captures) ->
  (forall w chunk, writer_accepts w chunk = true) ->
  compressed_writer
    (record_session captures
       (ReplayManager_new orjson_loads read_decompressed decode_utf8 None true))
  = Some chunks ->
  read_decompressed path = Some raw ->
  decode_utf8 raw = Some (stream_content chunks) ->
  path <> EmptyString ->
  replay_data
    (ReplayManager_new orjson_loads read_decompressed decode_utf8 (Some path) false)
  = List.map (fun c => capture_data c.1 c.2) captures /\
  current_replay_id
    (ReplayManager_new orjson_loads read_decompressed decode_utf8 (Some path) false)
  = 0%nat.
Proof.
  intros Hrec Hcodec Hw Hchunks Hread Hdecode Hpath.
  destruct (faithful_codec_records _ Hcodec) as (records & Hd & Hl & Hclean).
  pose proof (Forall2_map_inv (fun c : string * Hastin => capture_data c.1 c.2)
                (fun f d => orjson_dumps f = Some d) _ _ Hd) as Hd'.
  destruct (record_session_writes captures records
              (ReplayManager_new orjson_loads read_decompressed decode_utf8 None true)
              [] Hrec Hd' Hw eq_refl) as [Hwritten _].
  rewrite Hchunks in Hwritten. injection Hwritten as ->. simpl in Hdecode.
  rewrite stream_content_records in Hdecode.
  unfold ReplayManager_new.
  destruct (String.eqb_spec path EmptyString) as [-> | _]; [done |].
  unfold _load_replay_file, load_attempt. simpl. rewrite Hread, Hdecode.
  destruct records as [| d records].
  - apply Forall2_nil_inv_r in Hl.
    destruct captures; [| discriminate Hl]. by vm_compute.
  - rewrite strip_file_content, split_joined by done.
    by rewrite (load_lines_records _ _ [] Hl).
Qed.

(** ** Loading a corrupt file *)

(** C9. Whatever step of loading fails (there is no file to open, reading
    or decompressing fails, the bytes are not UTF-8, or some non-empty
    line does not parse), [_load_replay_file] logs the failure and leaves
    an empty replay log; being the handler of the only [try], it hands a
    manager back in every case. *)
Theorem C9_corrupt_load_is_empty (self : ReplayManager) :
  (rm_replay_file self = None \/
   (exists path, rm_replay_file self = Some path /\
      (read_decompressed path = None \/
       exists raw, read_decompressed path = Some raw /\
         (decode_utf8 raw = None \/
          exists text, decode_utf8 raw = Some text /\
            exists line, In line (split_newline (strip text)) /\
                         line <> EmptyString /\ orjson_loads line = None)))) ->
  replay_data (_load_replay_file orjson_loads read_decompressed decode_utf8 self) = [] /\
  rm_log (_load_replay_file orjson_loads read_decompressed decode_utf8 self)
  = rm_log self ++ [LogFailedToLoad] /\
  current_replay_id (_load_replay_file orjson_loads read_decompressed decode_utf8 self)
  = current_replay_id self.
Proof.
  intros Hfail.
  assert (load_attempt orjson_loads read_decompressed decode_utf8 self = None) as E.
  { unfold load_attempt.
    destruct Hfail as [-> | (path & -> & [-> | (raw & -> & [-> | (text & -> & Hline)])])];
      try done.
    by apply load_lines_fails. }
  unfold _load_replay_file. by rewrite E.
Qed.

End RecordAndLoad.

Lemma C9_corrupt_load_is_empty_witness :
  replay_data
    (_load_replay_file (fun _ => None) (fun _ => Some "junk") (fun s => Some s)
       (mkReplayManager (Some "session.zst") 0 [] None [])) = [] /\
  rm_log
    (_load_replay_file (fun _ => None) (fun _ => Some "junk") (fun s => Some s)
       (mkReplayManager (Some "session.zst") 0 [] None [])) = [] ++ [LogFailedToLoad] /\
  current_replay_id
    (_load_replay_file (fun _ => None) (fun _ => Some "junk") (fun s => Some s)
       (mkReplayManager (Some "session.zst") 0 [] None [])) = 0%nat.
Proof.
  apply (C9_corrupt_load_is_empty (fun _ => None) (fun _ => Some "junk")
           (fun s => Some s) (mkReplayManager (Some "session.zst") 0 [] None [])).
  right. exists "session.zst". split; [reflexivity |].
  right. exists "junk". split; [reflexivity |].
  right. exists "junk". split; [reflexivity |].
  exists "junk". split; [vm_compute; left; reflexivity |].
  split; [discriminate | reflexivity].
Defined.

(** ** Redaction of recorded session variables *)

(** C4. A variable whose name contains "ssl", "password" or "key" up to
    the case of its ASCII letters is removed by [_filter_variables],
    whatever its value; the frame that [capture_state] hands to the
    serialiser carries only the filtered variables, and what it writes is
    the serialisation of that frame; so after recording a session and
    loading the file, no frame of the replay log and no event returned by
    [get_next_refresh_interval] carries such a variable. *)
Theorem C4_redaction
    (orjson_dumps : ReplayFrame -> option string)
    (orjson_loads : string -> option ReplayFrame)
    (writer_accepts : list string -> string -> bool)
    (read_decompressed decode_utf8 : string -> option string)
    (p k v : string) :
  In p exclude_patterns ->
  ci_contains p k ->
  (forall variables, ~ In (k, v) (_filter_variables variables)) /\
  (forall now_iso h,
     ~ In (k, v) (f_global_variables (capture_data now_iso h))) /\
  (forall now_iso h rm written d,
     record_for_replay h = true ->
     orjson_dumps (capture_data now_iso h) = Some d ->
     compressed_writer rm = Some written ->
     writer_accepts written (d +:+ newline) = true ->
     compressed_writer (capture_state orjson_dumps writer_accepts now_iso h rm)
     = Some (written ++ [d +:+ newline])) /\
  (forall captures path raw chunks,
     Forall (fun c => record_for_replay c.2 = true) captures ->
     faithful_codec orjson_dumps orjson_loads
       (List.map (fun c => capture_data c.1 c.2) captures) ->
     (forall w chunk, writer_accepts w chunk = true) ->
     compressed_writer
       (record_session orjson_dumps writer_accepts captures
          (ReplayManager_new orjson_loads read_decompressed decode_utf8 None true))
     = Some chunks ->
     read_decompressed path = Some raw ->
     decode_utf8 raw = Some (stream_content chunks) ->
     path <> EmptyString ->
     let player :=
       ReplayManager_new orjson_loads read_decompressed decode_utf8 (Some path) false in
     Forall (fun frame => ~ In (k, v) (f_global_variables frame)) (replay_data player) /\
     forall cursor rm' event,
       get_next_refresh_interval
         (mkReplayManager (rm_replay_file player) cursor (replay_data player)
            (compressed_writer player) (rm_log player)) = (rm', Some event) ->
       ~ In (k, v) (rd_global_variables event)).
Proof.
  intros Hp Hk.
  assert (Hfilter : forall variables, ~ In (k, v) (_filter_variables variables)).
  { intros variables Hin. apply _filter_variables_spec in Hin as [_ Hno].
    by apply (Hno p Hp). }
  split; [exact Hfilter |].
  split; [intros now_iso h; apply Hfilter |].
  split.
  { intros now_iso h rm written d Hr Hd Hw Ha.
    by rewrite (capture_state_writes orjson_dumps writer_accepts now_iso h rm written d). }
  intros captures path raw chunks Hrec Hcodec Hw Hchunks Hread Hdecode Hpath player.
  destruct (record_then_load orjson_dumps orjson_loads writer_accepts
              read_decompressed decode_utf8 captures path raw chunks
              Hrec Hcodec Hw Hchunks Hread Hdecode Hpath) as [Hdata _].
  fold player in Hdata.
  assert (Hall : Forall (fun frame => ~ In (k, v) (f_global_variables frame))
                   (replay_data player)).
  { rewrite Hdata. apply Forall_forall. intros frame Hin.
    apply list_elem_of_In, in_map_iff in Hin as (c & <- & _). apply Hfilter. }
  split; [exact Hall |].
  intros cursor rm' event. unfold get_next_refresh_interval. simpl.
  destruct (length (replay_data player) <=? cursor)%nat; [discriminate |].
  destruct (replay_data player !! cursor) as [data |] eqn:Hdatum; [| discriminate].
  intros [= _ <-]. simpl.
  apply (proj1 (Forall_forall _ _) Hall). by eapply list_elem_of_lookup_2.
Qed.

Lemma C4_redaction_witness :
  In "ssl" exclude_patterns /\
  ~ In ("SSL_cert_file", "/etc/ssl/server.crt")
      (_filter_variables
         [("SSL_cert_file", "/etc/ssl/server.crt"); ("port", "5432")]).
Proof.
  split; [left; reflexivity |].
  refine (proj1 (C4_redaction (fun _ => None) (fun _ => None) (fun _ _ => true)
                   (fun _ => None) (fun _ => None)
                   "ssl" "SSL_cert_file" "/etc/ssl/server.crt" _ _)
            [("SSL_cert_file", "/etc/ssl/server.crt"); ("port", "5432")]).
  - left. reflexivity.
  - exists "", "SSL", "_cert_file". split; reflexivity.
Defined.

(** ** Playback cursor *)

(** The event that [get_next_refresh_interval] builds from a frame. *)
Definition event_of_frame (data : ReplayFrame) : PostgreSQLReplayData :=
  mkPostgreSQLReplayData (f_timestamp data) (f_system_utilization data)
    (f_global_variables data)
    (List.map (fun p => (p.1, mkProcesslistThread p.2)) (f_processlist data))
    (f_replication_status data) (f_connection_stats data)
    (f_database_stats data) (f_metric_manager data).

(** [n] consecutive requests: the manager afterwards and the results in
    order. *)
Fixpoint requests (n : nat) (rm : ReplayManager)
  : ReplayManager * list (option PostgreSQLReplayData) :=
  match n with
  | O => (rm, [])
  | S n' =>
      let '(rm1, r) := get_next_refresh_interval rm in
      let '(rm2, rs) := requests n' rm1 in
      (rm2, r :: rs)
  end.

Lemma get_next_refresh_interval_spec (rm : ReplayManager) :
  let rm' := (get_next_refresh_interval rm).1 in
  let res := (get_next_refresh_interval rm).2 in
  replay_data rm' = replay_data rm /\
  (forall data, replay_data rm !! current_replay_id rm = Some data ->
     res = Some (event_of_frame data) /\
     current_replay_id rm' = S (current_replay_id rm)) /\
  ((length (replay_data rm) <= current_replay_id rm)%nat ->
     res = None /\ rm' = rm).
Proof.
  unfold get_next_refresh_interval.
  destruct (Nat.leb_spec (length (replay_data rm)) (current_replay_id rm)) as [Hle | Hlt].
  - simpl. split; [done |]. split; [| done].
    intros data Hd. apply lookup_lt_Some in Hd. lia.
  - apply lookup_lt_is_Some in Hlt as [data Hd]. rewrite Hd. simpl.
    split; [done |]. split.
    + intros data' [= <-]. by split.
    + intros Hle. apply lookup_lt_Some in Hd. lia.
Qed.

Lemma requests_from (n : nat) (rm : ReplayManager) :
  (current_replay_id rm + n <= length (replay_data rm))%nat ->
  (requests n rm).2
  = List.map (fun data => Some (event_of_frame data))
      (take n (drop (current_replay_id rm) (replay_data rm))) /\
  current_replay_id (requests n rm).1 = (current_replay_id rm + n)%nat /\
  replay_data (requests n rm).1 = replay_data rm.
Proof.
  revert rm. induction n as [| n IH]; intros rm Hn.
  - simpl. by rewrite Nat.add_0_r.
  - destruct (get_next_refresh_interval_spec rm) as (Hdata & Hsome & _).
    assert (current_replay_id rm < length (replay_data rm))%nat as Hlt by lia.
    apply lookup_lt_is_Some in Hlt as [data Hd].
    destruct (Hsome data Hd) as [Hres Hcur].
    simpl. destruct (get_next_refresh_interval rm) as [rm1 r]. simpl in *.
    destruct (IH rm1) as (E1 & E2 & E3); [rewrite Hdata, Hcur; lia |].
    destruct (requests n rm1) as [rm2 rs]. simpl in *.
    rewrite E1, E2, E3, Hres, Hcur, Hdata.
    split; [| split; [lia | done]].
    rewrite (drop_S _ _ _ Hd). simpl. done.
Qed.

Lemma requests_S (n : nat) (rm : ReplayManager) :
  requests (S n) rm
  = let '(rm1, r) := get_next_refresh_interval rm in
    let '(rm2, rs) := requests n rm1 in (rm2, r :: rs).
Proof. reflexivity. Qed.

Lemma requests_snoc (n : nat) (rm : ReplayManager) :
  (requests (S n) rm).2
  = (requests n rm).2 ++ [(get_next_refresh_interval (requests n rm).1).2] /\
  (requests (S n) rm).1 = (get_next_refresh_interval (requests n rm).1).1.
Proof.
  revert rm. induction n as [| n IH]; intros rm.
  - simpl. by destruct (get_next_refresh_interval rm).
  - rewrite (requests_S (S n) rm), (requests_S n rm).
    destruct (get_next_refresh_interval rm) as [rm1 r].
    destruct (IH rm1) as [IH1 IH2].
    destruct (requests (S n) rm1) as [rm2 rs]. simpl in IH1, IH2.
    destruct (requests n rm1) as [rm3 rs3]. simpl in *.
    by rewrite IH1, IH2.
Qed.

(** ** Record/replay round trip *)

(** The call on the replay event raises for every method name. *)
Lemma call_replay_event_data_raises (name : string) :
  exists msg, call_replay_event_data name = inl msg.
Proof. unfold call_replay_event_data. destruct (bool_decide _); eauto. Qed.

(** A replay step that fetches a frame ends in the exception handler
    before the metric store is touched. *)
Lemma run_worker_replay_leaves_store (strftime : Z -> string)
    (strptime : string -> option Z) (now : Z) (screen_stack : nat)
    (manual_control : bool) (tab : Tab) (rm : ReplayManager)
    (event : PostgreSQLReplayData) :
  (screen_stack <= 1)%nat ->
  pause_refresh (hastin tab) && negb manual_control = false ->
  get_next_refresh_interval (replay_manager tab) = (rm, Some event) ->
  let tab' := (run_worker_replay strftime strptime now screen_stack true
                 manual_control tab).1 in
  metric_manager (hastin tab') = metric_manager (hastin tab) /\
  replay_manager tab' = rm /\
  worker_cancelled tab' = true /\
  (run_worker_replay strftime strptime now screen_stack true manual_control tab).2
  = ["Error during replay: 'PostgreSQLReplayData' object has no attribute 'get'"].
Proof.
  intros Hs Hp Hnext. unfold run_worker_replay, replay_try. simpl.
  rewrite (proj2 (Nat.ltb_ge 1 screen_stack) Hs), Hp. simpl.
  rewrite Hnext. by vm_compute.
Qed.

(** A recorded session: the tab after the cycles and the frames that the
    recorder captured, in order. *)
Fixpoint record_cycles (polls : list RefreshArgs) (tab : Tab)
  : option (Tab * list ReplayFrame) :=
  match polls with
  | [] => Some (tab, [])
  | a :: rest =>
      match record_cycle toy_strftime toy_strptime (fun _ => Some "{}")
              (fun _ _ => true) (arg_worker_start_time a) "2024-01-01T00:00:00+00:00"
              a tab with
      | None => None
      | Some tab1 =>
          match record_cycles rest tab1 with
          | None => None
          | Some (tab2, frames) =>
              Some (tab2, capture_data "2024-01-01T00:00:00+00:00" (hastin tab1) :: frames)
          end
      end
  end.

Definition recording_tab : Tab :=
  mkTab (mkHastin true postgresql false ∅ [] [] ∅ ∅ ∅ (MetricManager_new None false) 0)
    (mkReplayManager None 0 [] (Some []) []) false false.

Definition recorded_polls : list RefreshArgs :=
  [poll 1 1 [("xact_commit", 100%Z)] []; poll 2 1 [("xact_commit", 150%Z)] []].

(** The tab that plays the recorded frames back. *)
Definition replaying_tab (frames : list ReplayFrame) : Tab :=
  mkTab (mkHastin false postgresql false ∅ [] [] ∅ ∅ ∅
           (MetricManager_new (Some "session.zst") false) 0)
    (mkReplayManager (Some "session.zst") 0 frames None []) false false.

Definition replay_step (tab : Tab) : Tab * list string :=
  run_worker_replay toy_strftime toy_strptime 0 1 true false tab.

(** C1 (the code misses the claim). A session of two cycles is recorded;
    the second frame holds a clock of one timestamp and the series
    [xact_commit] with the value 50. Replaying the two frames raises in
    each step at [replay_event_data.get]: the worker is cancelled, the
    error is notified, and the metric store still holds an empty clock
    and an empty series afterwards. *)
Lemma C1_replay_does_not_restore :
  exists tab frames,
    record_cycles recorded_polls recording_tab = Some (tab, frames) /\
    length frames = 2%nat /\
    (sm_datetimes ∘ f_metric_manager <$> frames !! 1%nat) = Some ["||"] /\
    series_values (metric_manager (hastin tab)) "pg_transactions" "xact_commit"
    = Some [50%Z] /\
    let step1 := replay_step (replaying_tab frames) in
    let step2 := replay_step step1.1 in
    step1.2 = ["Error during replay: 'PostgreSQLReplayData' object has no attribute 'get'"] /\
    step2.2 = ["Error during replay: 'PostgreSQLReplayData' object has no attribute 'get'"] /\
    worker_cancelled step2.1 = true /\
    current_replay_id (replay_manager step2.1) = 2%nat /\
    datetimes (metric_manager (hastin step2.1)) = [] /\
    series_values (metric_manager (hastin step2.1)) "pg_transactions" "xact_commit"
    = Some [].
Proof.
  eexists. eexists. split; [vm_compute; reflexivity |].
  by vm_compute.
Qed.

(** ** Single-flight ad-hoc commands *)




(** * Further properties of the metric store *)

(** ** One object followed through a loop *)

Lemma heap_rel_lookup (P : ref -> MetricData -> MetricData -> Prop)
    (h h' : list MetricData) (i : ref) :
  heap_rel P h h' ->
  (forall md md', h !! i = Some md -> P i md md' -> md' = md) ->
  h' !! i = h !! i.
Proof.
  intros [Hlen H] Hsame. destruct (h !! i) as [md |] eqn:Hi.
  - destruct (H i md Hi) as (md' & Hi' & HP). rewrite Hi'. f_equal. by apply Hsame.
  - apply lookup_ge_None. apply lookup_ge_None in Hi. lia.
Qed.

(** A loop whose body leaves alone the objects it does not refer to. *)
Lemma foldM_untouched {A} (f : MetricManager -> A -> option MetricManager)
    (refs_of : A -> list ref) (s0 : MetricManager) (l : list A) :
  (forall s a, a ∈ l -> same_frame s0 s ->
     exists s', f s a = Some s' /\ same_frame s s' /\
       forall i, i ∉ refs_of a -> heap s' !! i = heap s !! i) ->
  forall s, same_frame s0 s ->
    exists s', foldM f s l = Some s' /\ same_frame s s' /\
      forall i, i ∉ l ≫= refs_of -> heap s' !! i = heap s !! i.
Proof.
  induction l as [| c l IH]; intros Hstep s Hs.
  - exists s. split; [done |]. split; [apply same_frame_refl | done].
  - simpl. destruct (Hstep s c (list_elem_of_here _ _) Hs) as (s2 & -> & Hf & Hk).
    destruct (IH (fun s a Ha => Hstep s a (list_elem_of_further _ _ _ Ha))
                s2 (same_frame_trans _ _ _ Hs Hf))
      as (s' & E & Hf' & Hk').
    exists s'. split; [exact E |]. split; [by eapply same_frame_trans |].
    intros i Hi. rewrite ?bind_cons, elem_of_app in Hi.
    rewrite Hk', Hk; tauto.
Qed.

(** A loop that visits every object at most once: the final content of
    the object [r] visited by the entry [a] is what the body made of it at
    that entry, in a state that still held the initial content of [r]. *)
Lemma foldM_at {A} (f : MetricManager -> A -> option MetricManager)
    (refs_of : A -> list ref) (s0 : MetricManager) (l : list A) (a : A) (r : ref) :
  (forall s a', a' ∈ l -> same_frame s0 s ->
     exists s', f s a' = Some s' /\ same_frame s s' /\
       forall i, i ∉ refs_of a' -> heap s' !! i = heap s !! i) ->
  NoDup (l ≫= refs_of) -> a ∈ l -> r ∈ refs_of a ->
  forall s, same_frame s0 s ->
    exists s' s1 s2,
      foldM f s l = Some s' /\ same_frame s s' /\
      same_frame s0 s1 /\ heap s1 !! r = heap s !! r /\
      f s1 a = Some s2 /\ heap s' !! r = heap s2 !! r.
Proof.
  induction l as [| b l IH]; intros Hstep Hnd Ha Hr s Hs.
  { by apply elem_of_nil in Ha. }
  rewrite bind_cons in Hnd. apply NoDup_app in Hnd as (Hndb & Hdisj & Hndl).
  simpl. destruct (Hstep s b (list_elem_of_here _ _) Hs) as (sb & Eb & Hfb & Hkb).
  apply elem_of_cons in Ha as [-> | Ha].
  - rewrite Eb.
    destruct (foldM_untouched f refs_of s0 l
                (fun s a Ha => Hstep s a (list_elem_of_further _ _ _ Ha))
                sb (same_frame_trans _ _ _ Hs Hfb)) as (s' & E & Hf' & Hk').
    exists s', s, sb. split; [exact E |].
    split; [by eapply same_frame_trans |].
    split; [exact Hs |]. split; [reflexivity |]. split; [exact Eb |].
    apply Hk'. by apply Hdisj.
  - rewrite Eb.
    destruct (IH (fun s a' Ha' => Hstep s a' (list_elem_of_further _ _ _ Ha'))
                Hndl Ha Hr sb (same_frame_trans _ _ _ Hs Hfb))
      as (s' & s1 & s2 & E & Hf' & Hs1 & Hh1 & E12 & Hh').
    exists s', s1, s2. split; [exact E |].
    split; [by eapply same_frame_trans |].
    split; [exact Hs1 |]. split; [| by split].
    rewrite Hh1. apply Hkb. intros Hrb. apply (Hdisj r Hrb).
    apply list_elem_of_bind. eauto.
Qed.

Lemma process_metric_frame (data : gmap string Z) (s : MetricManager)
    (t : metric_tuple) :
  exists s', process_metric data s t = Some s' /\ same_frame s s' /\
    forall i, i ∉ [t.1.2] -> heap s' !! i = heap s !! i.
Proof.
  destruct t as [[name r] conn].
  destruct (process_metric_post data s name r conn) as (s' & E & Hf & Hr).
  exists s'. split; [exact E |]. split; [exact Hf |].
  intros i Hi. apply (heap_rel_lookup _ _ _ _ Hr).
  intros md md' _ HP. destruct (decide (i = r)) as [-> | _]; [| exact HP].
  exfalso. apply Hi. by apply list_elem_of_singleton.
Qed.

Lemma process_source_frame (s0 s : MetricManager)
    (entry : MetricSource * list metric_tuple) :
  same_frame s0 s -> NoDup (tuple_refs entry.2) ->
  exists s', process_source s entry = Some s' /\ same_frame s s' /\
    forall i, i ∉ tuple_refs entry.2 -> heap s' !! i = heap s !! i.
Proof.
  intros Hs Hnd. unfold process_source.
  destruct (get_metric_source_data s entry.1) as [d |].
  - destruct (foldM_process_metric_post d s0 entry.2 s Hs Hnd) as (s' & E & Hf & Hr).
    exists s'. split; [exact E |]. split; [exact Hf |].
    intros i Hi. apply (heap_rel_lookup _ _ _ _ Hr).
    intros md md' _ [HP _]. by apply HP.
  - exists s. split; [done |]. split; [apply same_frame_refl | done].
Qed.

(** The ingestion loop followed for one metric of the processing table. *)
Lemma update_metrics_per_second_values_at (s : MetricManager) (src : MetricSource)
    (ts : list metric_tuple) (name : string) (r : ref)
    (conn : list ConnectionSource) (data : gmap string Z) :
  NoDup (table_refs (_source_to_metrics_processing s)) ->
  (src, ts) ∈ _source_to_metrics_processing s ->
  (name, r, conn) ∈ ts ->
  get_metric_source_data s src = Some data ->
  exists s' s1 s2,
    update_metrics_per_second_values s = Some s' /\ same_frame s s' /\
    same_frame s s1 /\ heap s1 !! r = heap s !! r /\
    process_metric data s1 (name, r, conn) = Some s2 /\
    heap s' !! r = heap s2 !! r.
Proof.
  intros Hnd Hin Ht Hdata. unfold update_metrics_per_second_values.
  destruct (foldM_at process_source
              (fun entry : MetricSource * list metric_tuple => tuple_refs entry.2)
              s (_source_to_metrics_processing s) (src, ts) r)
    with (s := s) as (s' & s1 & s2 & E & Hf & Hs1 & Hh1 & E12 & Hh').
  - intros s3 entry He Hs3. apply (process_source_frame s); [exact Hs3 |].
    by apply (NoDup_bind_part _ _ entry Hnd).
  - exact Hnd.
  - exact Hin.
  - by eapply tuple_refs_elem.
  - apply same_frame_refl.
  - unfold process_source in E12. simpl in E12.
    destruct (same_frame_fields _ _ Hs1)
      as (_ & _ & _ & _ & _ & _ & _ & _ & _ & _ & _ & _ & Hd).
    rewrite Hd, Hdata in E12.
    destruct (foldM_at (process_metric data) (fun t : metric_tuple => [t.1.2])
                s ts (name, r, conn) r)
      with (s := s1) as (s2' & s3 & s4 & E' & Hf' & Hs3 & Hh3 & E34 & Hh4).
    + intros s5 t _ _. apply process_metric_frame.
    + rewrite bind_singleton_map.
      by apply (NoDup_bind_part _ _ (src, ts) Hnd).
    + exact Ht.
    + by apply list_elem_of_singleton.
    + exact Hs1.
    + assert (s2' = s2) as -> by congruence.
      exists s', s3, s4. split; [exact E |]. split; [exact Hf |].
      split; [exact Hs3 |]. split; [congruence |]. split; [exact E34 |]. congruence.
Qed.

Lemma set_last_value_frame (data : gmap string Z) (s : MetricManager)
    (t : metric_tuple) :
  exists s', Some (set_last_value data s t) = Some s' /\ same_frame s s' /\
    forall i, i ∉ [t.1.2] -> heap s' !! i = heap s !! i.
Proof.
  eexists. split; [reflexivity |].
  destruct t as [[name r] conn]. unfold set_last_value. simpl.
  destruct (heap s !! r) as [md |] eqn:Hr.
  - split; [apply same_frame_set_heap |]. intros i Hi. simpl.
    apply list_lookup_insert_ne. intros ->. apply Hi. by apply list_elem_of_singleton.
  - split; [apply same_frame_refl | done].
Qed.

(** [update_metrics_last_value] followed for one metric. *)
Lemma update_metrics_last_value_at (s : MetricManager) (src : MetricSource)
    (ts : list metric_tuple) (name : string) (r : ref)
    (conn : list ConnectionSource) (data : gmap string Z) (md : MetricData) :
  NoDup (table_refs (_source_to_metrics_processing s)) ->
  (src, ts) ∈ _source_to_metrics_processing s ->
  (name, r, conn) ∈ ts ->
  get_metric_source_data s src = Some data ->
  heap s !! r = Some md ->
  heap (update_metrics_last_value s) !! r
  = Some (with_last_value md (Some (dict_get data name 0))).
Proof.
  intros Hnd Hin Ht Hdata Hmd. unfold update_metrics_last_value.
  set (g := fun (s1 : MetricManager) (entry : MetricSource * list metric_tuple) =>
              match get_metric_source_data s1 entry.1 with
              | Some metric_source_data =>
                  fold_left (set_last_value metric_source_data) entry.2 s1
              | None => s1
              end).
  assert (Hg : forall s1 entry, same_frame s s1 ->
            exists s', Some (g s1 entry) = Some s' /\ same_frame s1 s' /\
              forall i, i ∉ tuple_refs entry.2 -> heap s' !! i = heap s1 !! i).
  { intros s1 entry Hs1. unfold g.
    destruct (get_metric_source_data s1 entry.1) as [d |].
    - rewrite <- foldM_Some. unfold tuple_refs. rewrite <- bind_singleton_map.
      apply (foldM_untouched _ _ s); [| exact Hs1].
      intros s2 t _ _. apply set_last_value_frame.
    - eexists. split; [reflexivity |]. split; [apply same_frame_refl | done]. }
  destruct (foldM_at (fun s1 entry => Some (g s1 entry))
              (fun entry : MetricSource * list metric_tuple => tuple_refs entry.2)
              s (_source_to_metrics_processing s) (src, ts) r)
    with (s := s) as (s' & s1 & s2 & E & Hf & Hs1 & Hh1 & E12 & Hh').
  - intros s3 entry _ Hs3. by apply Hg.
  - exact Hnd.
  - exact Hin.
  - by eapply tuple_refs_elem.
  - apply same_frame_refl.
  - rewrite foldM_Some in E. injection E as <-.
    injection E12 as <-. rewrite Hh'. unfold g. simpl.
    destruct (same_frame_fields _ _ Hs1)
      as (_ & _ & _ & _ & _ & _ & _ & _ & _ & _ & _ & _ & Hd).
    rewrite Hd, Hdata.
    destruct (foldM_at (fun s2 t => Some (set_last_value data s2 t))
                (fun t : metric_tuple => [t.1.2]) s ts (name, r, conn) r)
      with (s := s1) as (s2 & s3 & s4 & E' & Hf' & Hs3 & Hh3 & E34 & Hh4).
    + intros s5 t _ _. apply set_last_value_frame.
    + rewrite bind_singleton_map.
      by apply (NoDup_bind_part _ _ (src, ts) Hnd).
    + exact Ht.
    + by apply list_elem_of_singleton.
    + exact Hs1.
    + rewrite foldM_Some in E'. injection E' as <-. injection E34 as <-.
      rewrite Hh4. unfold set_last_value.
      assert (Hmd3 : heap s3 !! r = Some md) by congruence.
      rewrite Hmd3. simpl. apply list_lookup_insert_eq. by eapply lookup_lt_Some.
Qed.

Lemma add_metric_other (s : MetricManager) (r i : ref) (v : Z) :
  i <> r -> heap (add_metric s r v) !! i = heap s !! i.
Proof.
  intros Hne. destruct (add_metric_post s r v) as [_ Hr].
  apply (heap_rel_lookup _ _ _ _ Hr). intros md md' _ [H _]. by apply H.
Qed.

(** The block under [if not self.replay_file], followed for one metric of
    the processing table: its object is what [process_metric] made of it,
    with [last_value] set to the raw value. *)
Lemma update_all_at (s : MetricManager) (src : MetricSource)
    (ts : list metric_tuple) (name : string) (r : ref)
    (conn : list ConnectionSource) (data : gmap string Z) (md : MetricData) :
  well_formed s ->
  (src, ts) ∈ _source_to_metrics_processing s ->
  (name, r, conn) ∈ ts ->
  get_metric_source_data s src = Some data ->
  heap s !! r = Some md ->
  exists s' s1 s2 md2,
    update_all s = Some s' /\ same_frame s s' /\
    same_frame s s1 /\ heap s1 !! r = Some md /\
    process_metric data s1 (name, r, conn) = Some s2 /\
    heap s2 !! r = Some md2 /\
    heap s' !! r = Some (with_last_value md2 (Some (dict_get data name 0))).
Proof.
  intros (Hm & Ht & Hh & Hwf) Hin Htup Hdata Hmd.
  pose proof catalogue_table_NoDup as Hnd. rewrite <- Ht in Hnd.
  assert (Hrt : r ∈ table_refs (_source_to_metrics_processing catalogue)).
  { rewrite <- Ht. apply table_refs_elem. exists src, ts, name, conn.
    split; assumption. }
  destruct catalogue_computed_not_in_table as [Hlag Hratio].
  assert (Hrl : r <> lag_ref) by (intros ->; contradiction).
  assert (Hrr : r <> ratio_ref) by (intros ->; contradiction).
  destruct (update_metrics_per_second_values_at s src ts name r conn data
              Hnd Hin Htup Hdata)
    as (sa & s1 & s2 & Ea & Hfa & Hs1 & Hh1 & E12 & Hha).
  assert (Hmd1 : heap s1 !! r = Some md) by congruence.
  assert (exists md2, heap s2 !! r = Some md2) as [md2 Hmd2].
  { destruct (process_metric_post data s1 name r conn) as (s2' & E & _ & [_ Hr]).
    assert (s2' = s2) as -> by congruence.
    destruct (Hr r md Hmd1) as (md' & Hmd' & _). eauto. }
  destruct (same_frame_fields _ _ Hfa)
    as (_ & _ & _ & _ & Hma & Hta & _ & _ & _ & _ & _ & _ & Hda).
  destruct (catalogue_computed_refs sa) as [El _]; [congruence |].
  set (sb := add_metric sa lag_ref (dict_get (replication_status sa) "Seconds_Behind" 0)).
  assert (Hfb : same_frame sa sb) by apply add_metric_post.
  destruct (same_frame_fields _ _ Hfb)
    as (_ & _ & _ & _ & Hmb & Htb & _ & _ & _ & _ & _ & _ & Hdb).
  destruct (catalogue_computed_refs sb) as [_ Er]; [congruence |].
  destruct (hit_ratio_total (dict_get (database_stats sb) "blks_hit" 0)
              (dict_get (database_stats sb) "blks_read" 0)) as [q Eq].
  set (sc := add_metric sb ratio_ref (py_int q)).
  assert (Hfc : same_frame sb sc) by apply add_metric_post.
  destruct (same_frame_fields _ _ Hfc)
    as (_ & _ & _ & _ & Hmc & Htc & _ & _ & _ & _ & _ & _ & Hdc).
  assert (Hmdc : heap sc !! r = Some md2).
  { unfold sc, sb. rewrite !add_metric_other by done. congruence. }
  assert (Hndc : NoDup (table_refs (_source_to_metrics_processing sc))).
  { rewrite Htc, Htb, Hta. exact Hnd. }
  exists (update_metrics_last_value sc), s1, s2, md2.
  split.
  { unfold update_all. rewrite Ea. unfold update_metrics_replication_lag.
    rewrite El. fold sb. unfold update_pg_cache_hit_ratio. rewrite Eq, Er.
    reflexivity. }
  split.
  { eapply same_frame_trans; [exact Hfa |].
    eapply same_frame_trans; [exact Hfb |].
    eapply same_frame_trans; [exact Hfc |].
    by apply update_metrics_last_value_post. }
  split; [exact Hs1 |]. split; [exact Hmd1 |]. split; [exact E12 |].
  split; [exact Hmd2 |].
  apply (update_metrics_last_value_at sc src ts name r conn data md2);
    [exact Hndc | | exact Htup | | exact Hmdc].
  - rewrite Htc, Htb, Hta. exact Hin.
  - rewrite Hdc, Hdb, Hda. exact Hdata.
Qed.

Lemma table_ref_lookup (s : MetricManager) (r : ref) :
  well_formed s ->
  r ∈ table_refs (_source_to_metrics_processing s) ->
  is_Some (heap s !! r).
Proof.
  intros (_ & Ht & _ & [Hlen _]) Hr. rewrite Ht in Hr.
  apply lookup_lt_is_Some. rewrite Hlen.
  assert (Hall : Forall (fun i => (i < length (heap catalogue))%nat)
                   (table_refs (_source_to_metrics_processing catalogue))).
  { apply (bool_decide_unpack _). vm_compute. reflexivity. }
  exact (proj1 (Forall_forall _ _) Hall r Hr).
Qed.

Section LiveCycle.

Variable strftime : Z -> string.
Variable strptime : string -> option Z.

(** One cycle of a live session, followed for one metric of the
    processing table. [k] is the number of timestamps that the eviction
    sweep removed. *)
Lemma refresh_data_at (now : Z) (s : MetricManager) (a : RefreshArgs)
    (src : MetricSource) (ts : list metric_tuple) (name : string) (r : ref)
    (conn : list ConnectionSource) (data : gmap string Z) (md : MetricData) :
  well_formed s -> replaying s = false ->
  (src, ts) ∈ _source_to_metrics_processing s ->
  (name, r, conn) ∈ ts ->
  get_metric_source_data (store_arguments s a) src = Some data ->
  heap s !! r = Some md ->
  exists s' s1 s2 md2 k,
    refresh_data strftime strptime now s a = Some s' /\
    same_frame (store_arguments s a) s1 /\ heap s1 !! r = Some md /\
    process_metric data s1 (name, r, conn) = Some s2 /\
    heap s2 !! r = Some md2 /\
    (daemon_mode s = false -> k = 0%nat) /\
    datetimes s'
    = drop k (datetimes s ++
              if initialized s then [strftime (arg_worker_start_time a)] else []) /\
    heap s' !! r
    = Some (let m := with_last_value md2 (Some (dict_get data name 0)) in
            if bool_decide (r ∈ _all_metrics_data_history s)
            then with_values m (drop k (values m)) else m) /\
    get_metric_source_data s' src = Some data /\
    initialized s' = true /\
    daemon_mode s' = daemon_mode s /\
    connection_source s' = connection_source s.
Proof.
  intros Hwf Hlive Hin Htup Hdata Hmd. unfold refresh_data.
  destruct (store_arguments_fields s a)
    as (Eh & Em & Et & Ehi & Ei & Ed & Ec & Er & Edm & Ew).
  set (s0 := store_arguments s a) in *.
  assert (Hwf0 : well_formed s0).
  { eapply well_formed_step; eauto. rewrite Eh. by apply heap_rel_refl. }
  rewrite Er, Hlive. simpl.
  destruct (update_all_at s0 src ts name r conn data md Hwf0)
    as (s4 & s1 & s2 & md2 & -> & Hf & Hs1 & Hmd1 & E12 & Hmd2 & Hmd4);
    [congruence | exact Htup | exact Hdata | congruence |].
  destruct (same_frame_fields _ _ Hf)
    as (Hi4 & Hc4 & _ & Hd4 & Hm4 & Ht4 & Hh4 & Hr4 & Hdm4 & Hw4 & _ & _ & Hsrc4).
  set (s5 := add_metric_datetime strftime s4).
  assert (Hs5 : s5 = set_datetimes s4
                       (datetimes s ++
                        if initialized s then [strftime (arg_worker_start_time a)]
                        else [])).
  { unfold s5, add_metric_datetime. rewrite Hi4, Ei, Hr4, Er, Hlive, Hw4, Ew.
    destruct (initialized s); simpl.
    - by rewrite Hd4, Ed.
    - rewrite app_nil_r, <- Ed, <- Hd4. by destruct s4. }
  assert (Hnd5 : NoDup (_all_metrics_data_history s5)).
  { rewrite Hs5. simpl. rewrite Hh4, Ehi. destruct Hwf as (_ & _ & -> & _).
    apply catalogue_history_NoDup. }
  assert (exists k,
    (daemon_mode s = false -> k = 0%nat) /\
    datetimes (daemon_cleanup_data strptime now s5) = drop k (datetimes s5) /\
    same_but_clock s5 (daemon_cleanup_data strptime now s5) /\
    heap_rel (evicted s5 k) (heap s5) (heap (daemon_cleanup_data strptime now s5)))
    as (k & Hk0 & Hdk & Hf6 & Hr6).
  { destruct (daemon_mode s) eqn:Hdm.
    - destruct (daemon_cleanup_data_post strptime now s5 Hnd5) as (k & _ & Hdk & Hf6 & Hr6).
      exists k. split; [discriminate |]. by split.
    - exists 0%nat. split; [done |].
      assert (daemon_cleanup_data strptime now s5 = s5) as ->.
      { unfold daemon_cleanup_data. rewrite Hs5. simpl. by rewrite Hdm4, Edm. }
      split; [by rewrite drop_0 |].
      split; [unfold same_but_clock; by destruct s5 |].
      apply heap_rel_refl. intros i x _. split; [| done].
      intros _. by rewrite drop_0, with_values_same. }
  set (s6 := daemon_cleanup_data strptime now s5) in *.
  exists (set_initialized s6 true), s1, s2, md2, k.
  split; [reflexivity |]. split; [exact Hs1 |]. split; [exact Hmd1 |].
  split; [exact E12 |]. split; [exact Hmd2 |]. split; [exact Hk0 |].
  assert (Hh5 : heap s5 = heap s4) by (by rewrite Hs5).
  assert (Hhist5 : _all_metrics_data_history s5 = _all_metrics_data_history s).
  { rewrite Hs5. simpl. congruence. }
  split.
  { change (datetimes (set_initialized s6 true)) with (datetimes s6).
    rewrite Hdk, Hs5. reflexivity. }
  split.
  { change (heap (set_initialized s6 true)) with (heap s6).
    destruct Hr6 as [_ Hr6]. rewrite <- Hh5 in Hmd4.
    destruct (Hr6 r _ Hmd4) as (md6 & Hmd6 & [Hev1 Hev2]).
    rewrite Hmd6. f_equal. rewrite Hhist5 in Hev1, Hev2. simpl.
    destruct (decide (r ∈ _all_metrics_data_history s)) as [Hy | Hn].
    - rewrite bool_decide_true by exact Hy. by apply Hev1.
    - rewrite bool_decide_false by exact Hn. by apply Hev2. }
  destruct (same_but_clock_fields _ _ Hf6) as (_ & Hc6 & _ & _ & _ & _ & Hdm6).
  split.
  { transitivity (get_metric_source_data s5 src).
    - unfold same_but_clock in Hf6. rewrite Hf6. by destruct src.
    - rewrite Hs5. transitivity (get_metric_source_data s4 src);
        [by destruct src | by rewrite Hsrc4]. }
  split; [reflexivity |].
  split.
  { change (daemon_mode (set_initialized s6 true)) with (daemon_mode s6).
    rewrite Hdm6, Hs5. simpl. congruence. }
  change (connection_source (set_initialized s6 true)) with (connection_source s6).
  rewrite Hc6, Hs5. simpl. congruence.
Qed.

(** The gauge branch of the loop body, for a metric other than the CPU
    one. *)
Lemma process_metric_gauge (self : MetricManager) (data : gmap string Z)
    (name : string) (r : ref) (conn : list ConnectionSource) (md : MetricData)
    (lv : Z) :
  heap self !! r = Some md ->
  connection_source self ∈ conn ->
  per_second_calculation md = false ->
  name <> "CPU_Percent" ->
  last_value md = Some lv ->
  process_metric data self (name, r, conn)
  = Some (add_metric self r (dict_get data name 0)).
Proof.
  intros Hr Hc Hps Hn Hlv. unfold process_metric.
  rewrite bool_decide_true by done. simpl.
  rewrite Hr, Hlv, Hps.
  destruct (String.eqb_spec name "CPU_Percent") as [E | _]; [contradiction |].
  by rewrite set_heap_id, py_int_inject_Z.
Qed.

(** [last_value] holds the raw value of the metric's key. *)
Definition tracked (s : MetricManager) : Prop :=
  forall src ts name r conn data md,
    (src, ts) ∈ _source_to_metrics_processing s ->
    (name, r, conn) ∈ ts ->
    get_metric_source_data s src = Some data ->
    heap s !! r = Some md ->
    last_value md = Some (dict_get data name 0).

Lemma get_metric_source_data_Some (s s' : MetricManager) (src : MetricSource)
    (data : gmap string Z) :
  get_metric_source_data s src = Some data ->
  is_Some (get_metric_source_data s' src).
Proof. destruct src; simpl; intros H; eauto; discriminate H. Qed.

Lemma refresh_data_tracked (now : Z) (s : MetricManager) (a : RefreshArgs) :
  live_invariant s ->
  exists s',
    refresh_data strftime strptime now s a = Some s' /\
    live_invariant s' /\ initialized s' = true /\ tracked s' /\
    connection_source s' = connection_source s.
Proof.
  intros Hinv.
  destruct (refresh_data_live_invariant strftime strptime now s a Hinv)
    as (s' & E & Hinv' & Hi' & Hc').
  exists s'. split; [exact E |]. split; [exact Hinv' |]. split; [exact Hi' |].
  split; [| exact Hc'].
  intros src ts name r conn data' md' Hin Htup Hdata' Hmd'.
  destruct Hinv as (Hwf & Hlive & _). destruct Hinv' as (Hwf' & _).
  assert (Et : _source_to_metrics_processing s' = _source_to_metrics_processing s).
  { destruct Hwf as (_ & -> & _). by destruct Hwf' as (_ & -> & _). }
  rewrite Et in Hin.
  destruct (table_ref_lookup s r Hwf) as [md Hmd].
  { apply table_refs_elem. exists src, ts, name, conn. split; assumption. }
  destruct (get_metric_source_data_Some s' (store_arguments s a) src data' Hdata')
    as [data Hdata].
  destruct (refresh_data_at now s a src ts name r conn data md
              Hwf Hlive Hin Htup Hdata Hmd)
    as (s'' & _ & _ & md2 & k & E' & _ & _ & _ & _ & _ & _ & Hh & Hd & _).
  assert (s'' = s') as -> by congruence.
  assert (data' = data) as -> by congruence.
  rewrite Hmd' in Hh. injection Hh as ->. simpl.
  by destruct (bool_decide _).
Qed.

End LiveCycle.

Lemma head_elem_of {A} (l : list A) (x : A) : head l = Some x -> x ∈ l.
Proof. destruct l; [discriminate | intros [= ->]; apply list_elem_of_here]. Qed.

Lemma catalogue_first_tuple :
  exists ts,
    (SYSTEM_UTILIZATION, ts) ∈ _source_to_metrics_processing catalogue /\
    ("CPU_Percent", 0%nat, system_sources) ∈ ts.
Proof.
  assert (exists ts,
    head (_source_to_metrics_processing catalogue) = Some (SYSTEM_UTILIZATION, ts) /\
    head ts = Some ("CPU_Percent", 0%nat, system_sources)) as (ts & H1 & H2).
  { eexists. split; vm_compute; reflexivity. }
  exists ts. split; by apply head_elem_of.
Qed.

Section LiveSessions.

Variable strftime : Z -> string.
Variable strptime : string -> option Z.

Lemma foldM_app {S A} (f : S -> A -> option S) (s : S) (l1 l2 : list A) :
  foldM f s (l1 ++ l2)
  = match foldM f s l1 with Some s1 => foldM f s1 l2 | None => None end.
Proof.
  revert s. induction l1 as [| a l1 IH]; intros s; simpl; [done |].
  destruct (f s a); [apply IH | done].
Qed.

Lemma cycles_snoc (s : MetricManager) (l : list (Z * RefreshArgs))
    (c : Z * RefreshArgs) :
  cycles strftime strptime s (l ++ [c])
  = match cycles strftime strptime s l with
    | Some s1 => refresh_data strftime strptime c.1 s1 c.2
    | None => None
    end.
Proof.
  unfold cycles. rewrite foldM_app.
  destruct (foldM _ s l) as [s1 |]; [| done]. simpl.
  by destruct (refresh_data strftime strptime c.1 s1 c.2).
Qed.

(** One cycle of a live session: the clock and the mode. *)
Lemma refresh_data_clock (now : Z) (s : MetricManager) (a : RefreshArgs) :
  well_formed s -> replaying s = false ->
  exists s' k,
    refresh_data strftime strptime now s a = Some s' /\
    (daemon_mode s = false -> k = 0%nat) /\
    datetimes s'
    = drop k (datetimes s ++
              if initialized s then [strftime (arg_worker_start_time a)] else []) /\
    daemon_mode s' = daemon_mode s.
Proof.
  intros Hwf Hlive. destruct catalogue_first_tuple as (ts & Hin & Htup).
  assert (Hin' : (SYSTEM_UTILIZATION, ts) ∈ _source_to_metrics_processing s).
  { destruct Hwf as (_ & -> & _). exact Hin. }
  destruct (table_ref_lookup s 0%nat Hwf) as [md Hmd].
  { apply table_refs_elem. exists SYSTEM_UTILIZATION, ts, "CPU_Percent", system_sources.
    split; assumption. }
  destruct (refresh_data_at strftime strptime now s a SYSTEM_UTILIZATION ts
              "CPU_Percent" 0%nat system_sources _ md Hwf Hlive Hin' Htup eq_refl Hmd)
    as (s' & _ & _ & _ & k & E & _ & _ & _ & _ & Hk & Hd & _ & _ & _ & Hdm & _).
  exists s', k. repeat split; assumption.
Qed.

(** The state of a live session after the cycles [l]. *)
Lemma session_state (l : list (Z * RefreshArgs)) (s : MetricManager) :
  live_invariant s ->
  exists s',
    cycles strftime strptime s l = Some s' /\ live_invariant s' /\
    connection_source s' = connection_source s /\
    daemon_mode s' = daemon_mode s /\
    (l <> [] -> initialized s' = true /\ tracked s').
Proof.
  revert s. induction l as [| [now a] l IH]; intros s Hinv.
  - exists s. split; [reflexivity |]. split; [exact Hinv |].
    split; [reflexivity |]. split; [reflexivity |]. intros H. contradiction.
  - destruct (refresh_data_tracked strftime strptime now s a Hinv)
      as (s1 & E1 & Hinv1 & Hi1 & Htr1 & Hc1).
    destruct (refresh_data_clock now s a) as (s1' & k & E1' & _ & _ & Hdm1);
      [apply Hinv | apply Hinv |].
    assert (s1' = s1) as -> by congruence.
    destruct (IH s1 Hinv1) as (s' & E & Hinv' & Hc' & Hdm' & Hne).
    exists s'. split.
    { unfold cycles in *. simpl. rewrite E1. exact E. }
    split; [exact Hinv' |]. split; [congruence |]. split; [congruence |].
    intros _. destruct l as [| c l].
    + unfold cycles in E. simpl in E. injection E as <-. by split.
    + apply Hne. discriminate.
Qed.

End LiveSessions.

(** ** Live sessions, series by series *)

(** X1. At the end of every cycle of a live session, the [last_value] of
    every metric of the processing table (whether or not it applies to
    the connection source) is the raw value that the manager holds for
    its key, 0 when the key is absent. *)
Theorem last_value_tracks_raw (strftime : Z -> string)
    (strptime : string -> option Z) (s0 : MetricManager)
    (l : list (Z * RefreshArgs)) :
  replaying s0 = false -> l <> [] ->
  exists s,
    cycles strftime strptime (reset s0) l = Some s /\
    forall src ts name r conn data,
      (src, ts) ∈ _source_to_metrics_processing s ->
      (name, r, conn) ∈ ts ->
      get_metric_source_data s src = Some data ->
      (last_value <$> heap s !! r) = Some (Some (dict_get data name 0)).
Proof.
  intros Hlive Hne.
  destruct (session_state strftime strptime l (reset s0)
              (reset_live_invariant s0 Hlive))
    as (s & E & (Hwf & _) & _ & _ & Hinit).
  destruct (Hinit Hne) as [_ Htr].
  exists s. split; [exact E |].
  intros src ts name r conn data Hin Htup Hdata.
  destruct (table_ref_lookup s r Hwf) as [md Hmd].
  { apply table_refs_elem. exists src, ts, name, conn. split; assumption. }
  rewrite Hmd. simpl. f_equal.
  exact (Htr src ts name r conn data md Hin Htup Hdata Hmd).
Qed.

Lemma last_value_tracks_raw_witness :
  exists s,
    cycles toy_strftime toy_strptime (reset (MetricManager_new None false))
      [(5, poll 5 5 [("xact_commit", 100)] [])]%Z = Some s /\
    forall src ts name r conn data,
      (src, ts) ∈ _source_to_metrics_processing s ->
      (name, r, conn) ∈ ts ->
      get_metric_source_data s src = Some data ->
      (last_value <$> heap s !! r) = Some (Some (dict_get data name 0)).
Proof.
  apply (last_value_tracks_raw toy_strftime toy_strptime
           (MetricManager_new None false)).
  - vm_compute. reflexivity.
  - discriminate.
Defined.

(** A cycle after the first, for a gauge that applies and keeps history:
    the raw value is read from the dictionary that [refresh_data] has just
    updated. *)
Lemma gauge_cycle (strftime : Z -> string)
    (strptime : string -> option Z) (s0 : MetricManager)
    (l : list (Z * RefreshArgs)) (c : Z * RefreshArgs) :
  replaying s0 = false -> daemon_mode s0 = false -> l <> [] ->
  exists s s',
    cycles strftime strptime (reset s0) l = Some s /\
    cycles strftime strptime (reset s0) (l ++ [c]) = Some s' /\
    well_formed s /\
    forall src ts name r conn md,
      (src, ts) ∈ _source_to_metrics_processing s ->
      (name, r, conn) ∈ ts ->
      connection_source s0 ∈ conn ->
      heap s !! r = Some md ->
      per_second_calculation md = false ->
      save_history md = true ->
      name <> "CPU_Percent" ->
      exists data',
        get_metric_source_data (store_arguments s c.2) src = Some data' /\
        get_metric_source_data s' src = Some data' /\
        (values <$> heap s' !! r) = Some (values md ++ [dict_get data' name 0]).
Proof.
  intros Hlive Hdm Hne.
  destruct (session_state strftime strptime l (reset s0)
              (reset_live_invariant s0 Hlive))
    as (s & E & Hinv & Hc & Hdms & Hinit).
  destruct (Hinit Hne) as [Hi Htr].
  destruct (reset_catalogue s0) as (_ & _ & _ & _ & _ & _ & Hc0 & _ & Hdm0).
  destruct (refresh_data_live_invariant strftime strptime c.1 s c.2 Hinv)
    as (s' & E' & _).
  exists s, s'. split; [exact E |].
  split; [rewrite cycles_snoc, E; exact E' |].
  destruct Hinv as (Hwf & Hrep & _). split; [exact Hwf |].
  intros src ts name r conn md Hin Htup Happ Hmd Hps Hsave Hname.
  assert (Hsrc : src <> NONE).
  { destruct Hwf as (_ & Htc & _). rewrite Htc in Hin.
    exact (catalogue_no_NONE src ts Hin). }
  assert (is_Some (get_metric_source_data s src)) as [data Hdata].
  { destruct src; simpl; eauto; contradiction. }
  assert (is_Some (get_metric_source_data (store_arguments s c.2) src))
    as [data1 Hdata1].
  { destruct src; simpl; eauto; contradiction. }
  destruct (refresh_data_at strftime strptime c.1 s c.2 src ts name r conn data1 md
              Hwf Hrep Hin Htup Hdata1 Hmd)
    as (s'' & s1 & s2 & md2 & k & E'' & Hs1 & Hmd1 & E12 & Hmd2 & Hk & _ & Hh & Hd & _).
  assert (s'' = s') as -> by congruence.
  exists data1. split; [exact Hdata1 |]. split; [exact Hd |].
  rewrite (Hk ltac:(congruence)) in Hh.
  destruct (same_frame_fields _ _ Hs1) as (Hi1 & Hc1 & _).
  rewrite (process_metric_gauge s1 data1 name r conn md (dict_get data name 0))
    in E12; [| exact Hmd1 | | exact Hps | exact Hname |].
  - injection E12 as <-.
    rewrite (add_metric_lookup s1 r md) in Hmd2; [| exact Hmd1 |].
    + injection Hmd2 as <-. rewrite Hh. simpl.
      destruct (bool_decide _); simpl; unfold md_add; rewrite Hsave; simpl;
        by rewrite ?drop_0.
    + rewrite Hi1. simpl. exact Hi.
  - rewrite Hc1. simpl. congruence.
  - exact (Htr src ts name r conn data md Hin Htup Hdata Hmd).
Qed.

(** ** The session clock *)

Section SessionClock.

Variable strftime : Z -> string.
Variable strptime : string -> option Z.

(** The timestamps of the cycles [l]. *)
Definition start_times (l : list (Z * RefreshArgs)) : list string :=
  List.map (fun c : Z * RefreshArgs => strftime (arg_worker_start_time c.2)) l.

Lemma cycles_clock (l : list (Z * RefreshArgs)) (s : MetricManager) :
  live_invariant s ->
  exists s',
    cycles strftime strptime s l = Some s' /\
    datetimes s' `suffix_of`
      datetimes s ++ start_times (if initialized s then l else tail l) /\
    (daemon_mode s = false ->
     datetimes s'
     = datetimes s ++ start_times (if initialized s then l else tail l)).
Proof.
  revert s. induction l as [| [now a] l IH]; intros s Hinv.
  - exists s. split; [reflexivity |].
    destruct (initialized s); simpl; rewrite app_nil_r; by split.
  - destruct (refresh_data_live_invariant strftime strptime now s a Hinv)
      as (s1 & E1 & Hinv1 & Hi1 & _).
    destruct (refresh_data_clock strftime strptime now s a)
      as (s1' & k & E1' & Hk & Hd1 & Hdm1); [apply Hinv | apply Hinv |].
    assert (s1' = s1) as -> by congruence.
    destruct (IH s1 Hinv1) as (s' & E & Hsuf & Heq).
    rewrite Hi1 in Hsuf, Heq.
    exists s'. split.
    { unfold cycles in *. simpl. rewrite E1. exact E. }
    assert (Hshape :
      (datetimes s ++ if initialized s then [strftime (arg_worker_start_time a)] else [])
      ++ start_times l
      = datetimes s ++ start_times (if initialized s then (now, a) :: l
                                    else tail ((now, a) :: l))).
    { destruct (initialized s); simpl; by rewrite <- ?app_assoc, ?app_nil_r. }
    split.
    + rewrite <- Hshape. etransitivity; [exact Hsuf |].
      apply suffix_app. rewrite Hd1. apply suffix_drop.
    + intros Hdm. rewrite <- Hshape, Heq by congruence.
      by rewrite Hd1, (Hk Hdm), drop_0.
Qed.

End SessionClock.

(** X4. The clock of a live session holds the start times of its cycles,
    the first cycle apart (it only initialises the manager): exactly
    these, in order, outside daemon mode; a suffix of them in daemon
    mode. *)
Theorem clock_of_live_session (strftime : Z -> string)
    (strptime : string -> option Z) (s0 : MetricManager)
    (l : list (Z * RefreshArgs)) :
  replaying s0 = false ->
  exists s,
    cycles strftime strptime (reset s0) l = Some s /\
    datetimes s `suffix_of` start_times strftime (tail l) /\
    (daemon_mode s0 = false -> datetimes s = start_times strftime (tail l)).
Proof.
  intros Hlive.
  destruct (cycles_clock strftime strptime l (reset s0)
              (reset_live_invariant s0 Hlive)) as (s & E & Hsuf & Heq).
  destruct (reset_catalogue s0) as (_ & _ & _ & _ & Hi & Hd & _ & _ & Hdm).
  rewrite Hi, Hd in Hsuf, Heq. simpl in Hsuf, Heq.
  exists s. split; [exact E |]. split; [exact Hsuf |].
  intros H. apply Heq. congruence.
Qed.

Lemma clock_of_live_session_witness :
  exists s,
    cycles toy_strftime toy_strptime (reset (MetricManager_new None false))
      [(1, poll 1 1 [] []); (2, poll 2 1 [] []); (3, poll 3 1 [] [])]%Z = Some s /\
    datetimes s `suffix_of` ["||"; "|||"] /\
    (daemon_mode (MetricManager_new None false) = false ->
     datetimes s = ["||"; "|||"]).
Proof.
  apply (clock_of_live_session toy_strftime toy_strptime
           (MetricManager_new None false)
           [(1, poll 1 1 [] []); (2, poll 2 1 [] []); (3, poll 3 1 [] [])]%Z).
  vm_compute. reflexivity.
Defined.

(** ** The eviction sweep *)

Section Sweep.

Variable strptime : string -> option Z.

Lemma cleanup_loop_clock (time_threshold : Z) (dts : list string) :
  forall s, exists k,
    (k <= length dts)%nat /\
    datetimes (cleanup_loop strptime time_threshold dts s) = drop k dts /\
    Forall (fun d => forall t, strptime d = Some t -> (t < time_threshold)%Z)
      (take k dts) /\
    (forall d, head (drop k dts) = Some d ->
       exists t, strptime d = Some t /\ (time_threshold <= t)%Z).
Proof.
  induction dts as [| d rest IH]; intros s.
  - exists 0%nat. simpl. split; [lia |]. split; [done |]. split; [constructor |].
    intros d. discriminate.
  - simpl.
    assert (Hpop : (forall t, strptime d = Some t -> (t < time_threshold)%Z) ->
      exists k, (k <= S (length rest))%nat /\
        datetimes (cleanup_loop strptime time_threshold rest
                     (popleft_history (set_datetimes s rest))) = drop k (d :: rest) /\
        Forall (fun d => forall t, strptime d = Some t -> (t < time_threshold)%Z)
          (take k (d :: rest)) /\
        (forall d', head (drop k (d :: rest)) = Some d' ->
           exists t, strptime d' = Some t /\ (time_threshold <= t)%Z)).
    { intros Hd.
      destruct (IH (popleft_history (set_datetimes s rest)))
        as (k & Hk & Hdk & Hold & Hfresh).
      exists (S k). split; [lia |]. split; [exact Hdk |].
      split; [by constructor | exact Hfresh]. }
    destruct (strptime d) as [first_dt |] eqn:Hp.
    + destruct (first_dt <? time_threshold)%Z eqn:Hlt.
      * apply Hpop. intros t [= <-]. by apply Z.ltb_lt.
      * exists 0%nat. simpl. split; [lia |]. split; [done |].
        split; [constructor |]. intros d' [= <-].
        exists first_dt. split; [done |]. by apply Z.ltb_ge.
    + apply Hpop. intros t Ht. discriminate Ht.
Qed.

End Sweep.

(** X5. Outside daemon mode [daemon_cleanup_data] changes nothing. In
    daemon mode it removes a prefix of the clock: every removed timestamp
    is older than ten minutes or does not parse, and the first timestamp
    that stays parses and is not older than ten minutes; nothing behind a
    fresh timestamp is removed. *)
Theorem eviction_sweep_removes_stale_prefix (strptime : string -> option Z)
    (now : Z) (s : MetricManager) :
  (daemon_mode s = false -> daemon_cleanup_data strptime now s = s) /\
  exists k,
    (k <= length (datetimes s))%nat /\
    datetimes (daemon_cleanup_data strptime now s) = drop k (datetimes s) /\
    Forall (fun d => forall t, strptime d = Some t -> (t < now - 600)%Z)
      (take k (datetimes s)) /\
    (daemon_mode s = true ->
     forall d, head (drop k (datetimes s)) = Some d ->
       exists t, strptime d = Some t /\ (now - 600 <= t)%Z).
Proof.
  unfold daemon_cleanup_data. split.
  { by intros ->. }
  destruct (daemon_mode s); simpl.
  - destruct (decide (datetimes s = [])) as [E | Hne].
    + rewrite bool_decide_true by exact E. exists 0%nat. rewrite E. simpl.
      split; [lia |]. split; [done |]. split; [constructor |].
      intros _ d. discriminate.
    + rewrite bool_decide_false by exact Hne.
      destruct (cleanup_loop_clock strptime (now - 600) (datetimes s) s)
        as (k & Hk & Hdk & Hold & Hfresh).
      exists k. split; [exact Hk |]. split; [exact Hdk |]. split; [exact Hold |].
      intros _. exact Hfresh.
  - exists 0%nat. split; [lia |]. split; [by rewrite drop_0 |].
    split; [constructor |]. intros H. discriminate H.
Qed.

(** ** Ranges of the derived values *)

(** [round] stays between integer bounds of its argument. *)
Lemma py_round_bounds (q : Q) (a b : Z) :
  (inject_Z a <= q)%Q -> (q <= inject_Z b)%Q -> (a <= py_round q <= b)%Z.
Proof.
  intros Ha Hb. unfold py_round.
  assert (Hfa : (a <= Qfloor q)%Z).
  { rewrite <- (Qfloor_Z a). by apply Qfloor_resp_le. }
  assert (Hfb : (Qfloor q <= b)%Z).
  { rewrite <- (Qfloor_Z b). by apply Qfloor_resp_le. }
  assert (Hup : (0 < q - inject_Z (Qfloor q))%Q -> (Qfloor q + 1 <= b)%Z).
  { intros Hpos.
    assert (Hlt : (inject_Z (Qfloor q) < inject_Z b)%Q).
    { eapply Qlt_le_trans; [| exact Hb].
      apply (Qplus_lt_l _ _ (- inject_Z (Qfloor q))).
      rewrite Qplus_opp_r. exact Hpos. }
    rewrite <- Zlt_Qlt in Hlt. lia. }
  destruct (Qcompare (q - inject_Z (Qfloor q)) (1 # 2)) eqn:E.
  - destruct (Z.even (Qfloor q)); [lia |].
    apply Qeq_alt in E. split; [lia |]. apply Hup. rewrite E. reflexivity.
  - lia.
  - apply Qgt_alt in E. split; [lia |]. apply Hup.
    eapply Qlt_trans; [| exact E]. reflexivity.
Qed.

Lemma py_round_inject_Z (z : Z) : py_round (inject_Z z) = z.
Proof.
  pose proof (py_round_bounds (inject_Z z) z z) as H.
  assert (z <= py_round (inject_Z z) <= z)%Z; [| lia].
  apply H; apply Qle_refl.
Qed.




(** * Further properties of recording and replay *)

Section RecordLoadReplay.

Variable orjson_dumps : ReplayFrame -> option string.
Variable orjson_loads : string -> option ReplayFrame.
Variable writer_accepts : list string -> string -> bool.
Variable read_decompressed : string -> option string.
Variable decode_utf8 : string -> option string.

(** The record that [capture_state] writes for one capture, if any: none
    when recording is off or the frame does not serialise. *)
Definition written_record (c : string * Hastin) : option string :=
  if record_for_replay c.2 then orjson_dumps (capture_data c.1 c.2) else None.

(** The frames of a session that reached the file. *)
Definition written_frame (c : string * Hastin) : option ReplayFrame :=
  match written_record c with
  | Some _ => Some (capture_data c.1 c.2)
  | None => None
  end.

Lemma record_session_chunks (captures : list (string * Hastin)) :
  (forall w chunk, writer_accepts w chunk = true) ->
  forall rm written,
    compressed_writer rm = Some written ->
    compressed_writer (record_session orjson_dumps writer_accepts captures rm)
    = Some (written ++ List.map (fun d => d +:+ newline) (omap written_record captures)) /\
    replay_data (record_session orjson_dumps writer_accepts captures rm) = replay_data rm /\
    current_replay_id (record_session orjson_dumps writer_accepts captures rm)
    = current_replay_id rm.
Proof.
  intros Hw. induction captures as [| c captures IH]; intros rm written Hwr.
  - simpl. by rewrite app_nil_r.
  - unfold record_session. cbn [fold_left].
    fold (record_session orjson_dumps writer_accepts captures
            (capture_state orjson_dumps writer_accepts c.1 c.2 rm)).
    cbn [omap list_omap]. unfold written_record at 1.
    unfold capture_state.
    destruct (record_for_replay c.2); simpl.
    + destruct (orjson_dumps (capture_data c.1 c.2)) as [d |]; simpl.
      * rewrite Hwr, Hw.
        destruct (IH (mkReplayManager (rm_replay_file rm) (current_replay_id rm)
                        (replay_data rm)
                        (Some (written ++ [d +:+ String "010"%char EmptyString]))
                        (rm_log rm))
                    (written ++ [d +:+ String "010"%char EmptyString]) eq_refl)
          as (E1 & E2 & E3).
        rewrite E1, E2, E3. split; [| done].
        by rewrite <- app_assoc.
      * destruct (IH (add_log rm LogFailedToWrite) written Hwr) as (E1 & E2 & E3).
        by rewrite E1, E2, E3.
    + by apply IH.
Qed.

Lemma load_file_content (frames : list ReplayFrame) (records : list string)
    (path raw : string) :
  Forall2 (fun f d => orjson_loads d = Some f /\ d <> EmptyString) frames records ->
  Forall clean_record records ->
  read_decompressed path = Some raw ->
  decode_utf8 raw = Some (file_content records) ->
  path <> EmptyString ->
  replay_data
    (ReplayManager_new orjson_loads read_decompressed decode_utf8 (Some path) false)
  = frames /\
  current_replay_id
    (ReplayManager_new orjson_loads read_decompressed decode_utf8 (Some path) false)
  = 0%nat.
Proof.
  intros Hl Hclean Hread Hdecode Hpath. unfold ReplayManager_new.
  destruct (String.eqb_spec path EmptyString) as [-> | _]; [done |].
  unfold _load_replay_file, load_attempt. simpl. rewrite Hread, Hdecode.
  destruct records as [| d records].
  - apply Forall2_nil_inv_r in Hl. subst frames. by vm_compute.
  - rewrite strip_file_content, split_joined by done.
    by rewrite (load_lines_records orjson_loads _ _ [] Hl).
Qed.

Lemma written_records_frames (captures : list (string * Hastin)) :
  (forall c d, c ∈ captures -> written_record c = Some d ->
     orjson_loads d = Some (capture_data c.1 c.2) /\ clean_record d) ->
  Forall2 (fun f d => orjson_loads d = Some f /\ d <> EmptyString)
    (omap written_frame captures) (omap written_record captures) /\
  Forall clean_record (omap written_record captures).
Proof.
  induction captures as [| c captures IH]; intros Hcodec.
  - split; constructor.
  - destruct IH as [IH1 IH2].
    { intros c' d Hc'. apply Hcodec. by apply list_elem_of_further. }
    cbn [omap list_omap]. unfold written_frame at 1.
    destruct (written_record c) as [d |] eqn:Hd; [| by split].
    destruct (Hcodec c d (list_elem_of_here _ _) Hd) as [Hl Hc].
    split; constructor; try done. split; [done |]. by destruct Hc.
Qed.

End RecordLoadReplay.

(** X10. Recording, loading, replaying. A session records one frame per
    capture; a capture made while recording is off, or whose frame does
    not serialise, writes nothing (the failure is logged) and does not
    disturb the others. When the file holds what the writer received and
    the parser inverts the serialiser on the written records, the player
    loads exactly the frames that were written, in order, and
    [len(log) + 1] requests return their events in order and then
    [None]. The event of a frame carries the recorded system
    utilisation, the filtered variables, the process list, the statistics
    and the serialised metrics; it does not carry the recorded polling
    latency. *)
Theorem recorded_frames_replay_in_order
    (orjson_dumps : ReplayFrame -> option string)
    (orjson_loads : string -> option ReplayFrame)
    (writer_accepts : list string -> string -> bool)
    (read_decompressed decode_utf8 : string -> option string)
    (captures : list (string * Hastin)) (path raw : string)
    (chunks : list string) :
  (forall w chunk, writer_accepts w chunk = true) ->
  (forall c d, c ∈ captures -> written_record orjson_dumps c = Some d ->
     orjson_loads d = Some (capture_data c.1 c.2) /\ clean_record d) ->
  compressed_writer
    (record_session orjson_dumps writer_accepts captures
       (ReplayManager_new orjson_loads read_decompressed decode_utf8 None true))
  = Some chunks ->
  read_decompressed path = Some raw ->
  decode_utf8 raw = Some (stream_content chunks) ->
  path <> EmptyString ->
  let player :=
    ReplayManager_new orjson_loads read_decompressed decode_utf8 (Some path) false in
  let frames := omap (written_frame orjson_dumps) captures in
  replay_data player = frames /\
  (requests (S (length frames)) player).2
  = List.map (fun f => Some (event_of_frame f)) frames ++ [None] /\
  Forall (fun f => exists now_iso h,
            (now_iso, h) ∈ captures /\
            let e := event_of_frame f in
            rd_timestamp e = now_iso /\
            rd_system_utilization e = h_system_utilization h /\
            rd_global_variables e = _filter_variables (h_global_variables h) /\
            rd_processlist e = processlist_threads h /\
            rd_replication_status e = h_replication_status h /\
            rd_connection_stats e = h_connection_stats h /\
            rd_database_stats e = h_database_stats h /\
            rd_metric_manager e = _serialize_metrics h) frames /\
  (forall f latency,
     event_of_frame
       (mkReplayFrame (f_timestamp f) (f_system_utilization f) (f_global_variables f)
          (f_processlist f) (f_replication_status f) (f_connection_stats f)
          (f_database_stats f) (f_metric_manager f) latency)
     = event_of_frame f).
Proof.
  intros Hw Hcodec Hchunks Hread Hdecode Hpath player frames.
  destruct (record_session_chunks orjson_dumps writer_accepts captures Hw
              (ReplayManager_new orjson_loads read_decompressed decode_utf8 None true)
              [] eq_refl) as (Hwritten & _ & _).
  rewrite Hchunks in Hwritten. injection Hwritten as ->. simpl in Hdecode.
  rewrite stream_content_records in Hdecode.
  destruct (written_records_frames orjson_dumps orjson_loads captures Hcodec)
    as [Hl Hclean].
  destruct (load_file_content orjson_loads read_decompressed decode_utf8
              _ _ path raw Hl Hclean Hread Hdecode Hpath) as [Hdata Hcur].
  fold player in Hdata, Hcur. fold frames in Hdata.
  split; [exact Hdata |]. split.
  { destruct (requests_from (length frames) player) as (E1 & E2 & E3);
      [rewrite Hcur, Hdata; lia |].
    destruct (requests_snoc (length frames) player) as [S1 _].
    rewrite S1, E1, Hcur, Hdata, drop_0, firstn_all.
    destruct (get_next_refresh_interval_spec (requests (length frames) player).1)
      as (_ & _ & Hend).
    destruct Hend as [-> _]; [rewrite E2, E3, Hcur, Hdata; lia | reflexivity]. }
  split; [| reflexivity].
  apply Forall_forall. intros f Hf. unfold frames in Hf.
  apply list_elem_of_omap in Hf as ([now_iso h] & Hc & Hf).
  unfold written_frame in Hf. destruct (written_record _ _); [| discriminate Hf].
  injection Hf as <-. exists now_iso, h. split; [exact Hc |]. simpl.
  repeat split.
  unfold _serialize_processlist. rewrite map_map. simpl.
  induction (processlist_threads h) as [| [k [td]] l IH]; simpl; [done |].
  by rewrite IH.
Qed.

Definition recording_hastin (recording : bool) : Hastin :=
  mkHastin recording postgresql false ∅ [("port", "5432"); ("ssl_key_file", "k")] []
    ∅ ∅ ∅ (MetricManager_new None false) 0.

Lemma recorded_frames_replay_in_order_witness :
  replay_data
    (ReplayManager_new (fun _ => Some (capture_data "t1" (recording_hastin true)))
       (fun _ => Some "raw") (fun _ => Some (stream_content ["{}" +:+ newline]))
       (Some "session.zst") false)
  = [capture_data "t1" (recording_hastin true)].
Proof.
  refine (proj1 (recorded_frames_replay_in_order (fun _ => Some "{}")
            (fun _ => Some (capture_data "t1" (recording_hastin true)))
            (fun _ _ => true) (fun _ => Some "raw")
            (fun _ => Some (stream_content ["{}" +:+ newline]))
            [("t1", recording_hastin true); ("t2", recording_hastin false)]
            "session.zst" "raw" ["{}" +:+ newline] _ _ _ _ _ _)).
  - reflexivity.
  - intros c d Hc Hd.
    apply elem_of_cons in Hc as [-> | Hc].
    + injection Hd as <-. split; [reflexivity |].
      split; [discriminate |]. split; [reflexivity |]. split; reflexivity.
    + apply list_elem_of_singleton in Hc as ->. discriminate Hd.
  - vm_compute. reflexivity.
  - reflexivity.
  - reflexivity.
  - discriminate.
Defined.

(** ** The replay worker *)

(** X11. Whatever the tab, the screen and the replay log, a step of
    [run_worker_replay] leaves the metric store of the tab as it was. A
    step that is held back (a modal screen is open, the replay is paused
    and the step is not a manual one, or the tab is not the active one)
    consumes no frame and notifies nothing; a step at the end of the log
    cancels the worker without a notification; every step that fetches a
    frame copies the frame's system utilisation and variables into the
    tab, then ends in the exception handler: it notifies the attribute
    error and cancels the worker, with the cursor advanced by one. *)
Theorem replay_worker_never_restores (strftime : Z -> string)
    (strptime : string -> option Z) (now : Z) (screen_stack : nat)
    (is_active manual_control : bool) (tab : Tab) :
  let held := (1 <? screen_stack)%nat
              || (pause_refresh (hastin tab) && negb manual_control)
              || negb is_active in
  let res := run_worker_replay strftime strptime now screen_stack is_active
               manual_control tab in
  metric_manager (hastin res.1) = metric_manager (hastin tab) /\
  replay_manual_control res.1 = manual_control /\
  (held = true ->
   res = (mkTab (hastin tab) (replay_manager tab) (worker_cancelled tab)
            manual_control, [])) /\
  (held = false ->
   (length (replay_data (replay_manager tab))
    <= current_replay_id (replay_manager tab))%nat ->
   res = (mkTab (hastin tab) (replay_manager tab) true manual_control, [])) /\
  (held = false ->
   forall frame,
     replay_data (replay_manager tab) !! current_replay_id (replay_manager tab)
     = Some frame ->
     res.2 = ["Error during replay: 'PostgreSQLReplayData' object has no attribute 'get'"] /\
     worker_cancelled res.1 = true /\
     current_replay_id (replay_manager res.1)
     = S (current_replay_id (replay_manager tab)) /\
     replay_data (replay_manager res.1) = replay_data (replay_manager tab) /\
     h_system_utilization (hastin res.1) = f_system_utilization frame /\
     h_global_variables (hastin res.1) = f_global_variables frame /\
     processlist_threads (hastin res.1) = processlist_threads (hastin tab) /\
     worker_processing_time (hastin res.1) = worker_processing_time (hastin tab)).
Proof.
  intros held res. subst held res. unfold run_worker_replay, replay_try.
  cbn [hastin replay_manager worker_cancelled replay_manual_control].
  destruct ((1 <? screen_stack)%nat
            || pause_refresh (hastin tab) && negb manual_control
            || negb is_active);
    cbn [hastin replay_manager worker_cancelled replay_manual_control].
  { split; [reflexivity |]. split; [reflexivity |]. split; [reflexivity |].
    split; intros H; discriminate H. }
  destruct (get_next_refresh_interval_spec (replay_manager tab)) as (Hdata & Hsome & Hnone).
  destruct (get_next_refresh_interval (replay_manager tab)) as [rm [event |]] eqn:Hnext;
    cbn [fst snd] in *.
  - assert (Hraise : call_replay_event_data "get"
                     = inl "'PostgreSQLReplayData' object has no attribute 'get'")
      by (vm_compute; reflexivity).
    rewrite Hraise. cbn.
    split; [reflexivity |]. split; [reflexivity |]. split; [discriminate |].
    split.
    { intros _ Hle. destruct (Hnone Hle) as [Hx _]. discriminate Hx. }
    intros _ frame Hframe. destruct (Hsome frame Hframe) as [He Hc].
    injection He as ->. by repeat split.
  - cbn. split; [reflexivity |]. split; [reflexivity |]. split; [discriminate |].
    split.
    { intros _ Hle. destruct (Hnone Hle) as [_ ->]. reflexivity. }
    intros _ frame Hframe. destruct (Hsome frame Hframe) as [He _]. discriminate He.
Qed.

(** * Further properties of the key guard *)

(** ** The command tables of [CommandManager.py] *)

(** One entry of a command table: the key, its [human_key] and its
    [description]. *)
Definition command_entry := (string * string * string)%type.

(** [command_keys[ConnectionSource.postgresql]["Commands"]]. *)
Definition postgresql_commands : list command_entry :=
  [("1", "1", "Toggle panel Dashboard"); ("2", "2", "Toggle panel Processlist");
   ("3", "3", "Toggle panel Metric Graphs");
   ("4", "4", "Toggle panel Replication"); ("5", "5", "Toggle panel Locks");
   ("6", "6", "Toggle panel Statements (pg_stat_statements)");
   ("7", "7", "Toggle panel PgBouncer (requires --pgbouncer-host)");
   ("placeholder_1", EmptyString, EmptyString); ("grave_accent", "`", "Open tab setup");
   ("plus", "+", "Create a new tab"); ("minus", "-", "Remove the current tab");
   ("equals_sign", "=", "Rename the current tab");
   ("D", "D", "Disconnect from the tab's host");
   ("ctrl+a", "ctrl+a", "Switch to the previous tab");
   ("ctrl+d", "ctrl+d", "Switch to the next tab"); ("placeholder_2", EmptyString, EmptyString);
   ("a", "a", "Toggle additional processlist columns");
   ("i", "i", "Toggle display of idle threads");
   ("T", "T", "Toggle display of threads with active transactions");
   ("p", "p", "Toggle pause for refreshing of panels");
   ("s", "s", "Toggle sorting for Age in Processlist panel");
   ("S", "S", "Toggle Statistics/s section in Dashboard");
   ("placeholder_3", EmptyString, EmptyString);
   ("l", "l", "Display blocked queries / lock waits");
   ("d", "d", "Display all databases");
   ("t", "t", "Display details of a thread along with EXPLAIN");
   ("u", "u", "Display connected users and their statistics");
   ("v", "v", "Display PostgreSQL settings (pg_settings)");
   ("z", "z", "Display all entries in the host cache");
   ("Z", "Z", "Display table sizes"); ("placeholder_4", EmptyString, EmptyString);
   ("c", "c", "Clear all filters set");
   ("f", "f", "Filter threads by field(s)");
   ("E", "E", "Export the processlist to a CSV file");
   ("k", "k", "Kill backend(s)"); ("M", "M", "Maximize a panel");
   ("q", "q", "Quit"); ("r", "r", "Set the refresh interval");
   ("R", "R", "Reset all metrics");
   ("space", "space", "Force a manual refresh of all panels")].

(** [command_keys[ConnectionSource.rds]] and
    [command_keys[ConnectionSource.aurora]]: the source writes the table
    of [ConnectionSource.postgresql] out again for each of them. *)
Definition rds_commands : list command_entry := postgresql_commands.
Definition aurora_commands : list command_entry := postgresql_commands.

(** [command_keys["postgresql_replay"]["Commands"]]. *)
Definition postgresql_replay_commands : list command_entry :=
  [("1", "1", "Toggle panel Dashboard"); ("2", "2", "Toggle panel Processlist");
   ("3", "3", "Toggle panel Metric Graphs");
   ("4", "4", "Toggle panel Replication"); ("5", "5", "Toggle panel Locks");
   ("placeholder_1", EmptyString, EmptyString); ("grave_accent", "`", "Open tab setup");
   ("plus", "+", "Create a new tab"); ("minus", "-", "Remove the current tab");
   ("equals_sign", "=", "Rename the current tab");
   ("ctrl+a", "ctrl+a", "Switch to the previous tab");
   ("ctrl+d", "ctrl+d", "Switch to the next tab"); ("placeholder_2", EmptyString, EmptyString);
   ("a", "a", "Toggle additional processlist columns");
   ("T", "T", "Toggle display of threads with active transactions");
   ("s", "s", "Toggle sorting for Age in Processlist panel");
   ("placeholder_3", EmptyString, EmptyString); ("t", "t", "Display details of a thread");
   ("v", "v", "Display PostgreSQL settings");
   ("V", "V", "Display settings that changed during recording");
   ("placeholder_4", EmptyString, EmptyString); ("p", "p", "Toggle pause of replay");
   ("S", "S", "Seek to a specific time in the replay");
   ("left_square_bracket",
    "[", "Seek to previous refresh interval in the replay");
   ("right_square_bracket",
    "]", "Seek to next refresh interval in the replay");
   ("placeholder_5", EmptyString, EmptyString); ("c", "c", "Clear all filters set");
   ("f", "f", "Filter threads by field(s)");
   ("E", "E", "Export the processlist to a CSV file");
   ("M", "M", "Maximize a panel"); ("q", "q", "Quit");
   ("r", "r", "Set the refresh interval")].

(** [CommandManager.get_commands]: the table of ["postgresql_replay"] when
    [replay_file] is truthy, else the table of the connection source;
    [None] when [command_keys] has no table for it. *)
Definition CommandManager_get_commands (replay_file : bool)
    (connection_source : ConnectionSource) : option (list command_entry) :=
  if replay_file then Some postgresql_replay_commands
  else
    match connection_source with
    | postgresql => Some postgresql_commands
    | rds => Some rds_commands
    | aurora => Some aurora_commands
    | _ => None
    end.

(** What the guard of [process_key_event] asks of the table: the keys
    that [.get(key)] finds with a truthy entry (every entry is a
    non-empty dictionary). *)
Definition command_table_keys (replay_file : bool)
    (connection_source : ConnectionSource) : option (list string) :=
  List.map (fun e : command_entry => e.1.1)
    <$> CommandManager_get_commands replay_file connection_source.

(** The keys that act on the server or on the live session; the replay
    table does not list them. *)
Definition live_only_keys : list string :=
  ["6"; "7"; "D"; "R"; "Z"; "d"; "i"; "k"; "l"; "space"; "u"; "z"].

Definition debounce_interval_of (key : string) : Z :=
  default default_debounce_interval (key_debounce_intervals !! key).

(** X12. Which keys the guard lets through depends on the command
    tables: there is a table for PostgreSQL, RDS and Aurora sessions and
    one for replays, and none for the other connection sources. In a
    live session on any other source (PgBouncer, Cloud SQL, ...) a key
    that is not a pass-through key makes the guard fail on the missing
    table, once it is past the debounce check; a pass-through key is
    never validated, so it is dispatched unless hosts are connecting as
    a hostgroup. In a replay the table does not depend on the source,
    and the keys that act on the server or the live session are
    rejected as invalid. *)
Theorem command_tables_by_source (last_key_time : gmap string Z)
    (loading_hostgroups : bool) (tab : KeyTab) (now : Z) (key : string) :
  (debounce_interval_of key
   <= now - default datetime_min (last_key_time !! key))%Z ->
  let outcome :=
    process_key_event command_table_keys last_key_time loading_hostgroups
      (Some tab) now key in
  (kt_replay_file tab = false ->
   kt_connection_source tab ∉ [postgresql; rds; aurora] ->
   key ∉ exclude_keys ->
   outcome = (CommandTableMissing, <[key := now]> last_key_time, [])) /\
  (key ∈ exclude_keys ->
   outcome = if loading_hostgroups
             then (LoadingHostgroups, <[key := now]> last_key_time,
                   [loading_hostgroups_message])
             else (Dispatched, <[key := now]> last_key_time, [])) /\
  (kt_replay_file tab = true ->
   command_table_keys true (kt_connection_source tab)
   = command_table_keys true postgresql /\
   (key ∈ live_only_keys ->
    outcome = (InvalidCommand, <[key := now]> last_key_time,
               [invalid_command_message key]))) /\
  (kt_replay_file tab = false ->
   kt_connection_source tab ∈ [postgresql; rds; aurora] ->
   command_table_keys false (kt_connection_source tab)
   = command_table_keys false postgresql).
Proof.
  intros Hgap outcome. subst outcome. unfold process_key_event.
  fold (debounce_interval_of key).
  rewrite (proj2 (Z.ltb_ge _ _) Hgap).
  split; [| split; [| split]].
  - intros Hrep Hsrc Hkey. rewrite Hrep.
    rewrite (bool_decide_false _ Hkey).
    assert (command_table_keys false (kt_connection_source tab) = None) as ->.
    { destruct (kt_connection_source tab); try reflexivity;
        exfalso; apply Hsrc; set_solver. }
    reflexivity.
  - intros Hkey. rewrite (bool_decide_true _ Hkey). reflexivity.
  - intros Hrep. split; [reflexivity |]. intros Hkey. rewrite Hrep.
    assert (Hex : key ∉ exclude_keys).
    { unfold live_only_keys in Hkey. intros Hx.
      repeat (apply elem_of_cons in Hkey as [-> | Hkey];
              [apply (bool_decide_pack _) in Hx; vm_compute in Hx; exact Hx |]).
      by apply elem_of_nil in Hkey. }
    rewrite (bool_decide_false _ Hex).
    change (command_table_keys true (kt_connection_source tab))
      with (command_table_keys true postgresql).
    assert (Hno : forall ks, command_table_keys true postgresql = Some ks ->
                   key ∉ ks).
    { intros ks [= <-] Hx. unfold live_only_keys in Hkey.
      repeat (apply elem_of_cons in Hkey as [-> | Hkey];
              [apply (bool_decide_pack _) in Hx; vm_compute in Hx; exact Hx |]).
      by apply elem_of_nil in Hkey. }
    destruct (command_table_keys true postgresql) as [ks |] eqn:Eks;
      [| discriminate Eks].
    rewrite (bool_decide_false _ (Hno ks eq_refl)). reflexivity.
  - intros Hrep Hsrc.
    repeat (apply elem_of_cons in Hsrc as [-> | Hsrc]; [reflexivity |]).
    by apply elem_of_nil in Hsrc.
Qed.

Lemma command_tables_by_source_witness :
  process_key_event command_table_keys ∅ false
    (Some (mkKeyTab false pgbouncer None true)) 0 "k"
  = (CommandTableMissing, <["k" := 0%Z]> ∅, []).
Proof.
  refine (proj1 (command_tables_by_source ∅ false
            (mkKeyTab false pgbouncer None true) 0 "k" _) _ _ _).
  - vm_compute. discriminate.
  - reflexivity.
  - apply (bool_decide_unpack _). vm_compute. reflexivity.
  - apply (bool_decide_unpack _). vm_compute. reflexivity.
Defined.

(** ** Debouncing *)

Section Debounce.

Variable get_commands : bool -> ConnectionSource -> option (list string).

(** One key press: the time, the key, and what the guard sees then: the
    active tab, if any, and whether hosts are connecting as a
    hostgroup. *)
Record KeyPress := mkKeyPress {
  press_time : Z;
  press_key : string;
  press_tab : option KeyTab;
  press_loading : bool;
}.

(** A sequence of key presses, each handled by [process_key_event] with
    the [last_key_time] that the earlier ones left: the outcomes in
    order and the final [last_key_time]. *)
Fixpoint press_keys (last_key_time : gmap string Z) (presses : list KeyPress)
  : list KeyOutcome * gmap string Z :=
  match presses with
  | [] => ([], last_key_time)
  | p :: rest =>
      let '(outcome, lkt, _) :=
        process_key_event get_commands last_key_time (press_loading p)
          (press_tab p) (press_time p) (press_key p) in
      let '(outcomes, lkt') := press_keys lkt rest in
      (outcome :: outcomes, lkt')
  end.

(** A press passes the debounce check when there is an active tab and the
    key press is not dropped. *)
Definition passes (o : KeyOutcome) : bool :=
  match o with
  | NoActiveTab | Debounced => false
  | _ => true
  end.

(** The times at which presses of [key] passed the debounce check. *)
Fixpoint passed_times (key : string) (presses : list KeyPress)
    (outcomes : list KeyOutcome) : list Z :=
  match presses, outcomes with
  | p :: ps, o :: os =>
      if bool_decide (press_key p = key) && passes o
      then press_time p :: passed_times key ps os
      else passed_times key ps os
  | _, _ => []
  end.

(** Consecutive elements are at least [gap] apart. *)
Fixpoint spaced (gap : Z) (l : list Z) : Prop :=
  match l with
  | a :: (b :: _) as rest => (gap <= b - a)%Z /\ spaced gap rest
  | _ => True
  end.

Lemma process_key_event_cases (last_key_time : gmap string Z)
    (loading_hostgroups : bool) (active_tab : option KeyTab) (now : Z)
    (key : string) :
  let r := process_key_event get_commands last_key_time loading_hostgroups
             active_tab now key in
  (passes r.1.1 = false /\ r.1.2 = last_key_time) \/
  (passes r.1.1 = true /\ r.1.2 = <[key := now]> last_key_time /\
   (debounce_interval_of key
    <= now - default datetime_min (last_key_time !! key))%Z).
Proof.
  unfold process_key_event. fold (debounce_interval_of key).
  destruct active_tab as [tab |]; [| by left].
  destruct (Z.ltb_spec (now - default datetime_min (last_key_time !! key))
              (debounce_interval_of key)) as [Hlt | Hge]; [by left |].
  right.
  destruct (bool_decide (key ∈ exclude_keys)).
  { destruct loading_hostgroups; by repeat split. }
  destruct (get_commands _ _) as [commands |]; [| by repeat split].
  destruct (negb (bool_decide (key ∈ commands))); [by repeat split |].
  destruct (match secondary_db_connection tab with
            | Some db => is_running_query db
            | None => false
            end); [by repeat split |].
  destruct (negb (main_db_connected tab) && negb (kt_replay_file tab));
    [by repeat split |].
  destruct loading_hostgroups; by repeat split.
Qed.

Lemma press_keys_spaced (key : string) (presses : list KeyPress) :
  forall last_key_time,
    let res := press_keys last_key_time presses in
    length res.1 = length presses /\
    match last_key_time !! key with
    | Some t0 => spaced (debounce_interval_of key)
                   (t0 :: passed_times key presses res.1)
    | None => spaced (debounce_interval_of key) (passed_times key presses res.1)
    end /\
    (forall t, head (passed_times key presses res.1) = Some t ->
       (debounce_interval_of key
        <= t - default datetime_min (last_key_time !! key))%Z).
Proof.
  induction presses as [| p rest IH]; intros last_key_time.
  - simpl. split; [done |]. split; [by destruct (last_key_time !! key) |].
    intros t. discriminate.
  - cbn [press_keys].
    pose proof (process_key_event_cases last_key_time (press_loading p)
                  (press_tab p) (press_time p) (press_key p)) as Hcase.
    destruct (process_key_event get_commands last_key_time (press_loading p)
                (press_tab p) (press_time p) (press_key p)) as [[o lkt] msgs].
    cbn [fst snd] in Hcase.
    specialize (IH lkt).
    destruct (press_keys lkt rest) as [os lkt'] eqn:Erest. cbn [fst snd] in IH |- *.
    destruct IH as (Hlen & Hsp & Hhead).
    split; [simpl; by rewrite Hlen |].
    cbn [passed_times].
    destruct Hcase as [[Hpass ->] | (Hpass & -> & Hgap)]; rewrite Hpass.
    + rewrite andb_false_r. split; [exact Hsp | exact Hhead].
    + rewrite andb_true_r.
      destruct (decide (press_key p = key)) as [E | Hne].
      * rewrite bool_decide_true by exact E. subst key.
        rewrite lookup_insert_eq in Hsp, Hhead. cbn [default] in Hhead.
        split.
        -- destruct (last_key_time !! press_key p) as [t0 |] eqn:E0.
           ++ split; [exact Hgap | exact Hsp].
           ++ exact Hsp.
        -- intros t [= <-]. exact Hgap.
      * rewrite bool_decide_false by exact Hne.
        rewrite lookup_insert_ne in Hsp, Hhead by exact Hne.
        split; [exact Hsp | exact Hhead].
Qed.

Lemma press_keys_app (lkt : gmap string Z) (pre rest : list KeyPress) :
  press_keys lkt (pre ++ rest)
  = ((press_keys lkt pre).1 ++ (press_keys (press_keys lkt pre).2 rest).1,
     (press_keys (press_keys lkt pre).2 rest).2).
Proof.
  revert lkt. induction pre as [| p pre IH]; intros lkt.
  - simpl. by destruct (press_keys lkt rest).
  - cbn [press_keys app].
    destruct (process_key_event get_commands lkt (press_loading p) (press_tab p)
                (press_time p) (press_key p)) as [[o lkt1] msgs].
    rewrite IH. destruct (press_keys lkt1 pre) as [os lkt2]. cbn [fst snd].
    by destruct (press_keys lkt2 rest).
Qed.

(** [last_key_time] holds, for every key, the time of its last press that
    passed the debounce check. *)
Lemma press_keys_last (key : string) (presses : list KeyPress) :
  forall lkt,
    (press_keys lkt presses).2 !! key
    = match last (passed_times key presses (press_keys lkt presses).1) with
      | Some t => Some t
      | None => lkt !! key
      end.
Proof.
  induction presses as [| p rest IH]; intros lkt; [done |].
  cbn [press_keys].
  pose proof (process_key_event_cases lkt (press_loading p)
                (press_tab p) (press_time p) (press_key p)) as Hcase.
  destruct (process_key_event get_commands lkt (press_loading p)
              (press_tab p) (press_time p) (press_key p)) as [[o lkt1] msgs].
  cbn [fst snd] in Hcase. specialize (IH lkt1).
  destruct (press_keys lkt1 rest) as [os lkt'] eqn:Erest. cbn [fst snd] in IH |- *.
  rewrite IH. cbn [passed_times].
  destruct Hcase as [[Hpass ->] | (Hpass & -> & _)]; rewrite Hpass.
  - by rewrite andb_false_r.
  - rewrite andb_true_r. destruct (decide (press_key p = key)) as [E | Hne].
    + rewrite bool_decide_true by exact E. subst key.
      rewrite lookup_insert_eq, last_cons.
      by destruct (last (passed_times (press_key p) rest os)).
    + rewrite bool_decide_false by exact Hne.
      by rewrite lookup_insert_ne by exact Hne.
Qed.

Lemma process_key_event_passes (last_key_time : gmap string Z)
    (loading_hostgroups : bool) (tab : KeyTab) (now : Z) (key : string) :
  (debounce_interval_of key
   <= now - default datetime_min (last_key_time !! key))%Z ->
  passes (process_key_event get_commands last_key_time loading_hostgroups
            (Some tab) now key).1.1 = true.
Proof.
  intros Hge. unfold process_key_event. fold (debounce_interval_of key).
  rewrite (proj2 (Z.ltb_ge _ _) Hge).
  destruct (bool_decide (key ∈ exclude_keys)).
  { by destruct loading_hostgroups. }
  destruct (get_commands _ _) as [commands |]; [| done].
  destruct (negb (bool_decide (key ∈ commands))); [done |].
  destruct (match secondary_db_connection tab with
            | Some db => is_running_query db
            | None => false
            end); [done |].
  destruct (negb (main_db_connected tab) && negb (kt_replay_file tab)); [done |].
  by destruct loading_hostgroups.
Qed.

End Debounce.

(** X13. Debouncing, over any sequence of key presses, tabs and command
    tables. Two presses of one key that both pass the debounce check are
    at least the debounce interval of that key apart (50 ms, 100 ms for
    the seek keys, 300 ms for space and minus); presses of other keys do
    not count. Conversely a press made on an active tab passes the check
    when it comes at least that interval after the last press of the
    same key that passed (or when no press of that key passed before): a
    press that was dropped, or that came while there was no active tab,
    does not restart the interval. *)
Theorem debounced_presses_are_spaced
    (get_commands : bool -> ConnectionSource -> option (list string))
    (presses : list KeyPress) (key : string) :
  let outcomes := (press_keys get_commands ∅ presses).1 in
  length outcomes = length presses /\
  spaced (debounce_interval_of key) (passed_times key presses outcomes) /\
  (50 <= debounce_interval_of key)%Z /\
  (forall pre p post,
     presses = pre ++ p :: post ->
     press_key p = key ->
     is_Some (press_tab p) ->
     (debounce_interval_of key
      <= press_time p
         - default datetime_min
             (last (passed_times key pre (press_keys get_commands ∅ pre).1)))%Z ->
     exists o, outcomes !! length pre = Some o /\ passes o = true).
Proof.
  intros outcomes. subst outcomes.
  destruct (press_keys_spaced get_commands key presses ∅) as (Hlen & Hsp & _).
  rewrite lookup_empty in Hsp.
  split; [exact Hlen |]. split; [exact Hsp |]. split.
  - unfold debounce_interval_of, key_debounce_intervals.
    destruct (decide (key = "left_square_bracket")) as [-> | H1]; [by vm_compute |].
    destruct (decide (key = "right_square_bracket")) as [-> | H2]; [by vm_compute |].
    destruct (decide (key = "space")) as [-> | H3]; [by vm_compute |].
    destruct (decide (key = "minus")) as [-> | H4]; [by vm_compute |].
    rewrite !lookup_insert_ne by congruence.
    rewrite lookup_singleton_ne by congruence. by vm_compute.
  - intros pre p post -> Hkey [tab Htab] Hgap.
    rewrite press_keys_app. cbn [fst].
    pose proof (press_keys_last get_commands key pre ∅) as Hlast.
    pose proof (press_keys_spaced get_commands key pre ∅) as (Hlenp & _).
    destruct (press_keys get_commands ∅ pre) as [os lkt]. cbn [fst snd] in *.
    rewrite lookup_empty in Hlast.
    cbn [press_keys].
    pose proof (process_key_event_passes get_commands lkt (press_loading p) tab
                  (press_time p) (press_key p)) as Hpass.
    rewrite Htab.
    destruct (process_key_event get_commands lkt (press_loading p) (Some tab)
                (press_time p) (press_key p)) as [[o lkt1] msgs].
    destruct (press_keys get_commands lkt1 post) as [os2 lkt2]. cbn [fst snd] in *.
    exists o. split.
    + rewrite lookup_app_r by lia. by rewrite Hlenp, Nat.sub_diag.
    + apply Hpass. rewrite Hkey, Hlast.
      by destruct (last (passed_times key pre os)).
Qed.

(** ** PgBouncer totals ([WorkerManager.run_worker_main]) *)

(** [sum(int(p.get(field, 0)) for p in rows)]; the rows are the
    dictionaries that [fetchall] returned, their counters are integers. *)
Definition sum_field (rows : list (gmap string Z)) (field : string) : Z :=
  py_sum (List.map (fun p => dict_get p field 0) rows).

(** [pgbouncer_pools_aggregated]: empty unless there are pools. *)
Definition pgbouncer_pools_aggregated (pgbouncer_pools : list (gmap string Z))
  : gmap string Z :=
  match pgbouncer_pools with
  | [] => ∅
  | _ :: _ =>
      {[ "cl_active" := sum_field pgbouncer_pools "cl_active";
         "cl_waiting" := sum_field pgbouncer_pools "cl_waiting";
         "sv_active" := sum_field pgbouncer_pools "sv_active";
         "sv_idle" := sum_field pgbouncer_pools "sv_idle" ]}
  end.

(** [pgbouncer_stats_aggregated]: empty unless there are statistics. *)
Definition pgbouncer_stats_aggregated (pgbouncer_stats : list (gmap string Z))
  : gmap string Z :=
  match pgbouncer_stats with
  | [] => ∅
  | _ :: _ =>
      {[ "xact_count" := sum_field pgbouncer_stats "total_xact_count";
         "query_count" := sum_field pgbouncer_stats "total_query_count";
         "bytes_received" := sum_field pgbouncer_stats "total_received";
         "bytes_sent" := sum_field pgbouncer_stats "total_sent" ]}
  end.

(** What [run_worker_main] has polled when it calls [refresh_data]. *)
Record PolledData := mkPolledData {
  p_worker_start_time : Z;
  p_polling_latency : Q;
  p_system_utilization : gmap string Z;
  p_database_stats : gmap string Z;
  p_bgwriter_stats : gmap string Z;
  p_connection_stats : gmap string Z;
  p_replication_status : gmap string Z;
  p_pgbouncer_pools : list (gmap string Z);
  p_pgbouncer_stats : list (gmap string Z);
}.

(** The call of [refresh_data] in [run_worker_main]; [disk_io_metrics] is
    not passed. *)
Definition run_worker_main_args (p : PolledData) : RefreshArgs :=
  mkRefreshArgs (p_worker_start_time p) (p_polling_latency p)
    (Some (p_system_utilization p)) None (Some (p_replication_status p))
    (Some (p_database_stats p)) (Some (p_bgwriter_stats p))
    (Some (p_connection_stats p))
    (Some (pgbouncer_pools_aggregated (p_pgbouncer_pools p)))
    (Some (pgbouncer_stats_aggregated (p_pgbouncer_stats p))).

(** The pool gauges of the catalogue. *)
Definition pool_fields : list string :=
  ["cl_active"; "cl_waiting"; "sv_active"; "sv_idle"].

Definition pool_tuples : list metric_tuple :=
  [("cl_active", 25%nat, [pgbouncer]); ("cl_waiting", 26%nat, [pgbouncer]);
   ("sv_active", 27%nat, [pgbouncer]); ("sv_idle", 28%nat, [pgbouncer])].

Lemma catalogue_pool_tuples :
  (PGBOUNCER_POOLS, pool_tuples) ∈ _source_to_metrics_processing catalogue /\
  Forall (fun t : metric_tuple =>
            metric_ref catalogue "pgbouncer_connections" t.1.1 = Some t.1.2 /\
            exists md0, heap catalogue !! t.1.2 = Some md0 /\
                        save_history md0 = true /\
                        per_second_calculation md0 = false)
    pool_tuples.
Proof.
  split; [apply (bool_decide_unpack _); vm_compute; reflexivity |].
  repeat (constructor; [split; [vm_compute; reflexivity |];
                        eexists; split; [vm_compute; reflexivity |];
                        split; reflexivity |]).
  constructor.
Qed.

Lemma pools_total (d : gmap string Z) (pools : list (gmap string Z))
    (field : string) :
  field ∈ pool_fields ->
  dict_get (dict_update d (pgbouncer_pools_aggregated pools)) field 0
  = match pools with
    | [] => dict_get d field 0
    | _ :: _ => sum_field pools field
    end.
Proof.
  intros Hf. unfold dict_get, dict_update. destruct pools as [| p pools].
  - simpl. by rewrite (left_id_L ∅ (∪)).
  - cbn [pgbouncer_pools_aggregated].
    set (rows := p :: pools).
    unfold pool_fields in Hf.
    repeat (apply elem_of_cons in Hf as [-> | Hf];
            [erewrite lookup_union_Some_l; [reflexivity |];
             repeat (first [apply lookup_insert_eq
                           | rewrite lookup_insert_ne by discriminate]);
             apply lookup_singleton_eq |]).
    apply elem_of_nil in Hf; destruct Hf.
Qed.

(** X14. In a live PgBouncer session outside daemon mode, every cycle
    after the first appends to each pool gauge (clients active and
    waiting, servers active and idle) the sum of that counter over the
    pools that were polled. When no pool was polled, the aggregated
    dictionary is empty, the manager keeps the totals of the last cycle
    that had pools, and the gauge repeats that total (0 when there never
    was one). *)
Theorem pgbouncer_pool_totals (strftime : Z -> string)
    (strptime : string -> option Z) (s0 : MetricManager)
    (l : list (Z * RefreshArgs)) (now : Z) (p : PolledData) :
  replaying s0 = false -> daemon_mode s0 = false ->
  connection_source s0 = pgbouncer -> l <> [] ->
  exists s s',
    cycles strftime strptime (reset s0) l = Some s /\
    cycles strftime strptime (reset s0) (l ++ [(now, run_worker_main_args p)])
    = Some s' /\
    forall field, field ∈ pool_fields ->
      exists vs,
        series_values s "pgbouncer_connections" field = Some vs /\
        series_values s' "pgbouncer_connections" field
        = Some (vs ++ [match p_pgbouncer_pools p with
                       | [] => dict_get (pgbouncer_pools s) field 0
                       | _ :: _ => sum_field (p_pgbouncer_pools p) field
                       end]).
Proof.
  intros Hlive Hdm Hsrc Hne.
  destruct (gauge_cycle strftime strptime s0 l (now, run_worker_main_args p)
              Hlive Hdm Hne)
    as (s & s' & E & E' & Hwf & Hall).
  exists s, s'. split; [exact E |]. split; [exact E' |].
  destruct (session_state strftime strptime (l ++ [(now, run_worker_main_args p)])
              (reset s0) (reset_live_invariant s0 Hlive))
    as (s'' & E'' & ((Hm' & _) & _) & _).
  assert (s'' = s') as -> by congruence.
  destruct catalogue_pool_tuples as [Hin Hts].
  pose proof Hwf as (Hm & Ht & _ & [_ Hrel]).
  intros field Hf.
  assert (exists r, (field, r, [pgbouncer]) ∈ pool_tuples) as [r Htup].
  { unfold pool_fields in Hf. unfold pool_tuples.
    apply elem_of_cons in Hf as [-> | Hf];
      [exists 25%nat; apply list_elem_of_here |].
    apply elem_of_cons in Hf as [-> | Hf];
      [exists 26%nat; do 1 apply list_elem_of_further; apply list_elem_of_here |].
    apply elem_of_cons in Hf as [-> | Hf];
      [exists 27%nat; do 2 apply list_elem_of_further; apply list_elem_of_here |].
    apply elem_of_cons in Hf as [-> | Hf];
      [exists 28%nat; do 3 apply list_elem_of_further; apply list_elem_of_here |].
    apply elem_of_nil in Hf; destruct Hf. }
  destruct (proj1 (Forall_forall _ _) Hts _ Htup)
    as (Href & md0 & Hmd0 & Hs0 & Hp0).
  simpl in Href, Hmd0.
  destruct (Hrel r md0 Hmd0) as (md & Hmd & Hs & Hp).
  destruct (Hall PGBOUNCER_POOLS pool_tuples field r [pgbouncer] md)
    as (data' & Hd1 & _ & Hv); try congruence.
  { rewrite Hsrc. apply list_elem_of_here. }
  { unfold pool_fields in Hf.
    repeat (apply elem_of_cons in Hf as [-> | Hf]; [discriminate |]).
    apply elem_of_nil in Hf; destruct Hf. }
  simpl in Hd1. injection Hd1 as <-.
  rewrite pools_total in Hv by exact Hf.
  exists (values md). unfold series_values, metric_ref.
  rewrite Hm', Hm. fold (metric_ref catalogue "pgbouncer_connections" field).
  rewrite Href, Hmd. split; [reflexivity | exact Hv].
Qed.

Lemma pgbouncer_pool_totals_witness :
  exists s s',
    cycles toy_strftime toy_strptime
      (reset (set_connection_source (MetricManager_new None false) pgbouncer))
      [(1, poll 1 1 [] [])]%Z = Some s /\
    cycles toy_strftime toy_strptime
      (reset (set_connection_source (MetricManager_new None false) pgbouncer))
      ([(1, poll 1 1 [] [])]
       ++ [(2, run_worker_main_args
                 (mkPolledData 2 1 ∅ ∅ ∅ ∅ ∅
                    [{[ "cl_active" := 3 ]}; {[ "cl_active" := 4 ]}] []))])%Z
    = Some s' /\
    series_values s' "pgbouncer_connections" "cl_active" = Some [7%Z].
Proof.
  destruct (pgbouncer_pool_totals toy_strftime toy_strptime
              (set_connection_source (MetricManager_new None false) pgbouncer)
              [(1, poll 1 1 [] [])]%Z 2
              (mkPolledData 2 1 ∅ ∅ ∅ ∅ ∅
                 [{[ "cl_active" := 3%Z ]}; {[ "cl_active" := 4%Z ]}] []))
    as (s & s' & E & E' & Hall).
  - vm_compute. reflexivity.
  - vm_compute. reflexivity.
  - vm_compute. reflexivity.
  - discriminate.
  - exists s, s'. split; [exact E |]. split; [exact E' |].
    destruct (Hall "cl_active") as (vs & Hvs & Hvs').
    { apply (bool_decide_unpack _). vm_compute. reflexivity. }
    rewrite Hvs'. vm_compute in E. injection E as <-.
    vm_compute in Hvs. injection Hvs as <-. vm_compute. reflexivity.
Defined.

(** * The loop that installs a recorded store *)

(** The loop of [run_worker_replay] visits the recorded series in the
    order of the catalogue; flattened, it is one pass over the
    references. [vals r] is the recorded series of the object [r]. *)
Definition install_at (vals : ref -> list Z) (mm : MetricManager) (r : ref)
  : result MetricManager :=
  match heap mm !! r with
  | None => Ok mm
  | Some metric =>
      match last (vals r) with
      | None =>
          Raise "list index out of range"
            (set_heap mm (<[r := with_values metric (vals r)]> (heap mm)))
      | Some lv =>
          Ok (set_heap mm
                (<[r := with_last_value (with_values metric (vals r)) (Some lv)]>
                   (heap mm)))
      end
  end.

Fixpoint install_all (vals : ref -> list Z) (mm : MetricManager) (rs : list ref)
  : result MetricManager :=
  match rs with
  | [] => Ok mm
  | r :: rest =>
      match install_at vals mm r with
      | Ok mm' => install_all vals mm' rest
      | Raise m mm' => Raise m mm'
      end
  end.

Lemma install_all_app (vals : ref -> list Z) (mm : MetricManager)
    (l1 l2 : list ref) :
  install_all vals mm (l1 ++ l2)
  = match install_all vals mm l1 with
    | Ok mm' => install_all vals mm' l2
    | Raise m mm' => Raise m mm'
    end.
Proof.
  revert mm. induction l1 as [| r l1 IH]; intros mm; simpl; [done |].
  destruct (install_at vals mm r); [apply IH | done].
Qed.

Definition result_state {A} (x : result A) : A :=
  match x with Ok a => a | Raise _ a => a end.

Lemma install_at_frame (vals : ref -> list Z) (mm : MetricManager) (r : ref) :
  same_frame mm (result_state (install_at vals mm r)) /\
  length (heap (result_state (install_at vals mm r))) = length (heap mm).
Proof.
  unfold install_at. destruct (heap mm !! r) as [t |].
  - destruct (last (vals r)); simpl;
      (split; [apply same_frame_set_heap | apply length_insert]).
  - split; [apply same_frame_refl | done].
Qed.

Lemma install_all_frame (vals : ref -> list Z) (rs : list ref) :
  forall mm,
    same_frame mm (result_state (install_all vals mm rs)) /\
    length (heap (result_state (install_all vals mm rs))) = length (heap mm).
Proof.
  induction rs as [| r rs IH]; intros mm; simpl.
  - split; [apply same_frame_refl | done].
  - destruct (install_at_frame vals mm r) as [Hf Hl].
    destruct (install_at vals mm r) as [mm1 | m mm1]; simpl in Hf, Hl.
    + destruct (IH mm1) as [Hf' Hl']. split; [by eapply same_frame_trans | congruence].
    + by split.
Qed.

(** Looking a name up in a list of named things that has no duplicate
    name finds the thing itself. *)
Lemma list_find_name {B} (l : list (string * B)) (k : string) (v : B) :
  NoDup l.*1 -> (k, v) ∈ l ->
  exists i, list_find (fun p : string * B => bool_decide (p.1 = k)) l = Some (i, (k, v)).
Proof.
  induction l as [| [k' v'] l IH]; intros Hnd Hin; [by apply elem_of_nil in Hin |].
  simpl in Hnd. apply NoDup_cons in Hnd as [Hk Hnd].
  cbn [list_find]. simpl.
  apply elem_of_cons in Hin as [[= <- <-] | Hin].
  - rewrite bool_decide_true by done. by exists 0%nat.
  - rewrite bool_decide_false.
    + destruct (IH Hnd Hin) as [i ->]. simpl. by exists (S i).
    + intros ->. apply Hk. apply list_elem_of_fmap. by exists (k, v).
Qed.

Lemma omap_cons_Some {A B} (f : A -> option B) (x : A) (l : list A) (y : B) :
  f x = Some y -> omap f (x :: l) = y :: omap f l.
Proof. intros H. cbn [omap list_omap]. by rewrite H. Qed.

Section Install.

(** The recorded store and the series it holds. *)
Variable hs : list MetricData.

Definition recorded_values (r : ref) : list Z :=
  match hs !! r with
  | Some m => values m
  | None => []
  end.

(** The dictionary that [_serialize_metrics] builds for one instance. *)
Definition instance_dict (fs : list (string * ref)) : list (string * list Z) :=
  omap (fun f : string * ref =>
          match hs !! f.2 with
          | Some attr => Some (f.1, values attr)
          | None => None
          end) fs.

Lemma instance_dict_map (fs : list (string * ref)) :
  Forall (fun f : string * ref => (f.2 < length hs)%nat) fs ->
  instance_dict fs = List.map (fun f : string * ref => (f.1, recorded_values f.2)) fs.
Proof.
  induction 1 as [| [a r] fs Hf _ IH]; [done |].
  unfold instance_dict in *. cbn [snd] in Hf.
  apply lookup_lt_is_Some in Hf as [m Hm0].
  assert (Hm : hs !! r = Some m) by exact Hm0.
  rewrite (omap_cons_Some _ (a, r) fs (a, values m)) by (cbn [fst snd]; by rewrite Hm).
  cbn [List.map fst snd]. unfold recorded_values at 1. by rewrite Hm, IH.
Qed.

Lemma install_instance_flat (inst : MetricInstance) (fs : list (string * ref)) :
  NoDup (md_fields inst).*1 ->
  fs ⊆ md_fields inst ->
  forall mm,
    install_instance mm inst
      (List.map (fun f : string * ref => (f.1, recorded_values f.2)) fs)
    = install_all recorded_values mm fs.*2.
Proof.
  intros Hnd. induction fs as [| [a r] fs IH]; intros Hsub mm; [done |].
  cbn [List.map install_instance fmap list_fmap install_all].
  assert (Hin : (a, r) ∈ md_fields inst) by (apply Hsub; apply list_elem_of_here).
  assert (Hfs : fs ⊆ md_fields inst).
  { intros x Hx. apply Hsub. by apply list_elem_of_further. }
  unfold install_values. cbn [fst snd].
  destruct (list_find_name (md_fields inst) a r Hnd Hin) as [i ->].
  unfold install_at. simpl.
  destruct (heap mm !! r) as [t |]; [| by apply IH].
  destruct (last (recorded_values r)); [by apply IH | done].
Qed.

End Install.

(** The references of the [MetricData] fields of a catalogue, in order. *)
Definition all_field_refs (M : list (string * MetricInstance)) : list ref :=
  M ≫= (fun e => (md_fields e.2).*2).

Lemma catalogue_field_names :
  NoDup (metrics catalogue).*1 /\
  Forall (fun e : string * MetricInstance =>
            NoDup (md_fields e.2).*1 /\ md_fields e.2 <> [])
    (metrics catalogue) /\
  all_field_refs (metrics catalogue) = seq 0 (length (heap catalogue)).
Proof.
  split; [apply (bool_decide_unpack _); vm_compute; reflexivity |].
  split; [| vm_compute; reflexivity].
  assert (Hb : forallb (fun e : string * MetricInstance =>
                          bool_decide (NoDup (md_fields e.2).*1)
                          && negb (bool_decide (md_fields e.2 = [])))
                 (metrics catalogue) = true) by (vm_compute; reflexivity).
  apply Forall_forall. intros e He.
  apply list_elem_of_In in He.
  pose proof (proj1 (forallb_forall _ _) Hb e He) as H.
  apply andb_true_iff in H as [H1 H2].
  split; [by apply bool_decide_eq_true in H1 |].
  apply negb_true_iff, bool_decide_eq_false in H2. exact H2.
Qed.

Section InstallStore.

Variable hs : list MetricData.
Variable M : list (string * MetricInstance).
Hypothesis M_names : NoDup M.*1.
Hypothesis M_fields :
  Forall (fun e : string * MetricInstance =>
            NoDup (md_fields e.2).*1 /\ md_fields e.2 <> []) M.
Hypothesis M_refs : Forall (fun r => (r < length hs)%nat) (all_field_refs M).

(** What [_serialize_metrics] writes for the instances [es]. *)
Definition serialized (es : list (string * MetricInstance))
  : list (string * list (string * list Z)) :=
  List.map (fun e : string * MetricInstance =>
              (e.1, List.map (fun f : string * ref => (f.1, recorded_values hs f.2))
                      (md_fields e.2))) es.

Lemma serialize_metrics_serialized (h : Hastin) :
  heap (metric_manager h) = hs -> metrics (metric_manager h) = M ->
  sm_metrics (_serialize_metrics h) = serialized M.
Proof.
  intros Hh Hm. unfold _serialize_metrics. cbn [sm_metrics]. rewrite Hh, Hm.
  clear M_names Hm. revert M_fields M_refs.
  induction M as [| [name inst] M0 IH]; intros Hf Hr; [done |].
  apply Forall_cons in Hf as [[_ Hne] Hf].
  unfold all_field_refs in Hr. rewrite bind_cons in Hr.
  apply Forall_app in Hr as [Hr1 Hr2]. cbn [fst snd] in *.
  assert (Hdict : instance_dict hs (md_fields inst)
                  = List.map (fun f : string * ref => (f.1, recorded_values hs f.2))
                      (md_fields inst)).
  { apply instance_dict_map. apply Forall_forall. intros f Hf'.
    apply (proj1 (Forall_forall _ _) Hr1). apply list_elem_of_fmap. by exists f. }
  unfold serialized in IH |- *. cbn [List.map fst snd].
  rewrite <- (IH Hf Hr2).
  erewrite omap_cons_Some; [reflexivity |]. cbn [fst snd].
  fold (instance_dict hs (md_fields inst)). rewrite Hdict.
  destruct (md_fields inst) as [| f fs]; [done | reflexivity].
Qed.

Lemma install_metrics_flat (es : list (string * MetricInstance)) :
  es ⊆ M ->
  forall mm, metrics mm = M ->
    install_metrics mm (serialized es)
    = install_all (recorded_values hs) mm (all_field_refs es).
Proof.
  induction es as [| [name inst] es IH]; intros Hsub mm Hmm; [done |].
  assert (Hin : (name, inst) ∈ M) by (apply Hsub; apply list_elem_of_here).
  assert (Hes : es ⊆ M).
  { intros x Hx. apply Hsub. by apply list_elem_of_further. }
  unfold serialized, all_field_refs. rewrite bind_cons.
  cbn [List.map install_metrics fst snd]. rewrite Hmm.
  destruct (list_find_name M name inst M_names Hin) as [i ->].
  destruct (proj1 (Forall_forall _ _) M_fields _ Hin) as [Hnd _].
  cbn [fst snd] in Hnd.
  rewrite (install_instance_flat hs inst (md_fields inst) Hnd) by done.
  rewrite install_all_app.
  destruct (install_all_frame (recorded_values hs) (md_fields inst).*2 mm) as [Hf _].
  destruct (install_all (recorded_values hs) mm (md_fields inst).*2) as [mm1 | m mm1];
    [| done].
  simpl in Hf. apply IH; [exact Hes |].
  destruct (same_frame_fields _ _ Hf) as (_ & _ & _ & _ & -> & _). exact Hmm.
Qed.

End InstallStore.

Lemma install_all_ok (vals : ref -> list Z) (rs : list ref) :
  NoDup rs -> (forall r, r ∈ rs -> vals r <> []) ->
  forall mm,
    exists mm',
      install_all vals mm rs = Ok mm' /\ same_frame mm mm' /\
      (forall i, i ∉ rs -> heap mm' !! i = heap mm !! i) /\
      (forall r t, r ∈ rs -> heap mm !! r = Some t ->
         exists lv, last (vals r) = Some lv /\
           heap mm' !! r
           = Some (with_last_value (with_values t (vals r)) (Some lv))).
Proof.
  induction rs as [| r rs IH]; intros Hnd Hne mm.
  - exists mm. split; [done |]. split; [apply same_frame_refl |].
    split; [done |]. intros r t Hr. by apply elem_of_nil in Hr.
  - apply NoDup_cons in Hnd as [Hr Hnd].
    assert (exists lv, last (vals r) = Some lv) as [lv Hlv].
    { destruct (last (vals r)) eqn:E; [eauto |].
      apply last_None in E. exfalso. apply (Hne r); [apply list_elem_of_here | done]. }
    cbn [install_all]. unfold install_at. rewrite Hlv.
    set (step := fun t => set_heap mm
                   (<[r := with_last_value (with_values t (vals r)) (Some lv)]> (heap mm))).
    assert (Hcont : forall mm1, same_frame mm mm1 ->
              (forall i, i <> r -> heap mm1 !! i = heap mm !! i) ->
              (forall t, heap mm !! r = Some t ->
                 heap mm1 !! r
                 = Some (with_last_value (with_values t (vals r)) (Some lv))) ->
              exists mm',
                install_all vals mm1 rs = Ok mm' /\ same_frame mm mm' /\
                (forall i, i ∉ r :: rs -> heap mm' !! i = heap mm !! i) /\
                (forall r0 t, r0 ∈ r :: rs -> heap mm !! r0 = Some t ->
                   exists lv0, last (vals r0) = Some lv0 /\
                     heap mm' !! r0
                     = Some (with_last_value (with_values t (vals r0)) (Some lv0)))).
    { intros mm1 Hf1 Hother Hat.
      destruct (IH Hnd (fun r0 Hr0 => Hne r0 (list_elem_of_further _ _ _ Hr0)) mm1)
        as (mm' & E & Hf' & Hk & Hin).
      exists mm'. split; [exact E |]. split; [by eapply same_frame_trans |].
      split.
      - intros i Hi. apply not_elem_of_cons in Hi as [Hi1 Hi2].
        rewrite Hk by exact Hi2. by apply Hother.
      - intros r0 t Hr0 Ht. apply elem_of_cons in Hr0 as [-> | Hr0].
        + exists lv. split; [exact Hlv |]. rewrite Hk by exact Hr. by apply Hat.
        + apply (Hin r0 t Hr0). rewrite Hother; [exact Ht |].
          intros ->. contradiction. }
    destruct (heap mm !! r) as [t |] eqn:Ht.
    + apply Hcont.
      * apply same_frame_set_heap.
      * intros i Hi. simpl. by apply list_lookup_insert_ne.
      * intros t' [= <-]. simpl. apply list_lookup_insert_eq.
        by eapply lookup_lt_Some.
    + apply Hcont; [apply same_frame_refl | done | intros t' Ht'; discriminate Ht'].
Qed.

Lemma install_all_raises (vals : ref -> list Z) (rs : list ref) (r : ref) :
  r ∈ rs -> vals r = [] ->
  forall mm, (r < length (heap mm))%nat ->
    exists mm', install_all vals mm rs = Raise "list index out of range" mm'.
Proof.
  induction rs as [| r0 rs IH]; intros Hr Hv mm Hlen; [by apply elem_of_nil in Hr |].
  cbn [install_all].
  destruct (install_at_frame vals mm r0) as [_ Hl].
  destruct (install_at vals mm r0) as [mm1 | m mm1] eqn:E.
  - simpl in Hl. apply elem_of_cons in Hr as [-> | Hr].
    + exfalso. unfold install_at in E.
      apply lookup_lt_is_Some in Hlen as [t Ht].
      assert (Ht' : heap mm !! r0 = Some t) by exact Ht.
      rewrite Ht', Hv in E. discriminate E.
    + apply IH; [exact Hr | exact Hv | congruence].
  - exists mm1. unfold install_at in E.
    destruct (heap mm !! r0); [| discriminate E].
    destruct (last (vals r0)); [discriminate E |]. by injection E as <- <-.
Qed.

(** The loop on a store recorded from a manager laid out as the
    catalogue, installed into another such manager. *)
Lemma install_recorded_flat (h : Hastin) (tgt : MetricManager) :
  metrics (metric_manager h) = metrics catalogue ->
  length (heap (metric_manager h)) = length (heap catalogue) ->
  metrics tgt = metrics catalogue ->
  install_metrics tgt (sm_metrics (_serialize_metrics h))
  = install_all (recorded_values (heap (metric_manager h))) tgt
      (seq 0 (length (heap catalogue))).
Proof.
  intros Hm Hl Ht.
  destruct catalogue_field_names as (Hnd & Hfs & Hrefs).
  assert (Hfs' : Forall (fun e : string * MetricInstance =>
                           NoDup (md_fields e.2).*1 /\ md_fields e.2 <> [])
                   (metrics catalogue)) by exact Hfs.
  rewrite (serialize_metrics_serialized (heap (metric_manager h)) (metrics catalogue)
             Hfs' ltac:(rewrite Hrefs, Hl; apply Forall_forall; intros r Hr;
                        apply elem_of_seq in Hr; lia) h eq_refl Hm).
  rewrite (install_metrics_flat (heap (metric_manager h)) (metrics catalogue)
             Hnd Hfs' (metrics catalogue) ltac:(done) tgt Ht).
  by rewrite Hrefs.
Qed.

(** X15. Round trip of the metric store through a replay frame: when
    every series of the recorded store holds at least one value, the loop
    at the end of a replay step completes, and every object of the target
    store then holds the recorded series as its values and the last
    recorded value as its last value, its flags unchanged. *)
Theorem recorded_series_install (h : Hastin) (tgt : MetricManager) :
  metrics (metric_manager h) = metrics catalogue ->
  length (heap (metric_manager h)) = length (heap catalogue) ->
  metrics tgt = metrics catalogue ->
  length (heap tgt) = length (heap catalogue) ->
  Forall (fun m => values m <> []) (heap (metric_manager h)) ->
  exists tgt',
    install_metrics tgt (sm_metrics (_serialize_metrics h)) = Ok tgt' /\
    same_frame tgt tgt' /\
    forall (r : ref) m t,
      heap (metric_manager h) !! r = Some m -> heap tgt !! r = Some t ->
      exists lv,
        last (values m) = Some lv /\
        heap tgt' !! r = Some (with_last_value (with_values t (values m)) (Some lv)).
Proof.
  intros Hm Hl Ht Hlt Hne.
  rewrite (install_recorded_flat h tgt Hm Hl Ht).
  destruct (install_all_ok (recorded_values (heap (metric_manager h)))
              (seq 0 (length (heap catalogue))) (NoDup_seq _ _)) with (mm := tgt)
    as (tgt' & E & Hf & _ & Hin).
  { intros r Hr. apply elem_of_seq in Hr. unfold recorded_values.
    destruct (heap (metric_manager h) !! r) as [m |] eqn:Hr'.
    - exact (proj1 (Forall_lookup _ _) Hne r m Hr').
    - apply lookup_ge_None in Hr'. lia. }
  exists tgt'. split; [exact E |]. split; [exact Hf |].
  intros r m t Hr Ht'.
  pose proof Hr as Hr'.
  destruct (Hin r t) as (lv & Hlv & Hv).
  { apply elem_of_seq. apply lookup_lt_Some in Ht'. lia. }
  { exact Ht'. }
  unfold recorded_values in Hlv, Hv. rewrite Hr' in Hlv, Hv.
  exists lv. split; [exact Hlv | exact Hv].
Qed.

(** A store in which every series holds the value 7. *)
Definition filled_hastin : Hastin :=
  mkHastin true postgresql false ∅ [] [] ∅ ∅ ∅
    (set_heap catalogue (List.map (fun m => with_values m [7%Z]) (heap catalogue))) 0.

Lemma recorded_series_install_witness :
  exists tgt',
    install_metrics catalogue (sm_metrics (_serialize_metrics filled_hastin)) = Ok tgt' /\
    same_frame catalogue tgt' /\
    forall (r : ref) m t,
      heap (metric_manager filled_hastin) !! r = Some m -> heap catalogue !! r = Some t ->
      exists lv,
        last (values m) = Some lv /\
        heap tgt' !! r = Some (with_last_value (with_values t (values m)) (Some lv)).
Proof.
  apply (recorded_series_install filled_hastin catalogue).
  - vm_compute. reflexivity.
  - vm_compute. reflexivity.
  - reflexivity.
  - reflexivity.
  - apply (bool_decide_unpack _). vm_compute. reflexivity.
Defined.

(** ** Frames of live sessions *)

(** Whether the processing table of the catalogue feeds the object [r] in
    a session on the connection source [c]. *)
Definition fed_by_table (c : ConnectionSource) (r : ref) : bool :=
  existsb (fun st : MetricSource * list metric_tuple =>
             existsb (fun t : metric_tuple =>
                        bool_decide (t.1.2 = r) && bool_decide (c ∈ t.2)) st.2)
    (_source_to_metrics_processing catalogue).

(** A history-bearing series that a session on [c] never feeds: a
    statement counter in a PgBouncer session, a PgBouncer pool gauge in
    every other one. *)
Definition unfed_ref (c : ConnectionSource) : ref :=
  match c with
  | pgbouncer => 7%nat
  | _ => 25%nat
  end.

Lemma unfed_ref_spec (c : ConnectionSource) :
  fed_by_table c (unfed_ref c) = false /\
  unfed_ref c ∈ _all_metrics_data_history catalogue /\
  unfed_ref c <> lag_ref /\ unfed_ref c <> ratio_ref /\
  (unfed_ref c < length (heap catalogue))%nat.
Proof.
  split; [destruct c; vm_compute; reflexivity |].
  split; [destruct c; apply (bool_decide_unpack _); vm_compute; reflexivity |].
  split; [destruct c; discriminate |].
  split; [destruct c; discriminate |].
  destruct c; vm_compute; lia.
Qed.

Lemma unfed_ref_not_fed (s : MetricManager) :
  well_formed s -> ~ feeds s (unfed_ref (connection_source s)).
Proof.
  intros (Hm & Ht & _ & _).
  destruct (unfed_ref_spec (connection_source s)) as (Hfed & _ & Hlag & Hratio & _).
  destruct (catalogue_computed_refs s Hm) as [El Er].
  intros [H | [H | (src & ts & name & conn & Hin & Htup & Hc)]].
  - rewrite El in H. injection H as H. by apply Hlag.
  - rewrite Er in H. injection H as H. by apply Hratio.
  - rewrite Ht in Hin.
    assert (fed_by_table (connection_source s) (unfed_ref (connection_source s)) = true)
      as Htrue; [| congruence].
    unfold fed_by_table. apply existsb_exists.
    exists (src, ts). split; [by apply list_elem_of_In |].
    apply existsb_exists. exists (name, unfed_ref (connection_source s), conn).
    split; [by apply list_elem_of_In |]. cbn [fst snd].
    apply andb_true_iff. split; apply bool_decide_eq_true; [reflexivity | exact Hc].
Qed.

(** X16. No frame recorded in a live session can be installed: whatever
    the connection source and however many cycles ran, the recorded store
    holds an empty series (one that the session never feeds), and the
    loop at the end of a replay step stops there with the [IndexError]
    of [metric_values[-1]]. *)
Theorem live_frame_aborts_install (strftime : Z -> string)
    (strptime : string -> option Z) (s0 : MetricManager)
    (l : list (Z * RefreshArgs)) (h : Hastin) (tgt : MetricManager) :
  replaying s0 = false ->
  cycles strftime strptime (reset s0) l = Some (metric_manager h) ->
  metrics tgt = metrics catalogue ->
  length (heap tgt) = length (heap catalogue) ->
  exists tgt',
    install_metrics tgt (sm_metrics (_serialize_metrics h))
    = Raise "list index out of range" tgt'.
Proof.
  intros Hlive Hcyc Ht Hlt.
  destruct (cycles_live_invariant strftime strptime l (reset s0)
              (reset_live_invariant s0 Hlive)) as (s & E & Hinv & _).
  rewrite Hcyc in E. injection E as <-.
  destruct Hinv as (Hwf & _ & _ & _ & Hlock).
  pose proof Hwf as (Hm & _ & Hh & Hlen & _).
  set (r := unfed_ref (connection_source (metric_manager h))).
  destruct (unfed_ref_spec (connection_source (metric_manager h)))
    as (_ & Hhist & _ & _ & Hr).
  fold r in Hhist, Hr.
  rewrite (install_recorded_flat h tgt Hm Hlen Ht).
  apply (install_all_raises _ _ r).
  - apply elem_of_seq. lia.
  - unfold recorded_values.
    destruct (heap (metric_manager h) !! r) as [md |] eqn:Hmd; [| reflexivity].
    apply (Hlock r md); [by rewrite Hh | exact Hmd |].
    by apply unfed_ref_not_fed.
  - lia.
Qed.

(** The frame that a PostgreSQL session holds after two polls. *)
Definition live_frame_hastin : Hastin :=
  mkHastin true postgresql false ∅ [] [] ∅ ∅ ∅
    (default catalogue
       (cycles toy_strftime toy_strptime (reset catalogue)
          [(1%Z, poll 1 1 [] []); (2%Z, poll 2 1 [] [])])) 0.

Lemma live_frame_aborts_install_witness :
  exists tgt',
    install_metrics catalogue (sm_metrics (_serialize_metrics live_frame_hastin))
    = Raise "list index out of range" tgt'.
Proof.
  apply (live_frame_aborts_install toy_strftime toy_strptime catalogue
           [(1%Z, poll 1 1 [] []); (2%Z, poll 2 1 [] [])] live_frame_hastin catalogue).
  - reflexivity.
  - vm_compute. reflexivity.
  - reflexivity.
  - reflexivity.
Defined.

(** * The arithmetic of ingestion on Python values

    The readings that the providers and the database driver deliver are
    Python numbers or [None] ([SystemMetrics] declares [float | None] and
    [int | None] fields, [Hastin.database_stats] is a
    [dict[str, int | float]]), and the polling latency is a [float]. This
    part embeds the ingestion path of [MetricManager.py] on such values:
    an [int] is a [Z], a [float] is an IEEE 754 binary64 number as
    [SpecFloat] specifies it, and every operator and builtin is the one
    that Python applies to the operands at hand, with [None] for a raised
    exception. The catalogue and the lookup tables are the ones built
    above. *)

(** The static part of a declared [MetricData] object. *)
Definition MetricDecl := MetricData.

Definition decl_label (d : MetricDecl) : string := label d.
Definition decl_color (d : MetricDecl) : color := md_color d.
Definition decl_visible (d : MetricDecl) : bool := visible d.
Definition decl_save_history (d : MetricDecl) : bool := save_history d.
Definition decl_per_second_calculation (d : MetricDecl) : bool :=
  per_second_calculation d.
Definition decl_graphable (d : MetricDecl) : bool := graphable d.
Definition decl_create_switch (d : MetricDecl) : bool := create_switch d.

(** [round] and [int] on the exact value of a finite float. *)
Definition round_half_even (q : Q) : Z := py_round q.
Definition truncate (q : Q) : Z := py_int q.

(** ** Floats *)

Definition float := spec_float.

Definition prec : Z := 53.
Definition emax : Z := 1024.

Definition float_add : float -> float -> float := SFadd prec emax.
Definition float_sub : float -> float -> float := SFsub prec emax.
Definition float_mul : float -> float -> float := SFmul prec emax.
Definition float_div : float -> float -> float := SFdiv prec emax.

(** The integer [z] as the unrounded pair of mantissa [z] and exponent 0. *)
Definition exact_int (z : Z) : float :=
  match z with
  | Z0 => S754_zero false
  | Zpos m => S754_finite false m 0
  | Zneg m => S754_finite true m 0
  end.

(** The value of a finite float, as a rational. *)
Definition float_value (f : float) : option Q :=
  match f with
  | S754_zero _ => Some 0%Q
  | S754_finite s m e => Some (inject_Z (cond_Zopp s (Zpos m)) * 2 ^ e)%Q
  | S754_infinity _ | S754_nan => None
  end.

Definition is_zero (f : float) : bool :=
  match f with S754_zero _ => true | _ => false end.

(** [float(z)], the conversion that mixed arithmetic applies to an [int]
    operand: the nearest float, ties to even; [None] is [OverflowError]
    (int too large to convert to float). *)
Definition float_of_int (z : Z) : option float :=
  match binary_normalize prec emax z 0 false with
  | S754_infinity _ => None
  | f => Some f
  end.

(** [a / b] on two [int]s: the correctly rounded quotient; [None] is
    [ZeroDivisionError] or [OverflowError] (integer division result too
    large for a float). *)
Definition int_truediv (a b : Z) : option float :=
  if (b =? 0)%Z then None
  else
    match float_div (exact_int a) (exact_int b) with
    | S754_infinity _ => None
    | f => Some f
    end.

(** The float that the literal [n / d] of a decimal numeral denotes: the
    one nearest to the quotient. *)
Definition float_of_ratio (n : Z) (d : positive) : float :=
  float_div (exact_int n) (exact_int (Zpos d)).

(** ** Values *)

(** What a raw dictionary holds under a key that the manager reads, and
    what a series stores. *)
Inductive pyval :=
  | PyNone
  | PyInt (z : Z)
  | PyFloat (f : float).

Definition is_int (x : pyval) : bool :=
  match x with PyInt _ => true | _ => false end.

Definition is_none (x : pyval) : bool :=
  match x with PyNone => true | _ => false end.

Definition as_float (x : pyval) : option float :=
  match x with
  | PyNone => None
  | PyInt z => float_of_int z
  | PyFloat f => Some f
  end.

(** An arithmetic operator: exact on two [int]s, on floats when an
    operand is a float (the other one is converted), [TypeError] when an
    operand is [None]. *)
Definition arith (on_int : Z -> Z -> Z) (on_float : float -> float -> float)
    (x y : pyval) : option pyval :=
  match x, y with
  | PyInt a, PyInt b => Some (PyInt (on_int a b))
  | _, _ =>
      match as_float x, as_float y with
      | Some f, Some g => Some (PyFloat (on_float f g))
      | _, _ => None
      end
  end.

(** [x + y], [x - y], [x * y]. *)
Definition py_add : pyval -> pyval -> option pyval := arith Z.add float_add.
Definition py_sub : pyval -> pyval -> option pyval := arith Z.sub float_sub.
Definition py_mul : pyval -> pyval -> option pyval := arith Z.mul float_mul.

(** [x / y]: true division. A zero divisor is [ZeroDivisionError], also
    for floats. *)
Definition py_div (x y : pyval) : option pyval :=
  match x, y with
  | PyInt a, PyInt b => PyFloat <$> int_truediv a b
  | _, _ =>
      match as_float x, as_float y with
      | Some f, Some g =>
          if is_zero g then None else Some (PyFloat (float_div f g))
      | _, _ => None
      end
  end.

(** [x > c] for an [int] literal [c]: Python compares an [int] and a
    [float] by their values; a NaN is not greater than anything; [None]
    is [TypeError]. *)
Definition py_gt (x : pyval) (c : Z) : option bool :=
  match x with
  | PyNone => None
  | PyInt a => Some (c <? a)%Z
  | PyFloat f =>
      Some match f with
           | S754_nan => false
           | S754_infinity s => negb s
           | _ =>
               match float_value f with
               | Some q => negb (Qle_bool q (inject_Z c))
               | None => false
               end
           end
  end.

(** [x == c] for an [int] literal [c]; it never raises. *)
Definition py_eq (x : pyval) (c : Z) : bool :=
  match x with
  | PyNone => false
  | PyInt a => (a =? c)%Z
  | PyFloat f =>
      match float_value f with
      | Some q => Qeq_bool q (inject_Z c)
      | None => false
      end
  end.

(** [abs(x)]. *)
Definition builtin_abs (x : pyval) : option pyval :=
  match x with
  | PyNone => None
  | PyInt a => Some (PyInt (Z.abs a))
  | PyFloat f => Some (PyFloat (SFabs f))
  end.

(** [int(x)]: truncation toward zero on a float; [None] is [TypeError]
    for [None], [OverflowError] for an infinity and [ValueError] for a
    NaN. *)
Definition builtin_int (x : pyval) : option Z :=
  match x with
  | PyNone => None
  | PyInt a => Some a
  | PyFloat f => truncate <$> float_value f
  end.

(** [round(x)]: the nearest integer, ties to even, with the same
    exceptions as [int]. *)
Definition builtin_round (x : pyval) : option Z :=
  match x with
  | PyNone => None
  | PyInt a => Some a
  | PyFloat f => round_half_even <$> float_value f
  end.

(** The sign bit of a float. *)
Definition sign_bit (f : float) : bool :=
  match f with
  | S754_zero s | S754_infinity s | S754_finite s _ _ => s
  | S754_nan => false
  end.

(** [round(x, 1)]: on a finite float the float nearest to the decimal
    with one digit after the point that is nearest to its value (ties to
    even), a zero keeping the sign of [x]; an infinity or a NaN is
    returned as it is, and so is an [int]. *)
Definition builtin_round1 (x : pyval) : option pyval :=
  match x with
  | PyNone => None
  | PyInt a => Some (PyInt a)
  | PyFloat f =>
      match float_value f with
      | Some q =>
          let tenths := round_half_even (q * 10) in
          Some (PyFloat (if (tenths =? 0)%Z then S754_zero (sign_bit f)
                         else float_div (exact_int tenths) (exact_int 10)))
      | None => Some x
      end
  end.

(** The [int]s of a list of [int]s. *)
Definition ints (l : list pyval) : list Z :=
  omap (fun x => match x with PyInt a => Some a | _ => None end) l.

Section Sum.

(** [sum] on numbers that are not all [int]s accumulates floats; how it
    does so is the interpreter's business (a plain running sum, or a
    compensated one from CPython 3.12 on). *)
Variable float_sum : list pyval -> option pyval.

(** [sum(l)]: exact on [int]s, [TypeError] when the list holds [None]. *)
Definition builtin_sum (l : list pyval) : option pyval :=
  if forallb is_int l then Some (PyInt (py_sum (ints l)))
  else if existsb is_none l then None
  else float_sum l.

End Sum.

(** A running sum, left to right. *)
Definition running_sum (l : list pyval) : option pyval :=
  fold_left (fun acc x => match acc with
                          | Some a => py_add a x
                          | None => None
                          end) l (Some (PyInt 0)).

(** ** The objects and the manager *)

Module Py.

(** [d.get(key, default)]. *)
Definition dict_get (d : gmap string pyval) (k : string) (dflt : pyval) : pyval :=
  default dflt (d !! k).

(** [d.update(other)]: the entries of [other] win. *)
Definition dict_update (d other : gmap string pyval) : gmap string pyval :=
  other ∪ d.


Record MetricData := mkMetricData {
  label : string;
  md_color : color;
  visible : bool;
  save_history : bool;
  per_second_calculation : bool;
  last_value : pyval;
  graphable : bool;
  create_switch : bool;
  values : list pyval;
}.

(** A declared object as the dataclass creates it: [last_value] is
    [None], [values] an empty deque. *)
Definition MetricData_new (d : MetricDecl) : MetricData :=
  mkMetricData (decl_label d) (decl_color d) (decl_visible d)
    (decl_save_history d) (decl_per_second_calculation d) PyNone
    (decl_graphable d) (decl_create_switch d) [].

Definition with_values (md : MetricData) (vs : list pyval) : MetricData :=
  mkMetricData (label md) (md_color md) (visible md) (save_history md)
    (per_second_calculation md) (last_value md) (graphable md)
    (create_switch md) vs.

Definition with_last_value (md : MetricData) (lv : pyval) : MetricData :=
  mkMetricData (label md) (md_color md) (visible md) (save_history md)
    (per_second_calculation md) lv (graphable md) (create_switch md)
    (values md).

Record MetricManager := mkMetricManager {
  connection_source : ConnectionSource;
  replay_file : option string;
  daemon_mode : bool;
  worker_start_time : option Z;
  system_utilization : gmap string pyval;
  disk_io_metrics : gmap string pyval;
  replication_status : gmap string pyval;
  database_stats : gmap string pyval;
  bgwriter_stats : gmap string pyval;
  connection_stats : gmap string pyval;
  pgbouncer_pools : gmap string pyval;
  pgbouncer_stats : gmap string pyval;
  initialized : bool;
  polling_latency : pyval;
  datetimes : list string;
  heap : list MetricData;
  metrics : list (string * MetricInstance);
  _source_to_metrics_processing : list (MetricSource * list metric_tuple);
  _all_metrics_data_history : list ref;
}.

(** Truthiness of [self.replay_file]. *)
Definition replaying (self : MetricManager) : bool :=
  match replay_file self with
  | Some s => negb (String.eqb s "")
  | None => false
  end.

Definition set_heap (self : MetricManager) (h : list MetricData) : MetricManager :=
  mkMetricManager (connection_source self) (replay_file self) (daemon_mode self)
    (worker_start_time self) (system_utilization self) (disk_io_metrics self)
    (replication_status self) (database_stats self) (bgwriter_stats self)
    (connection_stats self) (pgbouncer_pools self) (pgbouncer_stats self)
    (initialized self) (polling_latency self) (datetimes self) h
    (metrics self) (_source_to_metrics_processing self)
    (_all_metrics_data_history self).

Definition set_datetimes (self : MetricManager) (d : list string) : MetricManager :=
  mkMetricManager (connection_source self) (replay_file self) (daemon_mode self)
    (worker_start_time self) (system_utilization self) (disk_io_metrics self)
    (replication_status self) (database_stats self) (bgwriter_stats self)
    (connection_stats self) (pgbouncer_pools self) (pgbouncer_stats self)
    (initialized self) (polling_latency self) d (heap self)
    (metrics self) (_source_to_metrics_processing self)
    (_all_metrics_data_history self).

Definition set_initialized (self : MetricManager) (b : bool) : MetricManager :=
  mkMetricManager (connection_source self) (replay_file self) (daemon_mode self)
    (worker_start_time self) (system_utilization self) (disk_io_metrics self)
    (replication_status self) (database_stats self) (bgwriter_stats self)
    (connection_stats self) (pgbouncer_pools self) (pgbouncer_stats self)
    b (polling_latency self) (datetimes self) (heap self)
    (metrics self) (_source_to_metrics_processing self)
    (_all_metrics_data_history self).

Definition set_connection_source (self : MetricManager) (c : ConnectionSource)
  : MetricManager :=
  mkMetricManager c (replay_file self) (daemon_mode self)
    (worker_start_time self) (system_utilization self) (disk_io_metrics self)
    (replication_status self) (database_stats self) (bgwriter_stats self)
    (connection_stats self) (pgbouncer_pools self) (pgbouncer_stats self)
    (initialized self) (polling_latency self) (datetimes self) (heap self)
    (metrics self) (_source_to_metrics_processing self)
    (_all_metrics_data_history self).

(** [MetricManager.reset]: the objects of [metric_instances_decl] are
    allocated and the two lookup tables are built from them as above;
    the dictionaries are emptied, the latency is the [int] 0. *)
Definition reset (self : MetricManager) : MetricManager :=
  let '(h, insts) := alloc_instances [] metric_instances_decl in
  let '(tbl, hist) := build_tables h insts ([], []) in
  mkMetricManager (connection_source self) (replay_file self) (daemon_mode self)
    (worker_start_time self) ∅ ∅ ∅ ∅ ∅ ∅ ∅ ∅
    false (PyInt 0) [] (MetricData_new <$> h) insts tbl hist.

(** [MetricManager.__init__]. *)
Definition MetricManager_new (replay_file : option string) (daemon_mode : bool)
  : MetricManager :=
  reset (mkMetricManager postgresql replay_file daemon_mode None
           ∅ ∅ ∅ ∅ ∅ ∅ ∅ ∅ false (PyInt 0) [] [] [] [] []).

(** [get_metric_source_data]. *)
Definition get_metric_source_data (self : MetricManager) (s : MetricSource)
  : option (gmap string pyval) :=
  match s with
  | SYSTEM_UTILIZATION => Some (system_utilization self)
  | DISK_IO_METRICS => Some (disk_io_metrics self)
  | DATABASE_STATS => Some (database_stats self)
  | BGWRITER_STATS => Some (bgwriter_stats self)
  | CONNECTION_STATS => Some (connection_stats self)
  | PGBOUNCER_POOLS => Some (pgbouncer_pools self)
  | PGBOUNCER_STATS => Some (pgbouncer_stats self)
  | NONE => None
  end.

(** [self.metrics.<instance>.<attr>]. *)
Definition metric_ref (self : MetricManager) (inst attr : string) : option ref :=
  match list_find (fun p => bool_decide (p.1 = inst)) (metrics self) with
  | Some (_, (_, i)) =>
      match list_find (fun p => bool_decide (p.1 = attr)) (md_fields i) with
      | Some (_, (_, r)) => Some r
      | None => None
      end
  | None => None
  end.

(** The stored values of [self.metrics.<inst>.<attr>]. *)
Definition series_values (self : MetricManager) (inst attr : string)
  : option (list pyval) :=
  match metric_ref self inst attr with
  | Some r => values <$> heap self !! r
  | None => None
  end.

(** ** Ingestion *)

(** The body of [add_metric] once [self.initialized] holds. *)
Definition md_add (metric_data : MetricData) (value : pyval) : MetricData :=
  if save_history metric_data then
    with_values metric_data (values metric_data ++ [value])
  else
    match values metric_data with
    | _ :: rest => with_values metric_data (value :: rest)
    | [] => with_values metric_data (values metric_data ++ [value])
    end.

(** [MetricManager.add_metric]. *)
Definition add_metric (self : MetricManager) (r : ref) (value : pyval)
  : MetricManager :=
  if initialized self then
    match heap self !! r with
    | Some metric_data => set_heap self (<[r := md_add metric_data value]> (heap self))
    | None => self
    end
  else self.

(** [round(metric_diff / self.polling_latency) if self.polling_latency > 0
    else 0]. *)
Definition per_second_value (metric_diff polling_latency : pyval) : option pyval :=
  match py_gt polling_latency 0 with
  | None => None
  | Some true =>
      match py_div metric_diff polling_latency with
      | Some q => PyInt <$> builtin_round q
      | None => None
      end
  | Some false => Some (PyInt 0)
  end.

Section Ingestion.

Variable float_sum : list pyval -> option pyval.

(** [len(metric_data.values) == 1 and metric_data.values[0] == 0]. *)
Definition lone_zero (vs : list pyval) : bool :=
  (length vs =? 1)%nat
  && match vs !! 0%nat with Some v0 => py_eq v0 0 | None => false end.

(** [metric_status_per_sec in {0, 100} and abs(metric_status_per_sec -
    previous) > 10]; the second test is evaluated only when the first one
    holds, [None] is an exception raised by it. *)
Definition boundary_jump (metric_status_per_sec previous : pyval) : option bool :=
  if py_eq metric_status_per_sec 0 || py_eq metric_status_per_sec 100 then
    match py_sub metric_status_per_sec previous with
    | Some d =>
        match builtin_abs d with
        | Some a => py_gt a 10
        | None => None
        end
    | None => None
    end
  else Some false.

(** [sum(recent_values) / len(recent_values)]. *)
Definition mean (recent_values : list pyval) : option pyval :=
  match builtin_sum float_sum recent_values with
  | Some total => py_div total (PyInt (Z.of_nat (length recent_values)))
  | None => None
  end.

(** The special case for [CPU_Percent]: the possibly rewritten series and
    the possibly smoothed value. *)
Definition cpu_percent_smoothing (metric_data : MetricData)
    (metric_status_per_sec : pyval) : option (MetricData * pyval) :=
  let vs := values metric_data in
  if lone_zero vs then
    Some (with_values metric_data (<[0%nat := metric_status_per_sec]> vs),
          metric_status_per_sec)
  else
    match boundary_jump metric_status_per_sec (default (PyInt 0) (last vs)) with
    | None => None
    | Some false => Some (metric_data, metric_status_per_sec)
    | Some true =>
        let recent_values := last_n 3 vs in
        match recent_values with
        | [] => Some (metric_data, metric_status_per_sec)
        | _ :: _ =>
            match mean recent_values with
            | Some smoothed => Some (metric_data, smoothed)
            | None => None
            end
        end
    end.

(** The body of the inner loop of [update_metrics_per_second_values]. *)
Definition process_metric (metric_source_data : gmap string pyval)
    (self : MetricManager) (t : metric_tuple) : option MetricManager :=
  let '(metric_name, r, conn_source) := t in
  if negb (bool_decide (connection_source self ∈ conn_source)) then Some self
  else
    match heap self !! r with
    | None => Some self
    | Some metric_data =>
        let current_metric_source_value :=
          dict_get metric_source_data metric_name (PyInt 0) in
        if is_none (last_value metric_data) then
          Some (set_heap self
                  (<[r := with_last_value metric_data
                            current_metric_source_value]> (heap self)))
        else
          let status :=
            if per_second_calculation metric_data then
              match py_sub current_metric_source_value (last_value metric_data) with
              | Some metric_diff => per_second_value metric_diff (polling_latency self)
              | None => None
              end
            else Some current_metric_source_value in
          match status with
          | None => None
          | Some metric_status_per_sec =>
              let smoothed :=
                if String.eqb metric_name "CPU_Percent" then
                  cpu_percent_smoothing metric_data metric_status_per_sec
                else Some (metric_data, metric_status_per_sec) in
              match smoothed with
              | None => None
              | Some (metric_data', v) =>
                  match builtin_int v with
                  | None => None
                  | Some value =>
                      Some (add_metric
                              (set_heap self (<[r := metric_data']> (heap self)))
                              r (PyInt value))
                  end
              end
          end
    end.

(** The outer loop body: one source with its list of tuples. *)
Definition process_source (self : MetricManager)
    (entry : MetricSource * list metric_tuple) : option MetricManager :=
  match get_metric_source_data self entry.1 with
  | None => Some self
  | Some metric_source_data => foldM (process_metric metric_source_data) self entry.2
  end.

(** [MetricManager.update_metrics_per_second_values]. *)
Definition update_metrics_per_second_values (self : MetricManager)
  : option MetricManager :=
  foldM process_source self (_source_to_metrics_processing self).

Definition set_last_value (metric_source_data : gmap string pyval)
    (self : MetricManager) (t : metric_tuple) : MetricManager :=
  let '(metric_name, r, _) := t in
  match heap self !! r with
  | Some metric_data =>
      set_heap self
        (<[r := with_last_value metric_data
                  (dict_get metric_source_data metric_name (PyInt 0))]> (heap self))
  | None => self
  end.

(** [MetricManager.update_metrics_last_value]. *)
Definition update_metrics_last_value (self : MetricManager) : MetricManager :=
  fold_left
    (fun s entry =>
       match get_metric_source_data s entry.1 with
       | None => s
       | Some metric_source_data =>
           fold_left (set_last_value metric_source_data) entry.2 s
       end)
    (_source_to_metrics_processing self) self.

(** [MetricManager.update_metrics_replication_lag]; the argument
    [int(...)] is evaluated before [add_metric] is entered. *)
Definition update_metrics_replication_lag (self : MetricManager)
  : option MetricManager :=
  match builtin_int (dict_get (replication_status self) "Seconds_Behind" (PyInt 0)) with
  | None => None
  | Some lag =>
      match metric_ref self "replication_lag" "lag" with
      | Some r => Some (add_metric self r (PyInt lag))
      | None => None
      end
  end.

(** The value computed by [update_pg_cache_hit_ratio] before [int(...)]:
    [round((blks_hit / total_blocks) * 100, 1) if total_blocks > 0 else
    100.0]. *)
Definition hit_ratio (blks_hit blks_read : pyval) : option pyval :=
  match py_add blks_hit blks_read with
  | None => None
  | Some total_blocks =>
      match py_gt total_blocks 0 with
      | None => None
      | Some true =>
          match py_div blks_hit total_blocks with
          | None => None
          | Some q =>
              match py_mul q (PyInt 100) with
              | None => None
              | Some percent => builtin_round1 percent
              end
          end
      | Some false => Some (PyFloat (float_of_ratio 100 1))
      end
  end.

(** [MetricManager.update_pg_cache_hit_ratio]. *)
Definition update_pg_cache_hit_ratio (self : MetricManager) : option MetricManager :=
  let blks_hit := dict_get (database_stats self) "blks_hit" (PyInt 0) in
  let blks_read := dict_get (database_stats self) "blks_read" (PyInt 0) in
  match hit_ratio blks_hit blks_read with
  | None => None
  | Some ratio =>
      match builtin_int ratio with
      | None => None
      | Some value =>
          match metric_ref self "pg_cache_hit_ratio" "cache_hit_ratio" with
          | Some r => Some (add_metric self r (PyInt value))
          | None => None
          end
      end
  end.

(** The inner [for] of [daemon_cleanup_data]: pop the oldest value of every
    history-bearing series that has one. *)
Definition popleft_history (self : MetricManager) : MetricManager :=
  fold_left
    (fun s r =>
       match heap s !! r with
       | Some metric_data =>
           match values metric_data with
           | _ :: vs => set_heap s (<[r := with_values metric_data vs]> (heap s))
           | [] => s
           end
       | None => s
       end)
    (_all_metrics_data_history self) self.

(** [strftime] and [strptime] as above: a [datetime] is a number of
    seconds, [None] is [ValueError]. *)
Variable strftime : Z -> string.
Variable strptime : string -> option Z.

(** [MetricManager.add_metric_datetime]. *)
Definition add_metric_datetime (self : MetricManager) : MetricManager :=
  if initialized self && negb (replaying self) then
    match worker_start_time self with
    | Some t => set_datetimes self (datetimes self ++ [strftime t])
    | None => self
    end
  else self.

(** The [while self.datetimes] loop of [daemon_cleanup_data]. *)
Fixpoint cleanup_loop (time_threshold : Z) (dts : list string)
    (self : MetricManager) : MetricManager :=
  match dts with
  | [] => set_datetimes self []
  | d :: rest =>
      match strptime d with
      | Some first_dt =>
          if (first_dt <? time_threshold)%Z then
            cleanup_loop time_threshold rest
              (popleft_history (set_datetimes self rest))
          else set_datetimes self dts
      | None =>
          cleanup_loop time_threshold rest
            (popleft_history (set_datetimes self rest))
      end
  end.

(** [MetricManager.daemon_cleanup_data]; [now] is the reading of
    [datetime.now()], ten minutes are 600 seconds. *)
Definition daemon_cleanup_data (now : Z) (self : MetricManager) : MetricManager :=
  if negb (daemon_mode self) || bool_decide (datetimes self = []) then self
  else cleanup_loop (now - 600) (datetimes self) self.

(** The keyword arguments of [refresh_data]; [None] is an omitted
    argument. *)
Record RefreshArgs := mkRefreshArgs {
  arg_worker_start_time : Z;
  arg_polling_latency : pyval;
  arg_system_utilization : option (gmap string pyval);
  arg_disk_io_metrics : option (gmap string pyval);
  arg_replication_status : option (gmap string pyval);
  arg_database_stats : option (gmap string pyval);
  arg_bgwriter_stats : option (gmap string pyval);
  arg_connection_stats : option (gmap string pyval);
  arg_pgbouncer_pools : option (gmap string pyval);
  arg_pgbouncer_stats : option (gmap string pyval);
}.

(** The first part of [refresh_data]: store the arguments. *)
Definition store_arguments (self : MetricManager) (a : RefreshArgs) : MetricManager :=
  let dflt (o : option (gmap string pyval)) := default ∅ o in
  mkMetricManager (connection_source self) (replay_file self) (daemon_mode self)
    (Some (arg_worker_start_time a))
    (dict_update (system_utilization self) (dflt (arg_system_utilization a)))
    (dict_update (disk_io_metrics self) (dflt (arg_disk_io_metrics a)))
    (dflt (arg_replication_status a))
    (dict_update (database_stats self) (dflt (arg_database_stats a)))
    (dict_update (bgwriter_stats self) (dflt (arg_bgwriter_stats a)))
    (dict_update (connection_stats self) (dflt (arg_connection_stats a)))
    (dict_update (pgbouncer_pools self) (dflt (arg_pgbouncer_pools a)))
    (dict_update (pgbouncer_stats self) (dflt (arg_pgbouncer_stats a)))
    (initialized self) (arg_polling_latency a) (datetimes self) (heap self)
    (metrics self) (_source_to_metrics_processing self)
    (_all_metrics_data_history self).

(** The block under [if not self.replay_file]. *)
Definition update_all (self : MetricManager) : option MetricManager :=
  match update_metrics_per_second_values self with
  | None => None
  | Some s1 =>
      match update_metrics_replication_lag s1 with
      | None => None
      | Some s2 =>
          match update_pg_cache_hit_ratio s2 with
          | None => None
          | Some s3 => Some (update_metrics_last_value s3)
          end
      end
  end.

(** [MetricManager.refresh_data]; [None] is an exception raised by the
    arithmetic of the cycle. *)
Definition refresh_data (now : Z) (self : MetricManager) (a : RefreshArgs)
  : option MetricManager :=
  let s0 := store_arguments self a in
  match (if negb (replaying s0) then update_all s0 else Some s0) with
  | None => None
  | Some s1 =>
      Some (set_initialized (daemon_cleanup_data now (add_metric_datetime s1)) true)
  end.

(** A session: the cycles [(now, args)] in order. *)
Definition cycles (s : MetricManager) (l : list (Z * RefreshArgs))
  : option MetricManager :=
  foldM (fun s1 c => refresh_data c.1 s1 c.2) s l.

End Ingestion.

End Py.

#[global] Arguments py_add : simpl never.
#[global] Arguments py_sub : simpl never.
#[global] Arguments py_mul : simpl never.
#[global] Arguments py_div : simpl never.
#[global] Arguments py_gt : simpl never.
#[global] Arguments py_eq : simpl never.
#[global] Arguments builtin_int : simpl never.
#[global] Arguments builtin_round : simpl never.
#[global] Arguments builtin_round1 : simpl never.
#[global] Arguments builtin_abs : simpl never.
#[global] Arguments builtin_sum : simpl never.
#[global] Arguments Py.per_second_value : simpl never.
#[global] Arguments float_of_ratio : simpl never.

(** ** Scenarios *)

(** One poll that delivers [database_stats] and [system_utilization]. *)
Definition py_poll (t : Z) (latency : pyval) (database system : list (string * pyval))
  : Py.RefreshArgs :=
  Py.mkRefreshArgs t latency (Some (list_to_map system)) None None
    (Some (list_to_map database)) None None None None.

(** A live session on a fresh manager; the clock of the examples is the
    one used above, and float sums are running sums. *)
Definition py_live_session (daemon : bool) (polls : list Py.RefreshArgs)
  : option Py.MetricManager :=
  Py.cycles running_sum toy_strftime toy_strptime (Py.MetricManager_new None daemon)
    (List.map (fun a => (Py.arg_worker_start_time a, a)) polls).

(** ** Basic facts *)

Lemma py_set_heap_same (self : Py.MetricManager) :
  Py.set_heap self (Py.heap self) = self.
Proof. by destruct self. Qed.






Lemma py_sub_none_r (x : pyval) : py_sub x PyNone = None.
Proof. unfold py_sub, arith. destruct x; simpl; [done | | done].
  by destruct (float_of_int z). Qed.


Section RateDerivation.

Variable float_sum : list pyval -> option pyval.



End RateDerivation.






(** ** CPU boundary smoothing *)

Section CpuSmoothing.

Variable float_sum : list pyval -> option pyval.





End CpuSmoothing.







(** ** Ratio derivation *)





(** ** Frame reasoning on Python values *)

(** [s'] differs from [s] in the heap only. *)
Definition py_same_frame (s s' : Py.MetricManager) : Prop :=
  s' = Py.set_heap s (Py.heap s').

Lemma py_set_heap_set_heap (self : Py.MetricManager) (h1 h2 : list Py.MetricData) :
  Py.set_heap (Py.set_heap self h1) h2 = Py.set_heap self h2.
Proof. reflexivity. Qed.

Lemma py_same_frame_refl (s : Py.MetricManager) : py_same_frame s s.
Proof. unfold py_same_frame. by rewrite py_set_heap_same. Qed.

Lemma py_same_frame_set_heap (s : Py.MetricManager) (h : list Py.MetricData) :
  py_same_frame s (Py.set_heap s h).
Proof. reflexivity. Qed.

Lemma py_same_frame_trans (s1 s2 s3 : Py.MetricManager) :
  py_same_frame s1 s2 -> py_same_frame s2 s3 -> py_same_frame s1 s3.
Proof. unfold py_same_frame. intros H12 H23. rewrite H23. by rewrite H12 at 1. Qed.

Lemma py_same_frame_fields (s s' : Py.MetricManager) :
  py_same_frame s s' ->
  Py.initialized s' = Py.initialized s /\
  Py.connection_source s' = Py.connection_source s /\
  Py.polling_latency s' = Py.polling_latency s /\
  Py.datetimes s' = Py.datetimes s /\
  Py.metrics s' = Py.metrics s /\
  Py._source_to_metrics_processing s' = Py._source_to_metrics_processing s /\
  Py._all_metrics_data_history s' = Py._all_metrics_data_history s /\
  Py.replaying s' = Py.replaying s /\
  Py.daemon_mode s' = Py.daemon_mode s /\
  Py.worker_start_time s' = Py.worker_start_time s /\
  Py.replication_status s' = Py.replication_status s /\
  Py.database_stats s' = Py.database_stats s /\
  (forall src, Py.get_metric_source_data s' src = Py.get_metric_source_data s src).
Proof.
  unfold py_same_frame. intros H. rewrite H.
  repeat split; try (intros src; by destruct src).
Qed.

(** The heap [h'] has the shape of [h], and every object is related to its
    former self by [P]. *)
Definition py_heap_rel (P : ref -> Py.MetricData -> Py.MetricData -> Prop)
    (h h' : list Py.MetricData) : Prop :=
  length h' = length h /\
  forall i md, h !! i = Some md -> exists md', h' !! i = Some md' /\ P i md md'.

Lemma py_heap_rel_weaken (P Q : ref -> Py.MetricData -> Py.MetricData -> Prop)
    (h h' : list Py.MetricData) :
  (forall i md md', h !! i = Some md -> P i md md' -> Q i md md') ->
  py_heap_rel P h h' -> py_heap_rel Q h h'.
Proof.
  intros HPQ [Hlen H]. split; [done |].
  intros i md Hi. destruct (H i md Hi) as (md' & Hi' & HP). eauto.
Qed.

Lemma py_heap_rel_refl (P : ref -> Py.MetricData -> Py.MetricData -> Prop)
    (h : list Py.MetricData) :
  (forall i md, h !! i = Some md -> P i md md) -> py_heap_rel P h h.
Proof. intros HP. split; [done |]. eauto. Qed.

Lemma py_heap_rel_trans (P Q R : ref -> Py.MetricData -> Py.MetricData -> Prop)
    (h1 h2 h3 : list Py.MetricData) :
  (forall i a b c, P i a b -> Q i b c -> R i a c) ->
  py_heap_rel P h1 h2 -> py_heap_rel Q h2 h3 -> py_heap_rel R h1 h3.
Proof.
  intros HR [L12 H12] [L23 H23]. split; [congruence |].
  intros i md Hi. destruct (H12 i md Hi) as (md2 & Hi2 & HP).
  destruct (H23 i md2 Hi2) as (md3 & Hi3 & HQ). eauto.
Qed.

(** Replacing one object. *)
Lemma py_heap_rel_insert (P : ref -> Py.MetricData -> Py.MetricData -> Prop)
    (h : list Py.MetricData) (r : ref) (md md' : Py.MetricData) :
  h !! r = Some md ->
  P r md md' ->
  (forall i x, i <> r -> P i x x) ->
  py_heap_rel P h (<[r := md']> h).
Proof.
  intros Hr HP Hother. split; [apply length_insert |].
  intros i x Hi. destruct (decide (i = r)) as [-> | Hne].
  - exists md'. split.
    + apply list_lookup_insert_eq. by eapply lookup_lt_Some.
    + congruence.
  - exists x. split; [by rewrite list_lookup_insert_ne | by apply Hother].
Qed.

Lemma py_heap_rel_inv (P : ref -> Py.MetricData -> Py.MetricData -> Prop)
    (h h' : list Py.MetricData) (i : ref) (md' : Py.MetricData) :
  py_heap_rel P h h' -> h' !! i = Some md' ->
  exists md, h !! i = Some md /\ P i md md'.
Proof.
  intros [Hlen H] Hi.
  assert (Hlt : (i < length h)%nat) by (rewrite <- Hlen; by eapply lookup_lt_Some).
  apply lookup_lt_is_Some in Hlt as [md Hmd].
  destruct (H i md Hmd) as (md'' & Hi'' & HP).
  exists md. split; [done |]. congruence.
Qed.

(** A loop over the manager whose body [f s a], when it returns, has only
    touched the objects [refs_of a], relating each to its former self by
    [P a], and that visits every object at most once. *)
Lemma py_foldM_pointwise {A} (f : Py.MetricManager -> A -> option Py.MetricManager)
    (refs_of : A -> list ref)
    (P : A -> ref -> Py.MetricData -> Py.MetricData -> Prop) (s0 : Py.MetricManager)
    (l : list A) :
  (forall s a s', a ∈ l -> py_same_frame s0 s -> f s a = Some s' ->
     py_same_frame s s' /\
     py_heap_rel (fun i md md' =>
                    (i ∉ refs_of a -> md' = md) /\
                    (i ∈ refs_of a -> P a i md md'))
       (Py.heap s) (Py.heap s')) ->
  forall s s', py_same_frame s0 s -> NoDup (l ≫= refs_of) ->
    foldM f s l = Some s' ->
    py_same_frame s s' /\
    py_heap_rel (fun i md md' =>
                   (i ∉ l ≫= refs_of -> md' = md) /\
                   (forall a, a ∈ l -> i ∈ refs_of a -> P a i md md'))
      (Py.heap s) (Py.heap s').
Proof.
  induction l as [| a l IH]; intros Hstep s s' Hs Hnd Hrun; simpl in Hrun.
  - injection Hrun as <-. split; [apply py_same_frame_refl |].
    apply py_heap_rel_refl. intros i md _. split; [done |].
    intros a Ha. by apply elem_of_nil in Ha.
  - destruct (f s a) as [s1 |] eqn:E1; [| discriminate Hrun].
    destruct (Hstep s a s1 (list_elem_of_here _ _) Hs E1) as (Hf1 & Hr1).
    rewrite bind_cons in Hnd.
    apply NoDup_app in Hnd as (Hnda & Hdisj & Hndl).
    destruct (IH (fun s a s' Ha => Hstep s a s' (list_elem_of_further _ _ _ Ha))
                s1 s' (py_same_frame_trans _ _ _ Hs Hf1) Hndl Hrun)
      as (Hf' & Hr').
    split; [by eapply py_same_frame_trans |].
    eapply py_heap_rel_trans; [| exact Hr1 | exact Hr'].
    simpl. intros i x y z [Hxy1 Hxy2] [Hyz1 Hyz2]. split.
    + intros Hni. rewrite elem_of_app in Hni.
      rewrite Hyz1, Hxy1; tauto.
    + intros b Hb Hib. apply elem_of_cons in Hb as [-> | Hb].
      * rewrite Hyz1; [by apply Hxy2 |]. by apply Hdisj.
      * rewrite <- Hxy1; [by apply Hyz2 |].
        intros Hia. apply (Hdisj i Hia). apply list_elem_of_bind. eauto.
Qed.

Lemma py_fold_left_pointwise {A} (g : Py.MetricManager -> A -> Py.MetricManager)
    (refs_of : A -> list ref)
    (P : A -> ref -> Py.MetricData -> Py.MetricData -> Prop) (s0 : Py.MetricManager)
    (l : list A) :
  (forall s a, a ∈ l -> py_same_frame s0 s ->
     py_same_frame s (g s a) /\
     py_heap_rel (fun i md md' =>
                    (i ∉ refs_of a -> md' = md) /\
                    (i ∈ refs_of a -> P a i md md'))
       (Py.heap s) (Py.heap (g s a))) ->
  forall s, py_same_frame s0 s -> NoDup (l ≫= refs_of) ->
    py_same_frame s (fold_left g l s) /\
    py_heap_rel (fun i md md' =>
                   (i ∉ l ≫= refs_of -> md' = md) /\
                   (forall a, a ∈ l -> i ∈ refs_of a -> P a i md md'))
      (Py.heap s) (Py.heap (fold_left g l s)).
Proof.
  intros Hstep s Hs Hnd.
  apply (py_foldM_pointwise (fun s a => Some (g s a)) refs_of P s0 l); try done.
  - intros s1 a s2 Ha Hs1 [= <-]. by apply Hstep.
  - apply foldM_Some.
Qed.

(** ** What one observation does to its series *)

Lemma py_with_values_same (md : Py.MetricData) : Py.with_values md (Py.values md) = md.
Proof. by destruct md. Qed.

Lemma py_md_add_length (md : Py.MetricData) (v : pyval) :
  length (Py.values (Py.md_add md v))
  = if Py.save_history md then S (length (Py.values md))
    else Nat.max 1 (length (Py.values md)).
Proof.
  unfold Py.md_add. destruct (Py.save_history md); simpl.
  - rewrite length_app. simpl. lia.
  - destruct (Py.values md); simpl; [done | lia].
Qed.

Lemma py_md_add_static (md : Py.MetricData) (v : pyval) :
  Py.save_history (Py.md_add md v) = Py.save_history md /\
  Py.per_second_calculation (Py.md_add md v) = Py.per_second_calculation md /\
  Py.last_value (Py.md_add md v) = Py.last_value md.
Proof.
  unfold Py.md_add.
  destruct (Py.save_history md) eqn:E, (Py.values md); by rewrite ?E.
Qed.

Section Observation.

Variable float_sum : list pyval -> option pyval.

(** The special case for the CPU metric rewrites at most the one stored
    sample and keeps the number of samples. *)
Lemma py_cpu_percent_smoothing_shape (md md' : Py.MetricData) (v q : pyval) :
  Py.cpu_percent_smoothing float_sum md v = Some (md', q) ->
  exists vs,
    md' = Py.with_values md vs /\
    length vs = length (Py.values md) /\
    (Py.values md = [] -> vs = []).
Proof.
  unfold Py.cpu_percent_smoothing.
  pose proof (py_with_values_same md) as Hmd.
  destruct (Py.lone_zero (Py.values md)) eqn:Hz.
  - intros [= <- <-]. eexists. split; [reflexivity |].
    split; [apply length_insert |]. intros E. rewrite E in Hz. discriminate Hz.
  - intros E. exists (Py.values md). rewrite Hmd. split; [| done].
    destruct (Py.boundary_jump v _) as [[|] |]; [| congruence | discriminate].
    destruct (last_n 3 (Py.values md)); [congruence |].
    destruct (Py.mean float_sum _); [congruence | discriminate].
Qed.

(** How the object of an observed metric changes when the observation
    returns: [init] and [applies] are [self.initialized] and
    [self.connection_source in conn_source]. *)
Definition py_observed (init applies : bool) (md md' : Py.MetricData) : Prop :=
  Py.save_history md' = Py.save_history md /\
  Py.per_second_calculation md' = Py.per_second_calculation md /\
  (applies = false -> md' = md) /\
  (applies = true -> Py.last_value md = PyNone -> Py.values md' = Py.values md) /\
  (applies = true -> Py.last_value md <> PyNone ->
     Py.last_value md' = Py.last_value md /\
     (Py.values md = [] -> init = false -> Py.values md' = []) /\
     length (Py.values md')
     = if init then
         if Py.save_history md then S (length (Py.values md))
         else Nat.max 1 (length (Py.values md))
       else length (Py.values md)).

Lemma py_process_metric_post (data : gmap string pyval) (self self' : Py.MetricManager)
    (name : string) (r : ref) (conn : list ConnectionSource) :
  Py.process_metric float_sum data self (name, r, conn) = Some self' ->
  py_same_frame self self' /\
  py_heap_rel (fun i md md' =>
                 if decide (i = r) then
                   py_observed (Py.initialized self)
                     (bool_decide (Py.connection_source self ∈ conn)) md md'
                 else md' = md)
    (Py.heap self) (Py.heap self').
Proof.
  unfold Py.process_metric.
  destruct (bool_decide (Py.connection_source self ∈ conn)) eqn:Happ; simpl.
  2: { intros [= <-]. split; [apply py_same_frame_refl |].
       apply py_heap_rel_refl. intros i md _. destruct (decide (i = r)); [| done].
       repeat split; intros; congruence. }
  destruct (Py.heap self !! r) as [md |] eqn:Hr.
  2: { intros [= <-]. split; [apply py_same_frame_refl |].
       apply py_heap_rel_refl. intros i md Hi.
       destruct (decide (i = r)); [congruence | done]. }
  assert (Hother : forall b (i : ref) (x : Py.MetricData), i <> r ->
            if decide (i = r) then py_observed (Py.initialized self) b x x else x = x).
  { intros b i x Hne. by rewrite decide_False. }
  destruct (Py.last_value md) as [| lz | lf] eqn:Hlv; cbn [is_none].
  { intros [= <-]. split; [apply py_same_frame_set_heap |]. simpl.
    eapply py_heap_rel_insert; [exact Hr | | apply Hother].
    rewrite decide_True by done.
    repeat split; simpl; intros; try done; congruence. }
  all: match goal with
       | |- context [py_sub ?a ?b] =>
           set (status := if Py.per_second_calculation md
                          then match py_sub a b with
                               | Some metric_diff =>
                                   Py.per_second_value metric_diff (Py.polling_latency self)
                               | None => None
                               end
                          else Some a)
       end;
    destruct status as [v |]; [| discriminate];
    set (smoothed := if String.eqb name "CPU_Percent"
                     then Py.cpu_percent_smoothing float_sum md v
                     else Some (md, v));
    destruct smoothed as [[md1 q] |] eqn:Hsm; [| discriminate];
    assert (exists vs, md1 = Py.with_values md vs /\
                       length vs = length (Py.values md) /\
                       (Py.values md = [] -> vs = []))
      as (vs & -> & Hlen & Hnil)
      by (subst smoothed; destruct (String.eqb name "CPU_Percent");
          [by eapply py_cpu_percent_smoothing_shape
          | injection Hsm as <- <-; exists (Py.values md);
            by rewrite py_with_values_same]);
    destruct (builtin_int q) as [value |]; [| discriminate];
    assert (Hlt : (r < length (Py.heap self))%nat) by (by eapply lookup_lt_Some);
    intros [= <-]; unfold Py.add_metric; simpl;
    destruct (Py.initialized self) eqn:Hinit;
    [ rewrite list_lookup_insert_eq by done; simpl;
      rewrite list_insert_insert_eq, py_set_heap_set_heap;
      split; [apply py_same_frame_set_heap |]; simpl;
      eapply py_heap_rel_insert; [exact Hr | | apply Hother];
      rewrite decide_True by done;
      destruct (py_md_add_static (Py.with_values md vs) (PyInt value)) as (E1 & E2 & E3);
      pose proof (py_md_add_length (Py.with_values md vs) (PyInt value)) as E4;
      simpl in E1, E2, E3, E4; rewrite Hlen in E4;
      repeat split; simpl; intros; try done; congruence
    | split; [apply py_same_frame_set_heap |]; simpl;
      eapply py_heap_rel_insert; [exact Hr | | apply Hother];
      rewrite decide_True by done;
      repeat split; simpl; intros; try done; try congruence; by apply Hnil ].
Qed.

End Observation.

Section Tables.

Variable float_sum : list pyval -> option pyval.

Lemma py_foldM_process_metric_post (data : gmap string pyval) (s0 : Py.MetricManager)
    (ts : list metric_tuple) (s s' : Py.MetricManager) :
  py_same_frame s0 s -> NoDup (tuple_refs ts) ->
  foldM (Py.process_metric float_sum data) s ts = Some s' ->
  py_same_frame s s' /\
  py_heap_rel (fun i md md' =>
                 (i ∉ tuple_refs ts -> md' = md) /\
                 (forall name conn, (name, i, conn) ∈ ts ->
                    py_observed (Py.initialized s0)
                      (bool_decide (Py.connection_source s0 ∈ conn)) md md'))
    (Py.heap s) (Py.heap s').
Proof.
  intros Hs Hnd Hrun.
  destruct (py_foldM_pointwise (Py.process_metric float_sum data)
              (fun t : metric_tuple => [t.1.2])
              (fun t _ md md' =>
                 py_observed (Py.initialized s0)
                   (bool_decide (Py.connection_source s0 ∈ t.2)) md md') s0 ts)
    with (s := s) (s' := s') as (Hf & Hr).
  - intros s1 [[name r] conn] s2 _ Hs1 E.
    destruct (py_process_metric_post float_sum data s1 s2 name r conn E) as (Hf2 & Hr2).
    split; [done |].
    destruct (py_same_frame_fields _ _ Hs1) as (Ei & Ec & _).
    eapply py_heap_rel_weaken; [| exact Hr2]. simpl.
    intros i md md' _ HP. rewrite Ei, Ec in HP.
    destruct (decide (i = r)) as [-> | Hne].
    + split; [| done]. intros Hni. exfalso. apply Hni. by apply list_elem_of_singleton.
    + split; [done |]. intros Hi. by apply list_elem_of_singleton in Hi.
  - done.
  - by rewrite bind_singleton_map.
  - done.
  - split; [done |].
    rewrite bind_singleton_map in Hr.
    eapply py_heap_rel_weaken; [| exact Hr]. simpl.
    intros i md md' _ [H1 H2]. split; [done |].
    intros name conn Hin.
    apply (H2 (name, i, conn) Hin). by apply list_elem_of_singleton.
Qed.

(** [update_metrics_per_second_values] object by object. *)
Definition py_per_second_rel (s0 : Py.MetricManager) (i : ref)
    (md md' : Py.MetricData) : Prop :=
  (i ∉ table_refs (Py._source_to_metrics_processing s0) -> md' = md) /\
  (forall src ts name conn,
     (src, ts) ∈ Py._source_to_metrics_processing s0 ->
     (name, i, conn) ∈ ts ->
     (src = NONE -> md' = md) /\
     (src <> NONE ->
      py_observed (Py.initialized s0) (bool_decide (Py.connection_source s0 ∈ conn))
        md md')).

Lemma py_update_metrics_per_second_values_post (s s' : Py.MetricManager) :
  NoDup (table_refs (Py._source_to_metrics_processing s)) ->
  Py.update_metrics_per_second_values float_sum s = Some s' ->
  py_same_frame s s' /\
  py_heap_rel (py_per_second_rel s) (Py.heap s) (Py.heap s').
Proof.
  intros Hnd Hrun. unfold Py.update_metrics_per_second_values in Hrun.
  destruct (py_foldM_pointwise (Py.process_source float_sum)
              (fun entry : MetricSource * list metric_tuple => tuple_refs entry.2)
              (fun entry i md md' =>
                 (entry.1 = NONE -> md' = md) /\
                 (entry.1 <> NONE -> forall name conn,
                    (name, i, conn) ∈ entry.2 ->
                    py_observed (Py.initialized s)
                      (bool_decide (Py.connection_source s ∈ conn)) md md'))
              s (Py._source_to_metrics_processing s))
    with (s := s) (s' := s') as (Hf & Hr).
  - intros s1 [src ts] s2 Hin Hs1. unfold Py.process_source. simpl.
    destruct (py_same_frame_fields _ _ Hs1)
      as (_ & _ & _ & _ & _ & _ & _ & _ & _ & _ & _ & _ & Hd).
    rewrite Hd.
    destruct (Py.get_metric_source_data s src) as [d |] eqn:Hsrc.
    + intros E.
      destruct (py_foldM_process_metric_post d s ts s1 s2 Hs1) as (Hf2 & Hr2);
        [by apply (NoDup_bind_part _ _ (src, ts) Hnd) | done |].
      split; [done |].
      eapply py_heap_rel_weaken; [| exact Hr2]. simpl.
      intros i md md' _ [H1 H2]. split; [done |]. intros Hi. split.
      * intros ->. discriminate.
      * intros _ name conn Hn. by apply (H2 name conn).
    + intros [= <-]. split; [apply py_same_frame_refl |].
      apply py_heap_rel_refl. intros i md _. split; [done |]. intros _. split; [done |].
      intros Hne. by destruct src.
  - apply py_same_frame_refl.
  - done.
  - done.
  - split; [done |].
    eapply py_heap_rel_weaken; [| exact Hr]. unfold py_per_second_rel. simpl.
    intros i md md' _ [H1 H2]. split; [done |].
    intros src ts name conn Hin Ht.
    assert (Hi : i ∈ tuple_refs ts).
    { by eapply tuple_refs_elem. }
    destruct (H2 (src, ts) Hin Hi) as [Ha Hb]. split; [done |].
    intros Hne. by apply (Hb Hne name conn).
Qed.

End Tables.

Lemma py_add_metric_post (s : Py.MetricManager) (r : ref) (v : pyval) :
  py_same_frame s (Py.add_metric s r v) /\
  py_heap_rel (fun i md md' =>
                 (i <> r -> md' = md) /\
                 (i = r -> md' = if Py.initialized s then Py.md_add md v else md))
    (Py.heap s) (Py.heap (Py.add_metric s r v)).
Proof.
  unfold Py.add_metric. destruct (Py.initialized s) eqn:Hi.
  - destruct (Py.heap s !! r) as [md |] eqn:Hr.
    + split; [apply py_same_frame_set_heap |]. simpl.
      eapply py_heap_rel_insert; [exact Hr | split; congruence |].
      intros i x Hne. split; [done | congruence].
    + split; [apply py_same_frame_refl |]. apply py_heap_rel_refl.
      intros i md Hmd. split; [done |]. intros ->. congruence.
  - split; [apply py_same_frame_refl |]. apply py_heap_rel_refl. by intros i md _.
Qed.

(** [update_metrics_last_value] object by object: the reading that the
    dictionary of the source holds under the name of the metric, whatever
    it is, becomes [last_value]. *)
Definition py_last_value_rel (s0 : Py.MetricManager) (i : ref)
    (md md' : Py.MetricData) : Prop :=
  Py.values md' = Py.values md /\
  Py.save_history md' = Py.save_history md /\
  Py.per_second_calculation md' = Py.per_second_calculation md /\
  (i ∉ table_refs (Py._source_to_metrics_processing s0) -> md' = md) /\
  (forall src ts name conn,
     (src, ts) ∈ Py._source_to_metrics_processing s0 ->
     (name, i, conn) ∈ ts ->
     (src = NONE -> md' = md) /\
     (forall d, Py.get_metric_source_data s0 src = Some d ->
                Py.last_value md' = Py.dict_get d name (PyInt 0))).

Lemma py_update_metrics_last_value_post (s : Py.MetricManager) :
  NoDup (table_refs (Py._source_to_metrics_processing s)) ->
  py_same_frame s (Py.update_metrics_last_value s) /\
  py_heap_rel (py_last_value_rel s) (Py.heap s)
    (Py.heap (Py.update_metrics_last_value s)).
Proof.
  intros Hnd. unfold Py.update_metrics_last_value.
  destruct (py_fold_left_pointwise
              (fun s1 (entry : MetricSource * list metric_tuple) =>
                 match Py.get_metric_source_data s1 entry.1 with
                 | None => s1
                 | Some d => fold_left (Py.set_last_value d) entry.2 s1
                 end)
              (fun entry : MetricSource * list metric_tuple => tuple_refs entry.2)
              (fun entry i md md' =>
                 Py.values md' = Py.values md /\
                 Py.save_history md' = Py.save_history md /\
                 Py.per_second_calculation md' = Py.per_second_calculation md /\
                 (entry.1 = NONE -> md' = md) /\
                 (forall d name conn,
                    Py.get_metric_source_data s entry.1 = Some d ->
                    (name, i, conn) ∈ entry.2 ->
                    Py.last_value md' = Py.dict_get d name (PyInt 0)))
              s (Py._source_to_metrics_processing s))
    with (s := s) as (Hf & Hr).
  - intros s1 [src ts] Hin Hs1. simpl.
    destruct (py_same_frame_fields _ _ Hs1)
      as (_ & _ & _ & _ & _ & _ & _ & _ & _ & _ & _ & _ & Hd).
    rewrite Hd.
    destruct (Py.get_metric_source_data s src) as [d |] eqn:Hsrc.
    + destruct (py_fold_left_pointwise (Py.set_last_value d)
                  (fun t : metric_tuple => [t.1.2])
                  (fun t _ md md' =>
                     md' = Py.with_last_value md (Py.dict_get d t.1.1 (PyInt 0)))
                  s ts) with (s := s1) as (Hf2 & Hr2).
      * intros s2 [[name r] conn] _ Hs2. unfold Py.set_last_value. simpl.
        destruct (Py.heap s2 !! r) as [md |] eqn:Hr.
        -- split; [apply py_same_frame_set_heap |]. simpl.
           eapply py_heap_rel_insert; [exact Hr | |].
           ++ split; [intros Hni; exfalso; apply Hni; by apply list_elem_of_singleton |].
              done.
           ++ intros i x Hne. split; [done |]. intros Hi.
              by apply list_elem_of_singleton in Hi.
        -- split; [apply py_same_frame_refl |]. apply py_heap_rel_refl.
           intros i md Hmd. split; [done |]. intros Hi.
           apply list_elem_of_singleton in Hi. congruence.
      * done.
      * rewrite bind_singleton_map.
        by apply (NoDup_bind_part _ _ (src, ts) Hnd).
      * split; [done |]. rewrite bind_singleton_map in Hr2.
        eapply py_heap_rel_weaken; [| exact Hr2]. simpl.
        intros i md md' _ [H1 H2]. split; [done |]. intros Hi.
        assert (exists t, t ∈ ts /\ i ∈ [t.1.2]) as (t & Ht & Hit).
        { apply list_elem_of_In in Hi. apply in_map_iff in Hi as (t & <- & Ht).
          exists t. split; [by apply list_elem_of_In | by apply list_elem_of_singleton]. }
        repeat split; try (rewrite (H2 t Ht Hit); done).
        -- intros ->. discriminate Hsrc.
        -- intros d' name conn [= <-] Hn.
           assert (E : md' = Py.with_last_value md (Py.dict_get d name (PyInt 0))).
           { apply (H2 (name, i, conn) Hn). by apply list_elem_of_singleton. }
           by rewrite E.
    + split; [apply py_same_frame_refl |]. apply py_heap_rel_refl.
      intros i md _. split; [done |]. intros _. repeat split; try done.
  - apply py_same_frame_refl.
  - done.
  - split; [done |].
    eapply py_heap_rel_weaken; [| exact Hr]. unfold py_last_value_rel. simpl.
    intros i md md' _ [H1 H2].
    destruct (decide (i ∈ Py._source_to_metrics_processing s ≫=
                            (fun entry => tuple_refs entry.2))) as [Hi | Hni].
    + apply list_elem_of_bind in Hi as (entry & Hie & He).
      destruct (H2 entry He Hie) as (E1 & E2 & E3 & E4 & E5).
      do 3 (split; [done |]). split; [by intros Hni; destruct Hni; apply list_elem_of_bind; eauto |].
      intros src ts name conn Hin Ht.
      assert (Hi : i ∈ tuple_refs ts) by (by eapply tuple_refs_elem).
      destruct (H2 (src, ts) Hin Hi) as (_ & _ & _ & E6 & E7).
      split; [done |]. intros d Hd. by apply (E7 d name conn).
    + rewrite (H1 Hni). do 4 (split; [done |]).
      intros src ts name conn Hin Ht.
      exfalso; apply Hni; apply list_elem_of_bind; exists (src, ts);
        (split; [| done]); by eapply tuple_refs_elem.
Qed.

Lemma py_popleft_history_post (s : Py.MetricManager) :
  NoDup (Py._all_metrics_data_history s) ->
  py_same_frame s (Py.popleft_history s) /\
  py_heap_rel (fun i md md' =>
                 (i ∉ Py._all_metrics_data_history s -> md' = md) /\
                 (i ∈ Py._all_metrics_data_history s ->
                  md' = Py.with_values md (tail (Py.values md))))
    (Py.heap s) (Py.heap (Py.popleft_history s)).
Proof.
  intros Hnd. unfold Py.popleft_history.
  set (g := fun (s1 : Py.MetricManager) (r : ref) =>
              match Py.heap s1 !! r with
              | Some metric_data =>
                  match Py.values metric_data with
                  | [] => s1
                  | _ :: vs =>
                      Py.set_heap s1 (<[r := Py.with_values metric_data vs]> (Py.heap s1))
                  end
              | None => s1
              end).
  destruct (py_fold_left_pointwise g (fun r : ref => [r])
              (fun _ _ md md' => md' = Py.with_values md (tail (Py.values md)))
              s (Py._all_metrics_data_history s))
    with (s := s) as (Hf & Hr).
  - intros s1 r _ Hs1. unfold g.
    destruct (Py.heap s1 !! r) as [md |] eqn:Hmd.
    + destruct (Py.values md) as [| v vs] eqn:Hvs.
      * split; [apply py_same_frame_refl |]. apply py_heap_rel_refl.
        intros i x Hx. split; [done |]. intros Hi.
        apply list_elem_of_singleton in Hi. subst i.
        assert (x = md) as -> by congruence.
        rewrite Hvs. simpl. by rewrite <- Hvs, py_with_values_same.
      * split; [apply py_same_frame_set_heap |]. simpl.
        eapply py_heap_rel_insert; [exact Hmd | |].
        -- split; [intros Hni; exfalso; apply Hni; by apply list_elem_of_singleton |].
           intros _. by rewrite Hvs.
        -- intros i x Hne. split; [done |]. intros Hi.
           by apply list_elem_of_singleton in Hi.
    + split; [apply py_same_frame_refl |]. apply py_heap_rel_refl.
      intros i x Hx. split; [done |]. intros Hi.
      apply list_elem_of_singleton in Hi. congruence.
  - apply py_same_frame_refl.
  - by rewrite bind_singleton_map, map_id.
  - split; [done |]. rewrite bind_singleton_map, map_id in Hr.
    eapply py_heap_rel_weaken; [| exact Hr]. simpl.
    intros i md md' _ [H1 H2]. split; [done |]. intros Hi.
    apply (H2 i Hi). by apply list_elem_of_singleton.
Qed.

(** ** The catalogue on Python values *)

(** The manager that [MetricManager.__init__] builds.  Its catalogue and
    its two lookup tables are those of [catalogue]; its objects hold
    [None] as [last_value]. *)
Definition py_catalogue : Py.MetricManager := Py.MetricManager_new None false.

Lemma py_reset_catalogue (s : Py.MetricManager) :
  Py.metrics (Py.reset s) = metrics catalogue /\
  Py._source_to_metrics_processing (Py.reset s)
  = _source_to_metrics_processing catalogue /\
  Py._all_metrics_data_history (Py.reset s) = _all_metrics_data_history catalogue /\
  Py.heap (Py.reset s) = Py.heap py_catalogue /\
  Py.initialized (Py.reset s) = false /\
  Py.datetimes (Py.reset s) = [] /\
  Py.polling_latency (Py.reset s) = PyInt 0 /\
  Py.connection_source (Py.reset s) = Py.connection_source s /\
  Py.replay_file (Py.reset s) = Py.replay_file s /\
  Py.daemon_mode (Py.reset s) = Py.daemon_mode s /\
  (forall src d, Py.get_metric_source_data (Py.reset s) src = Some d -> d = ∅).
Proof.
  repeat (split; [vm_compute; reflexivity |]).
  intros src d.
  destruct src; vm_compute; intros E; first [discriminate E | by injection E as <-].
Qed.

Lemma py_catalogue_heap_fresh :
  Forall (fun md => Py.values md = [] /\ Py.last_value md = PyNone)
    (Py.heap py_catalogue).
Proof.
  unfold py_catalogue. vm_compute. repeat (constructor; [by split |]). constructor.
Qed.

Lemma py_catalogue_computed_refs (s : Py.MetricManager) :
  Py.metrics s = metrics catalogue ->
  Py.metric_ref s "replication_lag" "lag" = Some lag_ref /\
  Py.metric_ref s "pg_cache_hit_ratio" "cache_hit_ratio" = Some ratio_ref.
Proof. unfold Py.metric_ref. intros ->. by vm_compute. Qed.

(** The history list holds exactly references whose declared object keeps
    history; each is one of the two computed series or in the table. *)
Lemma py_catalogue_history_spec (r : ref) :
  r ∈ _all_metrics_data_history catalogue ->
  (exists md0, Py.heap py_catalogue !! r = Some md0 /\ Py.save_history md0 = true) /\
  (r = lag_ref \/ r = ratio_ref \/
   r ∈ table_refs (_source_to_metrics_processing catalogue)).
Proof.
  intros H. vm_compute in H.
  repeat (apply elem_of_cons in H as [-> | H];
          [split; [by eexists |];
           first [by left | by (right; left)
                 | right; right; apply (bool_decide_unpack _); by vm_compute] |]).
  by apply elem_of_nil in H.
Qed.

#[global] Opaque py_catalogue Py.reset.

(** A manager as [reset] leaves it laid out: same catalogue, same lookup
    tables, and objects that still carry their declared flags. *)
Definition py_well_formed (s : Py.MetricManager) : Prop :=
  Py.metrics s = metrics catalogue /\
  Py._source_to_metrics_processing s = _source_to_metrics_processing catalogue /\
  Py._all_metrics_data_history s = _all_metrics_data_history catalogue /\
  py_heap_rel (fun _ md0 md =>
                 Py.save_history md = Py.save_history md0 /\
                 Py.per_second_calculation md = Py.per_second_calculation md0)
    (Py.heap py_catalogue) (Py.heap s).

(** The series that a live cycle feeds: the two computed ones, and those
    whose metric lists the connection source of the session. *)
Definition py_feeds (s : Py.MetricManager) (r : ref) : Prop :=
  Py.metric_ref s "replication_lag" "lag" = Some r \/
  Py.metric_ref s "pg_cache_hit_ratio" "cache_hit_ratio" = Some r \/
  exists src ts name conn,
    (src, ts) ∈ Py._source_to_metrics_processing s /\
    (name, r, conn) ∈ ts /\
    Py.connection_source s ∈ conn.

(** No key of the dictionary holds [None]. *)
Definition no_none (d : gmap string pyval) : Prop :=
  forall k, d !! k <> Some PyNone.

(** None of the dictionaries that the processing table reads holds [None]
    under a key. *)
Definition numeric_dicts (s : Py.MetricManager) : Prop :=
  forall src d, Py.get_metric_source_data s src = Some d -> no_none d.

Lemma no_none_dict_get (d : gmap string pyval) (k : string) (z : Z) :
  no_none d -> Py.dict_get d k (PyInt z) <> PyNone.
Proof.
  intros H. unfold Py.dict_get. destruct (d !! k) as [v |] eqn:E; simpl; [| done].
  intros ->. by apply (H k).
Qed.

Lemma no_none_empty : no_none ∅.
Proof. intros k. by rewrite lookup_empty. Qed.

Lemma no_none_dict_update (d other : gmap string pyval) :
  no_none d -> no_none other -> no_none (Py.dict_update d other).
Proof.
  intros Hd Ho k E. unfold Py.dict_update in E.
  apply lookup_union_Some_raw in E as [E | [_ E]]; [by apply (Ho k) | by apply (Hd k)].
Qed.

Lemma py_source_data_Some (s : Py.MetricManager) (src : MetricSource) :
  src <> NONE -> exists d, Py.get_metric_source_data s src = Some d.
Proof. destruct src; simpl; eauto. congruence. Qed.

(** What the block under [if not self.replay_file] does, when it returns,
    to each object. *)
Definition py_cycle_rel (s : Py.MetricManager) (i : ref)
    (md md' : Py.MetricData) : Prop :=
  Py.save_history md' = Py.save_history md /\
  Py.per_second_calculation md' = Py.per_second_calculation md /\
  (i ∈ table_refs (Py._source_to_metrics_processing s) -> numeric_dicts s ->
   Py.last_value md' <> PyNone) /\
  (Py.initialized s = false -> Py.values md = [] -> Py.values md' = []) /\
  (Py.initialized s = true -> Py.save_history md = true ->
   (i ∈ table_refs (Py._source_to_metrics_processing s) ->
    Py.last_value md <> PyNone) ->
   (py_feeds s i -> length (Py.values md') = S (length (Py.values md))) /\
   (~ py_feeds s i -> Py.values md' = Py.values md)).

Section Cycle.

Variable float_sum : list pyval -> option pyval.

Lemma py_update_all_post (s s' : Py.MetricManager) :
  py_well_formed s ->
  Py.update_all float_sum s = Some s' ->
  py_same_frame s s' /\
  py_heap_rel (py_cycle_rel s) (Py.heap s) (Py.heap s').
Proof.
  intros (Hm & Ht & Hh & Hwf). unfold Py.update_all.
  pose proof catalogue_table_NoDup as Hnd. rewrite <- Ht in Hnd.
  destruct (Py.update_metrics_per_second_values float_sum s) as [s1 |] eqn:E1;
    [| discriminate].
  destruct (py_update_metrics_per_second_values_post float_sum s s1 Hnd E1)
    as (Hf1 & Hr1).
  destruct (py_same_frame_fields _ _ Hf1)
    as (Hi1 & _ & _ & _ & Hm1 & Ht1 & _ & _ & _ & _ & Hrs1 & Hdb1 & Hg1).
  destruct (py_catalogue_computed_refs s) as [Hlag Hratio]; [done |].
  unfold Py.update_metrics_replication_lag, Py.update_pg_cache_hit_ratio.
  destruct (builtin_int _) as [lag |]; [| discriminate].
  destruct (py_catalogue_computed_refs s1) as [-> _]; [congruence |].
  set (s2 := Py.add_metric s1 lag_ref _).
  destruct (py_add_metric_post s1 lag_ref (PyInt lag)) as [Hf2 Hr2].
  fold s2 in Hf2, Hr2.
  destruct (py_same_frame_fields _ _ Hf2)
    as (Hi2 & _ & _ & _ & Hm2 & Ht2 & _ & _ & _ & _ & _ & Hdb2 & Hg2).
  destruct (Py.hit_ratio _ _) as [ratio |]; [| discriminate].
  destruct (builtin_int ratio) as [value |]; [| discriminate].
  destruct (py_catalogue_computed_refs s2) as [_ ->]; [congruence |].
  set (s3 := Py.add_metric s2 ratio_ref _).
  destruct (py_add_metric_post s2 ratio_ref (PyInt value)) as [Hf3 Hr3].
  fold s3 in Hf3, Hr3.
  destruct (py_same_frame_fields _ _ Hf3)
    as (Hi3 & _ & _ & _ & Hm3 & Ht3 & _ & _ & _ & _ & _ & _ & Hg3).
  assert (Ht3' : Py._source_to_metrics_processing s3
                 = Py._source_to_metrics_processing s)
    by congruence.
  destruct (py_update_metrics_last_value_post s3) as [Hf4 Hr4]; [by rewrite Ht3' |].
  intros [= <-].
  split. { repeat (eapply py_same_frame_trans; [eassumption |]). apply py_same_frame_refl. }
  destruct catalogue_computed_not_in_table as [Hlagn Hration].
  rewrite <- Ht in Hlagn, Hration.
  destruct Hr1 as [L1 Hr1], Hr2 as [L2 Hr2], Hr3 as [L3 Hr3], Hr4 as [L4 Hr4].
  split; [congruence |].
  intros i md Hmd.
  destruct (Hr1 i md Hmd) as (md1 & Hmd1 & Hps1 & Hps2).
  destruct (Hr2 i md1 Hmd1) as (md2 & Hmd2 & Hl1 & Hl2).
  destruct (Hr3 i md2 Hmd2) as (md3 & Hmd3 & Hc1 & Hc2).
  destruct (Hr4 i md3 Hmd3) as (md4 & Hmd4 & Hv & Hsh & Hpsc & Hlvm & Hlv).
  exists md4. split; [done |].
  rewrite Hi1 in Hl2. rewrite Hi2, Hi1 in Hc2. rewrite Ht3' in Hlv, Hlvm.
  destruct (decide (i ∈ table_refs (Py._source_to_metrics_processing s)))
    as [Hin | Hnin].
  - (* a series of the processing table *)
    assert (i <> lag_ref) as Hnl by (intros ->; contradiction).
    assert (i <> ratio_ref) as Hnr by (intros ->; contradiction).
    rewrite (Hc1 Hnr), (Hl1 Hnl) in *.
    pose proof Hin as Hin'.
    apply table_refs_elem in Hin' as (src & ts & name & conn & Hsrc & Hts).
    assert (Hne : src <> NONE) by (rewrite Ht in Hsrc; by eapply catalogue_no_NONE).
    destruct (Hps2 src ts name conn Hsrc Hts) as [_ Hobs].
    destruct (Hobs Hne) as (O1 & O2 & O3 & O4 & O5).
    unfold py_cycle_rel. split; [congruence |]. split; [congruence |].
    split.
    { intros _ Hnum.
      destruct (py_source_data_Some s src Hne) as [d Hd].
      destruct (Hlv src ts name conn Hsrc Hts) as [_ Hlast].
      rewrite (Hlast d) by (by rewrite Hg3, Hg2, Hg1).
      apply no_none_dict_get. by eapply Hnum. }
    split.
    + intros Hinit Hnil. rewrite Hv.
      destruct (bool_decide (Py.connection_source s ∈ conn)) eqn:Happ.
      * assert (Py.last_value md = PyNone \/ Py.last_value md <> PyNone)
          as [Hlast | Hlast]
          by (destruct (Py.last_value md); [by left | by right | by right]).
        -- rewrite O4; done.
        -- destruct O5 as (_ & O5 & _); [done | done |]. by apply O5.
      * rewrite O3; done.
    + intros Hinit Hsave Hobserved. rewrite Hv. split.
      * intros [Hf | [Hf | (src' & ts' & name' & conn' & Hsrc' & Hts' & Hcs)]].
        -- exfalso. apply Hnl. congruence.
        -- exfalso. apply Hnr. congruence.
        -- assert (Hne' : src' <> NONE)
             by (rewrite Ht in Hsrc'; by eapply catalogue_no_NONE).
           destruct (Hps2 src' ts' name' conn' Hsrc' Hts') as [_ Hobs'].
           destruct (Hobs' Hne') as (_ & _ & _ & _ & O5').
           rewrite bool_decide_true in O5' by done.
           destruct O5' as (_ & _ & O5'); [done | by apply Hobserved |].
           by rewrite O5', Hinit, Hsave.
      * intros Hnf. rewrite O3; [done |].
        apply bool_decide_eq_false. intros Hcs. apply Hnf.
        right. right. exists src, ts, name, conn. repeat split; assumption.
  - (* a computed series, or one the table does not know *)
    rewrite (Hps1 Hnin) in *.
    unfold py_cycle_rel.
    assert (Hstatic : Py.save_history md3 = Py.save_history md /\
                      Py.per_second_calculation md3 = Py.per_second_calculation md /\
                      (Py.initialized s = false -> md3 = md) /\
                      (Py.initialized s = true -> Py.save_history md = true ->
                       (py_feeds s i ->
                        length (Py.values md3) = S (length (Py.values md))) /\
                       (~ py_feeds s i -> md3 = md))).
    { destruct (decide (i = lag_ref)) as [-> | Hnl].
      - assert (lag_ref <> ratio_ref) as Hnr by discriminate.
        rewrite (Hc1 Hnr), (Hl2 eq_refl).
        destruct (Py.initialized s) eqn:Hinit.
        + destruct (py_md_add_static md (PyInt lag)) as (E1' & E2' & _).
          split; [exact E1' |]. split; [exact E2' |]. split; [discriminate |].
          intros _ Hsave. split.
          * intros _. rewrite py_md_add_length. by rewrite Hsave.
          * intros Hnf. exfalso. apply Hnf. left. exact Hlag.
        + split; [reflexivity |]. split; [reflexivity |]. split; [reflexivity |].
          discriminate.
      - rewrite (Hl1 Hnl) in *.
        destruct (decide (i = ratio_ref)) as [-> | Hnr].
        + rewrite (Hc2 eq_refl).
          destruct (Py.initialized s) eqn:Hinit.
          * destruct (py_md_add_static md (PyInt value)) as (E1' & E2' & _).
            split; [exact E1' |]. split; [exact E2' |]. split; [discriminate |].
            intros _ Hsave. split.
            -- intros _. rewrite py_md_add_length. by rewrite Hsave.
            -- intros Hnf. exfalso. apply Hnf. right. left. exact Hratio.
          * split; [reflexivity |]. split; [reflexivity |]. split; [reflexivity |].
            discriminate.
        + rewrite (Hc1 Hnr).
          split; [reflexivity |]. split; [reflexivity |]. split; [reflexivity |].
          intros _ _. split; [| reflexivity].
          intros [Hf | [Hf | (src' & ts' & name' & conn' & Hsrc' & Hts' & Hcs)]].
          * exfalso. apply Hnl. congruence.
          * exfalso. apply Hnr. congruence.
          * exfalso. apply Hnin. apply table_refs_elem.
            exists src', ts', name', conn'. split; assumption. }
    destruct Hstatic as (S1 & S2 & S3 & S4).
    split; [congruence |]. split; [congruence |].
    split; [intros Hin; contradiction |].
    split.
    + intros Hinit Hnil. rewrite Hv, (S3 Hinit). exact Hnil.
    + intros Hinit Hsave _. destruct (S4 Hinit Hsave) as [S5 S6].
      rewrite Hv. split; [exact S5 |]. intros Hnf. rewrite (S6 Hnf). reflexivity.
Qed.

End Cycle.

(** ** Eviction on Python values *)

(** [s'] differs from [s] in the heap and the clock only. *)
Definition py_same_but_clock (s s' : Py.MetricManager) : Prop :=
  s' = Py.set_datetimes (Py.set_heap s (Py.heap s')) (Py.datetimes s').

Lemma py_same_but_clock_fields (s s' : Py.MetricManager) :
  py_same_but_clock s s' ->
  Py.initialized s' = Py.initialized s /\
  Py.connection_source s' = Py.connection_source s /\
  Py.metrics s' = Py.metrics s /\
  Py._source_to_metrics_processing s' = Py._source_to_metrics_processing s /\
  Py._all_metrics_data_history s' = Py._all_metrics_data_history s /\
  Py.replay_file s' = Py.replay_file s /\
  Py.daemon_mode s' = Py.daemon_mode s /\
  (forall src, Py.get_metric_source_data s' src = Py.get_metric_source_data s src).
Proof.
  unfold py_same_but_clock. intros H. rewrite H.
  repeat split; try (intros src; by destruct src).
Qed.

(** What a sweep that removes [k] timestamps does to each object. *)
Definition py_evicted (s : Py.MetricManager) (k : nat) (i : ref)
    (md md' : Py.MetricData) : Prop :=
  (i ∈ Py._all_metrics_data_history s ->
   md' = Py.with_values md (drop k (Py.values md))) /\
  (i ∉ Py._all_metrics_data_history s -> md' = md).

Section PyEviction.

Variable strptime : string -> option Z.

Lemma py_cleanup_loop_post (time_threshold : Z) (dts : list string) :
  forall s, NoDup (Py._all_metrics_data_history s) ->
    exists k,
      (k <= length dts)%nat /\
      Py.datetimes (Py.cleanup_loop strptime time_threshold dts s) = drop k dts /\
      py_same_but_clock s (Py.cleanup_loop strptime time_threshold dts s) /\
      py_heap_rel (py_evicted s k) (Py.heap s)
        (Py.heap (Py.cleanup_loop strptime time_threshold dts s)).
Proof.
  induction dts as [| d rest IH]; intros s Hnd.
  - exists 0%nat. simpl. repeat split; try done.
    intros i md Hmd. exists md. split; [done |].
    split; [| done]. intros _. by rewrite drop_0, py_with_values_same.
  - assert (Hpop :
      exists k, (k <= length (d :: rest))%nat /\
        Py.datetimes (Py.cleanup_loop strptime time_threshold rest
                        (Py.popleft_history (Py.set_datetimes s rest)))
        = drop k (d :: rest) /\
        py_same_but_clock s (Py.cleanup_loop strptime time_threshold rest
                               (Py.popleft_history (Py.set_datetimes s rest))) /\
        py_heap_rel (py_evicted s k) (Py.heap s)
          (Py.heap (Py.cleanup_loop strptime time_threshold rest
                      (Py.popleft_history (Py.set_datetimes s rest))))).
    { destruct (py_popleft_history_post (Py.set_datetimes s rest)) as [Hf Hr]; [done |].
      set (s1 := Py.popleft_history (Py.set_datetimes s rest)) in *.
      destruct (py_same_frame_fields _ _ Hf) as (_ & _ & _ & _ & _ & _ & Hh1 & _).
      simpl in Hh1.
      destruct (IH s1) as (k & Hk & Hd & Hf' & Hr'); [by rewrite Hh1 |].
      exists (S k). split; [simpl; lia |]. split; [done |].
      split.
      { unfold py_same_but_clock in *. unfold py_same_frame in Hf.
        rewrite Hf'. rewrite Hf at 1. reflexivity. }
      eapply py_heap_rel_trans; [| exact Hr | exact Hr'].
      simpl. unfold py_evicted. rewrite Hh1.
      intros i x y z [P1 P2] [Q1 Q2]. split.
      - intros Hi. rewrite (Q1 Hi), (P2 Hi). simpl. by rewrite drop_S_tail.
      - intros Hi. by rewrite (Q2 Hi), (P1 Hi). }
    simpl. destruct (strptime d) as [first_dt |]; [| exact Hpop].
    destruct (first_dt <? time_threshold)%Z; [exact Hpop |].
    exists 0%nat. simpl. split; [lia |]. repeat split; try done.
    intros i md Hmd. exists md. split; [done |].
    split; [| done]. intros _. by rewrite drop_0, py_with_values_same.
Qed.

Lemma py_daemon_cleanup_data_post (now : Z) (s : Py.MetricManager) :
  NoDup (Py._all_metrics_data_history s) ->
  exists k,
    (k <= length (Py.datetimes s))%nat /\
    Py.datetimes (Py.daemon_cleanup_data strptime now s) = drop k (Py.datetimes s) /\
    py_same_but_clock s (Py.daemon_cleanup_data strptime now s) /\
    py_heap_rel (py_evicted s k) (Py.heap s)
      (Py.heap (Py.daemon_cleanup_data strptime now s)).
Proof.
  intros Hnd. unfold Py.daemon_cleanup_data.
  destruct (negb (Py.daemon_mode s) || bool_decide (Py.datetimes s = [])).
  - exists 0%nat. split; [lia |]. split; [done |].
    split; [unfold py_same_but_clock; by destruct s |].
    apply py_heap_rel_refl. intros i md _. split; [| done].
    intros _. by rewrite drop_0, py_with_values_same.
  - by apply py_cleanup_loop_post.
Qed.

End PyEviction.

(** ** The live-session invariant on Python values *)

(** Every series of the processing table holds a reading as
    [last_value]. *)
Definition py_all_observed (s : Py.MetricManager) : Prop :=
  forall r md,
    r ∈ table_refs (Py._source_to_metrics_processing s) ->
    Py.heap s !! r = Some md -> Py.last_value md <> PyNone.

(** Nothing is stored. *)
Definition py_blank (s : Py.MetricManager) : Prop :=
  Py.datetimes s = [] /\ Forall (fun md => Py.values md = []) (Py.heap s).

(** Every history-bearing series that the session feeds is as long as the
    clock; the other history-bearing series are empty. *)
Definition py_lockstep (s : Py.MetricManager) : Prop :=
  forall r md,
    r ∈ Py._all_metrics_data_history s ->
    Py.heap s !! r = Some md ->
    (py_feeds s r -> length (Py.values md) = length (Py.datetimes s)) /\
    (~ py_feeds s r -> Py.values md = []).

Definition py_live_invariant (s : Py.MetricManager) : Prop :=
  py_well_formed s /\
  Py.replaying s = false /\
  numeric_dicts s /\
  (Py.initialized s = false -> py_blank s) /\
  (Py.initialized s = true -> py_all_observed s) /\
  py_lockstep s.

(** The dictionaries passed to [refresh_data] that the processing table
    reads hold no [None]. *)
Definition numeric_readings (a : Py.RefreshArgs) : Prop :=
  (forall d, Py.arg_system_utilization a = Some d -> no_none d) /\
  (forall d, Py.arg_disk_io_metrics a = Some d -> no_none d) /\
  (forall d, Py.arg_database_stats a = Some d -> no_none d) /\
  (forall d, Py.arg_bgwriter_stats a = Some d -> no_none d) /\
  (forall d, Py.arg_connection_stats a = Some d -> no_none d) /\
  (forall d, Py.arg_pgbouncer_pools a = Some d -> no_none d) /\
  (forall d, Py.arg_pgbouncer_stats a = Some d -> no_none d).

Definition py_static_rel (_ : ref) (md md' : Py.MetricData) : Prop :=
  Py.save_history md' = Py.save_history md /\
  Py.per_second_calculation md' = Py.per_second_calculation md.

Lemma py_well_formed_step (s s' : Py.MetricManager) :
  py_well_formed s ->
  Py.metrics s' = Py.metrics s ->
  Py._source_to_metrics_processing s' = Py._source_to_metrics_processing s ->
  Py._all_metrics_data_history s' = Py._all_metrics_data_history s ->
  py_heap_rel py_static_rel (Py.heap s) (Py.heap s') ->
  py_well_formed s'.
Proof.
  intros (Hm & Ht & Hh & Hwf) Em Et Eh Hr.
  split; [congruence |]. split; [congruence |]. split; [congruence |].
  eapply py_heap_rel_trans; [| exact Hwf | exact Hr].
  unfold py_static_rel. simpl. intros i a b c [A1 A2] [B1 B2]. split; congruence.
Qed.

Lemma py_feeds_ext (s s' : Py.MetricManager) (r : ref) :
  Py.metrics s' = Py.metrics s ->
  Py._source_to_metrics_processing s' = Py._source_to_metrics_processing s ->
  Py.connection_source s' = Py.connection_source s ->
  py_feeds s' r <-> py_feeds s r.
Proof. unfold py_feeds, Py.metric_ref. by intros -> -> ->. Qed.

Lemma py_cycle_rel_static (s : Py.MetricManager) (h h' : list Py.MetricData) :
  py_heap_rel (py_cycle_rel s) h h' -> py_heap_rel py_static_rel h h'.
Proof.
  apply py_heap_rel_weaken. intros i md md' _ (A & B & _). by split.
Qed.

Lemma py_evicted_static (s : Py.MetricManager) (k : nat) (h h' : list Py.MetricData) :
  py_heap_rel (py_evicted s k) h h' -> py_heap_rel py_static_rel h h'.
Proof.
  apply py_heap_rel_weaken. intros i md md' _ [A B].
  destruct (decide (i ∈ Py._all_metrics_data_history s)) as [Hi | Hi].
  - rewrite (A Hi). by split.
  - rewrite (B Hi). by split.
Qed.

Lemma numeric_dicts_ext (s s' : Py.MetricManager) :
  (forall src, Py.get_metric_source_data s' src = Py.get_metric_source_data s src) ->
  numeric_dicts s -> numeric_dicts s'.
Proof. intros E H src d Hd. rewrite E in Hd. by apply (H src). Qed.

Lemma no_none_default (o : option (gmap string pyval)) :
  (forall d, o = Some d -> no_none d) -> no_none (default ∅ o).
Proof. destruct o; simpl; [eauto | intros _; apply no_none_empty]. Qed.

Lemma py_store_arguments_fields (s : Py.MetricManager) (a : Py.RefreshArgs) :
  Py.heap (Py.store_arguments s a) = Py.heap s /\
  Py.metrics (Py.store_arguments s a) = Py.metrics s /\
  Py._source_to_metrics_processing (Py.store_arguments s a)
  = Py._source_to_metrics_processing s /\
  Py._all_metrics_data_history (Py.store_arguments s a)
  = Py._all_metrics_data_history s /\
  Py.initialized (Py.store_arguments s a) = Py.initialized s /\
  Py.datetimes (Py.store_arguments s a) = Py.datetimes s /\
  Py.connection_source (Py.store_arguments s a) = Py.connection_source s /\
  Py.replaying (Py.store_arguments s a) = Py.replaying s /\
  Py.daemon_mode (Py.store_arguments s a) = Py.daemon_mode s /\
  Py.worker_start_time (Py.store_arguments s a) = Some (Py.arg_worker_start_time a).
Proof. by repeat split. Qed.

Lemma py_store_arguments_numeric (s : Py.MetricManager) (a : Py.RefreshArgs) :
  numeric_dicts s -> numeric_readings a -> numeric_dicts (Py.store_arguments s a).
Proof.
  intros Hs (A1 & A2 & A3 & A4 & A5 & A6 & A7) src d.
  destruct src; simpl; intros [= <-];
    (apply no_none_dict_update; [| by apply no_none_default]).
  - by apply (Hs SYSTEM_UTILIZATION).
  - by apply (Hs DISK_IO_METRICS).
  - by apply (Hs DATABASE_STATS).
  - by apply (Hs BGWRITER_STATS).
  - by apply (Hs CONNECTION_STATS).
  - by apply (Hs PGBOUNCER_POOLS).
  - by apply (Hs PGBOUNCER_STATS).
Qed.

Section PyLiveSession.

Variable float_sum : list pyval -> option pyval.
Variable strftime : Z -> string.
Variable strptime : string -> option Z.

(** The first cycle after a reset, when it returns, has stored nothing,
    whatever the mode. *)
Lemma py_refresh_data_first (now : Z) (s s' : Py.MetricManager) (a : Py.RefreshArgs) :
  py_well_formed s -> Py.initialized s = false -> py_blank s ->
  numeric_dicts s -> numeric_readings a ->
  Py.refresh_data float_sum strftime strptime now s a = Some s' ->
  py_well_formed s' /\ py_blank s' /\ Py.initialized s' = true /\
  Py.connection_source s' = Py.connection_source s /\
  Py.replaying s' = Py.replaying s /\
  numeric_dicts s' /\
  (Py.replaying s = false -> py_all_observed s').
Proof.
  intros Hwf Hinit [Hdt Hvals] Hnum Hargs. unfold Py.refresh_data.
  destruct (py_store_arguments_fields s a)
    as (Eh & Em & Et & Ehi & Ei & Ed & Ec & Er & Edm & Ew).
  pose proof (py_store_arguments_numeric s a Hnum Hargs) as Hnum0.
  set (s0 := Py.store_arguments s a) in *.
  assert (Hwf0 : py_well_formed s0).
  { eapply py_well_formed_step; eauto. rewrite Eh. by apply py_heap_rel_refl. }
  assert (Hquiet : forall s1, Py.initialized s1 = false -> Py.datetimes s1 = [] ->
            Py.daemon_cleanup_data strptime now (Py.add_metric_datetime strftime s1)
            = s1).
  { intros s1 Hi1 Hd1. unfold Py.add_metric_datetime. rewrite Hi1. simpl.
    unfold Py.daemon_cleanup_data. rewrite Hd1.
    rewrite bool_decide_true by done. by rewrite orb_true_r. }
  destruct (Py.replaying s0) eqn:Hrep; simpl.
  - rewrite Hquiet by congruence. intros [= <-]. simpl.
    split; [eapply py_well_formed_step; eauto; rewrite Eh; by apply py_heap_rel_refl |].
    split; [split; simpl; congruence |].
    split; [done |]. split; [done |]. split; [done |].
    split; [| congruence].
    eapply numeric_dicts_ext; [| exact Hnum0]. intros src. by destruct src.
  - destruct (Py.update_all float_sum s0) as [s4 |] eqn:E4; [| discriminate].
    destruct (py_update_all_post float_sum s0 s4 Hwf0 E4) as (Hf & Hr).
    destruct (py_same_frame_fields _ _ Hf)
      as (Hi4 & Hc4 & _ & Hd4 & Hm4 & Ht4 & Hh4 & Hr4 & _ & _ & _ & _ & Hg4).
    rewrite Hquiet by congruence. intros [= <-]. simpl.
    split.
    { eapply py_well_formed_step; [exact Hwf0 | done | done | done |].
      by eapply py_cycle_rel_static. }
    split.
    { split; simpl; [congruence |].
      apply Forall_lookup. intros i md' Hmd'.
      destruct (py_heap_rel_inv _ _ _ _ _ Hr Hmd') as (md & Hmd & _ & _ & _ & Hb & _).
      apply Hb; [congruence |]. rewrite Eh in Hmd.
      by eapply (proj1 (Forall_lookup _ _) Hvals). }
    split; [done |]. split; [congruence |].
    split; [unfold Py.replaying in *; simpl; congruence |].
    split.
    { eapply numeric_dicts_ext; [| exact Hnum0]. intros src.
      rewrite <- Hg4. by destruct src. }
    intros _ r md' Hin Hmd'. simpl in *.
    destruct (py_heap_rel_inv _ _ _ _ _ Hr Hmd') as (md & Hmd & _ & _ & Hl & _).
    apply Hl; [| exact Hnum0]. rewrite Ht4 in Hin. exact Hin.
Qed.

(** A later cycle of a live session, when it returns, keeps the
    invariant. *)
Lemma py_refresh_data_later (now : Z) (s s' : Py.MetricManager) (a : Py.RefreshArgs) :
  py_live_invariant s -> Py.initialized s = true -> numeric_readings a ->
  Py.refresh_data float_sum strftime strptime now s a = Some s' ->
  py_live_invariant s' /\ Py.initialized s' = true /\
  Py.connection_source s' = Py.connection_source s.
Proof.
  intros (Hwf & Hlive & Hnum & _ & Hobs & Hlock) Hinit Hargs.
  specialize (Hobs Hinit).
  unfold Py.refresh_data.
  destruct (py_store_arguments_fields s a)
    as (Eh & Em & Et & Ehi & Ei & Ed & Ec & Er & Edm & Ew).
  pose proof (py_store_arguments_numeric s a Hnum Hargs) as Hnum0.
  set (s0 := Py.store_arguments s a) in *.
  assert (Hwf0 : py_well_formed s0).
  { eapply py_well_formed_step; eauto. rewrite Eh. by apply py_heap_rel_refl. }
  rewrite Er, Hlive. simpl.
  destruct (Py.update_all float_sum s0) as [s4 |] eqn:E4; [| discriminate].
  destruct (py_update_all_post float_sum s0 s4 Hwf0 E4) as (Hf & Hr).
  destruct (py_same_frame_fields _ _ Hf)
    as (Hi4 & Hc4 & _ & Hd4 & Hm4 & Ht4 & Hh4 & Hr4 & Hdm4 & Hw4 & _ & _ & Hg4).
  unfold Py.add_metric_datetime.
  rewrite Hi4, Ei, Hinit, Hr4, Er, Hlive, Hw4, Ew. simpl.
  set (s5 := Py.set_datetimes s4 _).
  assert (Hnd5 : NoDup (Py._all_metrics_data_history s5)).
  { simpl. rewrite Hh4, Ehi. destruct Hwf as (_ & _ & -> & _).
    apply catalogue_history_NoDup. }
  destruct (py_daemon_cleanup_data_post strptime now s5 Hnd5)
    as (k & Hk & Hdk & Hf6 & Hr6).
  set (s6 := Py.daemon_cleanup_data strptime now s5) in *.
  destruct (py_same_but_clock_fields _ _ Hf6)
    as (Hi6 & Hc6 & Hm6 & Ht6 & Hh6 & Hrf6 & _ & Hg6).
  simpl in Hi6, Hc6, Hm6, Ht6, Hh6, Hrf6, Hr6, Hdk, Hk.
  intros [= <-].
  clearbody s6.
  assert (Hwf6 : py_well_formed s6).
  { eapply py_well_formed_step; [exact Hwf0 | congruence | congruence | congruence |].
    eapply py_heap_rel_trans; [| eapply py_cycle_rel_static; exact Hr
                               | eapply py_evicted_static; exact Hr6].
    unfold py_static_rel. simpl. intros i x y z [A1 A2] [B1 B2]. split; congruence. }
  split; [| split; [reflexivity | simpl; congruence]].
  split; [exact Hwf6 |].
  split.
  { transitivity (Py.replaying s4); [| congruence].
    unfold Py.replaying. simpl. rewrite Hrf6. reflexivity. }
  split.
  { eapply numeric_dicts_ext; [| exact Hnum0]. intros src.
    rewrite <- Hg4.
    transitivity (Py.get_metric_source_data s6 src); [by destruct src |].
    rewrite Hg6. by destruct src. }
  split; [discriminate |].
  split.
  { intros _ r md6 Hin Hmd6.
    change (r ∈ table_refs (Py._source_to_metrics_processing s6)) in Hin.
    change (Py.heap s6 !! r = Some md6) in Hmd6.
    destruct (py_heap_rel_inv _ _ _ _ _ Hr6 Hmd6) as (md4 & Hmd4 & Hev).
    destruct (py_heap_rel_inv _ _ _ _ _ Hr Hmd4) as (md & Hmd & _ & _ & Hl & _).
    assert (Py.last_value md4 <> PyNone) as Hl4.
    { apply Hl; [| exact Hnum0]. rewrite Ht6, Ht4 in Hin. exact Hin. }
    destruct Hev as [A B].
    destruct (decide (r ∈ Py._all_metrics_data_history s5)) as [Hi | Hi].
    - rewrite (A Hi). exact Hl4.
    - rewrite (B Hi). exact Hl4. }
  intros r md6 Hin Hmd6.
  change (r ∈ Py._all_metrics_data_history s6) in Hin.
  change (Py.heap s6 !! r = Some md6) in Hmd6.
  change (Py.datetimes (Py.set_initialized s6 true)) with (Py.datetimes s6).
  destruct (py_heap_rel_inv _ _ _ _ _ Hr6 Hmd6) as (md4 & Hmd4 & Hev).
  destruct (py_heap_rel_inv _ _ _ _ _ Hr Hmd4) as (md & Hmd & Hc).
  rewrite Hh6 in Hin. destruct Hev as [Hev _].
  rewrite (Hev Hin). cbn [Py.values Py.with_values].
  rewrite Hdk, !length_drop, length_app. cbn [length].
  rewrite Hh4, Ehi in Hin. rewrite Eh in Hmd.
  destruct (Hlock r md Hin Hmd) as [Lf Ln].
  destruct Hc as (_ & _ & _ & _ & Hc).
  destruct Hwf as (Wm & Wt & Wh & [_ Wr]).
  assert (Hsave : Py.save_history md = true).
  { rewrite Wh in Hin.
    destruct (py_catalogue_history_spec r Hin) as [(md0 & Hmd0 & Hs0) _].
    destruct (Wr r md0 Hmd0) as (md' & Hmd' & E & _).
    assert (md' = md) by congruence. subst md'. congruence. }
  destruct Hc as [Cf Cn]; [congruence | exact Hsave | |].
  { intros Hr0. apply (Hobs r md); [rewrite <- Et; exact Hr0 | exact Hmd]. }
  assert (Hf0s : py_feeds s0 r <-> py_feeds s r) by (by apply py_feeds_ext).
  assert (Hf6s : py_feeds (Py.set_initialized s6 true) r <-> py_feeds s r).
  { apply py_feeds_ext; simpl; congruence. }
  split.
  - intros Hfeed.
    assert (Hfs : py_feeds s r) by (apply Hf6s; exact Hfeed).
    rewrite (Cf (proj2 Hf0s Hfs)), Hd4, Ed, <- (Lf Hfs). lia.
  - intros Hnf.
    assert (Hnfs : ~ py_feeds s r) by (intros Hx; apply Hnf, Hf6s; exact Hx).
    assert (Hnf0 : ~ py_feeds s0 r) by (intros Hx; apply Hnfs, Hf0s; exact Hx).
    rewrite (Cn Hnf0), (Ln Hnfs). rewrite drop_nil. reflexivity.
Qed.

Lemma py_reset_well_formed (s0 : Py.MetricManager) : py_well_formed (Py.reset s0).
Proof.
  destruct (py_reset_catalogue s0) as (Em & Et & Eh & Ehp & _).
  split; [exact Em |]. split; [exact Et |]. split; [exact Eh |].
  rewrite Ehp. apply py_heap_rel_refl. intros i md _. by split.
Qed.

Lemma py_reset_blank (s0 : Py.MetricManager) : py_blank (Py.reset s0).
Proof.
  destruct (py_reset_catalogue s0) as (_ & _ & _ & Ehp & _ & Ed & _).
  split; [exact Ed |]. rewrite Ehp.
  eapply Forall_impl; [apply py_catalogue_heap_fresh |]. by intros md [? _].
Qed.

Lemma py_blank_lockstep (s : Py.MetricManager) : py_blank s -> py_lockstep s.
Proof.
  intros [Hd Hv] r md _ Hmd.
  assert (Py.values md = []) as E by (by eapply (proj1 (Forall_lookup _ _) Hv)).
  rewrite E, Hd. by split.
Qed.

Lemma py_reset_live_invariant (s0 : Py.MetricManager) :
  Py.replaying s0 = false -> py_live_invariant (Py.reset s0).
Proof.
  intros Hlive.
  destruct (py_reset_catalogue s0)
    as (_ & _ & _ & _ & Ei & _ & _ & _ & Er & _ & Hempty).
  split; [apply py_reset_well_formed |].
  split; [unfold Py.replaying in *; by rewrite Er |].
  split; [intros src d Hd; rewrite (Hempty src d Hd); apply no_none_empty |].
  split; [intros _; apply py_reset_blank |].
  split; [intros H; rewrite Ei in H; discriminate H |].
  apply py_blank_lockstep, py_reset_blank.
Qed.

Lemma py_refresh_data_live_invariant (now : Z) (s s' : Py.MetricManager)
    (a : Py.RefreshArgs) :
  py_live_invariant s -> numeric_readings a ->
  Py.refresh_data float_sum strftime strptime now s a = Some s' ->
  py_live_invariant s' /\ Py.initialized s' = true /\
  Py.connection_source s' = Py.connection_source s.
Proof.
  intros Hinv Hargs E. destruct (Py.initialized s) eqn:Hinit.
  - by eapply py_refresh_data_later.
  - destruct Hinv as (Hwf & Hlive & Hnum & Hblank & _ & _).
    destruct (py_refresh_data_first now s s' a Hwf Hinit (Hblank Hinit) Hnum Hargs E)
      as (Hwf' & Hb' & Hi' & Hc' & Hr' & Hn' & Ho').
    split; [| by split].
    split; [exact Hwf' |]. split; [congruence |]. split; [exact Hn' |].
    split; [intros H; rewrite Hi' in H; discriminate H |].
    split; [intros _; apply Ho'; exact Hlive |].
    by apply py_blank_lockstep.
Qed.

Lemma py_cycles_live_invariant (l : list (Z * Py.RefreshArgs))
    (s s' : Py.MetricManager) :
  py_live_invariant s ->
  Forall (fun c => numeric_readings c.2) l ->
  Py.cycles float_sum strftime strptime s l = Some s' ->
  py_live_invariant s' /\ Py.connection_source s' = Py.connection_source s.
Proof.
  unfold Py.cycles. revert s.
  induction l as [| [now a] l IH]; intros s Hinv Hl Hrun; simpl in Hrun.
  - by injection Hrun as <-.
  - apply Forall_cons in Hl as [Ha Hl].
    destruct (Py.refresh_data float_sum strftime strptime now s a) as [s1 |] eqn:E1;
      [| discriminate].
    destruct (py_refresh_data_live_invariant now s s1 a Hinv Ha E1)
      as (Hinv1 & _ & Hc1).
    destruct (IH s1 Hinv1 Hl Hrun) as (Hinv' & Hc').
    split; [exact Hinv' | congruence].
Qed.

(** An eviction sweep removes the same number of oldest entries from the
    clock and from every history-bearing series, and keeps the lockstep. *)
Lemma py_eviction_lockstep (now : Z) (s : Py.MetricManager) :
  py_well_formed s -> py_lockstep s ->
  py_lockstep (Py.daemon_cleanup_data strptime now s) /\
  exists k,
    Py.datetimes (Py.daemon_cleanup_data strptime now s) = drop k (Py.datetimes s) /\
    forall r md,
      r ∈ Py._all_metrics_data_history s -> Py.heap s !! r = Some md ->
      exists md',
        Py.heap (Py.daemon_cleanup_data strptime now s) !! r = Some md' /\
        Py.values md' = drop k (Py.values md).
Proof.
  intros Hwf Hlock.
  assert (Hnd : NoDup (Py._all_metrics_data_history s)).
  { destruct Hwf as (_ & _ & -> & _). apply catalogue_history_NoDup. }
  destruct (py_daemon_cleanup_data_post strptime now s Hnd) as (k & Hk & Hdk & Hf & Hr).
  set (s' := Py.daemon_cleanup_data strptime now s) in *. clearbody s'.
  destruct (py_same_but_clock_fields _ _ Hf) as (_ & Hc & Hm & Ht & Hh & _).
  split.
  - intros r md' Hin Hmd'.
    destruct (py_heap_rel_inv _ _ _ _ _ Hr Hmd') as (md & Hmd & Hev & _).
    rewrite Hh in Hin. rewrite (Hev Hin). cbn [Py.values Py.with_values].
    destruct (Hlock r md Hin Hmd) as [Lf Ln].
    pose proof (py_feeds_ext s s' r Hm Ht Hc) as Hfe.
    split.
    + intros Hfeed. rewrite Hdk, !length_drop, (Lf (proj1 Hfe Hfeed)). reflexivity.
    + intros Hnf. rewrite Ln; [apply drop_nil |].
      intros Hx. apply Hnf, Hfe. exact Hx.
  - exists k. split; [exact Hdk |].
    intros r md Hin Hmd. destruct Hr as [_ Hr].
    destruct (Hr r md Hmd) as (md' & Hmd' & Hev & _).
    exists md'. split; [exact Hmd' |]. rewrite (Hev Hin). reflexivity.
Qed.

End PyLiveSession.

(** ** Eviction lockstep *)

Lemma no_none_list_to_map (l : list (string * pyval)) :
  Forall (fun p => p.2 <> PyNone) l -> no_none (list_to_map l).
Proof.
  intros H k E. apply elem_of_list_to_map_2 in E.
  rewrite Forall_forall in H. by apply (H _ E).
Qed.

Lemma numeric_readings_py_poll (t : Z) (latency : pyval)
    (database system : list (string * pyval)) :
  Forall (fun p => p.2 <> PyNone) database ->
  Forall (fun p => p.2 <> PyNone) system ->
  numeric_readings (py_poll t latency database system).
Proof.
  intros Hd Hs. unfold numeric_readings, py_poll. simpl.
  repeat split; intros d E; try discriminate E;
    injection E as <-; by apply no_none_list_to_map.
Qed.

Definition lockstep_example : list (Z * Py.RefreshArgs) :=
  [(5, py_poll 5 (PyInt 5) [("xact_commit", PyInt 100)] []);
   (10, py_poll 10 (PyInt 5) [("xact_commit", PyInt 150)] []);
   (1000, py_poll 1000 (PyInt 5) [("xact_commit", PyInt 225)] [])]%Z.

(** C3 (the claim as written fails). After two cycles of a session on a
    PostgreSQL connection the clock holds one timestamp, while the series
    of the PgBouncer metric [cl_active], which keeps history, is empty.
    The series of the read counter, which the session does feed and which
    keeps history, is empty as well after two cycles whose reading of it
    is [None]: each observation stores the reading as the baseline and
    appends nothing. *)
Lemma C3_counterexample :
  (exists s md,
     py_live_session false [py_poll 1 (PyInt 1) [] []; py_poll 2 (PyInt 1) [] []]
     = Some s /\
     Py.metric_ref s "pgbouncer_connections" "cl_active" = Some 25%nat /\
     Py.heap s !! 25%nat = Some md /\
     25%nat ∈ Py._all_metrics_data_history s /\
     Py.save_history md = true /\
     length (Py.datetimes s) = 1%nat /\
     Py.values md = []) /\
  (exists s md,
     py_live_session false
       [py_poll 1 (PyInt 1) [] [("Disk_Read", PyNone)];
        py_poll 2 (PyInt 1) [] [("Disk_Read", PyNone)]]
     = Some s /\
     Py.metric_ref s "system_disk_io" "Disk_Read" = Some 3%nat /\
     Py.heap s !! 3%nat = Some md /\
     3%nat ∈ Py._all_metrics_data_history s /\
     py_feeds s 3%nat /\
     Py.save_history md = true /\
     length (Py.datetimes s) = 1%nat /\
     Py.values md = []).
Proof.
  split.
  - eexists. eexists. split; [vm_compute; reflexivity |].
    split; [vm_compute; reflexivity |].
    split; [vm_compute; reflexivity |].
    split; [apply (bool_decide_unpack _); vm_compute; reflexivity |].
    split; [reflexivity |]. split; reflexivity.
  - eexists. eexists. split; [vm_compute; reflexivity |].
    split; [vm_compute; reflexivity |].
    split; [vm_compute; reflexivity |].
    split; [apply (bool_decide_unpack _); vm_compute; reflexivity |].
    split.
    { right. right.
      exists SYSTEM_UTILIZATION,
        [("CPU_Percent", 0%nat, [postgresql; rds; pgbouncer]);
         ("Memory_Total", 1%nat, [postgresql; rds; pgbouncer]);
         ("Memory_Used", 2%nat, [postgresql; rds; pgbouncer]);
         ("Disk_Read", 3%nat, [postgresql; rds; pgbouncer]);
         ("Disk_Write", 4%nat, [postgresql; rds; pgbouncer]);
         ("Network_Down", 5%nat, [postgresql; rds; pgbouncer]);
         ("Network_Up", 6%nat, [postgresql; rds; pgbouncer])],
        "Disk_Read", [postgresql; rds; pgbouncer].
      split; [| split]; apply (bool_decide_unpack _); vm_compute; reflexivity. }
    split; [reflexivity |]. split; reflexivity.
Qed.

(** C3 (as amended). In a live session started from a reset, whose
    polled dictionaries hold no [None] and whose ingest cycles all
    complete (none raises), after every cycle every history-bearing
    series that the session feeds (the replication lag, the cache hit
    ratio, and every series whose metric lists the connection source of
    the session) has exactly as many values as the clock has timestamps,
    and every other history-bearing series is empty. An eviction sweep
    keeps this: it removes the same number [k] of oldest entries from the
    clock and from every history-bearing series. *)
Theorem C3_lockstep_of_fed_series (float_sum : list pyval -> option pyval)
    (strftime : Z -> string) (strptime : string -> option Z)
    (s0 s : Py.MetricManager) (l : list (Z * Py.RefreshArgs)) (now : Z) :
  Py.replaying s0 = false ->
  Forall (fun c => numeric_readings c.2) l ->
  Py.cycles float_sum strftime strptime (Py.reset s0) l = Some s ->
  py_lockstep s /\
  py_lockstep (Py.daemon_cleanup_data strptime now s) /\
  exists k,
    Py.datetimes (Py.daemon_cleanup_data strptime now s) = drop k (Py.datetimes s) /\
    forall r md,
      r ∈ Py._all_metrics_data_history s -> Py.heap s !! r = Some md ->
      exists md',
        Py.heap (Py.daemon_cleanup_data strptime now s) !! r = Some md' /\
        Py.values md' = drop k (Py.values md).
Proof.
  intros Hlive Hl Hrun.
  destruct (py_cycles_live_invariant float_sum strftime strptime l (Py.reset s0) s
              (py_reset_live_invariant s0 Hlive) Hl Hrun)
    as ((Hwf & _ & _ & _ & _ & Hlock) & _).
  split; [exact Hlock |].
  apply py_eviction_lockstep; assumption.
Qed.

Lemma C3_lockstep_of_fed_series_witness :
  exists s,
    Py.cycles running_sum toy_strftime toy_strptime
      (Py.reset (Py.MetricManager_new None true)) lockstep_example = Some s /\
    length (Py.datetimes s) = 1%nat /\
    Py.datetimes (Py.daemon_cleanup_data toy_strptime 2000 s) = [] /\
    py_lockstep s /\
    py_lockstep (Py.daemon_cleanup_data toy_strptime 2000 s) /\
    exists k,
      Py.datetimes (Py.daemon_cleanup_data toy_strptime 2000 s)
      = drop k (Py.datetimes s) /\
      forall r md,
        r ∈ Py._all_metrics_data_history s -> Py.heap s !! r = Some md ->
        exists md',
          Py.heap (Py.daemon_cleanup_data toy_strptime 2000 s) !! r = Some md' /\
          Py.values md' = drop k (Py.values md).
Proof.
  eexists. split; [vm_compute; reflexivity |].
  split; [reflexivity |]. split; [vm_compute; reflexivity |].
  apply (C3_lockstep_of_fed_series running_sum toy_strftime toy_strptime
           (Py.MetricManager_new None true) _ lockstep_example 2000).
  - vm_compute. reflexivity.
  - repeat constructor; apply numeric_readings_py_poll;
      repeat constructor; discriminate.
  - vm_compute. reflexivity.
Defined.

(** * Playback over the records that the loader stores

    [_load_replay_file] appends to [replay_data] whatever [orjson.loads]
    returns for a line: any JSON value, not only a dictionary with the
    keys that [capture_state] writes. *)

Module Playback.

(** The values that [orjson.loads] returns. An object is a [dict], given
    by its items in order; its keys are distinct. *)
Inductive json :=
  | JNull
  | JBool (b : bool)
  | JInt (n : Z)
  | JFloat (x : float)
  | JString (s : string)
  | JArray (l : list json)
  | JObject (items : list (string * json)).

(** [d[k]] for a [dict] given by its items. *)
Fixpoint dict_lookup (items : list (string * json)) (k : string) : option json :=
  match items with
  | [] => None
  | (k', v) :: rest => if String.eqb k' k then Some v else dict_lookup rest k
  end.

(** [x.get(k, dflt)]: only a [dict] has the method; [None] is the
    [AttributeError] raised on any other value. *)
Definition get (x : json) (k : string) (dflt : json) : option json :=
  match x with
  | JObject items => Some (default dflt (dict_lookup items k))
  | _ => None
  end.

(** [x.items()]: again only a [dict] has the method. *)
Definition items (x : json) : option (list (string * json)) :=
  match x with
  | JObject l => Some l
  | _ => None
  end.

(** [ProcesslistThread]: the display attributes computed by the
    constructor are functions of [thread_data] and are left out. *)
Record ProcesslistThread := mkProcesslistThread {
  thread_data : list (string * json);
}.

(** The dataclass [PostgreSQLReplayData]; its fields hold whatever
    [data.get] returned. *)
Record PostgreSQLReplayData := mkPostgreSQLReplayData {
  timestamp : json;
  system_utilization : json;
  global_variables : json;
  processlist : list (string * ProcesslistThread);
  replication_status : json;
  connection_stats : json;
  database_stats : json;
  metric_manager : json;
}.

(** The part of [ReplayManager] that playback uses. *)
Record ReplayManager := mkReplayManager {
  replay_file : option string;
  current_replay_id : nat;
  replay_data : list json;
  log : list LogEntry;
}.

(** What a call does: it returns a value or raises. *)
Inductive outcome (A : Type) :=
  | Returned (a : A)
  | Raised.
Arguments Returned {A} a.
Arguments Raised {A}.

Section Player.

(** The libraries: [orjson.loads] on one line, and reading plus
    decompressing and decoding a replay file; [None] stands for a raised
    exception. *)
Variable orjson_loads : string -> option json.
Variable read_decompressed : string -> option string.
Variable decode_utf8 : string -> option string.

(** Does the computation of the display attributes in
    [ProcesslistThread.__init__] ([int(thread_data.get("time") or 0)],
    [format_query], [format_time]) raise on this dictionary? *)
Variable formatting_raises : list (string * json) -> bool.

(** The [for line in ...] loop of [_load_replay_file]. *)
Fixpoint load_lines (lines : list string) (acc : list json) : option (list json) :=
  match lines with
  | [] => Some acc
  | line :: rest =>
      if String.eqb line EmptyString then load_lines rest acc
      else match orjson_loads line with
           | Some record => load_lines rest (acc ++ [record])
           | None => None
           end
  end.

(** The [try] block of [_load_replay_file]. *)
Definition load_attempt (self : ReplayManager) : option (list json) :=
  match replay_file self with
  | None => None
  | Some path =>
      match read_decompressed path with
      | None => None
      | Some decompressed_data =>
          match decode_utf8 decompressed_data with
          | None => None
          | Some text => load_lines (split_newline (strip text)) (replay_data self)
          end
      end
  end.

(** [ReplayManager._load_replay_file]. *)
Definition _load_replay_file (self : ReplayManager) : ReplayManager :=
  match load_attempt self with
  | Some records =>
      mkReplayManager (replay_file self) (current_replay_id self) records
        (log self ++ [LogLoaded (length records)])
  | None =>
      mkReplayManager (replay_file self) (current_replay_id self) []
        (log self ++ [LogFailedToLoad])
  end.

(** [ProcesslistThread(thread_data)]: the first statement after the
    assignment is [thread_data.get("pid", "")]. *)
Definition ProcesslistThread_new (thread_data : json) : option ProcesslistThread :=
  match thread_data with
  | JObject l => if formatting_raises l then None else Some (mkProcesslistThread l)
  | _ => None
  end.

(** The [for thread_id, thread_data in ...] loop of
    [get_next_refresh_interval]. *)
Fixpoint build_processlist (entries : list (string * json))
  : option (list (string * ProcesslistThread)) :=
  match entries with
  | [] => Some []
  | (thread_id, thread_data) :: rest =>
      match ProcesslistThread_new thread_data with
      | None => None
      | Some thread =>
          match build_processlist rest with
          | None => None
          | Some processlist => Some ((thread_id, thread) :: processlist)
          end
      end
  end.

(** The statements of [get_next_refresh_interval] that follow
    [self.current_replay_id += 1]; [None] is a raised exception. *)
Definition replay_event (data : json) : option PostgreSQLReplayData :=
  match get data "processlist" (JObject []) with
  | None => None
  | Some pl =>
      match items pl with
      | None => None
      | Some entries =>
          match build_processlist entries with
          | None => None
          | Some processlist =>
              match get data "timestamp" (JString EmptyString),
                    get data "system_utilization" (JObject []),
                    get data "global_variables" (JObject []),
                    get data "replication_status" (JObject []),
                    get data "connection_stats" (JObject []),
                    get data "database_stats" (JObject []),
                    get data "metric_manager" (JObject []) with
              | Some ts, Some su, Some gv, Some rs, Some cs, Some ds, Some mm =>
                  Some (mkPostgreSQLReplayData ts su gv processlist rs cs ds mm)
              | _, _, _, _, _, _, _ => None
              end
          end
      end
  end.

(** [ReplayManager.get_next_refresh_interval]: the manager after the
    call, and what the call did. *)
Definition get_next_refresh_interval (self : ReplayManager)
  : ReplayManager * outcome (option PostgreSQLReplayData) :=
  if (length (replay_data self) <=? current_replay_id self)%nat
  then (self, Returned None)
  else
    match replay_data self !! current_replay_id self with
    | None => (self, Raised)
    | Some data =>
        let self' :=
          mkReplayManager (replay_file self) (S (current_replay_id self))
            (replay_data self) (log self) in
        match replay_event data with
        | Some event => (self', Returned (Some event))
        | None => (self', Raised)
        end
    end.

(** [n] consecutive requests by a caller that goes on after an exception:
    the manager afterwards and what the calls did, in order. *)
Fixpoint requests (n : nat) (rm : ReplayManager)
  : ReplayManager * list (outcome (option PostgreSQLReplayData)) :=
  match n with
  | O => (rm, [])
  | S n' =>
      let '(rm1, r) := get_next_refresh_interval rm in
      let '(rm2, rs) := requests n' rm1 in
      (rm2, r :: rs)
  end.

(** What a request does with the record at the cursor. *)
Definition outcome_of_record (data : json) : outcome (option PostgreSQLReplayData) :=
  match replay_event data with
  | Some event => Returned (Some event)
  | None => Raised
  end.

(** The threads of a [processlist] whose values are all dictionaries. *)
Definition threads_of (entries : list (string * json))
  : list (string * ProcesslistThread) :=
  omap (fun p : string * json =>
          match p.2 with
          | JObject l => Some (p.1, mkProcesslistThread l)
          | _ => None
          end) entries.

(** The entry is a dictionary on which the constructor does not raise. *)
Definition thread_ok (p : string * json) : bool :=
  match p.2 with
  | JObject l => negb (formatting_raises l)
  | _ => false
  end.

End Player.

End Playback.

Lemma build_processlist_ok (formatting_raises : list (string * Playback.json) -> bool)
    (entries : list (string * Playback.json)) :
  forallb (Playback.thread_ok formatting_raises) entries = true ->
  Playback.build_processlist formatting_raises entries
  = Some (Playback.threads_of entries).
Proof.
  induction entries as [| [thread_id thread_data] rest IH]; [done |].
  simpl. intros H. apply andb_true_iff in H as [H1 H2].
  unfold Playback.thread_ok in H1. simpl in H1.
  destruct thread_data; try discriminate H1. simpl.
  destruct (formatting_raises items); [discriminate H1 |].
  rewrite (IH H2). reflexivity.
Qed.

Lemma build_processlist_raises (formatting_raises : list (string * Playback.json) -> bool)
    (entries : list (string * Playback.json)) :
  forallb (Playback.thread_ok formatting_raises) entries = false ->
  Playback.build_processlist formatting_raises entries = None.
Proof.
  induction entries as [| [thread_id thread_data] rest IH]; [done |].
  simpl. intros H. apply andb_false_iff in H as [H1 | H2].
  - unfold Playback.thread_ok in H1. simpl in H1.
    destruct thread_data; try reflexivity. simpl.
    destruct (formatting_raises items); [reflexivity | discriminate H1].
  - rewrite (IH H2). by destruct (Playback.ProcesslistThread_new _ _).
Qed.

Section PlayerFacts.

Variable formatting_raises : list (string * Playback.json) -> bool.

Notation get_next_refresh_interval :=
  (Playback.get_next_refresh_interval formatting_raises).
Notation requests := (Playback.requests formatting_raises).
Notation outcome_of_record := (Playback.outcome_of_record formatting_raises).

Lemma playback_request_spec (rm : Playback.ReplayManager) :
  let rm' := (get_next_refresh_interval rm).1 in
  let res := (get_next_refresh_interval rm).2 in
  Playback.replay_data rm' = Playback.replay_data rm /\
  (forall data,
     Playback.replay_data rm !! Playback.current_replay_id rm = Some data ->
     res = outcome_of_record data /\
     Playback.current_replay_id rm' = S (Playback.current_replay_id rm)) /\
  ((length (Playback.replay_data rm) <= Playback.current_replay_id rm)%nat ->
     res = Playback.Returned None /\ rm' = rm).
Proof.
  unfold Playback.get_next_refresh_interval, Playback.outcome_of_record.
  destruct (Nat.leb_spec (length (Playback.replay_data rm))
              (Playback.current_replay_id rm)) as [Hle | Hlt].
  - simpl. split; [done |]. split; [| done].
    intros data Hd. apply lookup_lt_Some in Hd. lia.
  - apply lookup_lt_is_Some in Hlt as [data Hd]. rewrite Hd.
    destruct (Playback.replay_event formatting_raises data) eqn:He; simpl.
    all: split; [done |]; split;
      [ intros data' [= <-]; by rewrite He
      | intros Hle; apply lookup_lt_Some in Hd; lia ].
Qed.

Lemma playback_requests_from (n : nat) (rm : Playback.ReplayManager) :
  (Playback.current_replay_id rm + n <= length (Playback.replay_data rm))%nat ->
  (requests n rm).2
  = List.map outcome_of_record
      (take n (drop (Playback.current_replay_id rm) (Playback.replay_data rm))) /\
  Playback.current_replay_id (requests n rm).1
  = (Playback.current_replay_id rm + n)%nat /\
  Playback.replay_data (requests n rm).1 = Playback.replay_data rm.
Proof.
  revert rm. induction n as [| n IH]; intros rm Hn.
  - simpl. by rewrite Nat.add_0_r.
  - destruct (playback_request_spec rm) as (Hdata & Hsome & _).
    assert (Playback.current_replay_id rm < length (Playback.replay_data rm))%nat
      as Hlt by lia.
    apply lookup_lt_is_Some in Hlt as [data Hd].
    destruct (Hsome data Hd) as [Hres Hcur].
    simpl. destruct (get_next_refresh_interval rm) as [rm1 r]. simpl in *.
    destruct (IH rm1) as (E1 & E2 & E3); [rewrite Hdata, Hcur; lia |].
    destruct (requests n rm1) as [rm2 rs]. simpl in *.
    rewrite E1, E2, E3, Hres, Hcur, Hdata.
    split; [| split; [lia | done]].
    rewrite (drop_S _ _ _ Hd). simpl. done.
Qed.

Lemma playback_requests_S (n : nat) (rm : Playback.ReplayManager) :
  requests (S n) rm
  = let '(rm1, r) := get_next_refresh_interval rm in
    let '(rm2, rs) := requests n rm1 in (rm2, r :: rs).
Proof. reflexivity. Qed.

Lemma playback_requests_snoc (n : nat) (rm : Playback.ReplayManager) :
  (requests (S n) rm).2
  = (requests n rm).2 ++ [(get_next_refresh_interval (requests n rm).1).2] /\
  (requests (S n) rm).1 = (get_next_refresh_interval (requests n rm).1).1.
Proof.
  revert rm. induction n as [| n IH]; intros rm.
  - simpl. by destruct (get_next_refresh_interval rm).
  - rewrite (playback_requests_S (S n) rm), (playback_requests_S n rm).
    destruct (get_next_refresh_interval rm) as [rm1 r].
    destruct (IH rm1) as [IH1 IH2].
    destruct (requests (S n) rm1) as [rm2 rs]. simpl in IH1, IH2.
    destruct (requests n rm1) as [rm3 rs3]. simpl in *.
    by rewrite IH1, IH2.
Qed.

End PlayerFacts.

(** A loader for the examples: the file is named by its content, and the
    one line that parses is [[1]], the list with the number one. *)
Definition toy_loads (line : string) : option Playback.json :=
  if String.eqb line "[1]" then Some (Playback.JArray [Playback.JInt 1]) else None.

Definition array_log : Playback.ReplayManager :=
  Playback._load_replay_file toy_loads Some Some
    (Playback.mkReplayManager
       (Some (String.append "[1]" (String "010"%char EmptyString))) 0 [] []).

(** C6 (the claim as written fails). A replay file whose one line is
    [[1]] loads without a failure: the log has one record. The first
    request advances the cursor to the end of the log and raises (a list
    has no [get]); it does not return the record at the cursor. The second
    request returns the exhausted sentinel: the record is never
    returned. *)
Lemma C6_counterexample :
  Playback.replay_data array_log = [Playback.JArray [Playback.JInt 1]] /\
  Playback.log array_log = [LogLoaded 1] /\
  Playback.current_replay_id array_log = 0%nat /\
  (Playback.get_next_refresh_interval (fun _ => false) array_log).2
  = Playback.Raised /\
  Playback.current_replay_id
    (Playback.get_next_refresh_interval (fun _ => false) array_log).1 = 1%nat /\
  (Playback.requests (fun _ => false) 2 array_log).2
  = [Playback.Raised; Playback.Returned None].
Proof. repeat split; vm_compute; reflexivity. Qed.

(** C6 (as amended). Whatever the records of the log are, a request keeps
    the log, never decreases the cursor and never moves it past the end
    of the log. A request with the cursor inside the log advances the
    cursor by exactly one; it returns the event built from the record at
    the cursor when that record is a dictionary whose ["processlist"]
    entry (an empty dictionary when absent) is a dictionary of
    dictionaries on which the constructor of [ProcesslistThread] does not
    raise, the fields of the event being what [data.get] returns; it
    raises, with the cursor advanced, when the record is not a dictionary,
    when its ["processlist"] entry is not one, or when the constructor
    raises on one of its values. A request with the cursor at the end
    returns [None] and leaves the manager as it is; so [len(log) + 1]
    requests on a freshly loaded log deal with the records in order,
    each once, and then return [None]. *)
Theorem C6_playback_cursor (formatting_raises : list (string * Playback.json) -> bool)
    (rm : Playback.ReplayManager) :
  let rm' := (Playback.get_next_refresh_interval formatting_raises rm).1 in
  let res := (Playback.get_next_refresh_interval formatting_raises rm).2 in
  Playback.replay_data rm' = Playback.replay_data rm /\
  (Playback.current_replay_id rm <= Playback.current_replay_id rm')%nat /\
  ((Playback.current_replay_id rm <= length (Playback.replay_data rm))%nat ->
   (Playback.current_replay_id rm' <= length (Playback.replay_data rm'))%nat) /\
  (forall data,
     Playback.replay_data rm !! Playback.current_replay_id rm = Some data ->
     Playback.current_replay_id rm' = S (Playback.current_replay_id rm) /\
     res = Playback.outcome_of_record formatting_raises data) /\
  (forall d entries,
     Playback.get (Playback.JObject d) "processlist" (Playback.JObject [])
     = Some (Playback.JObject entries) ->
     forallb (Playback.thread_ok formatting_raises) entries = true ->
     Playback.outcome_of_record formatting_raises (Playback.JObject d)
     = Playback.Returned
         (Some (Playback.mkPostgreSQLReplayData
                  (default (Playback.JString EmptyString)
                     (Playback.dict_lookup d "timestamp"))
                  (default (Playback.JObject [])
                     (Playback.dict_lookup d "system_utilization"))
                  (default (Playback.JObject [])
                     (Playback.dict_lookup d "global_variables"))
                  (Playback.threads_of entries)
                  (default (Playback.JObject [])
                     (Playback.dict_lookup d "replication_status"))
                  (default (Playback.JObject [])
                     (Playback.dict_lookup d "connection_stats"))
                  (default (Playback.JObject [])
                     (Playback.dict_lookup d "database_stats"))
                  (default (Playback.JObject [])
                     (Playback.dict_lookup d "metric_manager"))))) /\
  (forall data,
     (forall d, data <> Playback.JObject d) ->
     Playback.outcome_of_record formatting_raises data = Playback.Raised) /\
  (forall d pl,
     Playback.get (Playback.JObject d) "processlist" (Playback.JObject []) = Some pl ->
     (forall entries, pl <> Playback.JObject entries) ->
     Playback.outcome_of_record formatting_raises (Playback.JObject d)
     = Playback.Raised) /\
  (forall d entries,
     Playback.get (Playback.JObject d) "processlist" (Playback.JObject [])
     = Some (Playback.JObject entries) ->
     forallb (Playback.thread_ok formatting_raises) entries = false ->
     Playback.outcome_of_record formatting_raises (Playback.JObject d)
     = Playback.Raised) /\
  ((length (Playback.replay_data rm) <= Playback.current_replay_id rm)%nat ->
   res = Playback.Returned None /\ rm' = rm) /\
  (Playback.current_replay_id rm = 0%nat ->
   (Playback.requests formatting_raises (S (length (Playback.replay_data rm))) rm).2
   = List.map (Playback.outcome_of_record formatting_raises) (Playback.replay_data rm)
     ++ [Playback.Returned None] /\
   Playback.current_replay_id
     (Playback.requests formatting_raises (S (length (Playback.replay_data rm))) rm).1
   = length (Playback.replay_data rm)).
Proof.
  intros rm' res.
  destruct (playback_request_spec formatting_raises rm) as (Hdata & Hsome & Hnone).
  fold rm' in Hdata, Hsome, Hnone. fold res in Hsome, Hnone.
  assert (Hmono :
    (Playback.current_replay_id rm <= Playback.current_replay_id rm')%nat /\
    ((Playback.current_replay_id rm <= length (Playback.replay_data rm))%nat ->
     (Playback.current_replay_id rm' <= length (Playback.replay_data rm'))%nat)).
  { destruct (Nat.le_gt_cases (length (Playback.replay_data rm))
                (Playback.current_replay_id rm)) as [Hle | Hlt].
    - destruct (Hnone Hle) as [_ ->]. split; [lia | done].
    - pose proof Hlt as Hlt'. apply lookup_lt_is_Some in Hlt' as [data Hd].
      destruct (Hsome data Hd) as [_ ->]. rewrite Hdata. split; lia. }
  split; [exact Hdata |]. split; [apply Hmono |]. split; [apply Hmono |].
  split. { intros data Hd. destruct (Hsome data Hd). by split. }
  split.
  { intros d entries Hpl Hok.
    unfold Playback.outcome_of_record, Playback.replay_event.
    rewrite Hpl. simpl. by rewrite (build_processlist_ok _ _ Hok). }
  split.
  { intros data Hno. unfold Playback.outcome_of_record, Playback.replay_event.
    destruct data; try reflexivity. by destruct (Hno items). }
  split.
  { intros d pl Hpl Hno. unfold Playback.outcome_of_record, Playback.replay_event.
    rewrite Hpl. destruct pl; try reflexivity. by destruct (Hno items). }
  split.
  { intros d entries Hpl Hbad.
    unfold Playback.outcome_of_record, Playback.replay_event.
    rewrite Hpl. simpl. by rewrite (build_processlist_raises _ _ Hbad). }
  split; [exact Hnone |].
  intros Hzero.
  destruct (playback_requests_from formatting_raises
              (length (Playback.replay_data rm)) rm) as (E1 & E2 & E3);
    [rewrite Hzero; lia |].
  destruct (playback_requests_snoc formatting_raises
              (length (Playback.replay_data rm)) rm) as [S1 S2].
  rewrite S1, S2, E1, Hzero, drop_0, firstn_all.
  destruct (playback_request_spec formatting_raises
              (Playback.requests formatting_raises
                 (length (Playback.replay_data rm)) rm).1)
    as (_ & _ & Hend).
  destruct Hend as [-> ->]; [rewrite E2, E3, Hzero; lia |].
  split; [done |]. by rewrite E2, Hzero.
Qed.
